(* ===== verification/_CoqProject ===== *)
-Q . S2P
Prelude.v
PyStr.v
Docx.v
Sanitizer.v
Grouper.v
Csv.v
PyPath.v
Fs.v
Splitter.v
Extract.v
Pipeline.v
App.v
Datetime.v
PySort.v
Exif.v
GpxVideo.v
PyDocx.v
Kmz.v
ExifWrite.v
PhotoLog.v
PhotoCsv.v
GpxCsv.v
AudioExtract.v
Registry.v
DocGen.v
CiteMap.v
FolderPath.v
