(* ===== verification/Prelude.v ===== *)
(** * UsefulPythonScripts: a verification of its scripts

    The repository is a collection of stand-alone Python scripts.  This
    development models all of them but one: src/SplitBoringLog2.1.py, a small Tk
    application that splits a scanned boring-log PDF into one PDF per
    boring (the program the specification describes, modelled in full);
    src/FromDocxTableToExcelFile.py, which copies the tables of a Word
    report into three workbooks; the two photo exporters
    src/GenKMZwithRotationFinal.py and src/GenerateKmz.py, which pack the
    geotagged photos of a folder into a KMZ for Google Earth;
    src/GenerateManualGpxForVideo.py, which turns a few hand-picked key
    points of a video into a GPX track with one point per second;
    src/ReadImageAndModifyExif.py and the first half of
    src/WriteToJpgExifAndGenPhotoLog.py, which write GPS and survey data
    from text files into the EXIF of photos; src/PhotoAlbumGenerator.py
    and the second half of the photo log script, which lay photos out in
    a Word document, two per page; src/ReadLatLongAltAndWriteCSV.py,
    which lists the GPS positions of photos in a CSV file;
    src/GPXtoCSV.py and src/CalculateGpxPathOnMap.py, which write the
    points of GPX tracks to CSV files, the second as offsets on a Web
    Mercator map; and five small utilities: src/ExtractAudioFromVideo.py,
    src/WinRegistryReadandCompare.py, src/document_generator.py,
    src/CiteMap.py and src/CurrentFolderPathFinder.py.  The photo
    scripts share their model of PIL, the file store and the GPS tags
    (Exif.v, Kmz.v), so the positions they compute can be compared.

    ** The program

    Step 1 ([run_1st_step], [generate_csv_and_run]) reads a label on each
    page inside a fixed rectangle, with PyMuPDF's text layer or, when the
    start page has no text there, by OCR for the whole run
    ([determine_type]); it sanitizes each label ([clean_special_text]) and
    writes the ledger [<pdf stem>.csv] with [csv.writer]: a header, then
    one row [page number, label] per page from the start page on
    ([generate_csv]).  A person may edit the ledger.  Step 2
    ([run_2nd_step], [split_pdf_from_csv]) finds the PDF and the output
    folder from the ledger's path, reads the ledger with [csv.reader],
    sanitizes each label again and cuts the pages into runs of equal
    consecutive labels, writing each run to
    [<stem>_output/<pdf stem>_<label>.pdf] with PyPDF2.  The steps share
    nothing but files.

    ** Files, in dependency order

    - Prelude.v (this file): strings as [list ascii], Python exceptions
      and the result type [pyres] with its bind, the hint databases
      [boring] and [boring_rw], tactics and generic list lemmas.
    - PyStr.v, Module [PyStr]: the CPython builtins the tool calls on
      labels and cells: [str.isspace], [strip], [replace], [int()],
      [str()]; [int(str(n)) = n].
    - Sanitizer.v, Module [Sanitizer]: [clean_special_text] (lines
      119-124), idempotent, free of reserved characters, trimmed.
    - Grouper.v, Module [Grouper]: the abstract contract of the grouping,
      [runs], maximal runs of equal consecutive labels, and its laws
      (flattening back, well-grouped, uniqueness).
    - Csv.v, Module [Csv]: the excel dialect of CPython's [_csv.c]: the
      writer's minimal quoting and the reader's state machine
      ([parse_process_char]) with its field limit; the round trip
      [read_rows (write_rows rows) = (rows, None)].
    - PyPath.v, Module [PyPath]: [posixpath.basename], [splitext], [join].
    - Fs.v, Module [Fs]: the file system shared by the two steps (a gmap
      from paths to contents, directories, paths that cannot be written,
      the log of writes), the [PdfBackend] class for the per-page calls of
      PyMuPDF and Tesseract, and the page indexing of PyMuPDF and PyPDF2.
    - Splitter.v, Module [Splitter]: [split_pdf_from_csv] (lines 78-117) as
      a loop over rows with state [loop_state] ([split_row], [split_rows],
      [flush]) and [run_2nd_step] (lines 153-156); the refinement of
      [Grouper.runs] by the loop, the overwrite of a repeated label, and
      the files left by a bad row.
    - Extract.v, Module [Extract]: [extract_text_from_location],
      [ocr_part_of_pdf], [determine_type], [generate_csv] and
      [generate_csv_and_run] (lines 18-76, 126-129) against any
      [PdfBackend]; the ledger they write and the choice of method.
    - Pipeline.v, Module [Pipeline]: step 1 then step 2: the ledger reads
      back, the sections written partition the pages from the start page
      on; the spec's scenarios evaluated on a six-page document.
    - App.v, Module [App]: [load_settings] (lines 158-169), the start-up
      (lines 171-228), which raises [NameError] because [sys] is not
      imported, and the window as a state machine: state [app] (files,
      the split button's state, the entries), [event]s (button clicks
      with their dialogs' results, typing, a person editing the ledger),
      [handle] (Tk's dispatch to [run_1st_step] and [run_2nd_step]) and
      [reachable]; the invariant that the split button is enabled only
      when a ledger exists, and that step 2 never touches its inputs.
    - Docx.v, Module [Docx]: FromDocxTableToExcelFile.py: the body of the
      document as python-docx's XPath results, the four regular
      expressions as deterministic scanners ([re.split] with fuel, the
      legend pattern, the Munsell pattern), [process_table_3], and [main]
      as a state machine over the components; the remarks of a table 3
      are written once per row of the table.
    - Exif.v, Module [Exif]: a photo as PIL reads it: EXIF values, the
      GPS conversion in IEEE doubles ([PrimFloat]), the orientation of
      the pixel grid as an element of the dihedral group, EXIF Orientation
      tags as viewer transforms, and the photo the rotation script writes;
      it looks right exactly when the tag is not mirrored.
    - Kmz.v, Module [Kmz]: both KMZ exporters: a folder as a map of files
      with PIL, shutil, zipfile and os calls; [kmz_main], the body the two
      [main]s share, proved once against the [KmzStep] interface that both
      loop bodies implement; the archive's contents, the loss of a
      pre-existing [files] folder, the frame of the run, and the agreement
      of the two scripts.
    - Datetime.v, Module [Datetime]: the parts of CPython's [datetime]
      and [_strptime] the GPX script calls: the proleptic calendar
      ([_ymd2ord], [_ord2ymd]), [datetime + timedelta] with its
      [OverflowError], [isoformat], and [strptime] for the script's
      format as the regular expression [_strptime] compiles, run by a
      backtracking matcher; [strptime] reads back what [isoformat]
      prints, for every valid date and time.
    - GpxVideo.v, Module [Gpx]: GenerateManualGpxForVideo.py:
      [parse_input_file] over the file system of Fs.v,
      [interpolate_coords] in IEEE doubles, the segment loop of
      [generate_gpx] ([track_segments], a fold whose state is the running
      total and whether [elevation] has been bound), the GPX text and
      [main]; one point per second at the right time for ordered key
      points, the [UnboundLocalError] when the key times never increase,
      a track that goes back in time for unordered key points, and the
      written times reading back.
    - PySort.v, Module [PySort]: Python's [list.sort(key=...)] as a
      stable insertion sort [sort_by] over keys with a strict order (the
      [PyOrd] class; its instance for [datetime]); sorted, a permutation,
      stable, and the only list with these properties, so any stable sort
      (CPython's Timsort included) gives the same list.
    - PyDocx.v, Module [PyDocx]: the python-docx calls of the photo
      scripts: lengths in EMU ([Inches], [Pt]), runs and paragraphs, a
      document's sections, styles and body, and tables as a grid of
      rectangular cells named by their top-left position.  [merge] makes
      python-docx's checks and moves the contents; [table_wf] (every grid
      position covered by exactly one cell) holds of [new_table] and is
      kept by [merge] and every cell update.  Statements on one table run
      in the state and error monad [tbl] of PyDocx.v, whose operations all
      keep [table_wf] (hint database [docx]).
    - ExifWrite.v, Module [ExifWrite]: the first part of
      WriteToJpgExifAndGenPhotoLog.py (lines 38-141) and
      ReadImageAndModifyExif.py: [os.listdir], text files read in
      universal-newline mode, [decimal_to_dms] with Python's [int()] of a
      double, the two [read_and_convert_coordinates], the [exif] package's
      attributes, and the loops writing the tagged photos to [new_photo].
    - PhotoLog.v, Module [PhotoLog]: PhotoAlbumGenerator.py and the
      photo log (lines 147-281): the name filter and pattern, the dates
      through [strptime] (the format [photo_format] of Datetime.v), the
      sort, [page_loop] (two photos per page) shared by both, the album's
      picture and name per photo and the log's 3x3 table per photo
      ([log_merges], then the text file, then [log_cells]).  The album's
      body is proved to be the sorted photos, paged; a name with an
      impossible date stops the script; the log's table is well formed,
      has the template's five cells and is wider than the page; the time
      stamp slices give the EXIF, GPS and log dates.
    - PhotoCsv.v, Module [PhotoCsv]: ReadLatLongAltAndWriteCSV.py: its
      own GPS conversion, which ignores the hemisphere references and
      negates every longitude, the CSV rows, and the module-level
      [NameError]; its positions against the KMZ exporters'.
    - GpxCsv.v, Module [GpxCsv]: GPXtoCSV.py and
      CalculateGpxPathOnMap.py over [gpxpy]'s tracks, segments and points
      (the parser, [pyproj]'s projection and C's [pow] are the classes
      [GpxParser], [Transformer], [PyPow]).  GPXtoCSV's three nested loops
      are one loop over the points ([floop_nested]); its CSV reads back
      through csv.reader as the numbered points, and a point without a
      time leaves the rows before it.  CalculateGpxPathOnMap's [main] is
      [map_frame] (bounding box, map size), the loop over the [.gpx]
      files ([gather_step], [process_gpx_file]) and [csv.DictWriter]:
      every point's dict has exactly the field names, so the rows are its
      values in order; an unreadable GPX file raises [AttributeError]
      from the handler naming [gpxpy.gpx.GPXParseError], which does not
      exist.
    - AudioExtract.v, Module [AudioExtract]: ExtractAudioFromVideo.py
      with CPython's decoding of string-literal escapes ([py_unescape]);
      the [\t] of the script's paths is a TAB, so the video it names is
      never read.
    - Registry.v, Module [Registry]: WinRegistryReadandCompare.py over a
      registry of hives, keys and values; the regedit-style key path is
      never found under [HKEY_LOCAL_MACHINE].
    - DocGen.v, Module [DocGen]: document_generator.py on the documents
      of PyDocx.v, with its [sys.argv] check.
    - CiteMap.v, Module [CiteMap]: CiteMap.py with Pillow as a class: the
      font fallback, the text's position (its margins are 10 pixels less
      the box's offset) and the mis-encoded attribution literal.
    - FolderPath.v, Module [FolderPath]: CurrentFolderPathFinder.py: the
      folder shown by each click of its button.

    ** How the code is modelled

    Functions become Rocq functions of the same name; the state they
    touch (files, the loop's current label and pages) is passed
    explicitly and returned; a Python exception is a [pyres] or an
    [option exc] next to the state it left, so the files written before a
    failure are part of the result; a loop whose earlier iterations stay
    done when a later one raises (rows written to an open CSV file) is
    [floop], which returns the state reached and the exception.  Library calls (csv, os.path, PyMuPDF,
    PyPDF2, builtins) are modelled from the libraries' own semantics.
    Every definition is executable: the examples evaluate by
    [vm_compute].  Fuel appears in two places: [str_N], whose fuel is the
    bit length of the number, one more than the digits it prints; and
    Docx's [re_split_keep_fuel], given the length of the text plus one,
    which is proved enough (more fuel changes nothing); and GpxVideo's
    [split_str_fuel], given the length of the line plus one, which is
    proved enough for a non-empty separator ([split_str_more_fuel]).  Dates need no fuel: [_ord2ymd] is
    arithmetic, and the matcher recurses on the pattern.  The width of
    the zero-padded fields of a time stamp is proved by checking every
    value of the field's range ([forallb] over [zrange], evaluated by
    [vm_compute]): months, days, hours, minutes and seconds are below 100
    and years below 10000, so these finite checks cover all valid dates.  Floats are
    Rocq's primitive IEEE doubles, with CPython's operations; the
    integers PIL hands over are 32-bit, where [int] to [float] is exact.

    ** What is not modelled

    The Tk widgets' layout and the file dialogs (pure I/O: the dialogs'
    results are parameters of the events), the rendering and
    recognition inside PyMuPDF and Tesseract (abstracted by [PdfBackend]),
    and PDF parsing and writing (a PDF is its list of pages).  For the
    photo scripts: pixel data (a photo is its EXIF dict and the pose of
    its pixel grid), the JPEG, zip and KML encodings, the order of
    [os.listdir] and [os.walk] (a parameter and the map's key order; no
    theorem depends on them), failures of [piexif] on malformed EXIF, and
    how f-strings print floats (the [PyFormat] class, and for the GPX
    script [PyFloatText]: [float()] of a string, [repr] and [.9f]), and
    time zones and microseconds, which the GPX script never uses.  For
    the Word documents: the XML of python-docx, picture heights (a
    picture is its image and width), and style inheritance; for the
    [exif] package, the TIFF bytes [get_file()] writes (the [ExifWriter]
    class gives the photo PIL reads back).  [time.sleep] and
    [os.startfile], which only open a viewer after the photo log is
    saved, are left out, as are the scripts' final prints.  For the GPX
    and media scripts: the GPX XML parser, the Web Mercator formulas and
    the media codecs of [moviepy] are classes, not definitions; the
    scripts' progress prints are left out.  For CiteMap.py, pixels and
    glyphs (Pillow's rendering is a class), and for
    CurrentFolderPathFinder.py the Tk layout.  The one script not
    modelled is src/HeadlessBroswerPrintWebpage.py: an [asyncio]
    coroutine that drives a headless Chrome through [pyppeteer] to print
    a web page to PDF, all of it I/O with nothing the script computes.
    PROJECT.json lists every script with what is and is not modelled of
    it. *)

From stdpp Require Export base list gmap strings.
From Stdlib Require Export Ascii ZArith Lia.
From Stdlib Require String.

(** Python strings are sequences of characters: they are modelled as
    [list ascii], so the list library applies to them directly. *)
Abbreviation pystr := (list ascii).

(** A Python string literal, written as a Rocq string. *)
Definition lit (s : String.string) : pystr := String.list_ascii_of_string s.

(** A literal holding double quotes, written as backquotes. *)
Definition q (s : String.string) : pystr :=
  map (fun c => if decide (c = "`"%char) then ascii_of_nat 34 else c) (lit s).

(** ** Python exceptions and the result of a computation that may raise *)

Inductive exc : Type :=
  | ValueError      (** bad [int()] literal, wrong row arity in an unpacking *)
  | IndexError      (** [pdf_reader.pages[k]] out of range *)
  | StopIteration   (** [next()] on an exhausted iterator *)
  | CsvError        (** [_csv.Error], e.g. a field over the size limit *)
  | FileNotFound    (** opening a path that does not exist *)
  | PermissionError (** opening an output file that is locked or read-only *)
  | PdfError        (** the PDF library cannot open or parse a document *)
  | NameError       (** a name used but never defined or imported *)
  | TypeError       (** an operation on a value of the wrong type, e.g. on [None] *)
  | KeyError        (** a missing key of a dict *)
  | OSError         (** an OS-level failure, e.g. PIL cannot identify an image *)
  | OverflowError   (** a date or a duration out of [datetime]'s range *)
  | InvalidSpanError      (** python-docx: merging cells that do not form a rectangle *)
  | PackageNotFoundError (** python-docx: opening a file that is not a .docx package *)
  | AttributeError  (** an attribute missing, e.g. [None.isoformat] or a name a module lacks *)
  | UnrecognizedImageError (** python-docx: a picture file that is not an image *)
  | SystemExit (code : Z). (** [sys.exit(code)] *)

#[export] Instance exc_eq_dec : EqDecision exc.
Proof. solve_decision. Defined.

Inductive pyres (A : Type) : Type :=
  | POk (a : A)
  | PRaise (e : exc).
Arguments POk {A} a.
Arguments PRaise {A} e.

Definition pbind {A B} (c : pyres A) (k : A -> pyres B) : pyres B :=
  match c with
  | POk a => k a
  | PRaise e => PRaise e
  end.

Definition of_option {A} (e : exc) (o : option A) : pyres A :=
  match o with Some a => POk a | None => PRaise e end.

Declare Scope py_scope.
Delimit Scope py_scope with py.
Notation "x <-? c ; k" := (pbind c (fun x => k))
  (at level 100, c at next level, right associativity) : py_scope.
Open Scope py_scope.

(** [map] of a function that may raise, stopping at the first exception. *)
Fixpoint pmapM {A B} (f : A -> pyres B) (l : list A) : pyres (list B) :=
  match l with
  | [] => POk []
  | x :: xs => y <-? f x; ys <-? pmapM f xs; POk (y :: ys)
  end.

(** A [for] loop over [l] whose body may raise, threading [acc]. *)
Fixpoint pfoldM {A B} (f : A -> B -> pyres A) (acc : A) (l : list B) : pyres A :=
  match l with
  | [] => POk acc
  | x :: xs => acc' <-? f acc x; pfoldM f acc' xs
  end.

(** A [for] loop whose body may raise when what the loop did before the
    exception stays done (rows already written to an open file): the
    state reached, and the exception that ended the loop, if any. *)
Fixpoint floop {A B} (f : A -> B -> A * option exc) (acc : A) (l : list B) : A * option exc :=
  match l with
  | [] => (acc, None)
  | x :: xs =>
      match f acc x with
      | (a, None) => floop f a xs
      | (a, Some e) => (a, Some e)
      end
  end.

(** ** Automation shared by the components *)

Create HintDb boring discriminated.
Create Rewrite HintDb boring_rw.

Lemma pbind_POk {A B} (a : A) (k : A -> pyres B) : pbind (POk a) k = k a.
Proof. reflexivity. Qed.

Lemma pbind_PRaise {A B} (e : exc) (k : A -> pyres B) : pbind (PRaise e) k = PRaise e.
Proof. reflexivity. Qed.

Lemma pbind_POk_inv {A B} (c : pyres A) (k : A -> pyres B) b :
  pbind c k = POk b -> exists a, c = POk a /\ k a = POk b.
Proof. destruct c; simpl; [eauto | discriminate]. Qed.

#[export] Hint Rewrite @pbind_POk @pbind_PRaise : boring_rw.

Ltac invc H := inversion H; subst; clear H.

(** A decidable proposition about concrete data, settled by evaluating
    its decision procedure. *)
Ltac decide_eval := apply (bool_decide_unpack _); vm_compute; reflexivity.

(** Destruct every [pbind] whose scrutinee is a hypothesis-level equation. *)
Ltac pbind_inv :=
  repeat match goal with
  | H : pbind ?c ?k = POk _ |- _ =>
      let a := fresh "a" in let Ha := fresh "Ha" in
      apply pbind_POk_inv in H as [a [Ha H]]
  end.

(** [pmapM] returns when every element's call does. *)
Lemma pmapM_ok {A B} (f : A -> pyres B) (l : list A) :
  (forall x, x ∈ l -> exists y, f x = POk y) ->
  exists ys, pmapM f l = POk ys /\ Forall2 (fun x y => f x = POk y) l ys.
Proof.
  induction l as [|x l IH]; intros Hl; [by exists []|].
  destruct (Hl x ltac:(by left)) as [y Hy].
  destruct IH as (ys & Hys & H2); [intros z Hz; apply Hl; by right|].
  exists (y :: ys). simpl. rewrite Hy. simpl. rewrite Hys. split; [done|by constructor].
Qed.

(** ** Generic list lemmas *)

(** A loop whose body can only raise [e] raises [e] when one element
    makes the body raise whatever the state. *)
Lemma floop_app {A B} (f : A -> B -> A * option exc) (acc : A) (l1 l2 : list B) :
  floop f acc (l1 ++ l2) = match floop f acc l1 with (a, None) => floop f a l2 | r => r end.
Proof.
  revert acc. induction l1 as [|x l1 IH]; intros acc; simpl; [done|].
  destruct (f acc x) as [a [e|]]; auto.
Qed.

(** Nested loops are one loop over the concatenated inner lists. *)
Lemma floop_nested {A B C} (f : A -> C -> A * option exc) (h : B -> list C) (acc : A) (l : list B) :
  floop (fun a b => floop f a (h b)) acc l = floop f acc (flat_map h l).
Proof.
  revert acc. induction l as [|b l IH]; intros acc; simpl; [done|].
  rewrite floop_app. destruct (floop f acc (h b)) as [a [e|]]; auto.
Qed.

Lemma pfoldM_raise {A B} (f : A -> B -> pyres A) (e : exc) (acc : A) (l : list B) (x : B) :
  (forall a y, y ∈ l -> (exists a', f a y = POk a') \/ f a y = PRaise e) ->
  (forall a, f a x = PRaise e) -> x ∈ l -> pfoldM f acc l = PRaise e.
Proof.
  intros Hf Hx Hin. revert acc Hf Hin. induction l as [|y l IH]; intros acc Hf Hin;
    [by apply elem_of_nil in Hin|].
  simpl. apply elem_of_cons in Hin as [->|Hin]; [by rewrite Hx|].
  destruct (Hf acc y) as [[a2 Ha2]|He]; [by left| |by rewrite He].
  rewrite Ha2. apply IH; [|done]. intros a z Hz. apply Hf. by right.
Qed.

(** An invariant of the accumulator holds of what a loop returns. *)
Lemma pfoldM_inv {A B} (P : A -> Prop) (f : A -> B -> pyres A) (acc : A) (l : list B) (r : A) :
  P acc -> (forall a y a', y ∈ l -> P a -> f a y = POk a' -> P a') -> pfoldM f acc l = POk r -> P r.
Proof.
  revert acc. induction l as [|y l IH]; intros acc Hacc Hf; simpl; [by intros [= <-]|].
  destruct (f acc y) as [a'|e] eqn:Hy; simpl; [|done].
  apply IH; [by eapply Hf; [left| |]|]. intros a z a'' Hz. apply Hf. by right.
Qed.

Lemma floop_ext {A B} (f g : A -> B -> A * option exc) (acc : A) (l : list B) :
  (forall a x, f a x = g a x) -> floop f acc l = floop g acc l.
Proof. intros Hfg. revert acc. induction l as [|x l IH]; intros acc; simpl; [done|].
  rewrite Hfg. destruct (g acc x) as [a [e|]]; auto.
Qed.

Lemma forallb_ext_pw {A} (f g : A -> bool) (l : list A) :
  (forall x, f x = g x) -> forallb f l = forallb g l.
Proof. intros H. induction l as [|x l IH]; simpl; [done|]. by rewrite H, IH. Qed.

Lemma Forall_last {A} (P : A -> Prop) (l : list A) (x : A) :
  Forall P (l ++ [x]) <-> Forall P l /\ P x.
Proof. rewrite Forall_app, Forall_singleton. tauto. Qed.

(** Induction on the length of a list, for functions that look ahead. *)
Lemma list_len_ind {A} (P : list A -> Prop) :
  (forall l, (forall l', length l' < length l -> P l') -> P l) -> forall l, P l.
Proof.
  intros H l. induction (Wf_nat.well_founded_ltof _ (@length A) l) as [l _ IH].
  apply H. exact IH.
Qed.

Lemma removelast_cons_cons {A} (x y : A) l :
  removelast (x :: y :: l) = x :: removelast (y :: l).
Proof. reflexivity. Qed.

Lemma last_removelast {A} (R : list A) x : last R = Some x -> R = removelast R ++ [x].
Proof.
  induction R as [|y R IH]; [done|]. destruct R as [|z R]; [by intros [= ->]|].
  rewrite last_cons_cons. intros H. rewrite removelast_cons_cons. cbn [app].
  f_equal. by apply IH.
Qed.

Lemma last_cons_Some {A} (x : A) l : exists y, last (x :: l) = Some y.
Proof.
  revert x. induction l as [|z l IH]; intros x; [by eexists|].
  rewrite last_cons_cons. apply IH.
Qed.

Lemma last_map {A B} (f : A -> B) l : last (map f l) = f <$> last l.
Proof.
  induction l as [|x [|y l] IH]; [done|done|]. cbn [map]. by rewrite !last_cons_cons.
Qed.

Lemma last_elem_of {A} (R : list A) x : last R = Some x -> x ∈ R.
Proof.
  intros H. rewrite (last_removelast R x H). apply elem_of_app. right. by left.
Qed.

#[export] Hint Resolve Forall_nil_2 : boring.
