(* ===== verification/PyStr.v ===== *)
(** * Python string primitives used by the tool

    The builtins the splitting tool calls on labels and CSV cells, modelled
    from CPython's behaviour on ASCII text: [str.isspace], [str.strip],
    [str.replace] with a one-character pattern, [int(s)] on a decimal
    literal and [str(n)] on an integer.  These are library code (CPython),
    not code of the repository; the spec's ledger and sanitizer contracts
    rest on them. *)

From S2P Require Import Prelude.

Module PyStr.

(** ** [str.isspace] on one character

    CPython's [_Py_ascii_whitespace] table: TAB, LF, VT, FF, CR (9-13),
    the four information separators FS, GS, RS, US (28-31) and SPACE. *)
Definition py_isspace (c : ascii) : bool :=
  let n := nat_of_ascii c in
  ((9 <=? n) && (n <=? 13)) || ((28 <=? n) && (n <=? 32)).

(** ** [str.strip()], [str.lstrip()], [str.rstrip()] *)

Fixpoint lstrip (s : pystr) : pystr :=
  match s with
  | [] => []
  | c :: r => if py_isspace c then lstrip r else s
  end.

(** Trailing spaces: a character survives when something non-space
    survives after it, or when it is not a space itself. *)
Fixpoint rstrip (s : pystr) : pystr :=
  match s with
  | [] => []
  | c :: r =>
      match rstrip r with
      | [] => if py_isspace c then [] else [c]
      | r' => c :: r'
      end
  end.

Definition py_strip (s : pystr) : pystr := rstrip (lstrip s).

(** ** [s.replace(old, new)] with one-character [old] and [new] *)
Definition py_replace_char (old new : ascii) (s : pystr) : pystr :=
  map (fun c => if decide (c = old) then new else c) s.

(** ** [int(s)] on a base-10 literal

    [PyLong_FromUnicodeObject] first maps every Unicode space to ' ', then
    [PyLong_FromString] skips leading spaces, reads an optional sign and a
    run of digits in which single underscores may separate two digits, and
    skips trailing spaces; anything else raises [ValueError] ([None]). *)
Definition is_digit (c : ascii) : bool :=
  let n := nat_of_ascii c in (48 <=? n) && (n <=? 57).

Definition digit_val (c : ascii) : Z := Z.of_nat (nat_of_ascii c) - 48.

(** Digits after the first one: [acc] is the value read so far. *)
Fixpoint digits_from (acc : Z) (s : pystr) : option Z :=
  match s with
  | [] => Some acc
  | c :: r =>
      if is_digit c then digits_from (acc * 10 + digit_val c) r
      else if decide (c = "_"%char) then
        match r with
        | d :: r' => if is_digit d then digits_from (acc * 10 + digit_val d) r'
                     else None
        | [] => None
        end
      else None
  end.

Definition parse_digits (s : pystr) : option Z :=
  match s with
  | d :: r => if is_digit d then digits_from (digit_val d) r else None
  | [] => None
  end.

Definition py_int (s : pystr) : option Z :=
  match py_strip s with
  | c :: r =>
      if decide (c = "-"%char) then Z.opp <$> parse_digits r
      else if decide (c = "+"%char) then parse_digits r
      else parse_digits (c :: r)
  | [] => None
  end.

(** ** [str(n)] on an integer *)

Definition digit_char (d : N) : ascii := ascii_of_N (48 + d).

(** Decimal digits of [n] pushed in front of [acc]; [fuel] bounds the
    number of digits and [str_N] gives one per bit of [n], which is enough. *)
Fixpoint dec_digits (fuel : nat) (n : N) (acc : pystr) : pystr :=
  match fuel with
  | O => acc
  | S f =>
      let acc' := digit_char (n mod 10) :: acc in
      if (n <? 10)%N then acc' else dec_digits f (n / 10) acc'
  end.

Definition str_N (n : N) : pystr :=
  dec_digits (match n with N0 => 1 | Npos p => Pos.size_nat p end) n [].

Definition py_str (z : Z) : pystr :=
  if (z <? 0)%Z then "-"%char :: str_N (Z.abs_N z) else str_N (Z.to_N z).


(** ** [s.split(sep)] with a one-character separator

    Every occurrence of [sep] cuts: [''.split(',') = ['']] and
    [',a'.split(',') = ['', 'a']]. *)
Fixpoint py_split (sep : ascii) (s : pystr) : list pystr :=
  match s with
  | [] => [[]]
  | c :: r =>
      let rest := py_split sep r in
      if decide (c = sep) then [] :: rest
      else match rest with
           | p :: ps => (c :: p) :: ps
           | [] => [[c]]
           end
  end.

(** ** [file.readline()] on a file opened in text mode

    Universal newlines: CR LF, a lone CR and LF all end the line and are
    read as LF, which [readline] keeps. *)
Fixpoint readline (s : pystr) : pystr :=
  match s with
  | [] => []
  | c :: r =>
      if decide (c = "010"%char) then ["010"%char]
      else if decide (c = "013"%char) then ["010"%char]
      else c :: readline r
  end.

(** ** [str.lower()], [startswith], [endswith], [in] on ASCII text *)

Definition ascii_lower (c : ascii) : ascii :=
  let n := nat_of_ascii c in
  if (65 <=? n) && (n <=? 90) then ascii_of_nat (n + 32) else c.

Definition py_lower (s : pystr) : pystr := map ascii_lower s.

Fixpoint py_startswith (pre s : pystr) : bool :=
  match pre, s with
  | [], _ => true
  | c :: pre', d :: s' => bool_decide (c = d) && py_startswith pre' s'
  | _ :: _, [] => false
  end.

Definition py_endswith (suf s : pystr) : bool := py_startswith (rev suf) (rev s).

(** [sub in s]: [sub] occurs in [s] at some position. *)
Fixpoint py_contains (sub s : pystr) : bool :=
  py_startswith sub s || match s with [] => false | _ :: r => py_contains sub r end.

(** ** [str.splitlines()] and slices *)

(** The ASCII line boundaries of [str.splitlines]: LF, VT, FF, CR, and
    the separators 0x1c-0x1e; CR LF is one boundary. *)
Definition is_line_boundary (c : ascii) : bool :=
  existsb (Nat.eqb (nat_of_ascii c)) [10; 11; 12; 13; 28; 29; 30].

(** The lines without their ends; no empty line after a final end. *)
Fixpoint splitlines (s : pystr) : list pystr :=
  match s with
  | [] => []
  | c :: r =>
      if decide (c = "013"%char) then
        match r with
        | d :: r' => if decide (d = "010"%char) then [] :: splitlines r' else [] :: splitlines r
        | [] => [[]]
        end
      else if is_line_boundary c then [] :: splitlines r
      else match splitlines r with
           | l :: ls => (c :: l) :: ls
           | [] => [[c]]
           end
  end.

(** [s[a:b]] for [0 <= a], [0 <= b]: clamped to the string. *)
Definition py_slice (s : pystr) (a b : nat) : pystr := take (b - a) (drop a s).

(** ** Lemmas on stripping *)

Lemma rstrip_cons c r :
  rstrip (c :: r) =
  match rstrip r with [] => if py_isspace c then [] else [c] | r' => c :: r' end.
Proof. reflexivity. Qed.

Lemma lstrip_idem s : lstrip (lstrip s) = lstrip s.
Proof.
  induction s as [|c r IH]; simpl; [done|].
  destruct (py_isspace c) eqn:E; [done|]. simpl. by rewrite E.
Qed.

Lemma lstrip_nospace s :
  Forall (fun c => py_isspace c = false) s -> lstrip s = s.
Proof. intros [|c r Hc _]; simpl; [done|]. by rewrite Hc. Qed.

Lemma rstrip_nospace s :
  Forall (fun c => py_isspace c = false) s -> rstrip s = s.
Proof.
  induction 1 as [|c r Hc _ IH]; [done|].
  rewrite rstrip_cons, IH. destruct r; [by rewrite Hc | done].
Qed.

Lemma py_strip_nospace s :
  Forall (fun c => py_isspace c = false) s -> py_strip s = s.
Proof.
  intros H. unfold py_strip. by rewrite (lstrip_nospace s H), rstrip_nospace.
Qed.

(** Stripping keeps a first non-space. *)
Lemma lstrip_head s :
  match lstrip s with [] => True | c :: _ => py_isspace c = false end.
Proof.
  induction s as [|c r IH]; simpl; [done|].
  destruct (py_isspace c) eqn:E; [done|]. done.
Qed.

Lemma lstrip_rstrip s : lstrip (rstrip s) = rstrip (lstrip s).
Proof.
  induction s as [|c r IH]; [done|].
  rewrite rstrip_cons. simpl lstrip at 2.
  destruct (py_isspace c) eqn:E; destruct (rstrip r) as [|d r'] eqn:Er.
  - by rewrite <- IH.
  - rewrite <- IH. simpl. by rewrite E.
  - simpl. rewrite ?rstrip_cons, Er. simpl. by rewrite E.
  - simpl. rewrite ?rstrip_cons, Er. simpl. by rewrite E.
Qed.

Lemma rstrip_idem s : rstrip (rstrip s) = rstrip s.
Proof.
  induction s as [|c r IH]; [done|].
  rewrite rstrip_cons. destruct (rstrip r) as [|d r'] eqn:Er.
  - destruct (py_isspace c) eqn:E; [done|]. simpl. by rewrite E.
  - by rewrite rstrip_cons, IH.
Qed.

Lemma py_strip_idem s : py_strip (py_strip s) = py_strip s.
Proof.
  unfold py_strip. rewrite lstrip_rstrip, lstrip_idem, rstrip_idem. done.
Qed.

(** Stripping only removes characters, and what it keeps starts and ends
    with a non-space. *)
Lemma lstrip_Forall (P : ascii -> Prop) s : Forall P s -> Forall P (lstrip s).
Proof. induction 1 as [|c r Hc Hr IH]; simpl; [done|]. by destruct (py_isspace c); [|constructor]. Qed.

Lemma rstrip_Forall (P : ascii -> Prop) s : Forall P s -> Forall P (rstrip s).
Proof.
  induction 1 as [|c r Hc Hr IH]; [done|]. rewrite rstrip_cons.
  destruct (rstrip r); [destruct (py_isspace c); repeat constructor; done | by constructor].
Qed.

Lemma py_strip_Forall (P : ascii -> Prop) s : Forall P s -> Forall P (py_strip s).
Proof. intros H. by apply rstrip_Forall, lstrip_Forall. Qed.

Lemma rstrip_head s c : head (rstrip s) = Some c -> head s = Some c.
Proof.
  destruct s as [|d r]; [done|]. rewrite rstrip_cons.
  destruct (rstrip r); [destruct (py_isspace d)|]; simpl; congruence.
Qed.

Lemma rstrip_last s c : last (rstrip s) = Some c -> py_isspace c = false.
Proof.
  induction s as [|d r IH]; [done|]. rewrite rstrip_cons.
  destruct (rstrip r) as [|e r'] eqn:E.
  - destruct (py_isspace d) eqn:Ed; simpl; congruence.
  - intros H. by apply IH.
Qed.

Lemma py_strip_trimmed s c :
  (head (py_strip s) = Some c \/ last (py_strip s) = Some c) -> py_isspace c = false.
Proof.
  unfold py_strip. intros [H|H]; [|by eapply rstrip_last].
  apply rstrip_head in H. pose proof (lstrip_head s) as Hh.
  destruct (lstrip s); simpl in *; congruence.
Qed.

(** A map that sends spaces to spaces and non-spaces to non-spaces
    commutes with stripping. *)
Section StripMap.
Context (f : ascii -> ascii).
Hypothesis f_space : forall c, py_isspace (f c) = py_isspace c.

Lemma lstrip_map s : lstrip (map f s) = map f (lstrip s).
Proof.
  induction s as [|c r IH]; simpl; [done|].
  rewrite f_space. by destruct (py_isspace c).
Qed.

Lemma rstrip_map s : rstrip (map f s) = map f (rstrip s).
Proof.
  induction s as [|c r IH]; [done|].
  simpl map. rewrite !rstrip_cons, IH. destruct (rstrip r); simpl; [|done].
  rewrite f_space. by destruct (py_isspace c).
Qed.

Lemma py_strip_map s : py_strip (map f s) = map f (py_strip s).
Proof. unfold py_strip. by rewrite lstrip_map, rstrip_map. Qed.
End StripMap.

(** ** [int(str(z)) == z] *)

Lemma digit_char_ok d :
  (d < 10)%N -> is_digit (digit_char d) = true /\ digit_val (digit_char d) = Z.of_N d.
Proof.
  intros Hd. unfold is_digit, digit_val, digit_char, nat_of_ascii.
  rewrite N_ascii_embedding by lia. split.
  - apply andb_true_intro. split; apply Nat.leb_le; lia.
  - lia.
Qed.

Lemma is_digit_not_space c : is_digit c = true -> py_isspace c = false.
Proof.
  unfold is_digit, py_isspace. intros [H1 H2]%andb_prop.
  apply Nat.leb_le in H1, H2.
  repeat match goal with |- context [?a <=? ?b] => destruct (Nat.leb_spec a b) end;
    simpl; lia.
Qed.

Lemma dec_digits_digits f n acc :
  Forall (fun c => is_digit c = true) acc ->
  Forall (fun c => is_digit c = true) (dec_digits f n acc).
Proof.
  revert n acc. induction f as [|f IH]; intros n acc Hacc; simpl; [done|].
  assert (Hd : is_digit (digit_char (n mod 10)) = true)
    by (apply digit_char_ok, N.mod_lt; lia).
  destruct (n <? 10)%N; [by constructor | apply IH; by constructor].
Qed.

Lemma dec_digits_parse f n acc :
  f <> 0 -> (n < 10 ^ N.of_nat f)%N ->
  parse_digits (dec_digits f n acc) = digits_from (Z.of_N n) acc.
Proof.
  revert n acc. induction f as [|f IH]; intros n acc Hf Hn; [done|]. simpl.
  destruct (digit_char_ok (n mod 10)) as [Hd Hv]; [apply N.mod_lt; lia|].
  destruct (N.ltb_spec n 10).
  - simpl. rewrite Hd, Hv. rewrite N.mod_small by lia. done.
  - rewrite IH.
    + simpl. rewrite Hd, Hv. do 2 f_equal.
      rewrite (N.div_mod n 10) at 3 by lia. lia.
    + destruct f; [simpl in Hn; lia | lia].
    + apply N.Div0.div_lt_upper_bound.
      rewrite Nat2N.inj_succ, N.pow_succ_r' in Hn. lia.
Qed.

Lemma pos_lt_pow10_size p : (Npos p < 10 ^ N.of_nat (Pos.size_nat p))%N.
Proof.
  apply N.lt_le_trans with (2 ^ N.of_nat (Pos.size_nat p))%N.
  - induction p as [p IH|p IH|]; simpl Pos.size_nat;
      rewrite ?Nat2N.inj_succ, ?N.pow_succ_r'; simpl; lia.
  - apply N.pow_le_mono_l. lia.
Qed.

Lemma str_N_parse n : parse_digits (str_N n) = Some (Z.of_N n).
Proof.
  unfold str_N. destruct n as [|p].
  - reflexivity.
  - rewrite dec_digits_parse; [done| |apply pos_lt_pow10_size].
    destruct p; simpl; lia.
Qed.

Lemma str_N_digits n : Forall (fun c => is_digit c = true) (str_N n).
Proof. apply dec_digits_digits. constructor. Qed.

Lemma py_int_str z : py_int (py_str z) = Some z.
Proof.
  pose proof (str_N_digits (Z.abs_N z)) as Ha.
  pose proof (str_N_digits (Z.to_N z)) as Hn.
  pose proof (str_N_parse (Z.abs_N z)) as Pa.
  pose proof (str_N_parse (Z.to_N z)) as Pn.
  unfold py_int, py_str. destruct (Z.ltb_spec z 0).
  - rewrite py_strip_nospace.
    + simpl. rewrite Pa. simpl. f_equal. lia.
    + constructor; [reflexivity|].
      eapply Forall_impl; [exact Ha | apply is_digit_not_space].
  - rewrite py_strip_nospace by (eapply Forall_impl; [exact Hn | apply is_digit_not_space]).
    destruct (str_N (Z.to_N z)) as [|c r]; [discriminate|].
    apply Forall_cons in Hn as [Hc _].
    rewrite Pn. rewrite Z2N.id by lia.
    repeat case_decide; subst; [discriminate..|done].
Qed.

#[export] Hint Rewrite lstrip_idem rstrip_idem py_strip_idem : boring_rw.

(** ** Lengths *)

Lemma lstrip_length s : length (lstrip s) <= length s.
Proof. induction s as [|c s IH]; simpl; [done|]. destruct (py_isspace c); simpl; lia. Qed.

Lemma rstrip_length s : length (rstrip s) <= length s.
Proof.
  induction s as [|c s IH]; [done|]. rewrite rstrip_cons.
  destruct (rstrip s); [destruct (py_isspace c)|]; simpl in *; lia.
Qed.

Lemma py_strip_length s : length (py_strip s) <= length s.
Proof. unfold py_strip. etransitivity; [apply rstrip_length|apply lstrip_length]. Qed.

Lemma dec_digits_length f n acc : length (dec_digits f n acc) <= f + length acc.
Proof.
  revert n acc. induction f as [|f IH]; intros n acc; simpl; [lia|].
  destruct (n <? 10)%N; [simpl; lia|]. etransitivity; [apply IH|]. simpl. lia.
Qed.

Lemma size_nat_le p k : (Zpos p < 2 ^ Z.of_nat k)%Z -> Pos.size_nat p <= k.
Proof.
  revert k. induction p as [p IH|p IH|]; intros [|k] Hk; simpl in *; try lia;
    rewrite Nat2Z.inj_succ, Z.pow_succ_r in Hk by lia; apply le_n_S, IH; lia.
Qed.

(** A number below [2 ^ k] prints in at most [k] digits. *)
Lemma py_str_length z k : (0 <= z < 2 ^ Z.of_nat k)%Z -> 1 <= k -> length (py_str z) <= k.
Proof.
  intros Hz Hk. unfold py_str. rewrite (proj2 (Z.ltb_ge z 0)) by lia.
  unfold str_N. destruct (Z.to_N z) as [|p] eqn:E; [simpl; lia|].
  etransitivity; [apply dec_digits_length|]. simpl. rewrite Nat.add_0_r.
  apply size_nat_le. lia.
Qed.

(** ** Splitting *)

Lemma py_split_app_sep sep a b :
  sep ∉ a -> py_split sep (a ++ sep :: b) = a :: py_split sep b.
Proof.
  induction a as [|c a IH]; intros Ha; simpl; [by rewrite decide_True|].
  rewrite IH by set_solver. case_decide; [set_solver|done].
Qed.

Lemma py_split_nosep sep a : sep ∉ a -> py_split sep a = [a].
Proof.
  induction a as [|c a IH]; intros Ha; simpl; [done|].
  rewrite IH by set_solver. case_decide; [set_solver|done].
Qed.

Lemma readline_no_nl s :
  "010"%char ∉ s -> "013"%char ∉ s -> readline s = s.
Proof.
  induction s as [|c s IH]; intros H1 H2; simpl; [done|].
  rewrite !decide_False by set_solver. f_equal. apply IH; set_solver.
Qed.

Lemma readline_app_nl s nl rest :
  "010"%char ∉ s -> "013"%char ∉ s -> nl = "010"%char \/ nl = "013"%char ->
  readline (s ++ nl :: rest) = s ++ ["010"%char].
Proof.
  intros H1 H2 Hnl. induction s as [|c s IH]; simpl.
  - by destruct Hnl as [-> | ->].
  - rewrite !decide_False by set_solver. f_equal. apply IH; set_solver.
Qed.

Lemma rstrip_app_space s c :
  Forall (fun d => py_isspace d = false) s -> py_isspace c = true -> rstrip (s ++ [c]) = s.
Proof.
  induction s as [|d s IH]; intros Hs Hc; simpl; [by rewrite Hc|].
  apply Forall_cons in Hs as [Hd Hs]. rewrite IH by done.
  destruct s; [by rewrite Hd|done].
Qed.

(** A line of non-space characters and its line end strip to the line. *)
Lemma py_strip_app_space s c :
  Forall (fun d => py_isspace d = false) s -> py_isspace c = true -> py_strip (s ++ [c]) = s.
Proof.
  intros Hs Hc. unfold py_strip. destruct s as [|d s'] eqn:E.
  - simpl. by rewrite Hc.
  - apply Forall_cons in Hs as [Hd Hs']. simpl. rewrite Hd.
    change (d :: s' ++ [c]) with ((d :: s') ++ [c]). apply rstrip_app_space; [by constructor|done].
Qed.

Lemma py_str_chars z : Forall (fun c => is_digit c = true \/ c = "-"%char) (py_str z).
Proof.
  unfold py_str. destruct (z <? 0)%Z.
  - constructor; [by right|]. eapply Forall_impl; [apply str_N_digits|]. by left.
  - eapply Forall_impl; [apply str_N_digits|]. by left.
Qed.

Lemma py_startswith_spec pre s : py_startswith pre s = true <-> pre `prefix_of` s.
Proof.
  revert s. induction pre as [|c pre IH]; intros [|d s]; simpl.
  - split; [intros _; apply prefix_nil|done].
  - split; [intros _; apply prefix_nil|done].
  - split; [done|]. intros [k Hk]. discriminate.
  - rewrite andb_true_iff, bool_decide_eq_true, IH. split.
    + intros [-> H]. by apply prefix_cons.
    + intros [k Hk]. injection Hk as -> Hk. split; [done|]. by exists k.
Qed.

End PyStr.
