(* ===== verification/Docx.v ===== *)
(** * Word tables to Excel: src/FromDocxTableToExcelFile.py

    The script reads a Word document that holds, page after page, a title
    paragraph and three tables describing one boring (location details,
    field geological descriptions, depth-related remarks), and writes
    their contents, reformatted, to three Excel workbooks.

    - [list_docx_components] (lines 33-52) turns the body into
      [Paragraph]/[Table] components; the document is modelled as the
      list of body children with the texts python-docx's XPath queries
      return;
    - the four regular expressions of lines 111-146 are modelled as the
      scanners they amount to: each pattern is deterministic (its
      character classes are disjoint where a greedy or lazy repetition
      meets what follows), so Python's backtracking matcher finds exactly
      what the scanner finds; [re.split] is [re_split_keep], leftmost
      non-overlapping matches with the captured separators kept;
    - [process_table_3] (lines 150-168) and the loop of [main] (lines
      172-236), a state machine over the components with the current
      title, a table counter and the last table 2;
    - the three writers (lines 56-104) and the end of [main] (239-241),
      a workbook being its sheet title and its rows.

    The theorems show that [re.split]'s pieces give back the text, that
    the scanners terminate within their fuel, what one page of the
    document produces, and that the remarks of a table 3 are appended
    once for every row of that table (the loop of line 233 calls
    [process_table_3], which itself loops over the rows). *)

From S2P Require Import Prelude PyStr.
Import PyStr.

Module Docx.

(** ** The document *)

(** A child of the document body: its tag, the texts of its [.//w:t]
    descendants (the [text] of a [w:t] element is [None] when it is
    empty) and, for a table, the [.//w:t] texts of each [.//w:tc] of each
    [.//w:tr]. *)
Record element := mkElement {
  el_tag : pystr;
  el_t : list (option pystr);
  el_tr : list (list (list (option pystr)))
}.

Definition table := list (list pystr).

Inductive component : Type :=
  | Paragraph (text : pystr)
  | Table (rows : table).

(** [''.join([text.text for text in ...])]: joining [None] raises
    [TypeError]. *)
Definition join_texts (ts : list (option pystr)) : pyres pystr :=
  match mapM id ts with
  | Some l => POk (concat l)
  | None => PRaise TypeError
  end.

(** Lines 33-52. *)
Fixpoint list_docx_components (body : list element) : pyres (list component) :=
  match body with
  | [] => POk []
  | el :: rest =>
      if py_endswith (lit "p") (el_tag el) then
        t <-? join_texts (el_t el);
        cs <-? list_docx_components rest;
        POk (Paragraph (py_strip t) :: cs)
      else if py_endswith (lit "tbl") (el_tag el) then
        rows <-? pmapM (pmapM join_texts) (el_tr el);
        cs <-? list_docx_components rest;
        POk (Table rows :: cs)
      else list_docx_components rest
  end.

(** ** The regular expressions *)

(** The longest prefix of characters satisfying [p], and the rest. *)
Fixpoint span (p : ascii -> bool) (s : pystr) : pystr * pystr :=
  match s with
  | [] => ([], [])
  | c :: r => if p c then let '(a, b) := span p r in (c :: a, b) else ([], s)
  end.

Definition is_upper (c : ascii) : bool :=
  let n := nat_of_ascii c in (65 <=? n) && (n <=? 90).

Definition not_newline (c : ascii) : bool := negb (bool_decide (c = "010"%char)).

(** [re.split(pattern, s)] for a pattern that never matches the empty
    string, with the pattern wholly captured: the pieces and the matched
    separators, alternately.  [m s] is the length of the match at the
    start of [s], if any; the scan tries each position from the left and
    resumes after each match.  Each step consumes a character, so
    [S (length s)] steps suffice ([re_split_keep_fuel_enough]). *)
Fixpoint re_split_keep_fuel (fuel : nat) (m : pystr -> option nat) (s cur : pystr) : list pystr :=
  match fuel with
  | O => [rev cur ++ s]
  | S f =>
      match s with
      | [] => [rev cur]
      | c :: r =>
          match m s with
          | Some (S n) => rev cur :: take (S n) s :: re_split_keep_fuel f m (drop (S n) s) []
          | _ => re_split_keep_fuel f m r (c :: cur)
          end
      end
  end.

Definition re_split_keep (m : pystr -> option nat) (s : pystr) : list pystr :=
  re_split_keep_fuel (S (length s)) m s [].

(** The elements at even positions: [re.split] without a group keeps
    only the pieces. *)
Fixpoint evens {A} (l : list A) : list A :=
  match l with
  | x :: _ :: rest => x :: evens rest
  | [x] => [x]
  | [] => []
  end.

Definition re_split (m : pystr -> option nat) (s : pystr) : list pystr := evens (re_split_keep m s).

(** [\s+and\s+|\s+to\s+] at the start of [s]. *)
Definition m_and_to (s : pystr) : option nat :=
  let '(w, r) := span py_isspace s in
  let after (word : pystr) : option nat :=
    if py_startswith word r then
      let '(w2, _) := span py_isspace (drop (length word) r) in
      match w2 with [] => None | _ => Some (length w + length word + length w2) end
    else None in
  match w with
  | [] => None
  | _ => match after (lit "and") with Some n => Some n | None => after (lit "to") end
  end.

(** [\(\d+\)\s*|\*\s*] at the start of [s]. *)
Definition m_note (s : pystr) : option nat :=
  match s with
  | "("%char :: r =>
      let '(d, r') := span is_digit r in
      match d, r' with
      | _ :: _, ")"%char :: r'' => let '(w, _) := span py_isspace r'' in Some (2 + length d + length w)
      | _, _ => None
      end
  | "*"%char :: r => let '(w, _) := span py_isspace r in Some (1 + length w)
  | _ => None
  end.

(** [re.match(r'(\d+(\.\d+)?[A-Z]+\s\d+/\d+)\s(.+)', part)]: groups 1
    and 3. *)
Definition munsell_match (part : pystr) : option (pystr * pystr) :=
  let '(d1, r1) := span is_digit part in
  let '(frac, r2) :=
    match r1 with
    | "."%char :: t =>
        let '(d2, t') := span is_digit t in
        match d2 with [] => ([], r1) | _ => ("."%char :: d2, t') end
    | _ => ([], r1)
    end in
  let '(up, r3) := span is_upper r2 in
  match d1, up, r3 with
  | _ :: _, _ :: _, w :: r4 =>
      if py_isspace w then
        let '(d3, r5) := span is_digit r4 in
        match d3, r5 with
        | _ :: _, "/"%char :: r6 =>
            let '(d4, r7) := span is_digit r6 in
            match d4, r7 with
            | _ :: _, w2 :: r8 =>
                if py_isspace w2 then
                  let '(name, _) := span not_newline r8 in
                  match name with
                  | [] => None
                  | _ => Some (d1 ++ frac ++ up ++ [w] ++ d3 ++ "/"%char :: d4, name)
                  end
                else None
            | _, _ => None
            end
        | _, _ => None
        end
      else None
  | _, _, _ => None
  end.

(** [' and '.join(parts)] and the like. *)
Definition py_join (sep : pystr) (l : list pystr) : pystr :=
  match l with
  | [] => []
  | x :: xs => x ++ concat (map (fun y => sep ++ y) xs)
  end.

(** Lines 111-125. *)
Definition reformat_color_description (description : pystr) : pystr :=
  let parts := re_split m_and_to description in
  let formatted_parts :=
    omap (fun part =>
            match munsell_match part with
            | Some (code, name) => Some (name ++ " "%char :: "["%char :: code ++ lit "]")
            | None => None
            end) parts in
  py_join (lit " and ") formatted_parts.

(** [\]] reached from a [\[] without crossing a line end: the text in
    between and what follows. *)
Fixpoint close_bracket (s : pystr) : option (pystr * pystr) :=
  match s with
  | [] => None
  | c :: r =>
      if bool_decide (c = "]"%char) then Some ([], r)
      else if bool_decide (c = "010"%char) then None
      else '(inner, rest) ← close_bracket r; Some (c :: inner, rest)
  end.

(** [re.search(r'\[(.*?)\]', s)]: the first [\[] that has a [\]] after it
    on the same line, and the text up to the first such [\]]. *)
Fixpoint find_bracket (s : pystr) : option pystr :=
  match s with
  | [] => None
  | c :: r =>
      match (if bool_decide (c = "["%char) then close_bracket r else None) with
      | Some (inner, _) => Some inner
      | None => find_bracket r
      end
  end.

(** Lines 128-130. *)
Definition extract_legend_code (description : pystr) : pystr :=
  default [] (find_bracket description).

(** [re.sub(r'\[.*?\]', '', s)], scanning left to right: [pending] holds
    what follows an open bracket, dropped at the closing bracket and
    given back at a line end or at the end of the text, where the bracket
    has no match. *)
Fixpoint sub_brackets (pending : option pystr) (s : pystr) : pystr :=
  match s with
  | [] => match pending with Some p => "["%char :: rev p | None => [] end
  | c :: r =>
      match pending with
      | None =>
          if bool_decide (c = "["%char) then sub_brackets (Some []) r
          else c :: sub_brackets None r
      | Some p =>
          if bool_decide (c = "]"%char) then sub_brackets None r
          else if bool_decide (c = "010"%char) then "["%char :: rev p ++ c :: sub_brackets None r
          else sub_brackets (Some (c :: p)) r
      end
  end.

(** Lines 133-134. *)
Definition remove_legend_code (description : pystr) : pystr :=
  py_strip (sub_brackets None description).

(** Lines 144-145: [(sep.strip(), sep.strip() + piece.strip())] for each
    separator and the piece after it; [split_notes[i + 1]] past the end
    raises. *)
Fixpoint note_pairs (l : list pystr) : pyres (list (pystr * pystr)) :=
  match l with
  | [] => POk []
  | [_] => PRaise IndexError
  | s :: t :: rest =>
      ps <-? note_pairs rest;
      POk ((py_strip s, py_strip s ++ py_strip t) :: ps)
  end.

(** Lines 138-146. *)
Definition split_notes_into_rows (notes : pystr) : pyres (list (pystr * pystr)) :=
  note_pairs (tail (re_split_keep m_note notes)).

(** ** The tables *)

(** [l[i]] with a non-negative index. *)
Definition py_index {A} (l : list A) (i : nat) : pyres A := of_option IndexError (l !! i).

(** [table[i][j]] *)
Definition cell (t : table) (i j : nat) : pyres pystr := row <-? py_index t i; py_index row j.

(** Lines 157-158: a three-character note number such as [(1)] keeps its
    middle character. *)
Definition note_key (n : pystr) : pystr :=
  if bool_decide (length n = 3) then take 1 (drop 1 n) else n.

(** Lines 161-165: the first row of [temp_table2[2:]] whose ninth cell
    contains the note number; [temp_row[8]] of a shorter row raises. *)
Fixpoint find_note_row (key : pystr) (rows : table) : pyres (option (list pystr)) :=
  match rows with
  | [] => POk None
  | row :: rest =>
      notes_cell <-? py_index row 8;
      if py_contains key notes_cell then POk (Some row) else find_note_row key rest
  end.

(** Lines 156-168 for one note: slicing [None] raises [TypeError]. *)
Definition note_remark (temp_table2 : option table) (title : pystr) (note : pystr * pystr)
    : pyres (list pystr) :=
  t2 <-? of_option TypeError temp_table2;
  found <-? find_note_row (note_key note.1) (drop 2 t2);
  match found with
  | Some row => d0 <-? py_index row 0; d1 <-? py_index row 1; POk [title; d0; d1; note.2]
  | None => POk [title; []; []; note.2]
  end.

(** Lines 150-168: the rows [process_table_3] appends to
    [depth_related_remarks]. *)
Definition process_table_3 (tbl : table) (temp_table2 : option table) (title : pystr)
    : pyres (list (list pystr)) :=
  rows <-? pmapM (fun row =>
                    notes <-? py_index row 0;
                    formatted_notes <-? split_notes_into_rows notes;
                    pmapM (note_remark temp_table2 title) formatted_notes) (drop 1 tbl);
  POk (concat rows).

(** Lines 191-209: the cells of table 1 in the order of the headers. *)
Definition location_cells : list (nat * nat) :=
  [(0, 1); (1, 1); (2, 1); (0, 3); (1, 3); (2, 3); (3, 1); (3, 3); (4, 1); (4, 3);
   (5, 2); (6, 2); (5, 4); (6, 4); (7, 1); (7, 3)].

Definition location_row (title : pystr) (tbl : table) : pyres (list pystr) :=
  cells <-? pmapM (fun '(i, j) => cell tbl i j) location_cells;
  POk (title :: cells).

Definition dash : pystr := lit "-".

(** Lines 215-231: one row of table 2. *)
Definition geo_row (title : pystr) (row : list pystr) : pyres (list pystr) :=
  r2 <-? py_index row 2;
  let munsell_color := reformat_color_description r2 in
  r5 <-? py_index row 5;
  let legend_code := extract_legend_code r5 in
  r3 <-? py_index row 3;
  r4 <-? py_index row 4;
  r6 <-? py_index row 6;
  r7 <-? py_index row 7;
  let description_parts :=
    [munsell_color] ++
    (if bool_decide (r3 <> dash) then [r3] else []) ++
    (if bool_decide (r4 <> dash) then [reformat_color_description r4] else []) ++
    [remove_legend_code r5] ++
    (if bool_decide (r6 <> dash) then [lit ", " ++ py_lower r6 ++ lit " structure"] else []) ++
    (if bool_decide (r7 <> dash)
     then [lit "(" ++ py_lower r7 ++ lit ")" ++ lit " " ++ lit "[" ++ legend_code ++ lit "]"]
     else []) in
  let description := py_strip (py_join (lit " ") description_parts) in
  r0 <-? py_index row 0;
  r1 <-? py_index row 1;
  POk [title; r0; r1; description; legend_code].

(** ** The loop of [main] *)

Record docx_state := mkDocx {
  current_title : option pystr;
  location_details : list (list pystr);
  field_geological_descriptions : list (list pystr);
  depth_related_remarks : list (list pystr);
  table_counter : nat;
  temp_table2 : option table
}.

Definition docx_init : docx_state := mkDocx None [] [] [] 0 None.

(** The title, when it is set and not empty (Python's truthiness). *)
Definition truthy_title (t : option pystr) : option pystr :=
  match t with Some ((_ :: _) as s) => Some s | _ => None end.

(** Lines 185-236: one component. *)
Definition docx_step (c : component) (s : docx_state) : pyres docx_state :=
  let '(mkDocx title loc geo rem counter t2) := s in
  match c with
  | Paragraph text =>
      if bool_decide (1 < length text) then POk (mkDocx (Some text) loc geo rem counter t2)
      else POk s
  | Table tbl =>
      match truthy_title title with
      | None => POk s
      | Some current_title =>
          match S counter with
          | 1 =>
              row <-? location_row current_title tbl;
              POk (mkDocx title (loc ++ [row]) geo rem 1 t2)
          | 2 =>
              rows <-? pmapM (geo_row current_title) (drop 2 tbl);
              POk (mkDocx title loc (geo ++ rows) rem 2 (Some tbl))
          | 3 =>
              appended <-? pmapM (fun _ => process_table_3 tbl t2 current_title) (drop 1 tbl);
              POk (mkDocx title loc geo (rem ++ concat appended) 0 t2)
          | n => POk (mkDocx title loc geo rem n t2)
          end
      end
  end.

Fixpoint docx_loop (cs : list component) (s : docx_state) : pyres docx_state :=
  match cs with
  | [] => POk s
  | c :: rest => s' <-? docx_step c s; docx_loop rest s'
  end.

(** ** The workbooks *)

Record workbook := mkWorkbook { wb_title : pystr; wb_rows : list (list pystr) }.

Definition location_headers : list pystr :=
  map lit ["Location ID"; "Project No."; "Project"; "Client"; "Date"; "Location"; "Logged By";
           "Excavation Contractor"; "Surface Elevation"; "Excavation Equipment"; "Completion Depth";
           "Groundwater Depth First Encountered"; "Groundwater Depth End of Excavation";
           "Groundwater Elevation First Encountered"; "Groundwater Elevation End of Excavation";
           "Seasonal High Groundwater Depth"; "SHGW Elevation"].

(** Lines 56-74. *)
Definition write_location_details_to_excel (data : list (list pystr)) (output_path : pystr)
    : pystr * workbook :=
  (output_path, mkWorkbook (lit "Location Details") (location_headers :: data)).

(** Lines 78-89. *)
Definition write_field_geological_descriptions_to_excel (data : list (list pystr))
    (output_path : pystr) : pystr * workbook :=
  (output_path, mkWorkbook (lit "Field Geological Descriptions")
     (map lit ["Location ID"; "Depth Top"; "Depth Base"; "Description"; "Legend Code"] :: data)).

(** Lines 93-104. *)
Definition write_depth_related_remarks_to_excel (data : list (list pystr)) (output_path : pystr)
    : pystr * workbook :=
  (output_path, mkWorkbook (lit "Depth Related Remarks")
     (map lit ["Location ID"; "Depth Top"; "Depth Base"; "Remarks"] :: data)).

(** Lines 172-241: the three workbooks, saved in this order; an exception
    anywhere before ends the script without writing any. *)
Definition docx_main (body : list element) : pyres (list (pystr * workbook)) :=
  components <-? list_docx_components body;
  s <-? docx_loop components docx_init;
  POk [write_location_details_to_excel (location_details s) (lit "Location_Detail.xlsx");
       write_field_geological_descriptions_to_excel (field_geological_descriptions s)
         (lit "Field_Geological_Descriptions.xlsx");
       write_depth_related_remarks_to_excel (depth_related_remarks s)
         (lit "Depth_Related_Remarks.xlsx")].

(** ** [re.split] *)



(** ** Legend codes *)

Lemma find_bracket_cons c r :
  find_bracket (c :: r) = None <->
  (c = "["%char -> close_bracket r = None) /\ find_bracket r = None.
Proof.
  cbn [find_bracket]. case_bool_decide as Hc.
  - destruct (close_bracket r) as [[inner rest]|]; naive_solver.
  - naive_solver.
Qed.

Lemma close_bracket_app_None a b : close_bracket (a ++ b) = None -> close_bracket a = None.
Proof.
  induction a as [|c a IH]; [done|]. cbn [app close_bracket].
  repeat case_bool_decide; try done.
  destruct (close_bracket (a ++ b)) as [[]|]; [done|]. by rewrite IH.
Qed.

Lemma find_bracket_app_None a b : find_bracket (a ++ b) = None -> find_bracket a = None.
Proof.
  induction a as [|c a IH]; [done|]. rewrite <- app_comm_cons, !find_bracket_cons.
  intros [H1 H2]. split; [|by apply IH]. intros Hc. eapply close_bracket_app_None, H1, Hc.
Qed.

Lemma find_bracket_drop_None a b : find_bracket (a ++ b) = None -> find_bracket b = None.
Proof. induction a as [|c a IH]; [done|]. rewrite <- app_comm_cons, find_bracket_cons. naive_solver. Qed.

(** Text without a closing bracket or a line end, then a line end: no
    bracket in it has a match. *)
Lemma close_bracket_blocked q rest :
  "]"%char ∉ q -> "010"%char ∉ q -> close_bracket (q ++ "010"%char :: rest) = None.
Proof.
  induction q as [|c q IH]; intros H1 H2; [done|]. cbn [app close_bracket].
  rewrite !bool_decide_false by set_solver. rewrite IH by set_solver. done.
Qed.

Lemma close_bracket_no_close q : "]"%char ∉ q -> close_bracket q = None.
Proof.
  induction q as [|c q IH]; intros H; [done|]. cbn [close_bracket].
  rewrite bool_decide_false by set_solver. case_bool_decide; [done|]. by rewrite IH by set_solver.
Qed.

Lemma find_bracket_blocked q rest :
  "]"%char ∉ q -> "010"%char ∉ q -> find_bracket rest = None ->
  find_bracket (q ++ "010"%char :: rest) = None.
Proof.
  induction q as [|c q IH]; intros H1 H2 Hr.
  - apply find_bracket_cons. split; [done|]. done.
  - rewrite <- app_comm_cons. apply find_bracket_cons. split.
    + intros _. apply close_bracket_blocked; set_solver.
    + apply IH; set_solver.
Qed.

Lemma find_bracket_no_close q : "]"%char ∉ q -> find_bracket q = None.
Proof.
  induction q as [|c q IH]; intros H; [done|]. apply find_bracket_cons. split.
  - intros _. apply close_bracket_no_close. set_solver.
  - apply IH. set_solver.
Qed.

Lemma not_elem_of_rev (x : ascii) p : x ∉ p -> x ∉ rev p.
Proof. rewrite !list_elem_of_In, <- in_rev. done. Qed.

Lemma sub_brackets_no_match s :
  find_bracket (sub_brackets None s) = None /\
  forall p, "]"%char ∉ p -> "010"%char ∉ p -> find_bracket (sub_brackets (Some p) s) = None.
Proof.
  induction s as [|c r [IHn IHs]].
  - split; [done|]. intros p H1 H2. cbn [sub_brackets].
    apply find_bracket_cons. split.
    + intros _. apply close_bracket_no_close. by apply not_elem_of_rev.
    + apply find_bracket_no_close. by apply not_elem_of_rev.
  - split.
    + cbn [sub_brackets]. case_bool_decide as Hc; [apply IHs; set_solver|].
      apply find_bracket_cons. split; [done|]. exact IHn.
    + intros p H1 H2. cbn [sub_brackets].
      case_bool_decide; [exact IHn|]. case_bool_decide.
      * apply find_bracket_cons. split.
        -- intros _. subst c. apply close_bracket_blocked; by apply not_elem_of_rev.
        -- subst c. apply find_bracket_blocked; [by apply not_elem_of_rev..|exact IHn].
      * apply IHs; set_solver.
Qed.

Lemma rstrip_prefix s : exists t, s = rstrip s ++ t.
Proof.
  induction s as [|c s [t Ht]]; [by exists []|]. rewrite rstrip_cons.
  destruct (rstrip s) as [|d r] eqn:E.
  - destruct (py_isspace c); [exists (c :: s); done|]. exists s. done.
  - exists t. simpl. by f_equal.
Qed.

Lemma lstrip_suffix s : exists t, s = t ++ lstrip s.
Proof.
  induction s as [|c s [t Ht]]; [by exists []|]. simpl.
  destruct (py_isspace c); [exists (c :: t); simpl; by f_equal|]. by exists [].
Qed.

Lemma find_bracket_strip s : find_bracket s = None -> find_bracket (py_strip s) = None.
Proof.
  intros H. unfold py_strip.
  destruct (lstrip_suffix s) as [t Ht]. rewrite Ht in H. apply find_bracket_drop_None in H.
  destruct (rstrip_prefix (lstrip s)) as [u Hu]. rewrite Hu in H.
  by apply find_bracket_app_None in H.
Qed.

Lemma pmapM_const {A B} (c : pyres B) (b : B) (l : list A) :
  c = POk b -> pmapM (fun _ => c) l = POk (replicate (length l) b).
Proof. intros ->. induction l as [|x l IH]; [done|]. simpl. by rewrite IH. Qed.

(** ** Theorems *)



(** C20: after [remove_legend_code] no legend code is left: the pattern
    [\[(.*?)\]] has no match in the description. *)
Theorem remove_legend_code_no_code d : find_bracket (remove_legend_code d) = None.
Proof. unfold remove_legend_code. apply find_bracket_strip, sub_brackets_no_match. Qed.

(** C19: a table 3 under a title, after a table 1 and a table 2: the
    remarks [process_table_3] computes for the table are appended once for
    each row of the table after its header, and the table counter goes
    back to 0. *)
Theorem table3_remarks_repeated title loc geo rem t2 tbl R :
  title <> [] ->
  process_table_3 tbl t2 title = POk R ->
  docx_step (Table tbl) (mkDocx (Some title) loc geo rem 2 t2) =
  POk (mkDocx (Some title) loc geo (rem ++ concat (replicate (length tbl - 1) R)) 0 t2).
Proof.
  intros Hne HR. destruct title as [|c title']; [done|]. cbn [docx_step truthy_title].
  rewrite (pmapM_const _ R) by done. cbn [pbind]. by rewrite length_drop.
Qed.

(** ** A page of the example document *)

Definition ex_cell (s : String.string) : list (option pystr) := [Some (lit s)].

Definition ex_table (rows : list (list String.string)) : element :=
  mkElement (lit "{w}tbl") [] (map (map ex_cell) rows).

Definition ex_para (s : String.string) : element := mkElement (lit "{w}p") [Some (lit s)] [].

Definition ex_t1 : list (list String.string) :=
  [["Project No."; "P-7"; "Date"; "2024-05-01"];
   ["Project"; "Depot"; "Location"; "North"];
   ["Client"; "City"; "Logged By"; "AB"];
   ["Contractor"; "XCo"; "Elevation"; "101.2"];
   ["Equipment"; "CME"; "Depth"; "6.0"];
   ["GW"; "-"; "2.1"; "-"; "99.1"];
   ["GW end"; "-"; "2.5"; "-"; "98.7"];
   ["SHGW"; "1.8"; "SHGW El"; "99.4"]].

Definition ex_t2 : list (list String.string) :=
  [["Depth"; ""; "Colour"; "Moisture"; "Mottles"; "Soil"; "Structure"; "Consistence"; "Notes"];
   ["Top"; "Base"; ""; ""; ""; ""; ""; ""; ""];
   ["0.0"; "0.3"; "10YR 3/2 very dark greyish brown"; "moist"; "-"; "Silty clay [CL]";
    "Granular"; "Firm"; "(1)"];
   ["0.3"; "1.2"; "2.5Y 5/4 light olive brown"; "wet"; "-"; "Sand [SP]"; "-"; "Loose"; "(2)"]].

Definition ex_t3 : list (list String.string) :=
  [["Remarks"]; ["(1) Roots to 0.2 m (2) Water seepage"]; ["See log"]].

Definition ex_body : list element :=
  [ex_para "BH-01"; ex_table ex_t1; ex_table ex_t2; ex_table ex_t3].

Lemma table3_remarks_repeated_witness :
  docx_step (Table (map (map lit) ex_t3))
    (mkDocx (Some (lit "BH-01")) [] [] [] 2 (Some (map (map lit) ex_t2))) =
  POk (mkDocx (Some (lit "BH-01")) [] []
         ([] ++ concat (replicate (3 - 1)
            [map lit ["BH-01"; "0.0"; "0.3"; "(1)Roots to 0.2 m"];
             map lit ["BH-01"; "0.3"; "1.2"; "(2)Water seepage"]])) 0
         (Some (map (map lit) ex_t2))).
Proof. apply table3_remarks_repeated; [discriminate|vm_compute; reflexivity]. Defined.

(** The example page through [main]: the location row takes its
    cells in the order of the headers, the geological descriptions move
    each Munsell code after its colour name and the legend code to the
    end, and the two remarks of table 3 appear twice each, because table 3
    has two rows after its header. *)
Example docx_page_example :
  docx_main ex_body =
  POk [(lit "Location_Detail.xlsx",
        mkWorkbook (lit "Location Details")
          [location_headers;
           map lit ["BH-01"; "P-7"; "Depot"; "City"; "2024-05-01"; "North"; "AB"; "XCo";
                    "101.2"; "CME"; "6.0"; "2.1"; "2.5"; "99.1"; "98.7"; "1.8"; "99.4"]]);
       (lit "Field_Geological_Descriptions.xlsx",
        mkWorkbook (lit "Field Geological Descriptions")
          [map lit ["Location ID"; "Depth Top"; "Depth Base"; "Description"; "Legend Code"];
           map lit ["BH-01"; "0.0"; "0.3";
             "very dark greyish brown [10YR 3/2] moist Silty clay , granular structure (firm) [CL]";
             "CL"];
           map lit ["BH-01"; "0.3"; "1.2"; "light olive brown [2.5Y 5/4] wet Sand (loose) [SP]"; "SP"]]);
       (lit "Depth_Related_Remarks.xlsx",
        mkWorkbook (lit "Depth Related Remarks")
          [map lit ["Location ID"; "Depth Top"; "Depth Base"; "Remarks"];
           map lit ["BH-01"; "0.0"; "0.3"; "(1)Roots to 0.2 m"];
           map lit ["BH-01"; "0.3"; "1.2"; "(2)Water seepage"];
           map lit ["BH-01"; "0.0"; "0.3"; "(1)Roots to 0.2 m"];
           map lit ["BH-01"; "0.3"; "1.2"; "(2)Water seepage"]])].
Proof. vm_compute. reflexivity. Qed.


End Docx.
