(* ===== verification/Sanitizer.v ===== *)
(** * The label sanitizer: [clean_special_text]

    Models [clean_special_text] of src/SplitBoringLog2.1.py (lines 119-124):
    every character of [invalid_chars] is replaced by an underscore, one
    [str.replace] per character in the order the string lists them, and the
    result is stripped.  The theorems show that the loop of replacements is
    one character-wise map, that the function is idempotent, that its
    output holds none of the reserved characters (so no path separator can
    reach an output file name) and no surrounding whitespace. *)

From S2P Require Import Prelude PyStr.
Import PyStr.

Module Sanitizer.

(** [invalid_chars]: backslash, slash, colon, star, question mark, double
    quote (written as character 34), less, greater, bar and comma, in the
    order of the source string. *)
Definition invalid_chars : pystr :=
  ["\"; "/"; ":"; "*"; "?"; "034"; "<"; ">"; "|"; ","]%char.

Definition underscore : ascii := "_"%char.

(** [for char in invalid_chars: text = text.replace(char, '_')]
    followed by [text = text.strip()]. *)
Definition clean_special_text (text : pystr) : pystr :=
  py_strip (fold_left (fun t ch => py_replace_char ch underscore t)
                      invalid_chars text).

(** The reference: one pass that maps each reserved character to '_'. *)
Definition sanitize_char (c : ascii) : ascii :=
  if decide (c ∈ invalid_chars) then underscore else c.

Definition is_clean_char (c : ascii) : Prop := c ∉ invalid_chars.

(** ** Lemmas *)

Lemma underscore_clean : underscore ∉ invalid_chars.
Proof. unfold invalid_chars. rewrite list_elem_of_In. simpl. intuition discriminate. Qed.

Lemma invalid_not_space c : c ∈ invalid_chars -> py_isspace c = false.
Proof. unfold invalid_chars. rewrite list_elem_of_In. simpl. intuition (subst; reflexivity). Qed.

(** The sequence of one-character replacements is one map, as long as the
    replacement character is not itself replaced later. *)
Lemma replace_fold_map (chs : pystr) (s : pystr) :
  underscore ∉ chs ->
  fold_left (fun t ch => py_replace_char ch underscore t) chs s =
  map (fun c => if decide (c ∈ chs) then underscore else c) s.
Proof.
  revert s. induction chs as [|ch chs IH]; intros s Hu; cbn [fold_left].
  - induction s as [|c s IHs]; cbn [map]; [done|].
    rewrite <- IHs. destruct (decide (c ∈ [])); [set_solver|done].
  - rewrite IH by set_solver. unfold py_replace_char. rewrite map_map.
    apply map_ext. intros c.
    repeat case_decide; subst; set_solver.
Qed.

Lemma clean_special_text_spec text :
  clean_special_text text = py_strip (map sanitize_char text).
Proof.
  unfold clean_special_text. rewrite replace_fold_map by apply underscore_clean.
  reflexivity.
Qed.

Lemma sanitize_char_space c : py_isspace (sanitize_char c) = py_isspace c.
Proof.
  unfold sanitize_char. case_decide as Hc; [|done].
  by rewrite (invalid_not_space c Hc).
Qed.

Lemma sanitize_char_idem c : sanitize_char (sanitize_char c) = sanitize_char c.
Proof.
  unfold sanitize_char. case_decide; [|by case_decide].
  pose proof underscore_clean. by case_decide.
Qed.

Lemma sanitize_char_clean c : is_clean_char (sanitize_char c).
Proof.
  unfold is_clean_char, sanitize_char. case_decide; [apply underscore_clean|done].
Qed.

Lemma clean_special_text_length text : length (clean_special_text text) <= length text.
Proof.
  rewrite clean_special_text_spec. etransitivity; [apply py_strip_length|].
  by rewrite length_map.
Qed.

Lemma clean_special_text_idem text :
  clean_special_text (clean_special_text text) = clean_special_text text.
Proof.
  rewrite !clean_special_text_spec.
  rewrite !(py_strip_map sanitize_char sanitize_char_space), !py_strip_idem.
  rewrite map_map. apply map_ext, sanitize_char_idem.
Qed.

#[export] Hint Resolve sanitize_char_clean : boring.
#[export] Hint Rewrite clean_special_text_idem : boring_rw.
#[export] Hint Rewrite clean_special_text_spec : boring_rw.

(** ** Properties of [clean_special_text] *)

(** C8: sanitizing an already sanitized
    label changes nothing, so the split step, which sanitizes the ledger
    cells that the extraction step already sanitized, sees the same
    labels. *)
Theorem clean_special_text_idempotent text :
  clean_special_text (clean_special_text text) = clean_special_text text.
Proof. apply clean_special_text_idem. Qed.

(** C11: no reserved character (in
    particular no slash or backslash, so no path separator) survives in a
    sanitized label. *)
Theorem clean_special_text_no_reserved text :
  Forall is_clean_char (clean_special_text text).
Proof.
  rewrite clean_special_text_spec. apply py_strip_Forall.
  apply Forall_map, Forall_forall. intros c _. apply sanitize_char_clean.
Qed.

(** A sanitized label neither starts nor
    ends with a whitespace character ([str.isspace]), whatever the text
    extraction or OCR returned around it. *)
Theorem clean_special_text_trimmed text c :
  (head (clean_special_text text) = Some c \/ last (clean_special_text text) = Some c) ->
  py_isspace c = false.
Proof. rewrite clean_special_text_spec. apply py_strip_trimmed. Qed.

Example clean_special_text_ex1 :
  clean_special_text (lit "  B-1/2
") = lit "B-1_2".
Proof. reflexivity. Qed.

Example clean_special_text_ex_reserved_only :
  clean_special_text [":"; "034"; ","; "\"]%char = lit "____".
Proof. reflexivity. Qed.

Example clean_special_text_ex_empty : clean_special_text [] = [].
Proof. reflexivity. Qed.

Lemma clean_special_text_trimmed_witness :
  head (clean_special_text (lit " B-1? ")) = Some "B"%char /\ py_isspace "B"%char = false.
Proof.
  split; [reflexivity|].
  apply (clean_special_text_trimmed (lit " B-1? ") "B"%char). left. reflexivity.
Defined.

End Sanitizer.
