(* ===== verification/Grouper.v ===== *)
(** * The section grouper: run-length grouping of ledger rows

    The abstract contract of the grouping done inside [split_pdf_from_csv]
    (src/SplitBoringLog2.1.py, lines 87-115): ledger rows, each a label and
    a page, are cut into maximal runs of consecutive rows with equal
    labels.  [runs] is that contract as a function; Splitter.v proves that
    the loop of the source writes exactly these runs, in order.  The
    theorems here characterise [runs]: the sections flatten back to the
    rows (so their pages partition the input), none is empty, two
    neighbours never share a label, and these three facts determine the
    grouping uniquely.  A label that comes back after another one starts a
    new section: the grouping is by run, not by label. *)

From S2P Require Import Prelude.

Module Grouper.

Section Runs.
Context {L P : Type} `{EqDecision L}.

(** Consecutive rows with equal labels form one section: a label and
    the pages of the run, in order. *)
Fixpoint runs (rows : list (L * P)) : list (L * list P) :=
  match rows with
  | [] => []
  | (l, p) :: rest =>
      match runs rest with
      | (l', ps) :: secs =>
          if decide (l = l') then (l, p :: ps) :: secs
          else (l, [p]) :: (l', ps) :: secs
      | [] => [(l, [p])]
      end
  end.

(** The rows a list of sections stands for. *)
Definition flatten (secs : list (L * list P)) : list (L * P) :=
  concat (map (fun '(l, ps) => map (fun p => (l, p)) ps) secs).

(** Well-formed sections: none empty, neighbours with distinct labels. *)
Fixpoint well_grouped (secs : list (L * list P)) : Prop :=
  match secs with
  | [] => True
  | (l, ps) :: rest =>
      ps <> [] /\
      match rest with
      | (l', _) :: _ => l <> l'
      | [] => True
      end /\ well_grouped rest
  end.

Lemma flatten_cons l ps secs :
  flatten ((l, ps) :: secs) = map (fun p => (l, p)) ps ++ flatten secs.
Proof. reflexivity. Qed.

Lemma runs_cons l p rest :
  runs ((l, p) :: rest) =
  match runs rest with
  | (l', ps) :: secs =>
      if decide (l = l') then (l, p :: ps) :: secs else (l, [p]) :: (l', ps) :: secs
  | [] => [(l, [p])]
  end.
Proof. reflexivity. Qed.

Lemma runs_head rows l p rest :
  rows = (l, p) :: rest -> exists ps secs, runs rows = (l, ps) :: secs.
Proof.
  intros ->. simpl. destruct (runs rest) as [|[l' ps] secs]; [by eauto|].
  case_decide; eauto.
Qed.

(** The head of a well-grouped, non-empty tail can absorb one more row. *)
Lemma well_grouped_cons_same l p ps secs :
  well_grouped ((l, ps) :: secs) -> well_grouped ((l, p :: ps) :: secs).
Proof. simpl. intros (_ & ? & ?). done. Qed.

Lemma runs_flatten rows : flatten (runs rows) = rows.
Proof.
  induction rows as [|[l p] rest IH]; [done|]. simpl.
  destruct (runs rest) as [|[l' ps] secs]; [by rewrite <- IH|].
  case_decide; [subst l'|]; rewrite <- IH; reflexivity.
Qed.

Lemma runs_well_grouped rows : well_grouped (runs rows).
Proof.
  induction rows as [|[l p] rest IH]; [done|]. simpl.
  destruct (runs rest) as [|[l' ps] secs]; [done|].
  case_decide; subst; simpl in *; intuition congruence.
Qed.

Lemma runs_prepend_run l ps X rest :
  ps <> [] -> runs X = rest ->
  match rest with (l', _) :: _ => l <> l' | [] => True end ->
  runs (map (fun p => (l, p)) ps ++ X) = (l, ps) :: rest.
Proof.
  intros Hps HX Hl. induction ps as [|p [|p2 ps''] IHps]; [done| |].
  - simpl. rewrite HX. destruct rest as [|[l' ps'] secs]; [done|].
    by case_decide.
  - change (runs ((l, p) :: (map (fun p => (l, p)) (p2 :: ps'') ++ X)) =
            (l, p :: p2 :: ps'') :: rest).
    rewrite runs_cons, IHps by done. by case_decide.
Qed.

Lemma well_grouped_runs_flatten secs :
  well_grouped secs -> runs (flatten secs) = secs.
Proof.
  induction secs as [|[l ps] rest IH]; [done|]. simpl. intros (Hps & Hl & Hw).
  rewrite flatten_cons. apply runs_prepend_run; [done| by apply IH | done].
Qed.

(** [runs] is the only well-grouped decomposition of the rows. *)
Lemma runs_unique rows secs :
  well_grouped secs -> flatten secs = rows -> secs = runs rows.
Proof. intros Hw <-. by rewrite well_grouped_runs_flatten. Qed.

(** The pages of the sections, in order, are the pages of the rows. *)
Lemma runs_pages rows : concat (map snd (runs rows)) = map snd rows.
Proof.
  rewrite <- (runs_flatten rows) at 2. generalize (runs rows). clear rows.
  induction l as [|[l ps] secs IH]; [done|].
  rewrite flatten_cons, map_app, map_map. simpl. rewrite IH, map_id. done.
Qed.

Lemma runs_nonempty rows sec : sec ∈ runs rows -> sec.2 <> [].
Proof.
  induction rows as [|[l p] rest IH]; [by intros ?%not_elem_of_nil|]. rewrite runs_cons.
  destruct (runs rest) as [|[l' ps] secs]; [intros ->%list_elem_of_singleton; done|].
  case_decide.
  - intros [->|Hin]%elem_of_cons; [done|]. apply IH. by right.
  - intros [->|Hin]%elem_of_cons; [done|]. by apply IH.
Qed.

(** Pending pages of the current label in front of the remaining rows:
    the pages form the first section unless the next label is the same. *)
Lemma runs_pending_new cur ps l p rest :
  ps <> [] -> l <> cur ->
  runs (map (fun q => (cur, q)) ps ++ (l, p) :: rest) = (cur, ps) :: runs ((l, p) :: rest).
Proof.
  intros Hps Hl. destruct (runs_head ((l, p) :: rest) l p rest eq_refl) as (ps' & secs & Hr).
  apply runs_prepend_run; [done|done|]. rewrite Hr. congruence.
Qed.

Lemma runs_pending_nil cur ps :
  runs (map (fun q => (cur, q)) ps ++ []) = match ps with [] => [] | _ => [(cur, ps)] end.
Proof. destruct ps as [|p ps]; [done|]. by apply runs_prepend_run. Qed.

End Runs.

#[export] Hint Resolve runs_well_grouped : boring.
#[export] Hint Rewrite @runs_flatten @runs_pages : boring_rw.

(** The spec's example: labels [A, A, B, A] give three sections; the two
    runs of [A] stay apart. *)
Example runs_AABA :
  runs [(1, 0); (1, 1); (2, 2); (1, 3)] = [(1, [0; 1]); (2, [2]); (1, [3])].
Proof. reflexivity. Qed.

End Grouper.
