(* ===== verification/Csv.v ===== *)
(** * The review ledger's file format: Python's [csv] module (excel dialect)

    The ledger is written by [generate_csv] with [csv.writer] and read back
    by [split_pdf_from_csv] with [csv.reader], both on files opened with
    [newline=''] (src/SplitBoringLog2.1.py, lines 56-58, 68, 73, 84-86).
    The [csv] module is CPython library code; this file models what
    [Modules/_csv.c] (CPython 3.11 and later) does for the default excel
    dialect: delimiter comma, quote character 34, doubled quotes, no escape
    character, line terminator CR LF, minimal quoting, non-strict parsing
    and the 131072-character field limit.

    - The writer renders a field verbatim unless it holds a comma, a quote,
      CR or LF, in which case it is quoted with its quotes doubled; a row
      made of one empty field is written as two quotes.
    - The reader is the state machine of [parse_process_char], run over the
      lines that the text file iterator yields (a line ends at LF, CR LF or
      a lone CR), each line followed by an end-of-line event [EOL].  The
      two escape states are unreachable without an escape character and
      are left out.

    The main theorem is the round trip: reading what the writer wrote gives
    back the rows, for fields within the size limit. *)

From S2P Require Import Prelude PyStr.

Module Csv.

Definition delimiter : ascii := ","%char.
Definition quotechar : ascii := "034"%char.
Definition CR : ascii := "013"%char.
Definition LF : ascii := "010"%char.
Definition lineterminator : pystr := [CR; LF].

(** [_csv.field_size_limit()] default. *)
Definition field_limit : Z := 131072.

Definition is_nl (c : ascii) : bool := bool_decide (c = CR) || bool_decide (c = LF).

(** ** The writer: [csv.writer(f).writerow(row)] *)

(** [join_append_data]: a character that is the delimiter, the quote
    character or in the line terminator makes the field quoted. *)
Definition needs_quotes (c : ascii) : bool :=
  bool_decide (c = delimiter) || bool_decide (c = quotechar) || is_nl c.

Definition escape_field (f : pystr) : pystr :=
  concat (map (fun c => if decide (c = quotechar) then [quotechar; quotechar] else [c]) f).

Definition render_field (f : pystr) : pystr :=
  if existsb needs_quotes f then quotechar :: escape_field f ++ [quotechar] else f.

(** The fields joined by the delimiter. *)
Fixpoint join_fields (row : list pystr) : pystr :=
  match row with
  | [] => []
  | [f] => render_field f
  | f :: rest => render_field f ++ delimiter :: join_fields rest
  end.

(** [csv_writerow]: a non-empty row whose record came out empty (one empty
    field) is written as a quoted empty field. *)
Definition write_row (row : list pystr) : pystr :=
  let rec := join_fields row in
  (if bool_decide (row <> []) && bool_decide (rec = []) then [quotechar; quotechar]
   else rec) ++ lineterminator.

Definition write_rows (rows : list (list pystr)) : pystr :=
  concat (map write_row rows).

(** ** The text file iterator with [newline='']

    Lines end at LF, at CR LF or at a lone CR, and keep their ending. *)
Fixpoint split_lines_acc (cur : pystr) (s : pystr) : list pystr :=
  match s with
  | [] => match cur with [] => [] | _ => [rev cur] end
  | c :: rest =>
      if decide (c = LF) then rev (c :: cur) :: split_lines_acc [] rest
      else if decide (c = CR) then
        match rest with
        | d :: rest' =>
            if decide (d = LF) then rev (d :: c :: cur) :: split_lines_acc [] rest'
            else rev (c :: cur) :: split_lines_acc [] rest
        | [] => [rev (c :: cur)]
        end
      else split_lines_acc (c :: cur) rest
  end.

Definition split_lines (s : pystr) : list pystr := split_lines_acc [] s.

(** ** The reader: [parse_process_char] *)

Inductive pstate : Type :=
  | START_RECORD | START_FIELD | IN_FIELD | IN_QUOTED_FIELD
  | QUOTE_IN_QUOTED_FIELD | EAT_CRNL.

#[export] Instance pstate_eq_dec : EqDecision pstate.
Proof. solve_decision. Defined.

(** A character of a line, or the end-of-line event sent after each line. *)
Inductive inchar : Type := Ch (c : ascii) | EOL.

Record reader := mkReader {
  rd_state : pstate;
  rd_fields : list pystr;   (** fields of the record being read *)
  rd_field : pystr          (** the field being read *)
}.

Definition reader_reset : reader := mkReader START_RECORD [] [].

Definition set_state (s : pstate) (r : reader) : reader :=
  mkReader s (rd_fields r) (rd_field r).

(** [parse_save_field] *)
Definition save_field (r : reader) : reader :=
  mkReader (rd_state r) (rd_fields r ++ [rd_field r]) [].

(** [parse_add_char]: fails once the field has reached the limit. *)
Definition add_char (r : reader) (c : ascii) : option reader :=
  if bool_decide (field_limit <= Z.of_nat (length (rd_field r)))%Z then None
  else Some (mkReader (rd_state r) (rd_fields r) (rd_field r ++ [c])).

(** The [START_FIELD] case, also reached by falling through from
    [START_RECORD]. *)
Definition start_field (r : reader) (x : inchar) : option reader :=
  match x with
  | EOL => Some (set_state START_RECORD (save_field r))
  | Ch c =>
      if is_nl c then Some (set_state EAT_CRNL (save_field r))
      else if decide (c = quotechar) then Some (set_state IN_QUOTED_FIELD r)
      else if decide (c = delimiter) then Some (save_field r)
      else set_state IN_FIELD <$> add_char r c
  end.

(** One step; [None] is a raised [_csv.Error]. *)
Definition process_char (r : reader) (x : inchar) : option reader :=
  match rd_state r with
  | START_RECORD =>
      match x with
      | EOL => Some r
      | Ch c => if is_nl c then Some (set_state EAT_CRNL r)
                else start_field (set_state START_FIELD r) x
      end
  | START_FIELD => start_field r x
  | IN_FIELD =>
      match x with
      | EOL => Some (set_state START_RECORD (save_field r))
      | Ch c =>
          if is_nl c then Some (set_state EAT_CRNL (save_field r))
          else if decide (c = delimiter) then Some (set_state START_FIELD (save_field r))
          else add_char r c
      end
  | IN_QUOTED_FIELD =>
      match x with
      | EOL => Some r
      | Ch c => if decide (c = quotechar) then Some (set_state QUOTE_IN_QUOTED_FIELD r)
                else add_char r c
      end
  | QUOTE_IN_QUOTED_FIELD =>
      match x with
      | EOL => Some (set_state START_RECORD (save_field r))
      | Ch c =>
          if decide (c = quotechar) then set_state IN_QUOTED_FIELD <$> add_char r c
          else if decide (c = delimiter) then Some (set_state START_FIELD (save_field r))
          else if is_nl c then Some (set_state EAT_CRNL (save_field r))
          else set_state IN_FIELD <$> add_char r c
      end
  | EAT_CRNL =>
      match x with
      | EOL => Some (set_state START_RECORD r)
      | Ch c => if is_nl c then Some r else None
      end
  end.

(** The characters of one line, then its end-of-line event. *)
Fixpoint process_chars (r : reader) (xs : list inchar) : option reader :=
  match xs with
  | [] => Some r
  | x :: rest => process_char r x ≫= fun r' => process_chars r' rest
  end.

Definition line_events (line : pystr) : list inchar := map Ch line ++ [EOL].

(** [Reader_iternext] over the whole file: the rows it yields, in order,
    and the error that stopped it, if any.  At the end of the input a
    record still in a quoted field, or with a non-empty field, is yielded
    with its field saved. *)
Fixpoint read_lines (r : reader) (lines : list pystr)
    : list (list pystr) * option exc :=
  match lines with
  | [] =>
      if bool_decide (rd_field r <> []) || bool_decide (rd_state r = IN_QUOTED_FIELD)
      then ([rd_fields (save_field r)], None)
      else ([], None)
  | line :: rest =>
      match process_chars r (line_events line) with
      | None => ([], Some CsvError)
      | Some r' =>
          if decide (rd_state r' = START_RECORD) then
            let '(rows, err) := read_lines reader_reset rest in
            (rd_fields r' :: rows, err)
          else read_lines r' rest
      end
  end.

Definition read_rows (s : pystr) : list (list pystr) * option exc :=
  read_lines reader_reset (split_lines s).

(** ** The event stream of a text

    [tokens s] lists the characters of [s] with an [EOL] after each line
    ending; [read_events] is [read_lines] over such a stream.  They are
    devices of the round-trip proof, not part of the library. *)

Fixpoint tokens (s : pystr) : list inchar :=
  match s with
  | [] => []
  | c :: rest =>
      if decide (c = LF) then Ch c :: EOL :: tokens rest
      else if decide (c = CR) then
        match rest with
        | d :: rest' =>
            if decide (d = LF) then Ch c :: Ch d :: EOL :: tokens rest'
            else Ch c :: EOL :: tokens rest
        | [] => [Ch c; EOL]
        end
      else Ch c :: tokens rest
  end.

Fixpoint read_events (r : reader) (xs : list inchar)
    : list (list pystr) * option exc :=
  match xs with
  | [] =>
      if bool_decide (rd_field r <> []) || bool_decide (rd_state r = IN_QUOTED_FIELD)
      then ([rd_fields (save_field r)], None)
      else ([], None)
  | x :: rest =>
      match process_char r x with
      | None => ([], Some CsvError)
      | Some r' =>
          match x with
          | EOL =>
              if decide (rd_state r' = START_RECORD) then
                let '(rows, err) := read_events reader_reset rest in
                (rd_fields r' :: rows, err)
              else read_events r' rest
          | Ch _ => read_events r' rest
          end
      end
  end.

Definition ends_nl (s : pystr) : Prop :=
  match last s with Some c => is_nl c = true | None => True end.

Lemma ends_nl_cons c s : s <> [] -> ends_nl (c :: s) -> ends_nl s.
Proof. unfold ends_nl. destruct s; [done|]. by rewrite last_cons_cons. Qed.

Local Ltac lines_solve := unfold line_events; cbn; rewrite ?map_app, <- ?app_assoc; reflexivity.
Lemma split_lines_tokens s cur :
  (s = [] -> cur = []) -> ends_nl s ->
  concat (map line_events (split_lines_acc cur s)) = map Ch (rev cur) ++ tokens s.
Proof.
  revert cur. induction s as [s IH] using list_len_ind. intros cur Hcur Hnl.
  destruct s as [|c rest]; [by rewrite Hcur|].
  simpl split_lines_acc. simpl tokens.
  case_decide as HLF; [|case_decide as HCR].
  - subst. cbn [map concat]. rewrite IH; [|simpl; lia|done|].
    + lines_solve.
    + destruct rest; [done|]. by apply ends_nl_cons in Hnl.
  - subst. destruct rest as [|d rest'].
    + lines_solve.
    + case_decide as Hd.
      * subst. cbn [map concat]. rewrite IH; [|simpl; lia|done|].
        -- lines_solve.
        -- destruct rest'; [done|]. by do 2 apply ends_nl_cons in Hnl.
      * cbn [map concat]. rewrite IH; [|simpl; lia|done|by apply ends_nl_cons in Hnl].
        lines_solve.
  - rewrite IH; [|simpl; lia| |].
    + lines_solve.
    + intros ->. exfalso. unfold ends_nl, is_nl in Hnl. simpl in Hnl.
      apply orb_true_iff in Hnl as [H|H]; apply bool_decide_eq_true in H; congruence.
    + destruct rest; [|by apply ends_nl_cons in Hnl].
      exfalso. unfold ends_nl, is_nl in Hnl. simpl in Hnl.
      apply orb_true_iff in Hnl as [H|H]; apply bool_decide_eq_true in H; congruence.
Qed.

Lemma tokens_LF s : tokens (LF :: s) = Ch LF :: EOL :: tokens s.
Proof. reflexivity. Qed.

Lemma tokens_CRLF s : tokens (CR :: LF :: s) = Ch CR :: Ch LF :: EOL :: tokens s.
Proof. reflexivity. Qed.

Lemma tokens_CR s : head s <> Some LF -> tokens (CR :: s) = Ch CR :: EOL :: tokens s.
Proof. destruct s as [|d s]; [done|]. simpl. intros H. case_decide; [congruence|done]. Qed.

Lemma tokens_other c s : c <> CR -> c <> LF -> tokens (c :: s) = Ch c :: tokens s.
Proof. intros. simpl. by repeat case_decide. Qed.

Lemma tokens_app a b :
  ~ (last a = Some CR /\ head b = Some LF) -> tokens (a ++ b) = tokens a ++ tokens b.
Proof.
  induction a as [a IH] using list_len_ind. intros Hab.
  destruct a as [|c a']; [done|]. simpl (_ ++ _).
  assert (Hl : forall x, x <> [] -> last (c :: x) = last x)
    by (intros [|??] ?; [done|by rewrite last_cons_cons]).
  destruct (decide (c = LF)) as [->|HLF]; [|destruct (decide (c = CR)) as [->|HCR]].
  - rewrite !tokens_LF, IH; [done|simpl; lia|]. intros [H1 H2]. apply Hab.
    destruct a'; [done|]. by rewrite Hl.
  - destruct a' as [|d a''].
    + simpl in Hab. rewrite !tokens_CR; [done..|]. destruct b; simpl in *; naive_solver.
    + destruct (decide (d = LF)) as [->|Hd].
      * simpl (_ ++ _). rewrite !tokens_CRLF, IH; [done|simpl; lia|]. intros [H1 H2]. apply Hab.
        destruct a''; [done|]. by rewrite !Hl.
      * simpl (_ ++ _). rewrite !tokens_CR by (simpl; congruence).
        change (d :: a'' ++ b) with ((d :: a'') ++ b). rewrite IH; [done|simpl; lia|].
        intros [H1 H2]. apply Hab. by rewrite Hl.
  - rewrite !tokens_other by done. rewrite IH; [done|simpl; lia|].
    intros [H1 H2]. apply Hab. destruct a'; [simpl in H1; congruence|]. by rewrite Hl.
Qed.

Lemma read_events_line r l rest :
  read_events r (map Ch l ++ EOL :: rest) =
  match process_chars r (line_events l) with
  | None => ([], Some CsvError)
  | Some r' =>
      if decide (rd_state r' = START_RECORD) then
        let '(rows, err) := read_events reader_reset rest in (rd_fields r' :: rows, err)
      else read_events r' rest
  end.
Proof.
  revert r. induction l as [|c l IH]; intros r; simpl.
  - destruct (process_char r EOL); done.
  - destruct (process_char r (Ch c)); [|done]. simpl. apply IH.
Qed.

Lemma read_lines_events r lines :
  read_lines r lines = read_events r (concat (map line_events lines)).
Proof.
  revert r. induction lines as [|l lines IH]; intros r; [done|].
  cbn [map concat read_lines]. unfold line_events at 2. rewrite <- app_assoc. simpl (_ ++ _).
  rewrite read_events_line. destruct (process_chars r _); [|done].
  case_decide; [|apply IH]. by rewrite IH.
Qed.

(** ** Reading back what the writer wrote *)

Lemma add_char_ok r c :
  (Z.of_nat (length (rd_field r)) < field_limit)%Z ->
  add_char r c = Some (mkReader (rd_state r) (rd_fields r) (rd_field r ++ [c])).
Proof. intros H. unfold add_char. rewrite bool_decide_false by lia. done. Qed.

Lemma quote_not_nl : quotechar <> CR /\ quotechar <> LF.
Proof. split; discriminate. Qed.

Lemma escape_field_cons c f :
  escape_field (c :: f) =
  (if decide (c = quotechar) then [quotechar; quotechar] else [c]) ++ escape_field f.
Proof. reflexivity. Qed.

Lemma escape_field_head f : head (escape_field f) = Some LF -> head f = Some LF.
Proof.
  destruct f as [|c f]; [done|]. rewrite escape_field_cons.
  case_decide; simpl; congruence.
Qed.

(** Inside a quoted field every character is kept, a doubled quote as one
    quote, and the line ends are ignored. *)
(** One lemma per transition of [process_char] that the writer's output
    exercises. *)
Section Steps.
Context (F : list pystr) (fb : pystr).
Local Abbreviation rdr s := (mkReader s F fb).

Lemma pc_inq_quote : process_char (rdr IN_QUOTED_FIELD) (Ch quotechar) = Some (rdr QUOTE_IN_QUOTED_FIELD).
Proof. reflexivity. Qed.
Lemma pc_inq_char c : c <> quotechar -> (Z.of_nat (length fb) < field_limit)%Z ->
  process_char (rdr IN_QUOTED_FIELD) (Ch c) = Some (mkReader IN_QUOTED_FIELD F (fb ++ [c])).
Proof. intros. unfold process_char. simpl. rewrite decide_False by done. by apply add_char_ok. Qed.
Lemma pc_inq_eol : process_char (rdr IN_QUOTED_FIELD) EOL = Some (rdr IN_QUOTED_FIELD).
Proof. reflexivity. Qed.
Lemma pc_qiq_quote : (Z.of_nat (length fb) < field_limit)%Z ->
  process_char (rdr QUOTE_IN_QUOTED_FIELD) (Ch quotechar) = Some (mkReader IN_QUOTED_FIELD F (fb ++ [quotechar])).
Proof. intros. unfold process_char. simpl. by rewrite add_char_ok. Qed.
Lemma pc_qiq_delim : process_char (rdr QUOTE_IN_QUOTED_FIELD) (Ch delimiter) = Some (mkReader START_FIELD (F ++ [fb]) []).
Proof. reflexivity. Qed.
Lemma pc_qiq_cr : process_char (rdr QUOTE_IN_QUOTED_FIELD) (Ch CR) = Some (mkReader EAT_CRNL (F ++ [fb]) []).
Proof. reflexivity. Qed.
Lemma pc_inf_char c : needs_quotes c = false -> (Z.of_nat (length fb) < field_limit)%Z ->
  process_char (rdr IN_FIELD) (Ch c) = Some (mkReader IN_FIELD F (fb ++ [c])).
Proof.
  unfold needs_quotes. intros [[Hd Hq]%orb_false_iff Hn]%orb_false_iff ?.
  unfold process_char. simpl. rewrite Hn, decide_False by (intros ->; done). by apply add_char_ok.
Qed.
Lemma pc_inf_delim : process_char (rdr IN_FIELD) (Ch delimiter) = Some (mkReader START_FIELD (F ++ [fb]) []).
Proof. reflexivity. Qed.
Lemma pc_inf_cr : process_char (rdr IN_FIELD) (Ch CR) = Some (mkReader EAT_CRNL (F ++ [fb]) []).
Proof. reflexivity. Qed.
Lemma pc_eat_lf : process_char (rdr EAT_CRNL) (Ch LF) = Some (rdr EAT_CRNL).
Proof. reflexivity. Qed.
Lemma pc_eat_eol : process_char (rdr EAT_CRNL) EOL = Some (rdr START_RECORD).
Proof. reflexivity. Qed.
End Steps.

Section FieldSteps.
Context (F : list pystr).
Lemma pc_sf_quote : process_char (mkReader START_FIELD F []) (Ch quotechar) = Some (mkReader IN_QUOTED_FIELD F []).
Proof. reflexivity. Qed.
Lemma pc_sf_delim : process_char (mkReader START_FIELD F []) (Ch delimiter) = Some (mkReader START_FIELD (F ++ [[]]) []).
Proof. reflexivity. Qed.
Lemma pc_sf_cr : process_char (mkReader START_FIELD F []) (Ch CR) = Some (mkReader EAT_CRNL (F ++ [[]]) []).
Proof. reflexivity. Qed.
Lemma pc_sf_char c : needs_quotes c = false ->
  process_char (mkReader START_FIELD F []) (Ch c) = Some (mkReader IN_FIELD F [c]).
Proof.
  unfold needs_quotes. intros [[Hd Hq]%orb_false_iff Hn]%orb_false_iff.
  unfold process_char, start_field. simpl. rewrite Hn.
  rewrite !decide_False by (intros ->; done). done.
Qed.
End FieldSteps.

Lemma re_ch r c r' X : process_char r (Ch c) = Some r' -> read_events r (Ch c :: X) = read_events r' X.
Proof. intros H. simpl. by rewrite H. Qed.

Lemma re_eol_cont r r' X : process_char r EOL = Some r' -> rd_state r' <> START_RECORD ->
  read_events r (EOL :: X) = read_events r' X.
Proof. intros H Hs. simpl. rewrite H. by rewrite decide_False. Qed.

Lemma re_eol_yield r r' X : process_char r EOL = Some r' -> rd_state r' = START_RECORD ->
  read_events r (EOL :: X) = let '(rows, err) := read_events reader_reset X in (rd_fields r' :: rows, err).
Proof. intros H Hs. simpl. rewrite H. by rewrite decide_True. Qed.

Lemma tokens_nil : tokens [] = [].
Proof. reflexivity. Qed.

Arguments tokens : simpl never.
Arguments escape_field : simpl never.

Lemma read_quoted_body f F fb X :
  (Z.of_nat (length fb + length f) <= field_limit)%Z ->
  read_events (mkReader IN_QUOTED_FIELD F fb) (tokens (escape_field f) ++ X) =
  read_events (mkReader IN_QUOTED_FIELD F (fb ++ f)) X.
Proof.
  revert fb. induction f as [f IH] using list_len_ind. intros fb Hlen.
  destruct f as [|c f']; [by rewrite app_nil_r|].
  simpl length in Hlen. rewrite escape_field_cons.
  assert (IH' : forall g fb', length g < length (c :: f') -> fb' ++ g = fb ++ c :: f' ->
      (Z.of_nat (length fb' + length g) <= field_limit)%Z ->
      read_events (mkReader IN_QUOTED_FIELD F fb') (tokens (escape_field g) ++ X) =
      read_events (mkReader IN_QUOTED_FIELD F (fb ++ c :: f')) X)
    by (intros g fb' Hg Heq Hl; rewrite IH by done; by rewrite Heq).
  case_decide as Hq.
  - subst c. cbn [app]. rewrite !tokens_other by discriminate. cbn [app].
    rewrite (re_ch _ _ _ _ (pc_inq_quote _ _)), (re_ch _ _ _ _ (pc_qiq_quote F fb ltac:(lia))).
    apply IH'; [simpl; lia|by rewrite <- app_assoc|rewrite length_app; simpl; lia].
  - destruct (decide (c = LF)) as [->|HLF]; [|destruct (decide (c = CR)) as [->|HCR]].
    + cbn [app]. rewrite tokens_LF. cbn [app].
      rewrite (re_ch _ _ _ _ (pc_inq_char F fb LF ltac:(discriminate) ltac:(lia))).
      rewrite (re_eol_cont _ _ _ (pc_inq_eol _ _)) by discriminate.
      apply IH'; [simpl; lia|by rewrite <- app_assoc|rewrite length_app; simpl; lia].
    + destruct f' as [|d f''].
      * cbn [app]. rewrite tokens_CR by done. cbn [app].
        rewrite (re_ch _ _ _ _ (pc_inq_char F fb CR ltac:(discriminate) ltac:(lia))).
        by rewrite (re_eol_cont _ _ _ (pc_inq_eol _ _)) by discriminate.
      * simpl length in Hlen. destruct (decide (d = LF)) as [->|Hd].
        -- rewrite escape_field_cons, decide_False by discriminate. cbn [app].
           rewrite tokens_CRLF. cbn [app].
           rewrite (re_ch _ _ _ _ (pc_inq_char F fb CR ltac:(discriminate) ltac:(lia))).
           rewrite (re_ch _ _ _ _ (pc_inq_char F (fb ++ [CR]) LF ltac:(discriminate) ltac:(simpl in Hlen; rewrite length_app; simpl; lia))).
           rewrite (re_eol_cont _ _ _ (pc_inq_eol _ _)) by discriminate.
           apply IH'; [simpl; lia|by rewrite <- !app_assoc|rewrite !length_app; simpl; lia].
        -- cbn [app]. rewrite tokens_CR.
           ++ cbn [app]. rewrite (re_ch _ _ _ _ (pc_inq_char F fb CR ltac:(discriminate) ltac:(lia))).
              rewrite (re_eol_cont _ _ _ (pc_inq_eol _ _)) by discriminate.
              apply IH'; [simpl; lia|by rewrite <- app_assoc|rewrite length_app; simpl; lia].
           ++ intros H. apply escape_field_head in H. simpl in H. congruence.
    + cbn [app]. rewrite tokens_other by done. cbn [app].
      rewrite (re_ch _ _ _ _ (pc_inq_char F fb c Hq ltac:(lia))).
      apply IH'; [simpl; lia|by rewrite <- app_assoc|rewrite length_app; simpl; lia].
Qed.

Lemma needs_quotes_not_nl c : needs_quotes c = false -> c <> CR /\ c <> LF.
Proof.
  unfold needs_quotes, is_nl. intros [_ [H1 H2]%orb_false_iff]%orb_false_iff.
  apply bool_decide_eq_false in H1, H2. done.
Qed.

Lemma tokens_plain f : Forall (fun c => needs_quotes c = false) f -> tokens f = map Ch f.
Proof.
  induction 1 as [|c f Hc _ IH]; [done|].
  destruct (needs_quotes_not_nl c Hc). by rewrite tokens_other, IH.
Qed.

Lemma read_plain_chars f F fb X :
  Forall (fun c => needs_quotes c = false) f -> (Z.of_nat (length fb + length f) <= field_limit)%Z ->
  read_events (mkReader IN_FIELD F fb) (map Ch f ++ X) =
  read_events (mkReader IN_FIELD F (fb ++ f)) X.
Proof.
  intros Hf. revert fb. induction Hf as [|c f Hc _ IH]; intros fb Hlen.
  - by rewrite app_nil_r.
  - simpl in Hlen. cbn [map app].
    rewrite (re_ch _ _ _ _ (pc_inf_char F fb c Hc ltac:(lia))), IH
      by (rewrite length_app; simpl; lia).
    by rewrite <- app_assoc.
Qed.

Definition after_delim (d : ascii) : pstate :=
  if decide (d = delimiter) then START_FIELD else EAT_CRNL.

Lemma existsb_false_Forall (p : ascii -> bool) f :
  existsb p f = false -> Forall (fun c => p c = false) f.
Proof.
  induction f as [|c f IH]; simpl; [done|]. intros [H1 H2]%orb_false_iff. by constructor; [|apply IH].
Qed.

(** One field, rendered by the writer and followed by a comma or by the
    line terminator, is read back exactly. *)
Lemma read_field f F d X :
  (Z.of_nat (length f) <= field_limit)%Z -> d = delimiter \/ d = CR ->
  read_events (mkReader START_FIELD F []) (tokens (render_field f) ++ Ch d :: X) =
  read_events (mkReader (after_delim d) (F ++ [f]) []) X.
Proof.
  intros Hlen Hd. unfold render_field.
  destruct (existsb needs_quotes f) eqn:Hq.
  - rewrite tokens_other by discriminate.
    rewrite tokens_app by (simpl; intros [_ H]; discriminate).
    rewrite tokens_other, tokens_nil by discriminate. cbn [app]. rewrite <- app_assoc.
    rewrite (re_ch _ _ _ _ (pc_sf_quote F)), read_quoted_body by (simpl; lia).
    cbn [app]. rewrite (re_ch _ _ _ _ (pc_inq_quote F f)).
    unfold after_delim. destruct Hd as [->| ->].
    + rewrite decide_True by done. by rewrite (re_ch _ _ _ _ (pc_qiq_delim F f)).
    + rewrite decide_False by discriminate. by rewrite (re_ch _ _ _ _ (pc_qiq_cr F f)).
  - apply existsb_false_Forall in Hq. rewrite tokens_plain by done.
    unfold after_delim. destruct f as [|c f'].
    + destruct Hd as [->| ->]; cbn [map app].
      * rewrite decide_True by done. by rewrite (re_ch _ _ _ _ (pc_sf_delim F)).
      * rewrite decide_False by discriminate. by rewrite (re_ch _ _ _ _ (pc_sf_cr F)).
    + apply Forall_cons in Hq as [Hc Hq]. cbn [map app].
      rewrite (re_ch _ _ _ _ (pc_sf_char F c Hc)).
      rewrite (read_plain_chars f' F [c]) by (done || (simpl in *; lia)). cbn [app].
      destruct Hd as [->| ->].
      * rewrite decide_True by done. by rewrite (re_ch _ _ _ _ (pc_inf_delim F (c :: f'))).
      * rewrite decide_False by discriminate. by rewrite (re_ch _ _ _ _ (pc_inf_cr F (c :: f'))).
Qed.

Lemma read_join row F X :
  row <> [] -> Forall (fun f => (Z.of_nat (length f) <= field_limit)%Z) row ->
  read_events (mkReader START_FIELD F []) (tokens (join_fields row) ++ Ch CR :: Ch LF :: EOL :: X) =
  let '(rows, err) := read_events reader_reset X in ((F ++ row) :: rows, err).
Proof.
  intros Hne Hrow. revert F. induction Hrow as [|f rest Hf Hrest IH]; intros F; [done|].
  destruct rest as [|g rest].
  - simpl join_fields. rewrite read_field by auto. unfold after_delim.
    rewrite decide_False by discriminate.
    rewrite (re_ch _ _ _ _ (pc_eat_lf (F ++ [f]) [])).
    by rewrite (re_eol_yield _ _ _ (pc_eat_eol (F ++ [f]) [])).
  - change (join_fields (f :: g :: rest)) with (render_field f ++ delimiter :: join_fields (g :: rest)).
    rewrite tokens_app by (simpl; intros [_ H]; discriminate).
    rewrite tokens_other by discriminate. rewrite <- app_assoc. cbn [app].
    rewrite read_field by auto. unfold after_delim. rewrite decide_True by done.
    rewrite IH by done. by rewrite <- app_assoc.
Qed.

Lemma render_field_nil f : render_field f = [] -> f = [].
Proof. unfold render_field. by destruct (existsb needs_quotes f). Qed.

(** The record's first character is never a line end, so the reader
    leaves [START_RECORD] for [START_FIELD] on it. *)
Lemma join_fields_head row c J :
  join_fields row = c :: J -> is_nl c = false.
Proof.
  assert (Hr : forall f c J, render_field f = c :: J -> is_nl c = false).
  { intros f c' J'. unfold render_field. destruct (existsb needs_quotes f) eqn:Hq.
    - intros [= <- _]. reflexivity.
    - apply existsb_false_Forall in Hq. destruct f as [|d f]; [done|]. intros [= <- _].
      apply Forall_cons in Hq as [Hd _]. unfold needs_quotes in Hd.
      by apply orb_false_iff in Hd as [_ ->]. }
  destruct row as [|f [|g rest]]; [done|apply Hr|]. simpl.
  destruct (render_field f) as [|d r] eqn:E; [by intros [= <- _]|].
  intros [= <- _]. by eapply Hr.
Qed.

Lemma is_nl_false c : is_nl c = false -> c <> CR /\ c <> LF.
Proof.
  unfold is_nl. intros [H1 H2]%orb_false_iff. by apply bool_decide_eq_false in H1, H2.
Qed.

Lemma read_start_record c J Y :
  is_nl c = false ->
  read_events reader_reset (tokens (c :: J) ++ Y) =
  read_events (mkReader START_FIELD [] []) (tokens (c :: J) ++ Y).
Proof.
  intros H. destruct (is_nl_false c H). rewrite tokens_other by done.
  cbn -[is_nl start_field tokens]. by rewrite H.
Qed.

Lemma read_write_row row X :
  Forall (fun f => (Z.of_nat (length f) <= field_limit)%Z) row ->
  read_events reader_reset (tokens (write_row row) ++ X) =
  let '(rows, err) := read_events reader_reset X in (row :: rows, err).
Proof.
  intros Hrow. unfold write_row. cbv zeta.
  destruct row as [|f rest]; [reflexivity|].
  rewrite (bool_decide_true (f :: rest <> [])) by done.
  destruct (join_fields (f :: rest)) as [|c J] eqn:Hj.
  - assert (f = [] /\ rest = []) as [-> ->].
    { destruct rest as [|g rest]; [by apply render_field_nil in Hj|].
      simpl in Hj. destruct (render_field f); discriminate. }
    reflexivity.
  - rewrite (bool_decide_false (c :: J = [])) by done. simpl andb. cbv iota.
    rewrite tokens_app by (simpl; intros [_ H]; discriminate).
    rewrite <- app_assoc, read_start_record by (by eapply join_fields_head).
    rewrite <- Hj.
    change (tokens lineterminator) with [Ch CR; Ch LF; EOL]. cbn [app].
    by rewrite read_join.
Qed.

Lemma tokens_write_rows rows :
  tokens (write_rows rows) = concat (map (fun r => tokens (write_row r)) rows).
Proof.
  induction rows as [|r rows IH]; [done|]. unfold write_rows. cbn [map concat].
  rewrite tokens_app; [by rewrite <- IH|].
  unfold write_row, lineterminator. rewrite last_app. simpl. intros [[=] _].
Qed.

Lemma write_rows_ends_nl rows : ends_nl (write_rows rows).
Proof.
  induction rows as [|r rows IH] using rev_ind; [done|].
  unfold write_rows. rewrite map_app, concat_app. simpl. rewrite app_nil_r.
  unfold ends_nl, write_row, lineterminator. rewrite last_app, last_app. simpl.
  reflexivity.
Qed.

(** The ledger round trip: what [csv.writer] writes, [csv.reader] reads
    back, row for row, when no field is over the size limit. *)
Theorem read_rows_write_rows rows :
  Forall (Forall (fun f => (Z.of_nat (length f) <= field_limit)%Z)) rows ->
  read_rows (write_rows rows) = (rows, None).
Proof.
  intros Hrows. unfold read_rows, split_lines. rewrite read_lines_events.
  rewrite split_lines_tokens; [|done|apply write_rows_ends_nl]. simpl.
  rewrite tokens_write_rows. clear -Hrows.
  induction Hrows as [|r rows Hr _ IH]; [done|]. cbn [map concat].
  rewrite read_write_row by done. by rewrite IH.
Qed.

End Csv.
