(* ===== verification/PyPath.v ===== *)
(** * [os.path] as the tool uses it

    [os.path.splitext], [os.path.basename] and [os.path.join] from
    CPython's [posixpath]/[genericpath] (library code).  The tool derives
    every path from the one the user picks: the ledger path from the PDF
    path (line 55), the PDF and output folder from the ledger path
    (lines 155-156) and the output file names (lines 97, 110).  On Windows
    [ntpath] also splits at backslashes and drive letters; the sanitized
    labels contain neither slash nor backslash, so the theorems about
    output names hold for both. *)

From S2P Require Import Prelude PyStr.

Module PyPath.

Definition sep : ascii := "/"%char.
Definition extsep : ascii := "."%char.

(** [s.rfind(c)]: the last index of [c], [None] for -1. *)
Fixpoint rfind (c : ascii) (s : pystr) : option nat :=
  match s with
  | [] => None
  | d :: r =>
      match rfind c r with
      | Some i => Some (S i)
      | None => if decide (d = c) then Some 0 else None
      end
  end.

(** [posixpath.basename]: what follows the last separator. *)
Definition basename (p : pystr) : pystr :=
  match rfind sep p with Some i => drop (S i) p | None => p end.

(** [genericpath._splitext(p, '/', None, '.')]: split at the last dot of
    the last component, unless that component is dots up to that dot. *)
Definition splitext (p : pystr) : pystr * pystr :=
  let sepIndex : Z := match rfind sep p with Some i => Z.of_nat i | None => (-1)%Z end in
  match rfind extsep p with
  | Some d =>
      if bool_decide (sepIndex < Z.of_nat d)%Z then
        (* while filenameIndex < dotIndex: if p[filenameIndex] != '.': split *)
        let start := Z.to_nat (sepIndex + 1) in
        if existsb (fun c => negb (bool_decide (c = extsep))) (take (d - start) (drop start p))
        then (take d p, drop d p)
        else (p, [])
      else (p, [])
  | None => (p, [])
  end.

(** [posixpath.join(a, b)] *)
Definition join (a b : pystr) : pystr :=
  match b with
  | c :: _ => if decide (c = sep) then b
              else match last a with
                   | None => b
                   | Some l => if decide (l = sep) then a ++ b else a ++ sep :: b
                   end
  | [] => match last a with
          | None => []
          | Some l => if decide (l = sep) then a else a ++ [sep]
          end
  end.

(** [s.lstrip('/')] *)
Fixpoint lstrip_sep (s : pystr) : pystr :=
  match s with
  | c :: r => if decide (c = sep) then lstrip_sep r else s
  | [] => []
  end.

(** [posixpath.dirname]: the path up to its last separator, with the
    trailing separators removed unless it is nothing but separators. *)
Definition dirname (p : pystr) : pystr :=
  let head := match rfind sep p with Some i => take (S i) p | None => [] end in
  if existsb (fun c => negb (bool_decide (c = sep))) head
  then rev (lstrip_sep (rev head)) else head.

(** ** Lemmas *)

Lemma rfind_Some c s i :
  rfind c s = Some i -> s !! i = Some c /\ forall j d, i < j -> s !! j = Some d -> d <> c.
Proof.
  revert i. induction s as [|d r IH]; intros i; simpl; [done|].
  destruct (rfind c r) as [k|] eqn:E.
  - intros [= <-]. destruct (IH k eq_refl) as [Hk Hj]. split; [done|].
    intros [|j] e Hij Hje; [lia|]. apply (Hj j); [lia|done].
  - case_decide as Hd; [|done]. intros [= <-]. subst d. split; [done|].
    intros [|j] e Hij Hje; [lia|]. simpl in Hje. intros ->.
    clear -E Hje. revert j Hje. induction r as [|x r IH']; intros j Hje; [done|].
    simpl in E. destruct (rfind c r); [done|]. case_decide; [done|].
    destruct j as [|j]; simpl in Hje; [congruence|]. by apply (IH' eq_refl j).
Qed.

Lemma rfind_None c s : rfind c s = None -> c ∉ s.
Proof.
  induction s as [|d r IH]; simpl; [intros _; apply not_elem_of_nil|].
  destruct (rfind c r); [done|]. case_decide; [done|].
  intros _ [->|Hin]%elem_of_cons; [done|]. by apply IH.
Qed.

(** The base name holds no separator. *)
Lemma basename_no_sep p : sep ∉ basename p.
Proof.
  unfold basename. destruct (rfind sep p) as [i|] eqn:E; [|by apply rfind_None].
  destruct (rfind_Some _ _ _ E) as [_ Hj]. intros Hin.
  apply list_elem_of_lookup in Hin as [k Hk]. rewrite lookup_drop in Hk.
  apply (Hj (S i + k) sep); [lia|done|done].
Qed.

(** The root of [splitext] is a prefix of the path. *)
Lemma splitext_fst_prefix p : exists k, fst (splitext p) = take k p.
Proof.
  unfold splitext. destruct (rfind extsep p) as [d|]; [|exists (length p); by rewrite take_ge].
  destruct (bool_decide _); [|exists (length p); by rewrite take_ge].
  destruct (existsb _ _); [by exists d|exists (length p); by rewrite take_ge].
Qed.

Lemma take_not_elem_of {A} (x : A) k l : x ∉ l -> x ∉ take k l.
Proof. intros H Hin. apply H. rewrite <- (take_drop k l). apply elem_of_app. by left. Qed.

Lemma splitext_basename_no_sep p : sep ∉ fst (splitext (basename p)).
Proof.
  destruct (splitext_fst_prefix (basename p)) as [k ->].
  apply take_not_elem_of, basename_no_sep.
Qed.

(** Joining a folder with names that do not start with a separator is
    injective in the name. *)
Lemma join_inj a b1 b2 :
  head b1 <> Some sep -> head b2 <> Some sep -> b1 <> [] -> b2 <> [] ->
  join a b1 = join a b2 -> b1 = b2.
Proof.
  unfold join. destruct b1 as [|c1 b1], b2 as [|c2 b2]; try done. simpl.
  intros H1 H2 _ _. rewrite !decide_False by congruence.
  destruct (last a) as [l|]; [|done].
  case_decide; intros Heq; apply app_inv_head in Heq; congruence.
Qed.

Lemma rfind_app c a b :
  rfind c (a ++ b) = match rfind c b with Some i => Some (length a + i) | None => rfind c a end.
Proof.
  induction a as [|d a IH]; simpl; [by destruct (rfind c b)|].
  rewrite IH. destruct (rfind c b); [done|]. by destruct (rfind c a).
Qed.

Lemma rfind_lt c s i : rfind c s = Some i -> i < length s.
Proof. intros H. apply rfind_Some in H as [H _]. by apply lookup_lt_Some in H. Qed.

(** Whether [base ++ ext] splits at the dot that starts [ext]: the last
    component of [base] holds a character other than a dot. *)
Definition stem_ok (base : pystr) : bool :=
  let start := match rfind sep base with Some i => S i | None => 0 end in
  existsb (fun c => negb (bool_decide (c = extsep))) (drop start base).

Lemma splitext_ext base ext :
  extsep ∉ ext -> sep ∉ ext ->
  splitext (base ++ extsep :: ext) =
  if stem_ok base then (base, extsep :: ext) else (base ++ extsep :: ext, []).
Proof.
  intros Hd Hs. unfold splitext, stem_ok.
  assert (Hr : forall c, c ∉ ext -> rfind c (extsep :: ext) =
                 if decide (extsep = c) then Some 0 else None).
  { intros c Hc. simpl. destruct (rfind c ext) eqn:E;
      [apply rfind_Some in E as [E _]; destruct Hc; by eapply list_elem_of_lookup_2|done]. }
  rewrite !rfind_app, (Hr extsep Hd), (Hr sep Hs). rewrite decide_True by done.
  rewrite decide_False by done. rewrite Nat.add_0_r.
  destruct (rfind sep base) as [i|] eqn:Ei.
  - pose proof (rfind_lt _ _ _ Ei).
    rewrite bool_decide_true by lia. replace (Z.to_nat (Z.of_nat i + 1)) with (S i) by lia.
    rewrite drop_app_le by lia. rewrite take_app_le by (rewrite length_drop; lia).
    rewrite take_ge by (rewrite length_drop; lia).
    destruct (existsb _ _); [|done]. by rewrite take_app_length, drop_app_length.
  - rewrite bool_decide_true by lia. simpl. rewrite drop_0, take_app_le by lia.
    rewrite take_ge by lia. destruct (existsb _ _); [|done].
    by rewrite take_app_length, drop_app_length.
Qed.

(** Two paths that differ only in an extension without dot or separator
    split the same way. *)
Lemma splitext_change_ext base e1 e2 :
  extsep ∉ e1 -> sep ∉ e1 -> extsep ∉ e2 -> sep ∉ e2 ->
  splitext (base ++ extsep :: e1) = (base, extsep :: e1) ->
  splitext (base ++ extsep :: e2) = (base, extsep :: e2).
Proof.
  intros H1 H2 H3 H4. rewrite !splitext_ext by done.
  destruct (stem_ok base); [done|]. by intros [=].
Qed.

Lemma splitext_app p : (splitext p).1 ++ (splitext p).2 = p.
Proof.
  unfold splitext. destruct (rfind extsep p); [|apply app_nil_r].
  destruct (bool_decide _); [|apply app_nil_r].
  destruct (existsb _ _); [apply take_drop|apply app_nil_r].
Qed.

(** The extension is empty or starts with the dot. *)
Lemma splitext_snd p : (splitext p).2 = [] \/ head (splitext p).2 = Some extsep.
Proof.
  unfold splitext. destruct (rfind extsep p) as [d|] eqn:E; [|by left].
  destruct (bool_decide _); [|by left]. destruct (existsb _ _); [|by left].
  right. simpl. rewrite head_lookup, lookup_drop, Nat.add_0_r.
  by apply rfind_Some in E as [? _].
Qed.

(** A folder that does not end in a separator, joined with a name. *)
Lemma join_name a b :
  last a <> None -> last a <> Some sep -> b <> [] -> sep ∉ b -> join a b = a ++ sep :: b.
Proof.
  intros Ha Hs Hb Hn. unfold join. destruct b as [|c b]; [done|].
  rewrite decide_False by (intros ->; apply Hn; constructor).
  destruct (last a) as [l|]; [|done]. by rewrite decide_False by congruence.
Qed.

Lemma rfind_no_elem c s : c ∉ s -> rfind c s = None.
Proof.
  induction s as [|d r IH]; simpl; [done|]. intros Hn.
  rewrite IH by (intros ?; apply Hn; by right).
  rewrite decide_False; [done|]. intros ->. apply Hn. by left.
Qed.

Lemma dirname_join a b :
  last a <> None -> last a <> Some sep -> b <> [] -> sep ∉ b -> dirname (join a b) = a.
Proof.
  intros Ha Hs Hb Hn. rewrite join_name by done. unfold dirname.
  rewrite rfind_app. simpl. rewrite rfind_no_elem by done.
  rewrite Nat.add_0_r. replace (S (length a)) with (length (a ++ [sep]))
    by (rewrite length_app; simpl; lia).
  replace (a ++ sep :: b) with ((a ++ [sep]) ++ b) by by rewrite <- app_assoc.
  rewrite take_app_length.
  destruct (last a) as [l|] eqn:El; [|done].
  apply last_Some in El as [a' ->].
  rewrite !existsb_app. simpl. rewrite (bool_decide_false (l = sep)) by congruence.
  simpl. rewrite orb_true_r, !rev_app_distr. simpl.
  repeat case_decide; try congruence. simpl. by rewrite rev_involutive.
Qed.

Lemma basename_join_name a n : sep ∉ n -> basename (a ++ sep :: n) = n.
Proof.
  intros Hn. unfold basename. rewrite rfind_app. simpl. rewrite rfind_no_elem by done.
  rewrite Nat.add_0_r.
  replace (a ++ sep :: n) with ((a ++ [sep]) ++ n) by by rewrite <- app_assoc.
  rewrite drop_app_le by (rewrite length_app; simpl; lia).
  replace (S (length a)) with (length (a ++ [sep])) by (rewrite length_app; simpl; lia).
  by rewrite drop_all.
Qed.

Example splitext_ex1 : splitext (lit "dir/log.v2.pdf") = (lit "dir/log.v2", lit ".pdf").
Proof. reflexivity. Qed.

Example splitext_ex_dotfile : splitext (lit "dir/.pdf") = (lit "dir/.pdf", []).
Proof. reflexivity. Qed.

Example basename_ex : basename (lit "C:/logs/B.pdf") = lit "B.pdf".
Proof. reflexivity. Qed.

End PyPath.
