(* ===== verification/Fs.v ===== *)
(** * The file system and the PDF libraries, as the tool sees them

    The two steps of the tool communicate only through files: step 1 reads
    the source PDF and writes the ledger (a CSV file), step 2 reads both
    and writes one PDF per section.  This file models that shared store and
    the library calls that touch it:

    - [fs]: a map from paths to contents (a PDF, as its list of pages, or
      a text file), the set of existing directories, the set of paths that
      cannot be opened for writing (an output PDF still open in a viewer on
      Windows, a read-only file), and the log of the writes in order (an
      observation of the run, not program state);
    - [PdfBackend]: what PyMuPDF ([fitz]) and Tesseract provide per page:
      the text of the text layer inside a rectangle, and the text that OCR
      recognises in that rectangle rendered at twice the resolution.  Both
      may raise ([None]).  The class is the interface the extraction
      component is proved against; any backend instance discharges it;
    - the page indexing of the two libraries: PyMuPDF's [load_page] adds
      the page count to a negative index until it is non-negative; PyPDF2's
      [reader.pages[k]] adds it once and raises [IndexError] out of range.

    All of this is library behaviour (PyMuPDF, PyPDF2, the OS), modelled
    from their documented semantics. *)

From S2P Require Import Prelude PyStr.

Module Fs.

(** A rectangle [fitz.Rect(x1, y1, x2, y2)] in points, origin top left. *)
Record rect := mkRect { x1 : Z; y1 : Z; x2 : Z; y2 : Z }.

Class PdfBackend (Page : Type) := {
  (** [page.get_text('text', clip=rect)] *)
  get_text_clip : Page -> rect -> option pystr;
  (** [page.get_pixmap(matrix=fitz.Matrix(2, 2), clip=area)], then
      [pixmap.pdfocr_tobytes(language='eng', tessdata=...)] opened as a
      one-page PDF and [get_text()] of that page *)
  ocr_clip : Page -> rect -> option pystr
}.

Section Store.
Context {Page : Type}.

Inductive content : Type :=
  | PdfFile (pages : list Page)
  | TextFile (text : pystr).

Record fs := mkFs {
  files : gmap pystr content;
  dirs : gset pystr;
  locked : gset pystr;
  log : list (pystr * content)
}.

(** [os.path.exists] *)
Definition path_exists (st : fs) (p : pystr) : bool :=
  bool_decide (p ∈ dirs st) || bool_decide (is_Some (files st !! p)).

(** [os.makedirs] (creating the missing parents is not tracked). *)
Definition makedirs (p : pystr) (st : fs) : fs :=
  mkFs (files st) ({[p]} ∪ dirs st) (locked st) (log st).

(** [open(p, 'w'/'wb')] followed by writing [c] and closing. *)
Definition write_file (p : pystr) (c : content) (st : fs) : pyres fs :=
  if decide (p ∈ locked st) then PRaise PermissionError
  else POk (mkFs (<[p := c]> (files st)) (dirs st) (locked st) (log st ++ [(p, c)])).

(** Appending text to a file already open for writing. *)
Definition append_text (p : pystr) (s : pystr) (st : fs) : fs :=
  match files st !! p with
  | Some (TextFile t) =>
      mkFs (<[p := TextFile (t ++ s)]> (files st)) (dirs st) (locked st) (log st)
  | _ => st
  end.

(** [open(p, 'r').read()] *)
Definition read_text (p : pystr) (st : fs) : pyres pystr :=
  match files st !! p with
  | Some (TextFile s) => POk s
  | Some (PdfFile _) => PRaise ValueError
  | None => PRaise FileNotFound
  end.

(** [PdfReader(p)] (PyPDF2) and [fitz.open(p)] (PyMuPDF). *)
Definition open_pdf (p : pystr) (st : fs) : pyres (list Page) :=
  match files st !! p with
  | Some (PdfFile pages) => POk pages
  | Some (TextFile _) => PRaise PdfError
  | None => PRaise FileNotFound
  end.

(** The file system after a sequence of successful writes. *)
Definition apply_writes (ws : list (pystr * content)) (st : fs) : fs :=
  mkFs (foldl (fun m '(p, c) => <[p := c]> m) (files st) ws)
       (dirs st) (locked st) (log st ++ ws).

Lemma apply_writes_nil st : apply_writes [] st = st.
Proof. destruct st. unfold apply_writes. simpl. by rewrite app_nil_r. Qed.

Lemma apply_writes_app ws1 ws2 st :
  apply_writes (ws1 ++ ws2) st = apply_writes ws2 (apply_writes ws1 st).
Proof. unfold apply_writes. simpl. by rewrite foldl_app, app_assoc. Qed.

Lemma apply_writes_locked ws st : locked (apply_writes ws st) = locked st.
Proof. reflexivity. Qed.

Lemma apply_writes_log ws st : log (apply_writes ws st) = log st ++ ws.
Proof. reflexivity. Qed.

(** The last write to a path decides its content. *)
Lemma foldl_insert_lookup (ws : list (pystr * content)) (m : gmap pystr content) q :
  foldl (fun m '(p, c) => <[p := c]> m) m ws !! q =
  match last (filter (fun w => w.1 = q) ws) with
  | Some (_, c) => Some c
  | None => m !! q
  end.
Proof.
  revert m. induction ws as [|[p c] ws IH] using rev_ind; intros m; [done|].
  rewrite foldl_app, filter_app. simpl. rewrite filter_cons, filter_nil.
  case_decide as Hp; simpl.
  - subst q. rewrite last_app. simpl. by rewrite lookup_insert_eq.
  - rewrite app_nil_r, lookup_insert_ne by done. apply IH.
Qed.

Lemma write_file_ok p c st :
  p ∉ locked st -> write_file p c st = POk (apply_writes [(p, c)] st).
Proof. intros H. unfold write_file. by rewrite decide_False. Qed.
End Store.

Arguments content : clear implicits.
Arguments fs : clear implicits.

(** PyPDF2's [reader.pages[k]] ([_VirtualList.__getitem__]). *)
Definition pypdf_page_index (n : nat) (k : Z) : pyres nat :=
  let k' := if bool_decide (k < 0)%Z then (Z.of_nat n + k)%Z else k in
  if bool_decide (k' < 0 \/ Z.of_nat n <= k')%Z then PRaise IndexError
  else POk (Z.to_nat k').

(** PyMuPDF's [doc.load_page(k)]: an index at or past the page count
    raises; a negative one is raised by the page count until it is not
    negative, i.e. taken modulo the page count.  (On a document without
    pages that loop would not end; [None] stands for it here.) *)
Definition fitz_page_index (n : nat) (k : Z) : option nat :=
  if bool_decide (Z.of_nat n <= k)%Z then None
  else if bool_decide (k < 0)%Z then
    (if decide (n = 0) then None else Some (Z.to_nat (k mod Z.of_nat n)))
  else Some (Z.to_nat k).

Lemma pypdf_page_index_ok n k :
  (0 <= k < Z.of_nat n)%Z -> pypdf_page_index n k = POk (Z.to_nat k).
Proof.
  intros Hk. unfold pypdf_page_index.
  rewrite (bool_decide_false (k < 0)%Z) by lia.
  rewrite bool_decide_false by lia. done.
Qed.

Lemma fitz_page_index_ok n k :
  (0 <= k < Z.of_nat n)%Z -> fitz_page_index n k = Some (Z.to_nat k).
Proof.
  intros Hk. unfold fitz_page_index.
  rewrite !bool_decide_false by lia. done.
Qed.

(** Python's negative indices: PyPDF2 wraps once, PyMuPDF repeatedly. *)
Example pypdf_page_index_neg : pypdf_page_index 5 (-1) = POk 4.
Proof. reflexivity. Qed.

Example pypdf_page_index_neg_oob : pypdf_page_index 5 (-7) = PRaise IndexError.
Proof. reflexivity. Qed.

Example fitz_page_index_neg : fitz_page_index 5 (-7) = Some 3.
Proof. reflexivity. Qed.

(** A backend for the worked examples: each page carries the text of its
    text layer and the text OCR would recognise, whatever the rectangle. *)
#[export] Instance fixed_text_backend : PdfBackend (pystr * pystr) := {
  get_text_clip pg _ := Some pg.1;
  ocr_clip pg _ := Some pg.2
}.

(** A file system holding one PDF and nothing else. *)
Definition single_pdf {Page} (p : pystr) (pages : list Page) : fs Page :=
  mkFs {[p := PdfFile pages]} ∅ ∅ [].

End Fs.
