(* ===== verification/Splitter.v ===== *)
(** * The splitter: [split_pdf_from_csv] and [run_2nd_step]

    Models src/SplitBoringLog2.1.py, lines 78-117 and 153-156.  The
    function opens the source PDF with PyPDF2, creates the output folder if
    it is missing, reads the ledger with [csv.reader], skips the header and
    walks the rows keeping the current label and the pages of the current
    run; when the sanitized label of a row differs from the current one the
    run, if not empty, is written to [<base>_<label>.pdf] in the output
    folder.  After the last row the last run is written.  Every exception
    is caught by the final [except] and printed: the model returns the file
    system as the exception left it and the exception, if any.

    The state of the loop is [loop_state]; [split_row] is one iteration of
    the [for] loop (lines 91-107), [flush] the final write (lines 109-115).
    The theorems show that on a well-formed ledger the files written are
    exactly the run-length sections of [Grouper.runs], in order (a
    refinement of the spec's grouping contract), that a label seen again
    after another one overwrites the earlier file, and that an exception
    leaves the files written before it in place. *)

From S2P Require Import Prelude PyStr Sanitizer Grouper Csv PyPath Fs.
Import PyStr Sanitizer Grouper Csv PyPath Fs.

Module Splitter.

Section Split.
Context {Page : Type}.

(** [os.path.join(output_folder,
      f'{os.path.splitext(os.path.basename(pdf_path))[0]}_{label}.pdf')] *)
Definition output_pdf_path (pdf_path output_folder label : pystr) : pystr :=
  join output_folder
    (fst (splitext (basename pdf_path)) ++ "_"%char :: label ++ lit ".pdf").

(** [pdf_reader.pages[page_number]] *)
Definition reader_page (pages : list Page) (k : Z) : pyres Page :=
  pbind (pypdf_page_index (length pages) k) (fun i => of_option IndexError (pages !! i)).

Record loop_state := mkLoop {
  ls_fs : fs Page;
  current_special_text : pystr;
  current_section_pages : list Page
}.

(** The result of a step that may raise: the next state, or the file
    system as the exception left it. *)
Inductive outcome : Type :=
  | Next (s : loop_state)
  | Stop (st : fs Page) (e : exc).

(** Lines 98-102 and 111-115: a new [PdfWriter] with the run's pages,
    written to the section's file. *)
Definition write_section (pdf_path output_folder label : pystr)
    (pages : list Page) (st : fs Page) : pyres (fs Page) :=
  write_file (output_pdf_path pdf_path output_folder label) (PdfFile pages) st.

Section Loop.
Context (pdf_path output_folder : pystr) (pages : list Page).

(** One iteration of the [for row in csv_reader] loop. *)
Definition split_row (row : list pystr) (ls : loop_state) : outcome :=
  match row with
  | [page_number; text] =>
      match py_int page_number with
      | None => Stop (ls_fs ls) ValueError
      | Some n =>
          let clean_text := clean_special_text text in
          if decide (clean_text <> current_special_text ls) then
            let written :=
              match current_section_pages ls with
              | [] => POk (ls_fs ls)
              | cur => write_section pdf_path output_folder
                         (current_special_text ls) cur (ls_fs ls)
              end in
            match written with
            | PRaise e => Stop (ls_fs ls) e
            | POk st' =>
                match reader_page pages (n - 1) with
                | PRaise e => Stop st' e
                | POk pg => Next (mkLoop st' clean_text [pg])
                end
            end
          else
            match reader_page pages (n - 1) with
            | PRaise e => Stop (ls_fs ls) e
            | POk pg =>
                Next (mkLoop (ls_fs ls) (current_special_text ls)
                             (current_section_pages ls ++ [pg]))
            end
      end
  | _ => Stop (ls_fs ls) ValueError
  end.

Fixpoint split_rows (rows : list (list pystr)) (ls : loop_state) : outcome :=
  match rows with
  | [] => Next ls
  | row :: rest =>
      match split_row row ls with
      | Next ls' => split_rows rest ls'
      | Stop st e => Stop st e
      end
  end.

(** Lines 109-115: the last run. *)
Definition flush (ls : loop_state) : fs Page * option exc :=
  match current_section_pages ls with
  | [] => (ls_fs ls, None)
  | cur =>
      match write_section pdf_path output_folder (current_special_text ls) cur (ls_fs ls) with
      | POk st' => (st', None)
      | PRaise e => (ls_fs ls, Some e)
      end
  end.
End Loop.

(** Lines 81-82: create the output folder if it does not exist. *)
Definition ensure_folder (output_folder : pystr) (st : fs Page) : fs Page :=
  if path_exists st output_folder then st else makedirs output_folder st.

(** The whole function; the second component is the exception printed
    by the [except] clause, if any. *)
Definition split_pdf_from_csv (pdf_path csv_path output_folder : pystr)
    (st : fs Page) : fs Page * option exc :=
  match open_pdf pdf_path st with
  | PRaise e => (st, Some e)
  | POk pages =>
      let st1 := ensure_folder output_folder st in
      match read_text csv_path st1 with
      | PRaise e => (st1, Some e)
      | POk txt =>
          let '(rows, err) := read_rows txt in
          match rows with
          | [] => (st1, Some (default StopIteration err))
          | _header :: body =>
              match split_rows pdf_path output_folder pages body (mkLoop st1 [] []) with
              | Stop st2 e => (st2, Some e)
              | Next ls =>
                  match err with
                  | Some e => (ls_fs ls, Some e)
                  | None => flush pdf_path output_folder ls
                  end
              end
          end
      end
  end.

(** [run_2nd_step] after the file dialog returned [csv_path] (the empty
    string when the dialog is cancelled: the code does not check). *)
Definition run_2nd_step (csv_path : pystr) (st : fs Page) : fs Page * option exc :=
  let root := fst (splitext csv_path) in
  split_pdf_from_csv (root ++ lit ".pdf") csv_path (root ++ lit "_output") st.

(** ** The abstract view: entries, sections and the writes they cause *)

(** What a ledger row stands for: its sanitized label and its page. *)
Definition row_entry (pages : list Page) (row : list pystr) : pyres (pystr * Page) :=
  match row with
  | [page_number; text] =>
      n <-? of_option ValueError (py_int page_number);
      pg <-? reader_page pages (n - 1);
      POk (clean_special_text text, pg)
  | _ => PRaise ValueError
  end.

Definition section_writes (pdf_path output_folder : pystr)
    (secs : list (pystr * list Page)) : list (pystr * content Page) :=
  map (fun '(l, ps) => (output_pdf_path pdf_path output_folder l, PdfFile ps)) secs.

Lemma write_section_ok pdf_path output_folder l ps st :
  output_pdf_path pdf_path output_folder l ∉ locked st ->
  write_section pdf_path output_folder l ps st =
  POk (apply_writes [(output_pdf_path pdf_path output_folder l, PdfFile ps)] st).
Proof. intros H. unfold write_section. by apply write_file_ok. Qed.

Section Refinement.
Context (pdf_path output_folder : pystr) (pages : list Page).
Local Abbreviation out := (output_pdf_path pdf_path output_folder).

(** The loop state after a well-formed stretch of rows: the runs of the
    pending pages and the new entries, all written but the last, which
    is the current run. *)
Definition loop_after (st : fs Page) (cur : pystr) (ps : list Page)
    (entries : list (pystr * Page)) : loop_state :=
  let R := runs (map (fun p => (cur, p)) ps ++ entries) in
  match last R with
  | Some (l, qs) =>
      mkLoop (apply_writes (section_writes pdf_path output_folder (removelast R)) st) l qs
  | None => mkLoop st cur []
  end.

Lemma loop_after_step_new st cur ps l p entries :
  l <> cur -> ps <> [] ->
  loop_after st cur ps ((l, p) :: entries) =
  loop_after (apply_writes [(out cur, PdfFile ps)] st) l [p] entries.
Proof.
  intros Hl Hps. unfold loop_after. rewrite runs_pending_new by done.
  change (map (fun q => (l, q)) [p] ++ entries) with ((l, p) :: entries).
  destruct (runs_head ((l, p) :: entries) l p entries eq_refl) as (ps' & secs & Hr).
  rewrite Hr, last_cons_cons, removelast_cons_cons.
  destruct (last_cons_Some (l, ps') secs) as [[l' qs] ->].
  unfold section_writes. rewrite map_cons. by rewrite <- apply_writes_app.
Qed.

Lemma split_rows_good st cur ps body entries :
  Forall2 (fun row e => row_entry pages row = POk e) body entries ->
  (forall l, out l ∉ locked st) ->
  split_rows pdf_path output_folder pages body (mkLoop st cur ps) =
  Next (loop_after st cur ps entries).
Proof.
  intros Hrows. revert st cur ps.
  induction Hrows as [|row [l p] body entries Hrow _ IH]; intros st cur ps Hlock.
  - cbn [split_rows]. unfold loop_after. rewrite runs_pending_nil.
    destruct ps as [|p ps]; [done|]. cbn -[apply_writes]. by rewrite apply_writes_nil.
  - destruct row as [|pn [|text [|]]]; try discriminate.
    simpl in Hrow. destruct (py_int pn) as [n|] eqn:Hn; [|discriminate].
    simpl in Hrow. destruct (reader_page pages (n - 1)) as [pg|] eqn:Hpg; [|discriminate].
    simpl in Hrow. injection Hrow as <- <-.
    cbn [split_rows split_row current_special_text current_section_pages ls_fs].
    rewrite Hn, Hpg.
    destruct (decide (clean_special_text text = cur)) as [Heq|Hne].
    + rewrite decide_False by tauto. rewrite IH by done. subst cur.
      unfold loop_after. by rewrite map_app, <- app_assoc.
    + rewrite decide_True by done. destruct ps as [|p ps].
      * rewrite IH by done. unfold loop_after. cbn [map app].
        destruct (runs_head ((clean_special_text text, pg) :: entries) _ _ _ eq_refl)
          as (ps' & secs & ->).
        by destruct (last_cons_Some (clean_special_text text, ps') secs) as [[l' qs] ->].
      * rewrite write_section_ok by apply Hlock. rewrite IH by apply Hlock.
        by rewrite loop_after_step_new.
Qed.

(** The final flush writes the current run: all runs are then written. *)
Lemma flush_loop_after st cur ps entries :
  (forall l, out l ∉ locked st) ->
  flush pdf_path output_folder (loop_after st cur ps entries) =
  (apply_writes (section_writes pdf_path output_folder
                   (runs (map (fun p => (cur, p)) ps ++ entries))) st, None).
Proof.
  intros Hlock. unfold loop_after.
  destruct (last (runs _)) as [[l qs]|] eqn:Hlast.
  - pose proof (runs_nonempty _ _ (last_elem_of _ _ Hlast)) as Hqs. simpl in Hqs.
    unfold flush. cbn [current_section_pages current_special_text ls_fs].
    destruct qs as [|q qs]; [done|].
    rewrite write_section_ok by (rewrite apply_writes_locked; apply Hlock).
    rewrite <- apply_writes_app. unfold section_writes.
    rewrite (last_removelast _ _ Hlast) at 2. by rewrite map_app.
  - apply last_None in Hlast. rewrite Hlast. simpl. by rewrite apply_writes_nil.
Qed.
End Refinement.

(** ** Output names *)

Lemma output_name_head base l :
  sep ∉ base -> head (base ++ "_"%char :: l) <> Some sep.
Proof.
  destruct base as [|c base]; simpl; [intros _ H; by inversion H|].
  intros H [= ->]. apply H. by left.
Qed.

(** Two different labels never share an output file. *)
Lemma output_pdf_path_inj pdf_path output_folder l1 l2 :
  output_pdf_path pdf_path output_folder l1 = output_pdf_path pdf_path output_folder l2 ->
  l1 = l2.
Proof.
  unfold output_pdf_path. intros H.
  apply join_inj in H;
    [| apply output_name_head, splitext_basename_no_sep ..
     | by destruct (fst _) | by destruct (fst _)].
  apply app_inv_head in H. injection H as H. by apply app_inv_tail in H.
Qed.

Lemma section_writes_filter pdf_path output_folder l secs :
  filter (fun w => w.1 = output_pdf_path pdf_path output_folder l)
         (section_writes pdf_path output_folder secs) =
  section_writes pdf_path output_folder (filter (fun s => s.1 = l) secs).
Proof.
  induction secs as [|[l' ps] secs IH]; [done|]. simpl.
  rewrite !filter_cons. simpl. rewrite IH.
  repeat case_decide; simplify_eq/=; try done.
  match goal with H : output_pdf_path _ _ _ = _ |- _ => apply output_pdf_path_inj in H end.
  done.
Qed.

Lemma ensure_folder_files output_folder st :
  files (ensure_folder output_folder st) = files st.
Proof. unfold ensure_folder. by destruct (path_exists st output_folder). Qed.

Lemma ensure_folder_locked output_folder st :
  locked (ensure_folder output_folder st) = locked st.
Proof. unfold ensure_folder. by destruct (path_exists st output_folder). Qed.

Lemma read_text_ensure_folder csv_path output_folder st :
  read_text csv_path (ensure_folder output_folder st) = read_text csv_path st.
Proof. unfold read_text. by rewrite ensure_folder_files. Qed.

(** A ledger row the loop rejects before touching any file. *)
Definition malformed_row (row : list pystr) : Prop :=
  match row with
  | [page_number; _] => py_int page_number = None
  | _ => True
  end.

Lemma split_row_malformed pdf_path output_folder pages row ls :
  malformed_row row ->
  split_row pdf_path output_folder pages row ls = Stop (ls_fs ls) ValueError.
Proof.
  destruct row as [|pn [|text [|]]]; simpl; try done. by intros ->.
Qed.

Lemma split_rows_app pdf_path output_folder pages xs ys ls :
  split_rows pdf_path output_folder pages (xs ++ ys) ls =
  match split_rows pdf_path output_folder pages xs ls with
  | Next ls' => split_rows pdf_path output_folder pages ys ls'
  | Stop st e => Stop st e
  end.
Proof.
  revert ls. induction xs as [|x xs IH]; intros ls; [done|]. simpl.
  destruct (split_row _ _ _ x ls); [apply IH|done].
Qed.

Lemma loop_after_fs pdf_path output_folder st entries :
  ls_fs (loop_after pdf_path output_folder st [] [] entries) =
  apply_writes (section_writes pdf_path output_folder (removelast (runs entries))) st.
Proof.
  unfold loop_after. simpl. destruct (last (runs entries)) as [[l qs]|] eqn:E; [done|].
  apply last_None in E. rewrite E. simpl. by rewrite apply_writes_nil.
Qed.

(** ** Footprint: the split writes output files only *)

(** The file system an outcome leaves. *)
Definition outcome_fs (o : outcome) : fs Page :=
  match o with Next ls => ls_fs ls | Stop st _ => st end.

Section Frame.
Context (pdf_path output_folder : pystr) (pages : list Page) (q : pystr).
Hypothesis Hq : forall l, q <> output_pdf_path pdf_path output_folder l.

Lemma write_section_frame l ps st st' :
  write_section pdf_path output_folder l ps st = POk st' -> files st' !! q = files st !! q.
Proof.
  unfold write_section, write_file. case_decide; [done|]. intros [= <-]. simpl.
  by rewrite lookup_insert_ne by (apply not_eq_sym, Hq).
Qed.

Lemma split_row_frame row ls :
  files (outcome_fs (split_row pdf_path output_folder pages row ls)) !! q = files (ls_fs ls) !! q.
Proof.
  destruct row as [|pn [|text [|]]]; try done. cbn [split_row].
  repeat (case_match; simplify_eq/=); try done;
    match goal with H : write_section _ _ _ _ _ = POk _ |- _ => by eapply write_section_frame end.
Qed.

Lemma split_rows_frame rows ls :
  files (outcome_fs (split_rows pdf_path output_folder pages rows ls)) !! q = files (ls_fs ls) !! q.
Proof.
  revert ls. induction rows as [|row rows IH]; intros ls; [done|]. cbn [split_rows].
  pose proof (split_row_frame row ls) as H.
  destruct (split_row _ _ _ row ls) as [ls'|st e]; [by rewrite IH|done].
Qed.

Lemma flush_frame ls : files (flush pdf_path output_folder ls).1 !! q = files (ls_fs ls) !! q.
Proof.
  unfold flush. destruct (current_section_pages ls) as [|p ps]; [done|].
  destruct (write_section _ _ _ _ _) as [st'|e] eqn:Hw; [|done]. by eapply write_section_frame.
Qed.
End Frame.

(** Whatever the ledger holds, [split_pdf_from_csv] changes no file
    except the output files [output_pdf_path pdf_path output_folder l]. *)
Lemma split_pdf_from_csv_frame pdf_path csv_path output_folder st q :
  (forall l, q <> output_pdf_path pdf_path output_folder l) ->
  files (split_pdf_from_csv pdf_path csv_path output_folder st).1 !! q = files st !! q.
Proof.
  intros Hq. unfold split_pdf_from_csv.
  destruct (open_pdf pdf_path st) as [pages|e]; [|done]. cbv zeta.
  rewrite <- (ensure_folder_files output_folder st).
  destruct (read_text csv_path _) as [txt|e]; [|done].
  destruct (read_rows txt) as [[|hd body] err]; [done|].
  pose proof (split_rows_frame pdf_path output_folder pages q Hq body
                (mkLoop (ensure_folder output_folder st) [] [])) as H.
  destruct (split_rows _ _ _ body _) as [ls|st2 e]; [|done].
  destruct err; [done|]. rewrite ?flush_frame by exact Hq. exact H.
Qed.

End Split.

(** ** Step 2 leaves its inputs alone *)

(** An output file of step 2 lies in the output folder [<root>_output]. *)
Lemma output_in_folder root pdf_path l :
  output_pdf_path pdf_path (root ++ lit "_output") l =
  root ++ lit "_output" ++ sep :: fst (splitext (basename pdf_path)) ++ "_"%char :: l ++ lit ".pdf".
Proof.
  unfold output_pdf_path, join.
  assert (Hh : forall c r, fst (splitext (basename pdf_path)) ++ "_"%char :: l ++ lit ".pdf" = c :: r ->
                 c <> sep).
  { intros c r. destruct (fst (splitext (basename pdf_path))) as [|d n] eqn:E.
    - by intros [= <- _].
    - intros [= <- _] ->. apply (splitext_basename_no_sep pdf_path). rewrite E. by left. }
  destruct (fst (splitext (basename pdf_path)) ++ "_"%char :: l ++ lit ".pdf") as [|c r] eqn:Eb;
    [by destruct (fst _)|].
  rewrite decide_False by (by eapply Hh).
  rewrite app_assoc, last_app. simpl. repeat case_decide; try discriminate. by rewrite <- app_assoc.
Qed.

(** A path [root ++ s] whose [s] is empty or starts with a dot is not an
    output file of the folder [root ++ _output]. *)
Lemma not_output_path root s pdf_path l :
  s = [] \/ head s = Some extsep ->
  root ++ s <> output_pdf_path pdf_path (root ++ lit "_output") l.
Proof.
  rewrite output_in_folder. intros Hs Heq. apply app_inv_head in Heq. subst s.
  unfold lit in Hs. destruct Hs as [Hs|Hs]; simpl in Hs; [discriminate|unfold extsep in Hs; congruence].
Qed.

Lemma split_keeps_root_paths {Page} csv_path (st : fs Page) s :
  s = [] \/ head s = Some extsep ->
  files (run_2nd_step csv_path st).1 !! (fst (splitext csv_path) ++ s) =
  files st !! (fst (splitext csv_path) ++ s).
Proof.
  intros Hs. unfold run_2nd_step. apply split_pdf_from_csv_frame.
  intros l. by apply not_output_path.
Qed.

(** C7: step 2 never changes the ledger it
    reads nor the PDF it splits, whatever the ledger holds and whichever
    path the dialog returned: every file it writes is in the folder
    [<root>_output]. *)
Theorem run_2nd_step_preserves_inputs {Page} csv_path (st : fs Page) :
  files (run_2nd_step csv_path st).1 !! csv_path = files st !! csv_path /\
  files (run_2nd_step csv_path st).1 !! (fst (splitext csv_path) ++ lit ".pdf") =
  files st !! (fst (splitext csv_path) ++ lit ".pdf").
Proof.
  split.
  - pose proof (split_keeps_root_paths csv_path st _ (splitext_snd csv_path)) as H.
    by rewrite splitext_app in H.
  - apply split_keeps_root_paths. by right.
Qed.

Arguments outcome : clear implicits.
Arguments loop_state : clear implicits.

(** ** What [split_pdf_from_csv] does *)

Section Theorems.
Context {Page : Type}.
Context (pdf_path csv_path output_folder : pystr) (st : fs Page).
Context (pages : list Page) (txt : pystr) (header : list pystr).
Hypothesis Hpdf : open_pdf pdf_path st = POk pages.
Hypothesis Hcsv : read_text csv_path st = POk txt.
Local Abbreviation out := (output_pdf_path pdf_path output_folder).

(** C1: on a ledger whose rows all parse and
    whose output files can all be written, [split_pdf_from_csv] writes
    exactly the run-length sections of the (sanitized label, page)
    entries, in ledger order, each to [<base>_<label>.pdf], and reports
    no error.  This is the refinement of the grouping contract
    [Grouper.runs] by the loop of the source. *)
Theorem split_pdf_from_csv_sections body entries :
  read_rows txt = (header :: body, None) ->
  Forall2 (fun row e => row_entry pages row = POk e) body entries ->
  (forall l, out l ∉ locked st) ->
  split_pdf_from_csv pdf_path csv_path output_folder st =
  (apply_writes (section_writes pdf_path output_folder (runs entries))
                (ensure_folder output_folder st), None).
Proof.
  intros Hrows Hbody Hlock. unfold split_pdf_from_csv.
  rewrite Hpdf. cbv zeta. rewrite read_text_ensure_folder, Hcsv, Hrows.
  rewrite (split_rows_good _ _ _ _ [] [] _ _ Hbody)
    by (intros l; rewrite ensure_folder_locked; apply Hlock).
  rewrite flush_loop_after by (intros l; rewrite ensure_folder_locked; apply Hlock).
  done.
Qed.

(** C10: a row that does not unpack into two
    cells or whose page number is not an integer stops the loop with
    [ValueError]; the sections completed before it stay written, and the
    run in progress is lost.  The split is not all-or-nothing. *)
Theorem split_pdf_from_csv_bad_row good entries bad rest err :
  read_rows txt = (header :: good ++ bad :: rest, err) ->
  Forall2 (fun row e => row_entry pages row = POk e) good entries ->
  malformed_row bad ->
  (forall l, out l ∉ locked st) ->
  split_pdf_from_csv pdf_path csv_path output_folder st =
  (apply_writes (section_writes pdf_path output_folder (removelast (runs entries)))
                (ensure_folder output_folder st), Some ValueError).
Proof.
  intros Hrows Hgood Hbad Hlock. unfold split_pdf_from_csv.
  rewrite Hpdf. cbv zeta. rewrite read_text_ensure_folder, Hcsv, Hrows.
  rewrite split_rows_app.
  rewrite (split_rows_good _ _ _ _ [] [] _ _ Hgood)
    by (intros l; rewrite ensure_folder_locked; apply Hlock).
  simpl. rewrite split_row_malformed by done. by rewrite loop_after_fs.
Qed.

(** C9: the file of a label holds the pages
    of the last section with that label: a label that comes back after
    another one overwrites the file of its earlier section. *)
Theorem split_pdf_from_csv_last_wins body entries l :
  read_rows txt = (header :: body, None) ->
  Forall2 (fun row e => row_entry pages row = POk e) body entries ->
  (forall l, out l ∉ locked st) ->
  files (split_pdf_from_csv pdf_path csv_path output_folder st).1 !! out l =
  match last (filter (fun s => s.1 = l) (runs entries)) with
  | Some (_, ps) => Some (PdfFile ps)
  | None => files st !! out l
  end.
Proof.
  intros Hrows Hbody Hlock.
  rewrite (split_pdf_from_csv_sections body entries) by done.
  unfold apply_writes. cbn [files fst]. rewrite foldl_insert_lookup.
  rewrite section_writes_filter, ensure_folder_files.
  unfold section_writes. rewrite last_map.
  by destruct (last (filter _ _)) as [[]|].
Qed.
End Theorems.

(** ** Page numbers at or below zero *)


(** ** Witnesses: a three-page PDF and its ledger *)

Definition wit_pdf : pystr := lit "d.pdf".
Definition wit_csv : pystr := lit "d.csv".
Definition wit_out : pystr := lit "d_output".
Definition wit_header : list pystr := [lit "Page Number"; lit "Extracted Text"].

Definition wit_fs (ledger : pystr) : fs nat :=
  mkFs {[wit_pdf := PdfFile [10; 11; 12]; wit_csv := TextFile ledger]} ∅ ∅ [].

Definition wit_ledger (rows : list String.string) : pystr :=
  concat (map (fun l => lit l ++ lineterminator) ("Page Number,Extracted Text" :: rows)).

Ltac splitter_hyps :=
  first [ reflexivity
        | intros; simpl; set_solver
        | repeat constructor ].

Lemma split_pdf_from_csv_sections_witness :
  split_pdf_from_csv wit_pdf wit_csv wit_out (wit_fs (wit_ledger ["1,A"; "2,A"; "3,B"])) =
  (apply_writes (section_writes wit_pdf wit_out (runs [(lit "A", 10); (lit "A", 11); (lit "B", 12)]))
                (ensure_folder wit_out (wit_fs (wit_ledger ["1,A"; "2,A"; "3,B"]))), None).
Proof.
  apply (split_pdf_from_csv_sections wit_pdf wit_csv wit_out (wit_fs (wit_ledger ["1,A"; "2,A"; "3,B"])) [10; 11; 12]
           (wit_ledger ["1,A"; "2,A"; "3,B"]) wit_header
           eq_refl eq_refl [[lit "1"; lit "A"]; [lit "2"; lit "A"]; [lit "3"; lit "B"]]);
    splitter_hyps.
Defined.

Lemma split_pdf_from_csv_bad_row_witness :
  split_pdf_from_csv wit_pdf wit_csv wit_out (wit_fs (wit_ledger ["1,A"; "2,B"; "x,B"; "3,B"])) =
  (apply_writes (section_writes wit_pdf wit_out (removelast (runs [(lit "A", 10); (lit "B", 11)])))
                (ensure_folder wit_out (wit_fs (wit_ledger ["1,A"; "2,B"; "x,B"; "3,B"]))),
   Some ValueError).
Proof.
  apply (split_pdf_from_csv_bad_row wit_pdf wit_csv wit_out (wit_fs (wit_ledger ["1,A"; "2,B"; "x,B"; "3,B"])) [10; 11; 12]
           (wit_ledger ["1,A"; "2,B"; "x,B"; "3,B"]) wit_header
           eq_refl eq_refl [[lit "1"; lit "A"]; [lit "2"; lit "B"]] _ [lit "x"; lit "B"]
           [[lit "3"; lit "B"]] None);
    splitter_hyps.
Defined.

Lemma split_pdf_from_csv_last_wins_witness :
  files (split_pdf_from_csv wit_pdf wit_csv wit_out (wit_fs (wit_ledger ["1,A"; "2,B"; "3,A"]))).1
    !! output_pdf_path wit_pdf wit_out (lit "A") =
  match last (filter (fun s => s.1 = lit "A")
                (runs [(lit "A", 10); (lit "B", 11); (lit "A", 12)])) with
  | Some (_, ps) => Some (PdfFile ps)
  | None => files (wit_fs (wit_ledger ["1,A"; "2,B"; "3,A"])) !! output_pdf_path wit_pdf wit_out (lit "A")
  end.
Proof.
  apply (split_pdf_from_csv_last_wins wit_pdf wit_csv wit_out (wit_fs (wit_ledger ["1,A"; "2,B"; "3,A"])) [10; 11; 12]
           (wit_ledger ["1,A"; "2,B"; "3,A"]) wit_header
           eq_refl eq_refl [[lit "1"; lit "A"]; [lit "2"; lit "B"]; [lit "3"; lit "A"]]);
    splitter_hyps.
Defined.


End Splitter.
