(* ===== verification/Extract.v ===== *)
(** * Step 1: label extraction and the ledger

    Models src/SplitBoringLog2.1.py, lines 18-76 and 126-129:
    [extract_text_from_location] (text layer inside the rectangle),
    [ocr_part_of_pdf] (OCR of the rectangle at twice the resolution), both
    returning the empty string on any exception; [determine_type], which
    chooses OCR for the whole run when the text layer of the first page is
    empty; [generate_csv], which writes the ledger: a header row, then one
    row [str(i + 1), clean_special_text(text)] per page index [i] in
    [range(start_page - 1, total_pages)]; and [generate_csv_and_run].

    The PDF libraries are reached through the [PdfBackend] interface of
    Fs.v; every theorem here holds for any backend.  The file system is
    threaded through the loop as the code threads it: each extraction
    reopens the PDF while the ledger is being written. *)

From S2P Require Import Prelude PyStr Sanitizer Csv PyPath Fs.
Import PyStr Sanitizer Csv PyPath Fs.

Module Extract.

(** Python's [range(a, b)] over integers. *)
Definition py_range (a b : Z) : list Z :=
  map (fun k => (a + Z.of_nat k)%Z) (seq 0 (Z.to_nat (b - a))).

Section Extract.
Context {Page : Type} `{PdfBackend Page}.

(** [fitz.open(pdf_path)], [load_page(page_number)], then a per-page
    library call; any exception gives the empty string. *)
Definition on_page (f : Page -> option pystr) (pdf_path : pystr) (page_number : Z)
    (st : fs Page) : pystr :=
  match open_pdf pdf_path st with
  | PRaise _ => []
  | POk pages =>
      match fitz_page_index (length pages) page_number ≫= fun i => pages !! i with
      | Some pg => default [] (f pg)
      | None => []
      end
  end.

(** Lines 18-28. *)
Definition extract_text_from_location (pdf_path : pystr) (page_number : Z) (r : rect)
    (st : fs Page) : pystr :=
  on_page (fun pg => get_text_clip pg r) pdf_path page_number st.

(** Lines 30-45. *)
Definition ocr_part_of_pdf (pdf_path : pystr) (page_number : Z) (r : rect)
    (st : fs Page) : pystr :=
  on_page (fun pg => ocr_clip pg r) pdf_path page_number st.

(** Lines 47-52: [True] means OCR. *)
Definition determine_type (pdf_path : pystr) (page_number : Z) (r : rect)
    (st : fs Page) : bool :=
  bool_decide (extract_text_from_location pdf_path page_number r st = []).

Definition csv_header : list pystr := [lit "Page Number"; lit "Extracted Text"].

(** The ledger path: [os.path.splitext(pdf_path)[0] + '.csv']. *)
Definition csv_path_of (pdf_path : pystr) : pystr := fst (splitext pdf_path) ++ lit ".csv".

(** The text of page [i] with the chosen method: the branch of lines 64
    and 69, and the calls of lines 66 and 71. *)
Definition read_label (pdf_path : pystr) (r : rect) (ocr_or_not : bool) (i : Z)
    (st : fs Page) : pystr :=
  if ocr_or_not then ocr_part_of_pdf pdf_path i r st
  else extract_text_from_location pdf_path i r st.

(** One iteration of either loop of lines 64-73: extract with the chosen
    method, sanitize, write the row [[i + 1, clean_text]]. *)
Definition csv_row (pdf_path : pystr) (r : rect) (ocr_or_not : bool) (i : Z)
    (st : fs Page) : list pystr :=
  [py_str (i + 1); clean_special_text (read_label pdf_path r ocr_or_not i st)].

Fixpoint csv_loop (pdf_path csv_path : pystr) (r : rect) (ocr_or_not : bool)
    (idx : list Z) (st : fs Page) : fs Page :=
  match idx with
  | [] => st
  | i :: rest =>
      let row := csv_row pdf_path r ocr_or_not i st in
      csv_loop pdf_path csv_path r ocr_or_not rest
               (append_text csv_path (write_row row) st)
  end.

(** Lines 54-76.  The exceptions of [open] and [PdfReader] are not
    caught here: they end the call with the ledger as far as written. *)
Definition generate_csv (pdf_path : pystr) (start_page : Z) (r : rect)
    (ocr_or_not : bool) (st : fs Page) : fs Page * option exc :=
  let csv_path := csv_path_of pdf_path in
  match write_file csv_path (TextFile []) st with
  | PRaise e => (st, Some e)
  | POk st1 =>
      let st2 := append_text csv_path (write_row csv_header) st1 in
      match open_pdf pdf_path st2 with
      | PRaise e => (st2, Some e)
      | POk pages =>
          (csv_loop pdf_path csv_path r ocr_or_not
                    (py_range (start_page - 1) (Z.of_nat (length pages))) st2, None)
      end
  end.

(** Lines 126-129 (the button state is handled in App.v). *)
Definition generate_csv_and_run (pdf_path : pystr) (start_page : Z) (r : rect)
    (st : fs Page) : fs Page * option exc :=
  let ocr_or_not := determine_type pdf_path (start_page - 1) r st in
  generate_csv pdf_path start_page r ocr_or_not st.

(** ** The ledger [generate_csv] writes *)

(** Writing the ledger does not change what the PDF reads as, as long
    as the ledger is another file. *)
Lemma open_pdf_other p q c (st : fs Page) :
  p <> q -> open_pdf p (mkFs (<[q := c]> (files st)) (dirs st) (locked st) (log st)) = open_pdf p st.
Proof. intros Hpq. unfold open_pdf. simpl. by rewrite lookup_insert_ne by congruence. Qed.

Lemma open_pdf_append pdf_path csv_path s (st : fs Page) :
  pdf_path <> csv_path -> open_pdf pdf_path (append_text csv_path s st) = open_pdf pdf_path st.
Proof.
  intros Hne. unfold append_text. destruct (files st !! csv_path) as [[]|]; try done.
  by apply open_pdf_other.
Qed.

Lemma on_page_append f pdf_path csv_path s i st :
  pdf_path <> csv_path -> on_page f pdf_path i (append_text csv_path s st) = on_page f pdf_path i st.
Proof. intros Hne. unfold on_page. by rewrite open_pdf_append. Qed.

Lemma csv_row_open_pdf pdf_path r ocr i (st st' : fs Page) :
  open_pdf pdf_path st = open_pdf pdf_path st' ->
  csv_row pdf_path r ocr i st = csv_row pdf_path r ocr i st'.
Proof.
  intros E. unfold csv_row, read_label, ocr_part_of_pdf, extract_text_from_location, on_page.
  by rewrite E.
Qed.

Lemma csv_row_append pdf_path csv_path r ocr i s st :
  pdf_path <> csv_path ->
  csv_row pdf_path r ocr i (append_text csv_path s st) = csv_row pdf_path r ocr i st.
Proof.
  intros Hne. unfold csv_row, read_label, ocr_part_of_pdf, extract_text_from_location.
  by rewrite !on_page_append.
Qed.

Lemma append_text_files_other p q s (st : fs Page) :
  q <> p -> files (append_text p s st) !! q = files st !! q.
Proof.
  intros Hne. unfold append_text. destruct (files st !! p) as [[]|]; try done.
  simpl. by rewrite lookup_insert_ne by congruence.
Qed.

Lemma append_text_files_same p s t (st : fs Page) :
  files st !! p = Some (TextFile t) -> files (append_text p s st) !! p = Some (TextFile (t ++ s)).
Proof. intros Hp. unfold append_text. rewrite Hp. simpl. by rewrite lookup_insert_eq. Qed.

Lemma csv_loop_spec pdf_path csv_path r ocr idx st t :
  pdf_path <> csv_path ->
  files st !! csv_path = Some (TextFile t) ->
  files (csv_loop pdf_path csv_path r ocr idx st) !! csv_path =
    Some (TextFile (t ++ write_rows (map (fun i => csv_row pdf_path r ocr i st) idx))) /\
  open_pdf pdf_path (csv_loop pdf_path csv_path r ocr idx st) = open_pdf pdf_path st /\
  locked (csv_loop pdf_path csv_path r ocr idx st) = locked st.
Proof.
  revert st t. induction idx as [|i idx IH]; intros st t Hne Ht.
  - simpl. by rewrite app_nil_r.
  - simpl. destruct (IH (append_text csv_path (write_row (csv_row pdf_path r ocr i st)) st)
                       (t ++ write_row (csv_row pdf_path r ocr i st)) Hne) as (H1 & H2 & H3).
    { by apply append_text_files_same. }
    rewrite H1, H2, open_pdf_append by done. split; [|split].
    + assert (Hm : map (fun j => csv_row pdf_path r ocr j
                     (append_text csv_path (write_row (csv_row pdf_path r ocr i st)) st)) idx =
                   map (fun j => csv_row pdf_path r ocr j st) idx)
        by (apply map_ext; intros j; by apply csv_row_append).
      rewrite Hm, <- app_assoc. reflexivity.
    + done.
    + rewrite H3. unfold append_text. by destruct (files st !! csv_path) as [[]|].
Qed.

(** The ledger [generate_csv] leaves: the header, then one row per page
    index from [start_page - 1] to the last page, in order, with the
    1-based page number and the sanitized label read with the given
    method. *)
Lemma generate_csv_ledger pdf_path start_page r ocr (st : fs Page) pages :
  pdf_path <> csv_path_of pdf_path ->
  csv_path_of pdf_path ∉ locked st ->
  open_pdf pdf_path st = POk pages ->
  exists st',
    generate_csv pdf_path start_page r ocr st = (st', None) /\
    files st' !! csv_path_of pdf_path =
      Some (TextFile (write_rows (csv_header ::
        map (fun i => csv_row pdf_path r ocr i st)
            (py_range (start_page - 1) (Z.of_nat (length pages)))))) /\
    open_pdf pdf_path st' = POk pages /\ locked st' = locked st.
Proof.
  intros Hne Hlock Hpdf. unfold generate_csv.
  rewrite write_file_ok by done.
  set (st1 := apply_writes _ st).
  assert (Hst1 : files st1 !! csv_path_of pdf_path = Some (TextFile [])).
  { unfold st1, apply_writes. simpl. by rewrite lookup_insert_eq. }
  assert (Hpdf1 : open_pdf pdf_path st1 = POk pages).
  { unfold st1, apply_writes. simpl. unfold open_pdf. simpl.
    rewrite lookup_insert_ne by congruence. apply Hpdf. }
  set (st2 := append_text _ _ st1).
  assert (Hpdf2 : open_pdf pdf_path st2 = POk pages) by (unfold st2; by rewrite open_pdf_append).
  rewrite Hpdf2. eexists. split; [reflexivity|].
  destruct (csv_loop_spec pdf_path (csv_path_of pdf_path) r ocr
              (py_range (start_page - 1) (Z.of_nat (length pages))) st2 (write_row csv_header) Hne)
    as (H1 & H2 & H3).
  { unfold st2, append_text. rewrite Hst1. simpl. by rewrite lookup_insert_eq. }
  rewrite H1, H2, H3. split; [|split; [done|]].
  - assert (Hm : map (fun i => csv_row pdf_path r ocr i st2)
                   (py_range (start_page - 1) (Z.of_nat (length pages))) =
                 map (fun i => csv_row pdf_path r ocr i st)
                   (py_range (start_page - 1) (Z.of_nat (length pages))))
      by (apply map_ext; intros i; apply csv_row_open_pdf; by rewrite Hpdf2, Hpdf).
    rewrite Hm. reflexivity.
  - unfold st2, append_text. rewrite Hst1. done.
Qed.

(** The text a page yields in the rectangle, with either method, fits in
    a CSV field. *)
Definition clip_fits (r : rect) (pg : Page) : Prop :=
  (Z.of_nat (length (default [] (get_text_clip pg r))) <= field_limit)%Z /\
  (Z.of_nat (length (default [] (ocr_clip pg r))) <= field_limit)%Z.

Lemma on_page_prop (P : pystr -> Prop) f pdf_path i st pages :
  open_pdf pdf_path st = POk pages -> P [] ->
  Forall (fun pg => P (default [] (f pg))) pages ->
  P (on_page f pdf_path i st).
Proof.
  intros Hp H0 Hf. unfold on_page. rewrite Hp.
  destruct (_ ≫= _) as [pg|] eqn:E; [|done].
  apply bind_Some in E as (k & _ & Hk).
  rewrite Forall_forall in Hf. apply Hf. by eapply list_elem_of_lookup_2.
Qed.

(** A label is never longer than what the backend returns. *)
Lemma read_label_length pdf_path r ocr i st pages :
  open_pdf pdf_path st = POk pages -> Forall (clip_fits r) pages ->
  (Z.of_nat (length (read_label pdf_path r ocr i st)) <= field_limit)%Z.
Proof.
  intros Hp Hb. unfold read_label, ocr_part_of_pdf, extract_text_from_location.
  destruct ocr; (eapply on_page_prop; [exact Hp|unfold field_limit; simpl; lia|]);
    (eapply Forall_impl; [exact Hb|]); by intros pg [].
Qed.

(** The ledger of [generate_csv_and_run], with the method chosen once
    from the start page. *)
Lemma generate_csv_and_run_ledger_aux pdf_path start_page r (st : fs Page) pages :
  pdf_path <> csv_path_of pdf_path ->
  csv_path_of pdf_path ∉ locked st ->
  open_pdf pdf_path st = POk pages ->
  exists st',
    generate_csv_and_run pdf_path start_page r st = (st', None) /\
    files st' !! csv_path_of pdf_path =
      Some (TextFile (write_rows (csv_header ::
        map (fun i => csv_row pdf_path r (determine_type pdf_path (start_page - 1) r st) i st)
            (py_range (start_page - 1) (Z.of_nat (length pages)))))) /\
    open_pdf pdf_path st' = POk pages /\ locked st' = locked st.
Proof. intros. unfold generate_csv_and_run. by apply generate_csv_ledger. Qed.


(** C4: the method is chosen once, from the
    text layer of the start page: if the text read there is not empty,
    every page's label is read from the text layer, even a page whose
    region is empty (its label is then empty; OCR is not tried);
    otherwise every page is read by OCR.  The ledger holds the header
    and, for each page index [i] from [start_page - 1] to the last page,
    the row [[str(i + 1), clean_special_text(text)]]. *)
Theorem generate_csv_and_run_mode pdf_path start_page r (st : fs Page) pages :
  pdf_path <> csv_path_of pdf_path ->
  csv_path_of pdf_path ∉ locked st ->
  open_pdf pdf_path st = POk pages ->
  exists st',
    generate_csv_and_run pdf_path start_page r st = (st', None) /\
    files st' !! csv_path_of pdf_path =
      Some (TextFile (write_rows (csv_header ::
        map (fun i => [py_str (i + 1); clean_special_text
               (if bool_decide (extract_text_from_location pdf_path (start_page - 1) r st = [])
                then ocr_part_of_pdf pdf_path i r st
                else extract_text_from_location pdf_path i r st)])
            (py_range (start_page - 1) (Z.of_nat (length pages)))))).
Proof.
  intros Hne Hlock Hpdf.
  destruct (generate_csv_and_run_ledger_aux pdf_path start_page r st pages Hne Hlock Hpdf)
    as (st' & H1 & H2 & _). by exists st'.
Qed.

End Extract.

(** The text layer of page 2 has nothing in the region while OCR would
    read [B-2] there; page 1 has text, so the text layer is used for both
    pages and the second label is empty. *)
Lemma generate_csv_and_run_mode_witness :
  exists st',
    generate_csv_and_run (lit "a.pdf") 1 (mkRect 360 70 432 90)
      (single_pdf (lit "a.pdf") [(lit "B-1", lit "B-1"); ([], lit "B-2")]) = (st', None) /\
    files st' !! csv_path_of (lit "a.pdf") =
      Some (TextFile (lit "Page Number,Extracted Text" ++ lineterminator ++
                      lit "1,B-1" ++ lineterminator ++ lit "2," ++ lineterminator)).
Proof.
  destruct (generate_csv_and_run_mode (lit "a.pdf") 1 (mkRect 360 70 432 90)
              (single_pdf (lit "a.pdf") [(lit "B-1", lit "B-1"); ([], lit "B-2")])
              [(lit "B-1", lit "B-1"); ([], lit "B-2")]) as (st' & H1 & H2);
    [vm_compute; congruence | simpl; set_solver | reflexivity |].
  exists st'. split; [exact H1|]. rewrite H2. vm_compute. reflexivity.
Defined.

End Extract.

