(* ===== verification/Pipeline.v ===== *)
(** * The two steps together: extraction, ledger, split

    Step 1 ([run_1st_step] -> [generate_csv_and_run], Extract.v) writes the
    ledger next to the PDF; step 2 ([run_2nd_step], Splitter.v) finds the
    PDF and the output folder from the ledger's path, reads the ledger and
    writes the sections.  The two steps share nothing but the file system.

    The theorems here run step 2 on the ledger of step 1, unedited: the
    ledger reads back row for row, step 2 recovers the PDF path from the
    ledger path, and the files written are the run-length sections of the
    (sanitized label, page) pairs of the pages from the start page on,
    whose pages, in order, are exactly those pages.

    The hypotheses are what the code needs and does not check: the start
    page is at least 1 (else negative indices wrap around, see Fs.v), the
    PDF's name ends in [.pdf] after a stem with a character other than a
    dot (else the ledger path does not lead back to the PDF), the ledger
    and the output files can be opened for writing, every label fits in a
    CSV field of [field_limit] characters and there are fewer than
    [2 ^ 64] pages (so page numbers fit too). *)

From S2P Require Import Prelude PyStr Sanitizer Grouper Csv PyPath Fs Splitter Extract.
Import PyStr Sanitizer Grouper Csv PyPath Fs Splitter Extract.

Module Pipeline.

(** ** Helpers *)

Lemma py_range_length a b : length (py_range a b) = Z.to_nat (b - a).
Proof. unfold py_range. by rewrite length_map, length_seq. Qed.

Lemma py_range_lookup a b k i :
  py_range a b !! k = Some i <-> i = (a + Z.of_nat k)%Z /\ k < Z.to_nat (b - a).
Proof.
  unfold py_range. rewrite list_lookup_fmap. destruct (seq 0 _ !! k) eqn:E; simpl.
  - apply lookup_seq in E as [-> Hk]. split; [intros [= <-]; done | intros [-> _]; done].
  - split; [done|]. intros [_ Hk]. apply lookup_ge_None in E. rewrite length_seq in E. lia.
Qed.

(** The indices of [range(a, len(pages))] run along the pages from [a]. *)
Lemma py_range_pages {A} (pages : list A) a :
  (0 <= a)%Z ->
  Forall2 (fun i pg => (0 <= i < Z.of_nat (length pages))%Z /\ pages !! Z.to_nat i = Some pg)
          (py_range a (Z.of_nat (length pages))) (drop (Z.to_nat a) pages).
Proof.
  intros Ha. apply Forall2_lookup. intros k.
  destruct (py_range _ _ !! k) as [i|] eqn:Ei.
  - apply py_range_lookup in Ei as [-> Hk]. rewrite lookup_drop.
    destruct (lookup_lt_is_Some_2 pages (Z.to_nat a + k)) as [pg Hpg]; [lia|].
    rewrite Hpg. constructor. split; [lia|]. rewrite <- Hpg. f_equal. lia.
  - apply lookup_ge_None in Ei. rewrite py_range_length in Ei.
    rewrite (proj2 (lookup_ge_None _ _)); [constructor|]. rewrite length_drop. lia.
Qed.

Lemma Forall2_map_zip_with {A B C D} (P : A -> B -> Prop) (Q : C -> D -> Prop)
    (f : A -> C) (g : A -> B -> D) l k :
  (forall a b, P a b -> Q (f a) (g a b)) ->
  Forall2 P l k -> Forall2 Q (map f l) (zip_with g l k).
Proof. intros HPQ HP. induction HP; simpl; constructor; auto. Qed.

(** A ledger row written by step 1 stands, in step 2, for its label and
    the page it was read from. *)
Lemma row_entry_csv_row {Page} (pages : list Page) i pg text :
  (0 <= i < Z.of_nat (length pages))%Z -> pages !! Z.to_nat i = Some pg ->
  row_entry pages [py_str (i + 1); clean_special_text text] = POk (clean_special_text text, pg).
Proof.
  intros Hi Hpg. cbn [row_entry]. rewrite py_int_str. simpl.
  unfold reader_page. replace (i + 1 - 1)%Z with i by lia.
  rewrite pypdf_page_index_ok by lia. simpl. rewrite Hpg. simpl.
  by rewrite clean_special_text_idem.
Qed.

(** The ledger path leads back to the PDF and to the output folder. *)
Lemma csv_path_splitext pdf_path base :
  splitext pdf_path = (base, lit ".pdf") ->
  pdf_path = base ++ lit ".pdf" /\ csv_path_of pdf_path = base ++ lit ".csv" /\
  fst (splitext (csv_path_of pdf_path)) = base.
Proof.
  intros Hext. pose proof (splitext_app pdf_path) as Happ.
  rewrite Hext in Happ. cbn [fst snd] in Happ.
  assert (E : splitext (base ++ extsep :: lit "csv") = (base, extsep :: lit "csv")).
  { apply splitext_change_ext with (e1 := lit "pdf"); [apply (bool_decide_unpack _); vm_compute; reflexivity ..|].
    change (extsep :: lit "pdf") with (lit ".pdf"). by rewrite Happ. }
  unfold csv_path_of. rewrite Hext. cbn [fst]. split; [done|split; [done|]].
  change (lit ".csv") with (extsep :: lit "csv"). by rewrite E.
Qed.

Lemma csv_header_fits : Forall (fun f => (Z.of_nat (length f) <= field_limit)%Z) csv_header.
Proof. unfold csv_header, field_limit. repeat constructor; simpl; lia. Qed.

Section Pipeline.
Context {Page : Type} `{PdfBackend Page}.
Context (pdf_path base : pystr) (start_page : Z) (r : rect) (st : fs Page)
        (pages : list Page).
Hypothesis Hstart : (1 <= start_page)%Z.
Hypothesis Hext : splitext pdf_path = (base, lit ".pdf").
Hypothesis Hpdf : open_pdf pdf_path st = POk pages.
Hypothesis Hcount : (Z.of_nat (length pages) < 2 ^ 64)%Z.
Hypothesis Hfits : Forall (clip_fits r) pages.
Hypothesis Hcsv_lock : base ++ lit ".csv" ∉ locked st.
Hypothesis Hout_lock : forall l, output_pdf_path pdf_path (base ++ lit "_output") l ∉ locked st.

(** The OCR flag step 1 chooses, once, from the start page. *)
Definition ocr_mode : bool := determine_type pdf_path (start_page - 1) r st.

(** The page indices step 1 visits. *)
Definition ledger_indices : list Z := py_range (start_page - 1) (Z.of_nat (length pages)).

(** The rows step 1 writes under the header. *)
Definition ledger_rows : list (list pystr) :=
  map (fun i => csv_row pdf_path r ocr_mode i st) ledger_indices.

(** What the ledger stands for: the sanitized label of each page from
    the start page on, with the page. *)
Definition ledger_entries : list (pystr * Page) :=
  zip_with (fun i pg => (clean_special_text (read_label pdf_path r ocr_mode i st), pg))
           ledger_indices (drop (Z.to_nat (start_page - 1)) pages).

Lemma pdf_ne_csv : pdf_path <> csv_path_of pdf_path.
Proof.
  destruct (csv_path_splitext _ _ Hext) as (-> & Hc & _). rewrite Hc.
  intros Heq%app_inv_head. discriminate.
Qed.

Lemma ledger_rows_fit : Forall (Forall (fun f => (Z.of_nat (length f) <= field_limit)%Z)) ledger_rows.
Proof.
  apply Forall_forall. intros row (i & -> & Hi)%list_elem_of_fmap.
  pose proof (py_range_pages pages (start_page - 1) ltac:(lia)) as HF.
  apply list_elem_of_lookup in Hi as [k Hk].
  destruct (Forall2_lookup_l _ _ _ _ _ HF Hk) as (pg & _ & [Hb _]).
  unfold csv_row. constructor; [|constructor; [|constructor]].
  - assert (length (py_str (i + 1)) <= 64) by (apply py_str_length; lia).
    unfold field_limit. lia.
  - pose proof (clean_special_text_length (read_label pdf_path r ocr_mode i st)).
    pose proof (read_label_length pdf_path r ocr_mode i st pages Hpdf Hfits). lia.
Qed.

Lemma ledger_rows_entries :
  Forall2 (fun row e => row_entry pages row = POk e) ledger_rows ledger_entries.
Proof.
  apply Forall2_map_zip_with with (P := fun i pg =>
    (0 <= i < Z.of_nat (length pages))%Z /\ pages !! Z.to_nat i = Some pg).
  - intros i pg [Hi Hpg]. by apply row_entry_csv_row.
  - apply py_range_pages. lia.
Qed.

(** Step 1 then step 2, as the helper the theorems share. *)
Lemma pipeline_run :
  exists st1,
    generate_csv_and_run pdf_path start_page r st = (st1, None) /\
    read_text (csv_path_of pdf_path) st1 = POk (write_rows (csv_header :: ledger_rows)) /\
    run_2nd_step (csv_path_of pdf_path) st1 =
      (apply_writes (section_writes pdf_path (base ++ lit "_output") (runs ledger_entries))
                    (ensure_folder (base ++ lit "_output") st1), None).
Proof.
  destruct (csv_path_splitext _ _ Hext) as (Hp & Hc & Hroot).
  destruct (generate_csv_and_run_ledger_aux pdf_path start_page r st pages)
    as (st1 & Hrun & Hfile & Hpdf1 & Hlock1);
    [apply pdf_ne_csv | by rewrite Hc | done |].
  exists st1. split; [done|].
  assert (Hread : read_text (csv_path_of pdf_path) st1 =
                  POk (write_rows (csv_header :: ledger_rows)))
    by (unfold read_text; by rewrite Hfile).
  split; [done|]. unfold run_2nd_step. rewrite Hroot, <- Hp.
  apply (split_pdf_from_csv_sections _ _ _ _ pages _ csv_header Hpdf1 Hread ledger_rows).
  - apply read_rows_write_rows. constructor; [apply csv_header_fits|apply ledger_rows_fit].
  - apply ledger_rows_entries.
  - intros l. rewrite Hlock1. apply Hout_lock.
Qed.

Lemma ledger_entries_pages :
  map snd ledger_entries = drop (Z.to_nat (start_page - 1)) pages.
Proof.
  unfold ledger_entries. apply fmap_zip_with_r; [done|].
  unfold ledger_indices. rewrite py_range_length, length_drop. lia.
Qed.

(** C2: the sections step 2 writes from the ledger of
    step 1 partition the pages from the start page on: their pages, in
    order, are exactly those pages, each page lies in the section named
    by its own sanitized label (flattening the sections gives back the
    ledger's (label, page) pairs), no section is empty and two
    neighbouring sections never share a label. *)
Theorem pipeline_partition :
  exists st1 secs,
    generate_csv_and_run pdf_path start_page r st = (st1, None) /\
    run_2nd_step (csv_path_of pdf_path) st1 =
      (apply_writes (section_writes pdf_path (base ++ lit "_output") secs)
                    (ensure_folder (base ++ lit "_output") st1), None) /\
    concat (map snd secs) = drop (Z.to_nat (start_page - 1)) pages /\
    flatten secs = ledger_entries /\
    well_grouped secs.
Proof.
  destruct pipeline_run as (st1 & H1 & _ & H3).
  exists st1, (runs ledger_entries). split; [done|]. split; [done|]. split; [|split].
  - by rewrite runs_pages, ledger_entries_pages.
  - apply runs_flatten.
  - apply runs_well_grouped.
Qed.

(** C3: the ledger step 1 writes reads back, through
    [csv.reader] as step 2 reads it, as the header and one row
    [[str(i + 1), clean_special_text(text)]] per page from the start
    page on, exactly the rows that were written. *)
Theorem ledger_roundtrip :
  exists st1 txt,
    generate_csv_and_run pdf_path start_page r st = (st1, None) /\
    read_text (csv_path_of pdf_path) st1 = POk txt /\
    read_rows txt = (csv_header :: ledger_rows, None).
Proof.
  destruct pipeline_run as (st1 & H1 & H2 & _).
  exists st1, (write_rows (csv_header :: ledger_rows)). split; [done|]. split; [done|].
  apply read_rows_write_rows. constructor; [apply csv_header_fits|apply ledger_rows_fit].
Qed.
End Pipeline.

(** ** Worked examples *)

(** The hypotheses of the theorems above, at a concrete input. *)
Ltac pipeline_hyps :=
  first [ lia
        | reflexivity
        | vm_compute; reflexivity
        | intros; simpl; set_solver
        | repeat constructor; unfold clip_fits, field_limit; cbn; lia ].

(** A page of the examples: the text of its label region, and a marker
    standing for the page's content (and for what OCR would read). *)
Definition ex_page (label : String.string) (n : nat) : pystr * pystr :=
  (lit label, [ascii_of_nat (48 + n)]).

Definition ex_pages : list (pystr * pystr) :=
  [ex_page "B-1" 1; ex_page "B-1" 2; ex_page "B-2" 3; ex_page "B-2" 4;
   ex_page "B-2" 5; ex_page "B-3" 6].

Definition ex_rect : rect := mkRect 360 70 432 90.
Definition ex_pdf : pystr := lit "logs/doc.pdf".
Definition ex_csv : pystr := lit "logs/doc.csv".
Definition ex_fs : fs (pystr * pystr) := single_pdf ex_pdf ex_pages.
Definition ex_out (label : String.string) : pystr :=
  lit "logs/doc_output/doc_" ++ lit label ++ lit ".pdf".

(** The ledger as text: the header and one line per row, each ended by
    [CR LF]. *)
Definition ex_ledger (rows : list String.string) : pystr :=
  concat (map (fun l => lit l ++ lineterminator) ("Page Number,Extracted Text" :: rows)).


Lemma pipeline_partition_witness :
  exists st1 secs,
    generate_csv_and_run ex_pdf 1 ex_rect ex_fs = (st1, None) /\
    run_2nd_step (csv_path_of ex_pdf) st1 =
      (apply_writes (section_writes ex_pdf (lit "logs/doc" ++ lit "_output") secs)
                    (ensure_folder (lit "logs/doc" ++ lit "_output") st1), None) /\
    concat (map snd secs) = drop (Z.to_nat (1 - 1)) ex_pages /\
    flatten secs = ledger_entries ex_pdf 1 ex_rect ex_fs ex_pages /\
    well_grouped secs.
Proof. apply (pipeline_partition ex_pdf (lit "logs/doc")); pipeline_hyps. Defined.

Lemma ledger_roundtrip_witness :
  exists st1 txt,
    generate_csv_and_run ex_pdf 1 ex_rect ex_fs = (st1, None) /\
    read_text (csv_path_of ex_pdf) st1 = POk txt /\
    read_rows txt = (csv_header :: ledger_rows ex_pdf 1 ex_rect ex_fs ex_pages, None).
Proof. apply (ledger_roundtrip ex_pdf (lit "logs/doc")); pipeline_hyps. Defined.


(** The ledger after a person edits it between the two steps. *)
Definition ex_after_edit (rows : list String.string) : fs (pystr * pystr) :=
  apply_writes [(ex_csv, TextFile (ex_ledger rows))]
               (generate_csv_and_run ex_pdf 1 ex_rect ex_fs).1.


(** Changing the label of row 4 to [B-1]
    instead makes [B-1] come back after [B-2]: five sections are written,
    and the file [doc_B-1.pdf] ends up holding page 4 only, its first
    content (pages 1-2) overwritten. *)
Example scenario_edit_collision :
  let '(st2, e2) := run_2nd_step ex_csv
                      (ex_after_edit ["1,B-1"; "2,B-1"; "3,B-2"; "4,B-1"; "5,B-2"; "6,B-3"]) in
  e2 = None /\
  map fst (drop 2 (log st2)) =
    [ex_out "B-1"; ex_out "B-2"; ex_out "B-1"; ex_out "B-2"; ex_out "B-3"] /\
  files st2 !! ex_out "B-1" = Some (PdfFile (take 1 (drop 3 ex_pages))) /\
  files st2 !! ex_out "B-2" = Some (PdfFile (take 1 (drop 4 ex_pages))).
Proof. vm_compute. repeat split. Qed.


End Pipeline.
