(* ===== verification/App.v ===== *)
(** * The application: settings, start-up and the window's handlers

    Models the rest of src/SplitBoringLog2.1.py: [load_settings] (lines
    158-169), the module's start-up (lines 171-228) and the callbacks the
    two buttons run, [run_1st_step] (lines 143-151, with
    [generate_csv_and_run], lines 126-129) and [run_2nd_step] (lines
    153-156).  The window is a state machine: its state [app] is the file
    system, whether the [Split File] button is enabled and the text of the
    five entries; an [event] is a click on a button together with what its
    file dialog returned, typing into an entry, or a person editing a text
    file (the ledger) outside the program.  Tk runs one callback at a
    time, ignores clicks on a disabled button and, when a callback raises,
    prints the exception and goes on with whatever the callback had done.

    The start-up never gets to the window: line 175 reads [sys.executable]
    but [sys] is never imported, and the [NameError] ends the program
    ([startup_raises]).  The handlers are modelled as the code defines
    them, and the theorems about the window start from the state lines
    182-226 build. *)

From S2P Require Import Prelude PyStr Sanitizer Grouper Csv PyPath Fs Splitter Extract.
Import PyStr Sanitizer Grouper Csv PyPath Fs Splitter Extract.

Module App.

(** ** [load_settings] *)

Definition settings_file : pystr := lit "settings.txt".

(** The rectangle used when the settings file is missing or malformed. *)
Definition default_settings : Z * Z * Z * Z := (360, 70, 432, 90)%Z.

Section Settings.
Context {Page : Type}.

(** Lines 158-169: the first line of [settings.txt], stripped, split at
    commas, each piece through [int()], unpacked into four names; a
    [ValueError] of [int()] or of the unpacking gives the defaults.
    Opening and reading the file are outside the [try]: their exceptions
    propagate. *)
Definition load_settings (st : fs Page) : pyres (Z * Z * Z * Z) :=
  if path_exists st settings_file then
    txt <-? read_text settings_file st;
    let line := py_strip (readline txt) in
    match map py_int (py_split ","%char line) with
    | [Some x1; Some y1; Some x2; Some y2] => POk (x1, y1, x2, y2)
    | _ => POk default_settings
    end
  else POk default_settings.
End Settings.

(** A settings line as a person or a tool would write it. *)
Definition settings_line (x1 y1 x2 y2 : Z) : pystr :=
  py_str x1 ++ ","%char :: py_str y1 ++ ","%char :: py_str x2 ++ ","%char :: py_str y2.

(** ** The window *)

Section Window.
Context {Page : Type} `{PdfBackend Page}.

Record app := mkApp {
  app_fs : fs Page;
  button2 : bool;          (** [button2] enabled *)
  entry_start : pystr;
  entry_x1 : pystr;
  entry_y1 : pystr;
  entry_x2 : pystr;
  entry_y2 : pystr
}.

(** Lines 182-226: the entries hold [1] and the loaded rectangle, the
    split button is disabled. *)
Definition build_window (d : Z * Z * Z * Z) (st : fs Page) : app :=
  let '(x1, y1, x2, y2) := d in
  mkApp st false (lit "1") (py_str x1) (py_str y1) (py_str x2) (py_str y2).



Inductive entry : Type := EStart | EX1 | EY1 | EX2 | EY2.

Definition set_entry (e : entry) (t : pystr) (a : app) : app :=
  let '(mkApp st b s x1 y1 x2 y2) := a in
  match e with
  | EStart => mkApp st b t x1 y1 x2 y2
  | EX1 => mkApp st b s t y1 x2 y2
  | EY1 => mkApp st b s x1 t x2 y2
  | EX2 => mkApp st b s x1 y1 t y2
  | EY2 => mkApp st b s x1 y1 x2 t
  end.

Definition with_fs (st : fs Page) (b : bool) (a : app) : app :=
  mkApp st b (entry_start a) (entry_x1 a) (entry_y1 a) (entry_x2 a) (entry_y2 a).

(** Lines 146-150: [int()] of the five entries, in order. *)
Definition parse_entries (a : app) : option (Z * rect) :=
  start_page ← py_int (entry_start a);
  x1 ← py_int (entry_x1 a);
  y1 ← py_int (entry_y1 a);
  x2 ← py_int (entry_x2 a);
  y2 ← py_int (entry_y2 a);
  Some (start_page, mkRect x1 y1 x2 y2).

(** Lines 143-151 with 126-129: nothing when the dialog is cancelled;
    a [ValueError] of [int()] ends the callback before any effect;
    otherwise the split button is disabled, the ledger generated, and the
    button enabled again at the end of [generate_csv] (line 75), which an
    exception skips. *)
Definition run_1st_step (pdf_path : pystr) (a : app) : app :=
  match pdf_path with
  | [] => a
  | _ =>
      match parse_entries a with
      | None => a
      | Some (start_page, r) =>
          let '(st', err) := generate_csv_and_run pdf_path start_page r (app_fs a) in
          with_fs st' (bool_decide (err = None)) a
      end
  end.

(** Lines 153-156: the split's exceptions are caught inside it. *)
Definition run_2nd_step_app (csv_path : pystr) (a : app) : app :=
  with_fs (run_2nd_step csv_path (app_fs a)).1 (button2 a) a.

(** A person edits and saves a text file, such as the ledger. *)
Definition edit_file (p text : pystr) (st : fs Page) : fs Page :=
  match files st !! p with
  | Some (TextFile _) => mkFs (<[p := TextFile text]> (files st)) (dirs st) (locked st) (log st)
  | _ => st
  end.

Inductive event : Type :=
  | Click1 (dialog : pystr)       (** [button1]; the PDF dialog's result *)
  | Click2 (dialog : pystr)       (** [button2]; the CSV dialog's result *)
  | TypeEntry (e : entry) (text : pystr)
  | EditFile (p text : pystr).

(** One event of Tk's main loop; a click on the disabled button does
    nothing. *)
Definition handle (ev : event) (a : app) : app :=
  match ev with
  | Click1 d => run_1st_step d a
  | Click2 d => if button2 a then run_2nd_step_app d a else a
  | TypeEntry e t => set_entry e t a
  | EditFile p t => with_fs (edit_file p t (app_fs a)) (button2 a) a
  end.

(** The states the window can reach from the one the code builds. *)
Inductive reachable (st0 : fs Page) : app -> Prop :=
  | reach_init d : load_settings st0 = POk d -> reachable st0 (build_window d st0)
  | reach_step a ev : reachable st0 a -> reachable st0 (handle ev a).

End Window.

(** ** Lemmas *)

Lemma py_str_nospace z : Forall (fun c => py_isspace c = false) (py_str z).
Proof.
  eapply Forall_impl; [apply py_str_chars|]. intros c [Hc| ->]; [by apply is_digit_not_space|done].
Qed.

Lemma py_str_no_char z c : is_digit c = false -> c <> "-"%char -> c ∉ py_str z.
Proof.
  intros Hd Hm Hin. pose proof (py_str_chars z) as Hz. rewrite Forall_forall in Hz.
  destruct (Hz c Hin) as [H'|H']; congruence.
Qed.

Lemma settings_line_nospace x1 y1 x2 y2 :
  Forall (fun c => py_isspace c = false) (settings_line x1 y1 x2 y2).
Proof.
  unfold settings_line.
  repeat first [ apply Forall_app; split; [apply py_str_nospace|]
               | apply Forall_cons; split; [reflexivity|] ].
  apply py_str_nospace.
Qed.

Lemma settings_line_no_nl x1 y1 x2 y2 c :
  c = "010"%char \/ c = "013"%char -> c ∉ settings_line x1 y1 x2 y2.
Proof.
  intros Hc Hin. pose proof (settings_line_nospace x1 y1 x2 y2) as Hs.
  rewrite Forall_forall in Hs. specialize (Hs c Hin). by destruct Hc as [->| ->].
Qed.

Lemma py_split_settings_line x1 y1 x2 y2 :
  py_split ","%char (settings_line x1 y1 x2 y2) = [py_str x1; py_str y1; py_str x2; py_str y2].
Proof.
  unfold settings_line.
  rewrite !py_split_app_sep, py_split_nosep by (apply py_str_no_char; done). done.
Qed.

(** A successful [generate_csv] leaves its ledger as a text file. *)
Lemma generate_csv_ok_ledger {Page} `{PdfBackend Page} pdf_path start_page r ocr (st st' : fs Page) :
  generate_csv pdf_path start_page r ocr st = (st', None) ->
  exists t, files st' !! csv_path_of pdf_path = Some (TextFile t).
Proof.
  unfold generate_csv. destruct (write_file _ _ st) as [st1|e] eqn:Hw; [|by intros [=]].
  assert (Hst1 : files st1 !! csv_path_of pdf_path = Some (TextFile [])).
  { unfold write_file in Hw. case_decide; [done|]. injection Hw as <-. simpl.
    by rewrite lookup_insert_eq. }
  set (st2 := append_text _ _ st1).
  assert (Hst2 : files st2 !! csv_path_of pdf_path = Some (TextFile ([] ++ write_row csv_header)))
    by (by apply append_text_files_same).
  destruct (open_pdf pdf_path st2) as [pages|e] eqn:Hp; [|by intros [=]].
  intros [= <-].
  assert (Hne : pdf_path <> csv_path_of pdf_path)
    by (intros Heq; unfold open_pdf in Hp; rewrite Heq, Hst2 in Hp; discriminate).
  destruct (csv_loop_spec pdf_path (csv_path_of pdf_path) r ocr
              (py_range (start_page - 1) (Z.of_nat (length pages))) st2 _ Hne Hst2)
    as (H1 & _). eauto.
Qed.

(** [os.path.join] ends with the component it appends. *)
Lemma join_suffix a b : b <> [] -> exists pre, join a b = pre ++ b.
Proof.
  intros Hb. unfold join. destruct b as [|c b]; [done|].
  case_decide; [by exists []|]. destruct (last a) as [l|]; [|by exists []].
  case_decide; [by exists a|]. exists (a ++ [sep]). by rewrite <- app_assoc.
Qed.

Lemma output_pdf_path_suffix pdf_path output_folder l :
  exists pre, output_pdf_path pdf_path output_folder l = pre ++ lit ".pdf".
Proof.
  unfold output_pdf_path.
  destruct (join_suffix output_folder (fst (splitext (basename pdf_path)) ++ "_"%char :: l ++ lit ".pdf"))
    as [pre ->]; [by destruct (fst _)|].
  exists (pre ++ fst (splitext (basename pdf_path)) ++ "_"%char :: l).
  by rewrite <- !app_assoc.
Qed.

(** A ledger is never an output file: one ends in [.csv], the other in
    [.pdf]. *)
Lemma csv_path_not_output p pdf_path output_folder l :
  csv_path_of p <> output_pdf_path pdf_path output_folder l.
Proof.
  destruct (output_pdf_path_suffix pdf_path output_folder l) as [pre ->].
  unfold csv_path_of. intros Heq. apply app_inj_2 in Heq as [_ Heq]; [discriminate|done].
Qed.

Lemma edit_file_text {Page} p text q t (st : fs Page) :
  files st !! q = Some (TextFile t) ->
  exists t', files (edit_file p text st) !! q = Some (TextFile t').
Proof.
  intros Hq. unfold edit_file. destruct (files st !! p) as [[|]|] eqn:Hp; eauto.
  simpl. destruct (decide (p = q)) as [->|Hne].
  - rewrite lookup_insert_eq. eauto.
  - rewrite lookup_insert_ne by done. eauto.
Qed.

Arguments app : clear implicits.
Arguments event : clear implicits.

(** ** Theorems *)


(** C17: a settings file whose first line is
    [x1,y1,x2,y2] (the numbers as [str()] writes them), ended by LF or CR,
    loads as that rectangle, whatever follows the line. *)
Theorem load_settings_roundtrip {Page} (st : fs Page) x1 y1 x2 y2 nl rest :
  nl = "010"%char \/ nl = "013"%char ->
  files st !! settings_file = Some (TextFile (settings_line x1 y1 x2 y2 ++ nl :: rest)) ->
  load_settings st = POk (x1, y1, x2, y2).
Proof.
  intros Hnl Hf. unfold load_settings, path_exists, read_text. rewrite Hf.
  rewrite (bool_decide_true (is_Some _)) by eauto. rewrite orb_true_r. cbn [pbind].
  rewrite readline_app_nl by (done || (apply settings_line_no_nl; auto)).
  rewrite py_strip_app_space by (done || apply settings_line_nospace).
  rewrite py_split_settings_line. cbn [map]. by rewrite !py_int_str.
Qed.

(** C6: in every state the window can
    reach, the [Split File] button is enabled only when a ledger
    ([<stem>.csv]) exists as a text file: it starts disabled, only a step 1
    that wrote its ledger to the end enables it, step 2 never writes a
    [.csv] path, and editing the ledger keeps it a text file. *)
Theorem reachable_split_enabled_ledger {Page} `{PdfBackend Page} (st0 : fs Page) a :
  reachable st0 a -> button2 a = true ->
  exists p t, files (app_fs a) !! csv_path_of p = Some (TextFile t).
Proof.
  induction 1 as [[[[x1 y1] x2] y2] _|a ev Ha IH]; [done|].
  destruct ev as [d|d|e t|p t]; cbn [handle].
  - unfold run_1st_step. destruct d as [|c d]; [done|].
    destruct (parse_entries a) as [[sp r]|]; [|done].
    destruct (generate_csv_and_run _ _ _ _) as [st' [e|]] eqn:E; cbn [button2 with_fs];
      [by rewrite bool_decide_false|intros _].
    exists (c :: d). by eapply generate_csv_ok_ledger.
  - destruct (button2 a) eqn:Hb; [|intros ?; congruence]. intros _.
    destruct (IH eq_refl) as (p & t & Hp). exists p, t.
    cbn [run_2nd_step_app with_fs app_fs]. unfold run_2nd_step.
    rewrite split_pdf_from_csv_frame; [done|]. intros l. apply csv_path_not_output.
  - destruct a, e; apply IH.
  - cbn [with_fs button2 app_fs]. intros Hb. destruct (IH Hb) as (q & t' & Hq).
    destruct (edit_file_text p t _ _ _ Hq) as [t'' Ht'']. eauto.
Qed.

(** C18: when the dialog returns a PDF, the
    entries hold integers and the ledger can be written, step 1 writes the
    ledger (the header and one row per page from the start page on, read
    with the method chosen on the start page) and enables the split
    button. *)
Theorem run_1st_step_enables_split {Page} `{PdfBackend Page} (a : app Page) pdf_path start_page r
    pages :
  pdf_path <> [] -> parse_entries a = Some (start_page, r) ->
  open_pdf pdf_path (app_fs a) = POk pages ->
  pdf_path <> csv_path_of pdf_path -> csv_path_of pdf_path ∉ locked (app_fs a) ->
  button2 (run_1st_step pdf_path a) = true /\
  files (app_fs (run_1st_step pdf_path a)) !! csv_path_of pdf_path =
    Some (TextFile (write_rows (csv_header ::
      map (fun i => csv_row pdf_path r (determine_type pdf_path (start_page - 1) r (app_fs a)) i (app_fs a))
          (py_range (start_page - 1) (Z.of_nat (length pages)))))).
Proof.
  intros Hp Hparse Hpdf Hne Hlock.
  destruct (generate_csv_and_run_ledger_aux pdf_path start_page r (app_fs a) pages Hne Hlock Hpdf)
    as (st' & H1 & H2 & _).
  unfold run_1st_step. destruct pdf_path as [|c d]; [done|]. rewrite Hparse, H1. by split.
Qed.

(** ** Witnesses *)

Definition wit_app_fs : fs (pystr * pystr) := single_pdf (lit "doc.pdf") [(lit "B-1", lit "B-1")].

Lemma load_settings_roundtrip_witness :
  load_settings (mkFs {[settings_file := TextFile (settings_line 10 20 30 40 ++ ["010"%char])]}
                      ∅ ∅ [] : fs nat) = POk (10, 20, 30, 40)%Z.
Proof. apply (load_settings_roundtrip _ 10 20 30 40 "010"%char []); [by left|reflexivity]. Defined.

Lemma reachable_split_enabled_ledger_witness :
  exists p t, files (app_fs (handle (Click1 (lit "doc.pdf")) (build_window default_settings wit_app_fs)))
                !! csv_path_of p = Some (TextFile t).
Proof.
  apply (reachable_split_enabled_ledger wit_app_fs).
  - apply reach_step, reach_init. reflexivity.
  - vm_compute. reflexivity.
Defined.

Lemma run_1st_step_enables_split_witness :
  button2 (run_1st_step (lit "doc.pdf") (build_window default_settings wit_app_fs)) = true /\
  files (app_fs (run_1st_step (lit "doc.pdf") (build_window default_settings wit_app_fs)))
    !! csv_path_of (lit "doc.pdf") =
    Some (TextFile (write_rows (csv_header ::
      map (fun i => csv_row (lit "doc.pdf") (mkRect 360 70 432 90)
                      (determine_type (lit "doc.pdf") (1 - 1) (mkRect 360 70 432 90) wit_app_fs) i wit_app_fs)
          (py_range (1 - 1) (Z.of_nat 1))))).
Proof.
  apply (run_1st_step_enables_split (build_window default_settings wit_app_fs) (lit "doc.pdf") 1
           (mkRect 360 70 432 90) [(lit "B-1", lit "B-1")]);
    first [ discriminate | reflexivity | vm_compute; congruence | simpl; set_solver ].
Defined.

End App.
