(* ===== verification/Datetime.v ===== *)
(** * Python's [datetime], as src/GenerateManualGpxForVideo.py uses it

    The GPX script reads the video's start time with
    [datetime.strptime(s, '%Y-%m-%dT%H:%M:%SZ')] (line 31), adds seconds
    to it ([start + timedelta(seconds=n)], lines 86 and 100) and prints
    times with [isoformat()] (lines 61, 93, 103).  This file models those
    library calls from CPython's [_strptime.py] and [datetime.py]:
    - [strptime_gpx]: the regular expression [_strptime] builds for the
      format (its alternatives tried in order, with backtracking, case
      ignored), the check that nothing is left unconverted, [int()] of
      each group and the range checks of the [datetime] constructor;
    - [isoformat]: [%04d-%02d-%02dT%02d:%02d:%02d];
    - [add_seconds]: [datetime + timedelta] through the proleptic
      Gregorian ordinal ([_ymd2ord], [_ord2ymd]), raising [OverflowError]
      out of years 1..9999;
    and proves that [strptime] reads back what [isoformat] prints. *)

From S2P Require Import Prelude PyStr.

Module Datetime.
Import PyStr.

Record datetime := mkDatetime {
  year : Z; month : Z; day : Z; hour : Z; minute : Z; second : Z
}.

(** ** The proleptic Gregorian calendar ([datetime.py]) *)

Definition is_leap (y : Z) : bool :=
  Z.eqb (y mod 4) 0 && (negb (Z.eqb (y mod 100) 0) || Z.eqb (y mod 400) 0).

(** [_DAYS_IN_MONTH] and [_DAYS_BEFORE_MONTH], index 0 unused. *)
Definition DAYS_IN_MONTH : list Z := [-1; 31; 28; 31; 30; 31; 30; 31; 31; 30; 31; 30; 31]%Z.
Definition DAYS_BEFORE_MONTH : list Z := [-1; 0; 31; 59; 90; 120; 151; 181; 212; 243; 273; 304; 334]%Z.

Definition table (t : list Z) (i : Z) : Z := nth (Z.to_nat i) t 0%Z.

Definition days_in_month (y m : Z) : Z :=
  if Z.eqb m 2 && is_leap y then 29 else table DAYS_IN_MONTH m.

Definition days_before_month (y m : Z) : Z :=
  table DAYS_BEFORE_MONTH m + (if Z.gtb m 2 && is_leap y then 1 else 0).

Definition days_before_year (y : Z) : Z :=
  let y := (y - 1)%Z in (y * 365 + y / 4 - y / 100 + y / 400)%Z.

(** [_ymd2ord]: day 1 is 0001-01-01. *)
Definition ymd2ord (y m d : Z) : Z := (days_before_year y + days_before_month y m + d)%Z.

Definition MAXORDINAL : Z := 3652059.
Definition DI400Y : Z := 146097.
Definition DI100Y : Z := 36524.
Definition DI4Y : Z := 1461.

(** [_ord2ymd], with Python's floor [divmod]. *)
Definition ord2ymd (n : Z) : Z * Z * Z :=
  let n := (n - 1)%Z in
  let n400 := (n / DI400Y)%Z in let n := (n mod DI400Y)%Z in
  let year := (n400 * 400 + 1)%Z in
  let n100 := (n / DI100Y)%Z in let n := (n mod DI100Y)%Z in
  let n4 := (n / DI4Y)%Z in let n := (n mod DI4Y)%Z in
  let n1 := (n / 365)%Z in let n := (n mod 365)%Z in
  let year := (year + n100 * 100 + n4 * 4 + n1)%Z in
  if Z.eqb n1 4 || Z.eqb n100 4 then ((year - 1)%Z, 12%Z, 31%Z)
  else
    let leapyear := Z.eqb n1 3 && (negb (Z.eqb n4 24) || Z.eqb n100 3) in
    let month := Z.shiftr (n + 50) 5 in
    let preceding := (table DAYS_BEFORE_MONTH month + (if Z.gtb month 2 && leapyear then 1 else 0))%Z in
    let '(month, preceding) :=
      if Z.gtb preceding n then
        ((month - 1)%Z,
         (preceding - (table DAYS_IN_MONTH (month - 1) +
                       (if Z.eqb (month - 1) 2 && leapyear then 1 else 0)))%Z)
      else (month, preceding) in
    (year, month, (n - preceding + 1)%Z).

(** The checks of [datetime(year, month, day, hour, minute, second)]. *)
Definition valid (dt : datetime) : bool :=
  Z.leb 1 (year dt) && Z.leb (year dt) 9999 && Z.leb 1 (month dt) && Z.leb (month dt) 12 &&
  Z.leb 1 (day dt) && Z.leb (day dt) (days_in_month (year dt) (month dt)) &&
  Z.leb 0 (hour dt) && Z.leb (hour dt) 23 && Z.leb 0 (minute dt) && Z.leb (minute dt) 59 &&
  Z.leb 0 (second dt) && Z.leb (second dt) 59.

Definition new_datetime (y m d hh mm ss : Z) : pyres datetime :=
  let dt := mkDatetime y m d hh mm ss in
  if valid dt then POk dt else PRaise ValueError.

(** [dt + timedelta(seconds=s)] ([datetime.__add__]): the sum as days and
    seconds, and back to a date if the day is in range. *)
Definition add_seconds (dt : datetime) (s : Z) : pyres datetime :=
  let total := (ymd2ord (year dt) (month dt) (day dt) * 86400 +
                hour dt * 3600 + minute dt * 60 + second dt + s)%Z in
  let days := (total / 86400)%Z in
  let secs := (total mod 86400)%Z in
  if Z.ltb 0 days && Z.leb days MAXORDINAL then
    let '(y, m, d) := ord2ymd days in
    POk (mkDatetime y m d (secs / 3600) (secs mod 3600 / 60) (secs mod 60))
  else PRaise OverflowError.

(** ** [isoformat()] *)

(** [%0<w>d] of a non-negative int. *)
Definition pad (w : nat) (n : Z) : pystr :=
  let s := py_str n in repeat "0"%char (w - length s) ++ s.

Definition isoformat (dt : datetime) : pystr :=
  pad 4 (year dt) ++ lit "-" ++ pad 2 (month dt) ++ lit "-" ++ pad 2 (day dt) ++ lit "T" ++
  pad 2 (hour dt) ++ lit ":" ++ pad 2 (minute dt) ++ lit ":" ++ pad 2 (second dt).

(** ** [strptime] *)

(** A character class of the regular expression. *)
Inductive cls := CDigit | CRange (lo hi : ascii) | CChar (c : ascii).

Definition cls_match (k : cls) (c : ascii) : bool :=
  match k with
  | CDigit => is_digit c
  | CRange lo hi => (nat_of_ascii lo <=? nat_of_ascii c) && (nat_of_ascii c <=? nat_of_ascii hi)
  | CChar d => bool_decide (ascii_lower d = ascii_lower c)
  end.

(** An alternative of a group: a fixed sequence of classes. *)
Definition alt := list cls.

Inductive item := Lit (c : ascii) | Group (alts : list alt).

Fixpoint classes_match (a : alt) (s : pystr) : bool :=
  match a, s with
  | [], _ => true
  | k :: a', c :: s' => cls_match k c && classes_match a' s'
  | _ :: _, [] => false
  end.

Definition prefix_match (a : alt) (s : pystr) : option (pystr * pystr) :=
  if classes_match a s then Some (take (length a) s, drop (length a) s) else None.

(** Every match of [items] at the start of [s], in the order the regex
    engine tries them (alternatives left to right, backtracking into a
    group when what follows fails), with the groups' texts and the rest
    of the string.  [re.IGNORECASE] makes literals match either case. *)
Fixpoint matches (items : list item) (s : pystr) : list (list pystr * pystr) :=
  match items with
  | [] => [([], s)]
  | Lit c :: items' =>
      match s with
      | d :: s' => if bool_decide (ascii_lower d = ascii_lower c) then matches items' s' else []
      | [] => []
      end
  | Group alts :: items' =>
      concat (map (fun a => match prefix_match a s with
                            | Some (cap, r) => map (fun m => (cap :: m.1, m.2)) (matches items' r)
                            | None => []
                            end) alts)
  end.

(** The groups [_strptime] uses for the directives of the format. *)
Definition re_Y : list alt := [[CDigit; CDigit; CDigit; CDigit]].
Definition re_m : list alt :=
  [[CChar "1"; CRange "0" "2"]; [CChar "0"; CRange "1" "9"]; [CRange "1" "9"]].
Definition re_d : list alt :=
  [[CChar "3"; CRange "0" "1"]; [CRange "1" "2"; CDigit]; [CChar "0"; CRange "1" "9"];
   [CRange "1" "9"]; [CChar " "; CRange "1" "9"]].
Definition re_H : list alt := [[CChar "2"; CRange "0" "3"]; [CRange "0" "1"; CDigit]; [CDigit]].
Definition re_M : list alt := [[CRange "0" "5"; CDigit]; [CDigit]].
Definition re_S : list alt := [[CChar "6"; CRange "0" "1"]; [CRange "0" "5"; CDigit]; [CDigit]].

(** The pattern of ['%Y-%m-%dT%H:%M:%SZ']. *)
Definition gpx_format : list item :=
  [Group re_Y; Lit "-"; Group re_m; Lit "-"; Group re_d; Lit "T";
   Group re_H; Lit ":"; Group re_M; Lit ":"; Group re_S; Lit "Z"].

(** [datetime.strptime(s, fmt)] for a format whose directives are
    [fmt]'s groups in the order Y m d H M S: the first match of the
    pattern ([re.match]), the check that no text is left over
    (["unconverted data remains"]), [int()] of each group and the
    constructor's checks. *)
Definition strptime_fmt (fmt : list item) (s : pystr) : pyres datetime :=
  match head (matches fmt s) with
  | Some ([y; m; d; hh; mm; ss], []) =>
      y' <-? of_option ValueError (py_int y);
      m' <-? of_option ValueError (py_int m);
      d' <-? of_option ValueError (py_int d);
      hh' <-? of_option ValueError (py_int hh);
      mm' <-? of_option ValueError (py_int mm);
      ss' <-? of_option ValueError (py_int ss);
      new_datetime y' m' d' hh' mm' ss'
  | _ => PRaise ValueError
  end.

(** [datetime.strptime(s, '%Y-%m-%dT%H:%M:%SZ')] *)
Definition strptime_gpx (s : pystr) : pyres datetime := strptime_fmt gpx_format s.

(** The pattern of ['%Y-%m-%d_%H-%M-%S'], the format of the photo names
    of the album and photo-log scripts. *)
Definition photo_format : list item :=
  [Group re_Y; Lit "-"; Group re_m; Lit "-"; Group re_d; Lit "_";
   Group re_H; Lit "-"; Group re_M; Lit "-"; Group re_S].

(** ** Comparison ([datetime.__lt__]) *)

(** [a < b] on tuples of ints: the first position where they differ
    decides, and a proper prefix is the smaller. *)
Fixpoint tuple_lt (a b : list Z) : bool :=
  match a, b with
  | x :: a', y :: b' => Z.ltb x y || (Z.eqb x y && tuple_lt a' b')
  | [], _ :: _ => true
  | _, [] => false
  end.

(** [datetime._cmp] compares the tuples of the fields. *)
Definition dt_tuple (dt : datetime) : list Z :=
  [year dt; month dt; day dt; hour dt; minute dt; second dt].

Definition dt_lt (a b : datetime) : bool := tuple_lt (dt_tuple a) (dt_tuple b).

#[export] Instance datetime_eq_dec : EqDecision datetime.
Proof. solve_decision. Defined.

(** ** Checks by enumeration *)

(** The integers [lo..hi]. *)
Definition zrange (lo hi : Z) : list Z :=
  map (fun k => (lo + Z.of_nat k)%Z) (seq 0 (Z.to_nat (hi - lo + 1))).

(** A two-character group followed by the literal [sep] (a non-digit):
    every alternative has one or two classes, exactly one of two classes
    accepts [c1 c2], and [c2] is not [sep]. *)
Definition group2_ok (alts : list alt) (c1 c2 sep : ascii) : bool :=
  forallb (fun a => Nat.eqb (length a) 1 || Nat.eqb (length a) 2) alts &&
  Nat.eqb (length (filter (fun a => Nat.eqb (length a) 2 && classes_match a [c1; c2]) alts)) 1 &&
  negb (bool_decide (ascii_lower c2 = ascii_lower sep)).

(** [%02d] of [v] is read back by the group and by [int()]. *)
Definition field_ok (alts : list alt) (sep : ascii) (v : Z) : bool :=
  match pad 2 v with
  | [c1; c2] => group2_ok alts c1 c2 sep && bool_decide (py_int [c1; c2] = Some v)
  | _ => false
  end.

Definition year_ok (v : Z) : bool :=
  match pad 4 v with
  | [a; b; c; d] => forallb is_digit [a; b; c; d] && bool_decide (py_int [a; b; c; d] = Some v)
  | _ => false
  end.

(** ** Lemmas *)

Lemma forallb_zrange (f : Z -> bool) lo hi :
  forallb f (zrange lo hi) = true -> forall v, (lo <= v <= hi)%Z -> f v = true.
Proof.
  intros Hf v Hv. unfold zrange in Hf. rewrite forallb_forall in Hf. apply Hf.
  apply in_map_iff. exists (Z.to_nat (v - lo)). split; [lia|]. apply in_seq. lia.
Qed.

Lemma matches_lit c items s : matches (Lit c :: items) (c :: s) = matches items s.
Proof. simpl. by rewrite bool_decide_true. Qed.

Lemma concat_map_if {A B} (f : A -> bool) (X : list B) (l : list A) :
  concat (map (fun a => if f a then X else []) l) = concat (repeat X (length (filter f l))).
Proof.
  induction l as [|a l IH]; [done|]. rewrite filter_cons. simpl.
  destruct (f a); simpl; by rewrite IH.
Qed.

(** A group of one- and two-class alternatives, then a literal, on two
    characters and that literal: the one alternative that takes both
    characters is the only way through. *)
Lemma matches_group2 alts c1 c2 sep t items :
  group2_ok alts c1 c2 sep = true ->
  matches (Group alts :: Lit sep :: items) ([c1; c2] ++ sep :: t) =
  map (fun m => ([c1; c2] :: m.1, m.2)) (matches items t).
Proof.
  unfold group2_ok. intros [[Hlen Hone]%andb_true_iff Hsep]%andb_true_iff.
  apply Nat.eqb_eq in Hone. apply negb_true_iff in Hsep.
  set (X := map (fun m => ([c1; c2] :: m.1, m.2)) (matches items t)).
  transitivity (concat (map (fun a => if Nat.eqb (length a) 2 && classes_match a [c1; c2]
                                      then X else []) alts)).
  - cbn [matches]. f_equal. apply map_ext_in. intros a Ha.
    rewrite forallb_forall in Hlen. specialize (Hlen a Ha).
    destruct a as [|k1 [|k2 [|k3 a]]]; simpl in Hlen; try discriminate;
      unfold prefix_match; simpl.
    + destruct (cls_match k1 c1); simpl; [|done]. by rewrite Hsep.
    + rewrite !andb_true_r. destruct (cls_match k1 c1 && cls_match k2 c2); [|done].
      simpl. rewrite bool_decide_true by done. reflexivity.
  - rewrite concat_map_if.
    match goal with |- context [length ?L] => replace (length L) with 1 by (symmetry; exact Hone) end.
    simpl. apply app_nil_r.
Qed.

Lemma field_matches alts sep v t items :
  field_ok alts sep v = true ->
  matches (Group alts :: Lit sep :: items) (pad 2 v ++ sep :: t) =
  map (fun m => (pad 2 v :: m.1, m.2)) (matches items t).
Proof.
  unfold field_ok. destruct (pad 2 v) as [|c1 [|c2 [|]]]; try done.
  intros [H _]%andb_true_iff. by apply matches_group2.
Qed.

Lemma field_int alts sep v : field_ok alts sep v = true -> py_int (pad 2 v) = Some v.
Proof.
  unfold field_ok. destruct (pad 2 v) as [|c1 [|c2 [|]]]; try done.
  intros [_ H]%andb_true_iff. by apply bool_decide_eq_true in H.
Qed.

Lemma year_matches v t items :
  year_ok v = true ->
  matches (Group re_Y :: items) (pad 4 v ++ t) = map (fun m => (pad 4 v :: m.1, m.2)) (matches items t).
Proof.
  unfold year_ok. destruct (pad 4 v) as [|a [|b [|c [|d [|]]]]]; try done.
  intros [Hd _]%andb_true_iff. simpl in Hd. rewrite !andb_true_iff in Hd.
  destruct Hd as (Ha & Hb & Hc & Hd & _). cbn [matches map concat].
  unfold prefix_match. simpl. rewrite Ha, Hb, Hc, Hd. simpl. apply app_nil_r.
Qed.

Lemma year_int v : year_ok v = true -> py_int (pad 4 v) = Some v.
Proof.
  unfold year_ok. destruct (pad 4 v) as [|a [|b [|c [|d [|]]]]]; try done.
  intros [_ H]%andb_true_iff. by apply bool_decide_eq_true in H.
Qed.

(** Every field value [isoformat] may print, checked one by one. *)
Lemma year_ok_range : forallb year_ok (zrange 1 9999) = true.
Proof. vm_compute. reflexivity. Qed.

Lemma month_ok_range : forallb (field_ok re_m "-") (zrange 1 12) = true.
Proof. vm_compute. reflexivity. Qed.

Lemma day_ok_range : forallb (field_ok re_d "T") (zrange 1 31) = true.
Proof. vm_compute. reflexivity. Qed.

Lemma hour_ok_range : forallb (field_ok re_H ":") (zrange 0 23) = true.
Proof. vm_compute. reflexivity. Qed.

Lemma minute_ok_range : forallb (field_ok re_M ":") (zrange 0 59) = true.
Proof. vm_compute. reflexivity. Qed.

Lemma second_ok_range : forallb (field_ok re_S "Z") (zrange 0 59) = true.
Proof. vm_compute. reflexivity. Qed.

Lemma days_in_month_le y m : (days_in_month y m <= 31)%Z.
Proof.
  unfold days_in_month, table. destruct (Z.eqb m 2 && is_leap y); [lia|].
  destruct (Z.to_nat m) as [|[|[|[|[|[|[|[|[|[|[|[|[|k]]]]]]]]]]]]]; simpl; try lia.
  destruct k; simpl; lia.
Qed.

Lemma tuple_lt_irrefl a : tuple_lt a a = false.
Proof. induction a; simpl; [done|]. rewrite Z.ltb_irrefl, Z.eqb_refl. done. Qed.

Lemma tuple_lt_trans a b c : tuple_lt a b = true -> tuple_lt b c = true -> tuple_lt a c = true.
Proof.
  revert b c. induction a as [|x a IH]; intros [|y b] [|z c]; simpl; try done.
  rewrite !orb_true_iff, !andb_true_iff, !Z.ltb_lt, !Z.eqb_eq.
  intros [?|[-> ?]] [?|[-> ?]]; [left; lia | left; lia | left; lia | right; eauto].
Qed.

Lemma tuple_lt_total a b : a <> b -> tuple_lt a b = true \/ tuple_lt b a = true.
Proof.
  revert b. induction a as [|x a IH]; intros [|y b] Hne; simpl; try by auto.
  rewrite !orb_true_iff, !andb_true_iff, !Z.ltb_lt, !Z.eqb_eq.
  destruct (Z.lt_trichotomy x y) as [?|[->|?]]; [left; left; lia| |right; left; lia].
  destruct (IH b) as [?|?]; [congruence|auto..].
Qed.

Lemma dt_tuple_inj a b : dt_tuple a = dt_tuple b -> a = b.
Proof. destruct a, b. cbn. intros [= -> -> -> -> -> ->]. done. Qed.

Lemma dt_lt_trans a b c : dt_lt a b = true -> dt_lt b c = true -> dt_lt a c = true.
Proof. apply tuple_lt_trans. Qed.

Lemma dt_lt_total a b : a <> b -> dt_lt a b = true \/ dt_lt b a = true.
Proof. intros Hne. apply tuple_lt_total. intros ?%dt_tuple_inj. done. Qed.

(** [strptime] with the script's format reads back every valid date
    and time as [isoformat] prints it followed by [Z]: the start time the
    script prints in the GPX metadata is the one it parsed. *)
Theorem strptime_isoformat dt :
  valid dt = true -> strptime_gpx (isoformat dt ++ lit "Z") = POk dt.
Proof.
  intros Hv. pose proof Hv as H. destruct dt as [y m d hh mm ss]. unfold valid in H. simpl in H.
  rewrite !andb_true_iff, !Z.leb_le in H.
  destruct H as (((((((((((H1 & H2) & H3) & H4) & H5) & H6) & H7) & H8) & H9) & H10) & H11) & H12).
  pose proof (days_in_month_le y m).
  pose proof (forallb_zrange _ _ _ year_ok_range y ltac:(lia)) as Hy.
  pose proof (forallb_zrange _ _ _ month_ok_range m ltac:(lia)) as Hm.
  pose proof (forallb_zrange _ _ _ day_ok_range d ltac:(lia)) as Hd.
  pose proof (forallb_zrange _ _ _ hour_ok_range hh ltac:(lia)) as Hh.
  pose proof (forallb_zrange _ _ _ minute_ok_range mm ltac:(lia)) as Hmi.
  pose proof (forallb_zrange _ _ _ second_ok_range ss ltac:(lia)) as Hs.
  unfold strptime_gpx, strptime_fmt, isoformat, gpx_format. cbn [year month day hour minute second].
  change (lit "-") with ["-"%char]. change (lit "T") with ["T"%char].
  change (lit ":") with [":"%char]. change (lit "Z") with ["Z"%char].
  rewrite <- !app_assoc. cbn [app].
  rewrite year_matches, matches_lit by done.
  rewrite (field_matches re_m), (field_matches re_d), (field_matches re_H),
          (field_matches re_M), (field_matches re_S) by done.
  simpl. rewrite (year_int y), (field_int re_m "-" m), (field_int re_d "T" d),
    (field_int re_H ":" hh), (field_int re_M ":" mm), (field_int re_S "Z" ss) by done.
  simpl. unfold new_datetime. by rewrite Hv.
Qed.

(** The start time of the script's sample input. *)
Definition ex_start : datetime := mkDatetime 2024 6 11 13 48 7.

Lemma strptime_isoformat_witness :
  valid ex_start = true /\ strptime_gpx (isoformat ex_start ++ lit "Z") = POk ex_start.
Proof. split; [reflexivity|]. apply strptime_isoformat. reflexivity. Defined.

(** The format's groups take one-digit fields and either case. *)
Example strptime_short_fields :
  strptime_gpx (lit "2024-6-1t3:4:5z") = POk (mkDatetime 2024 6 1 3 4 5).
Proof. vm_compute. reflexivity. Qed.

Example strptime_bad_day : strptime_gpx (lit "2024-02-30T13:48:07Z") = PRaise ValueError.
Proof. vm_compute. reflexivity. Qed.

Example add_seconds_new_year :
  add_seconds (mkDatetime 2024 12 31 23 59 59) 1 = POk (mkDatetime 2025 1 1 0 0 0).
Proof. vm_compute. reflexivity. Qed.

End Datetime.
