(* ===== verification/PySort.v ===== *)
(** * Python's [list.sort(key=...)]

    The album and photo-log scripts sort their photos with
    [photo_info.sort(key=lambda x: x[1])].  CPython sorts with Timsort;
    what the language promises is a stable sort by [<] on the keys: the
    result is ordered by key, and elements with equal keys keep their
    order.  This file models the call by an insertion sort, [sort_by], and
    proves that it keeps that promise and that the promise determines
    the result: any list ordered by key whose elements of each key are
    those of the input in the input's order is [sort_by]'s result
    ([stable_sort_unique]).  So the model gives what Timsort gives.

    [<] on the keys is the class [PyOrd] (a strict total order, as [<] on
    [datetime] is); its instance for [datetime] is at the end. *)

From Stdlib Require Import Sorting.
From S2P Require Import Prelude Datetime.

Module PySort.
Import Datetime.

(** [<] on a key type: irreflexive, transitive, and total on distinct
    keys. *)
Class PyOrd (K : Type) `{EqDecision K} := {
  py_lt : K -> K -> bool;
  py_lt_irrefl k : py_lt k k = false;
  py_lt_trans a b c : py_lt a b = true -> py_lt b c = true -> py_lt a c = true;
  py_lt_total a b : a <> b -> py_lt a b = true \/ py_lt b a = true
}.

Section Sort.
Context {A K : Type} `{PyOrd K} (key : A -> K).

(** [x] goes after the elements whose key is smaller than its own, before
    the first one that is not. *)
Fixpoint insert_by (x : A) (l : list A) : list A :=
  match l with
  | [] => [x]
  | y :: r => if py_lt (key y) (key x) then y :: insert_by x r else x :: y :: r
  end.

(** [l.sort(key=key)] *)
Definition sort_by (l : list A) : list A := fold_right insert_by [] l.

(** The order [sort_by] produces: no key smaller than one before it. *)
Definition key_le (x y : A) : Prop := py_lt (key y) (key x) = false.

(** The elements of [l] with key [k], in order. *)
Definition with_key (k : K) (l : list A) : list A := filter (fun x => key x = k) l.

Lemma key_le_trans x y z : key_le x y -> key_le y z -> key_le x z.
Proof.
  unfold key_le. intros Hxy Hyz. destruct (py_lt (key z) (key x)) eqn:Hzx; [|done].
  destruct (decide (key x = key y)) as [E|Ne].
  - by rewrite <- E, Hzx in Hyz.
  - destruct (py_lt_total _ _ Ne) as [Hlt|Hlt]; [|congruence].
    by rewrite (py_lt_trans _ _ _ Hzx Hlt) in Hyz.
Qed.

Lemma key_le_lt x y : py_lt (key x) (key y) = true -> key_le x y.
Proof.
  unfold key_le. intros Hxy. destruct (py_lt (key y) (key x)) eqn:Hyx; [|done].
  pose proof (py_lt_trans _ _ _ Hxy Hyx). by rewrite py_lt_irrefl in *.
Qed.

Lemma key_le_refl x : key_le x x.
Proof. apply py_lt_irrefl. Qed.

Lemma key_le_antisym x y : key_le x y -> key_le y x -> key x = key y.
Proof.
  unfold key_le. intros ??. destruct (decide (key x = key y)) as [|Ne]; [done|].
  destruct (py_lt_total _ _ Ne); congruence.
Qed.

Lemma insert_by_perm x l : insert_by x l ≡ₚ x :: l.
Proof.
  induction l as [|y l IH]; simpl; [done|]. destruct (py_lt _ _); [|done].
  rewrite IH. apply perm_swap.
Qed.

Lemma sort_by_perm l : sort_by l ≡ₚ l.
Proof. induction l as [|x l IH]; simpl; [done|]. by rewrite insert_by_perm, IH. Qed.

Lemma insert_by_sorted x l : Sorted key_le l -> Sorted key_le (insert_by x l).
Proof.
  induction 1 as [|y l Hl IH Hhd]; simpl; [repeat constructor|].
  destruct (py_lt (key y) (key x)) eqn:Hyx.
  - constructor; [done|]. destruct l as [|z l]; simpl.
    + constructor. by apply key_le_lt.
    + inversion Hhd; subst. destruct (py_lt (key z) (key x)); constructor; [done|by apply key_le_lt].
  - constructor; by constructor.
Qed.

Lemma sort_by_sorted l : Sorted key_le (sort_by l).
Proof. induction l; simpl; [constructor|]. by apply insert_by_sorted. Qed.

Lemma sort_by_strongly_sorted l : StronglySorted key_le (sort_by l).
Proof. apply Sorted_StronglySorted; [intros ???; apply key_le_trans|apply sort_by_sorted]. Qed.

(** Inserting [x] keeps the order of the elements of each key. *)
Lemma with_key_insert_by k x l : with_key k (insert_by x l) = with_key k (x :: l).
Proof.
  unfold with_key. induction l as [|y l IH]; simpl; [done|].
  destruct (py_lt (key y) (key x)) eqn:Hyx; [|done].
  rewrite filter_cons, IH, !filter_cons.
  destruct (decide (key y = k)) as [Hy|Hy], (decide (key x = k)) as [Hx|Hx]; try done.
  rewrite Hy, Hx, py_lt_irrefl in Hyx. discriminate.
Qed.

Lemma sort_by_stable k l : with_key k (sort_by l) = with_key k l.
Proof.
  induction l as [|x l IH]; [done|]. cbn [sort_by fold_right]. fold (sort_by l).
  rewrite with_key_insert_by. unfold with_key in *. rewrite !filter_cons. by rewrite IH.
Qed.

Lemma with_key_elem k x l : x ∈ l -> key x = k -> x ∈ with_key k l.
Proof. intros. unfold with_key. by apply list_elem_of_filter. Qed.

Lemma with_key_cons_same k x l : key x = k -> with_key k (x :: l) = x :: with_key k l.
Proof. intros. unfold with_key. rewrite filter_cons. by rewrite decide_True. Qed.

Lemma with_key_cons_other k x l : key x <> k -> with_key k (x :: l) = with_key k l.
Proof. intros. unfold with_key. rewrite filter_cons. by rewrite decide_False. Qed.

(** Two lists ordered by key with the same elements of each key, in the
    same order, are equal. *)
Lemma sorted_same_keys_eq l1 l2 :
  StronglySorted key_le l1 -> StronglySorted key_le l2 ->
  (forall k, with_key k l1 = with_key k l2) -> l1 = l2.
Proof.
  revert l2. induction l1 as [|x r1 IH]; intros l2 H1 H2 Hk.
  - destruct l2 as [|y r2]; [done|]. specialize (Hk (key y)).
    by rewrite with_key_cons_same in Hk.
  - destruct l2 as [|y r2].
    { specialize (Hk (key x)). by rewrite with_key_cons_same in Hk. }
    apply StronglySorted_inv in H1 as [H1 Hx], H2 as [H2 Hy].
    assert (Hin : forall z, z ∈ with_key (key z) (x :: r1) -> z = x \/ z ∈ r1).
    { intros z [_ Hz]%list_elem_of_filter. by apply elem_of_cons. }
    assert (Hxy : key x = key y).
    { apply key_le_antisym.
      - assert (Hy' : y ∈ with_key (key y) (x :: r1)) by (rewrite Hk, with_key_cons_same by done; by left).
        destruct (Hin y Hy') as [->|Hr]; [apply key_le_refl|].
        rewrite Forall_forall in Hx. by apply Hx.
      - assert (Hx' : x ∈ with_key (key x) (y :: r2)) by (rewrite <- Hk, with_key_cons_same by done; by left).
        apply list_elem_of_filter in Hx' as [_ Hx']. apply elem_of_cons in Hx' as [->|Hr]; [apply key_le_refl|].
        rewrite Forall_forall in Hy. by apply Hy. }
    pose proof (Hk (key x)) as Hkx.
    rewrite !with_key_cons_same in Hkx by done. injection Hkx as -> Hkx.
    f_equal. apply IH; [done..|]. intros k.
    destruct (decide (key y = k)) as [<-|Ne]; [done|].
    specialize (Hk k). by rewrite !with_key_cons_other in Hk.
Qed.

(** The contract of [list.sort] determines its result: a list ordered by
    key in which the elements of each key are those of [l] in [l]'s
    order is [sort_by l]. *)
Lemma stable_sort_unique l l' :
  StronglySorted key_le l' -> (forall k, with_key k l' = with_key k l) -> l' = sort_by l.
Proof.
  intros Hs Hk. apply sorted_same_keys_eq; [done|apply sort_by_strongly_sorted|].
  intros k. by rewrite Hk, sort_by_stable.
Qed.

End Sort.

(** [<] on [datetime] compares the tuples of the fields. *)
#[export] Program Instance datetime_py_ord : PyOrd datetime := {| py_lt := dt_lt |}.
Next Obligation. intros k. apply tuple_lt_irrefl. Qed.
Next Obligation. intros a b c. apply dt_lt_trans. Qed.
Next Obligation. intros a b. apply dt_lt_total. Qed.

End PySort.
