(* ===== verification/Exif.v ===== *)
(** * Photos as PIL reads them: EXIF values, GPS positions and the
      orientation of the pixel grid

    The two KMZ exporters (src/GenKMZwithRotationFinal.py and
    src/GenerateKmz.py, modelled in Kmz.v) read each photo through PIL's
    [_getexif()].  This file holds what they compute from one photo:
    - [exif_val]: the values of the EXIF dict (ints, TIFF rationals as
      [IFDRational], strings, tuples, the GPSInfo dict), with Python's
      subscript, [in], [==] and truthiness on them;
    - [convert_to_decimal_degrees]: degrees, minutes and seconds to a
      float, with IEEE double arithmetic as CPython does it ([PrimFloat]);
    - [pose]: the eight ways a pixel grid can sit relative to the scene
      (the dihedral group of the square), the transform an EXIF
      Orientation tag asks a viewer to apply ([PIL.ImageOps.exif_transpose]'s
      table), PIL's [rotate] by multiples of 90 degrees, and the photo the
      rotation script writes ([corrected_photo], lines 193-216);
    - the theorem that this photo looks like the original exactly when
      the tag is not a mirrored orientation. *)

From Stdlib Require Import Floats.
From S2P Require Import Prelude PyStr.

Module Exif.
Import PyStr.

(** ** EXIF values *)

(** What PIL's [_getexif()] puts in its dict: [int] (TIFF SHORT and
    LONG, e.g. the Orientation tag), [IFDRational] (TIFF RATIONAL, e.g.
    the degrees, minutes and seconds of a GPS coordinate), [str] (e.g.
    the hemisphere reference ['N']), tuples, and the nested dict of the
    GPSInfo IFD (tag 34853).  An [IFDRational] keeps its numerator and
    denominator; PIL gives it the value [nan] when the denominator is 0. *)
Inductive exif_val : Type :=
  | EInt (z : Z)
  | ERat (num den : Z)
  | EStr (s : pystr)
  | ETuple (vs : list exif_val)
  | EDict (kvs : list (Z * exif_val)).

Definition exif_dict := list (Z * exif_val).

(** [d.get(k)]: the dict's entry for [k]. *)
Fixpoint dict_get (k : Z) (d : exif_dict) : option exif_val :=
  match d with
  | [] => None
  | (k', v) :: d' => if Z.eqb k k' then Some v else dict_get k d'
  end.

(** [d[k] = v]: replace the entry for [k], or add it at the end. *)
Fixpoint dict_set (k : Z) (v : exif_val) (d : exif_dict) : exif_dict :=
  match d with
  | [] => [(k, v)]
  | (k', v') :: d' => if Z.eqb k k' then (k, v) :: d' else (k', v') :: dict_set k v d'
  end.

(** [float(z)] for an int: [of_uint63] rounds correctly, so this is
    Python's conversion for every [|z| < 2^63], which covers the 32-bit
    integers of TIFF. *)
Definition float_of_Z (z : Z) : float :=
  if Z.ltb z 0 then PrimFloat.opp (PrimFloat.of_uint63 (Uint63.of_Z (- z)))
  else PrimFloat.of_uint63 (Uint63.of_Z z).

(** [float(r)] for an [IFDRational]: [Fraction.__float__] divides with
    correct rounding, which is one IEEE division when both parts are
    exact doubles (TIFF rationals have 32-bit parts). *)
Definition rat_to_float (num den : Z) : float :=
  if Z.eqb den 0 then PrimFloat.nan
  else PrimFloat.div (float_of_Z num) (float_of_Z den).

(** [int(x)] for a float: the value truncated toward zero, read off the
    exact binary value [m * 2^e]; [int(inf)] raises [OverflowError] and
    [int(nan)] [ValueError]. *)
Definition py_int_of_float (x : float) : pyres Z :=
  match Prim2SF x with
  | S754_zero _ => POk 0%Z
  | S754_infinity _ => PRaise OverflowError
  | S754_nan => PRaise ValueError
  | S754_finite s m e =>
      let v := if Z.leb 0 e then Z.shiftl (Zpos m) e else Z.shiftr (Zpos m) (- e) in
      POk (if s then (- v)%Z else v)
  end.

(** A number in arithmetic with a float: [int.__add__] and
    [IFDRational]'s delegation to [Fraction] both convert to float; any
    other value raises [TypeError]. *)
Definition as_float (v : exif_val) : pyres float :=
  match v with
  | EInt z => POk (float_of_Z z)
  | ERat n d => POk (rat_to_float n d)
  | _ => PRaise TypeError
  end.

(** [v[i]] with an int index: a dict looks the key up, a tuple or a str
    is indexed from the end for negative [i]. *)
Definition exif_getitem (v : exif_val) (i : Z) : pyres exif_val :=
  let seq_index {A} (l : list A) : option A :=
    let j := if Z.ltb i 0 then (Z.of_nat (length l) + i)%Z else i in
    if Z.ltb j 0 then None else l !! Z.to_nat j in
  match v with
  | EDict kvs => of_option KeyError (dict_get i kvs)
  | ETuple vs => of_option IndexError (seq_index vs)
  | EStr s => of_option IndexError ((fun c => EStr [c]) <$> seq_index s)
  | _ => PRaise TypeError
  end.

(** [v == k] for an int [k]: an [IFDRational] compares its exact value
    (the [nan] of a zero denominator equals nothing). *)
Definition py_eq_int (v : exif_val) (k : Z) : bool :=
  match v with
  | EInt z => Z.eqb z k
  | ERat n d => negb (Z.eqb d 0) && Z.eqb n (k * d)
  | _ => false
  end.

(** [k in v] for an int [k]: a key of a dict, an element of a tuple;
    on a str or a number it raises [TypeError]. *)
Definition exif_contains (k : Z) (v : exif_val) : pyres bool :=
  match v with
  | EDict kvs => POk (bool_decide (is_Some (dict_get k kvs)))
  | ETuple vs => POk (existsb (fun w => py_eq_int w k) vs)
  | _ => PRaise TypeError
  end.

(** [bool(v)]: zero numbers and empty containers are false; an
    [IFDRational] with a zero denominator is [nan], which is true. *)
Definition truthy (v : exif_val) : bool :=
  match v with
  | EInt z => negb (Z.eqb z 0)
  | ERat n d => Z.eqb d 0 || negb (Z.eqb n 0)
  | EStr s => bool_decide (s <> [])
  | ETuple vs => bool_decide (vs <> [])
  | EDict kvs => bool_decide (kvs <> [])
  end.

(** [ref in ['S', 'W']] *)
Definition south_or_west (ref : exif_val) : bool :=
  match ref with
  | EStr s => bool_decide (s = lit "S") || bool_decide (s = lit "W")
  | _ => false
  end.

(** ** Decimal degrees (lines 20-40 of the rotation script, 12-22 of
    GenerateKmz.py) *)

Definition convert_to_decimal_degrees (coord ref : exif_val) : pyres float :=
  degrees <-? exif_getitem coord 0;
  minutes <-? exif_getitem coord 1;
  seconds <-? exif_getitem coord 2;
  d <-? as_float degrees;
  m <-? as_float minutes;
  s <-? as_float seconds;
  let decimal_degrees := PrimFloat.add (PrimFloat.add d (PrimFloat.div m 60%float))
                                       (PrimFloat.div s 3600%float) in
  POk (if south_or_west ref then PrimFloat.opp decimal_degrees else decimal_degrees).

(** ** The pose of a pixel grid *)

(** The eight symmetries of a rectangle, as [R^quarters * M^mirrored]
    where [M] mirrors left to right and [R] turns a quarter
    counter-clockwise; [quarters] is kept in [0..3]. *)
Record pose := mkPose { mirrored : bool; quarters : Z }.

#[export] Instance pose_eq_dec : EqDecision pose.
Proof. solve_decision. Defined.

Definition pose_id : pose := mkPose false 0.

(** [compose q p] applies [p], then [q]; [M R^k = R^-k M]. *)
Definition compose (q p : pose) : pose :=
  mkPose (xorb (mirrored p) (mirrored q))
         ((quarters q + (if mirrored q then - quarters p else quarters p)) mod 4)%Z.

(** PIL's [Image.Transpose] members. *)
Definition FLIP_LEFT_RIGHT := mkPose true 0.
Definition FLIP_TOP_BOTTOM := mkPose true 2.
Definition ROTATE_90 := mkPose false 1.
Definition ROTATE_180 := mkPose false 2.
Definition ROTATE_270 := mkPose false 3.
Definition TRANSPOSE := mkPose true 1.
Definition TRANSVERSE := mkPose true 3.

(** What a viewer does with the stored pixels for an Orientation tag,
    as [PIL.ImageOps.exif_transpose] does it; no tag, or a value outside
    2..8, leaves them as they are. *)
Definition orientation_transform (o : option exif_val) : pose :=
  match o with
  | Some v =>
      if py_eq_int v 2 then FLIP_LEFT_RIGHT
      else if py_eq_int v 3 then ROTATE_180
      else if py_eq_int v 4 then FLIP_TOP_BOTTOM
      else if py_eq_int v 5 then TRANSPOSE
      else if py_eq_int v 6 then ROTATE_270
      else if py_eq_int v 7 then TRANSVERSE
      else if py_eq_int v 8 then ROTATE_90
      else pose_id
  | None => pose_id
  end.

(** [img.rotate(angle, expand=True)] for the angles the script uses:
    counter-clockwise, by [transpose(ROTATE_90/180/270)]. *)
Definition pil_rotate (angle : Z) (p : pose) : pose :=
  compose (mkPose false ((angle / 90) mod 4)%Z) p.

(** ** Images *)

(** An opened image: the dict [_getexif()] returns ([None] when the file
    has no EXIF block, or its format has no [_getexif]: both make the
    scripts skip the file) and the pose of its pixel grid relative to
    the scene the camera saw. *)
Record image := mkImage { im_exif : option exif_dict; im_pose : pose }.

(** The Orientation tag (274) as [get_image_orientation] reads it
    (lines 81-84): [exif_data.get(274)] when the dict is not empty. *)
Definition image_orientation (im : image) : option exif_val :=
  match im_exif im with
  | Some d => if bool_decide (d <> []) then dict_get 274 d else None
  | None => None
  end.

(** What a viewer shows: the tag's transform applied to the pixels. *)
Definition display (im : image) : pose :=
  compose (orientation_transform (image_orientation im)) (im_pose im).

(** The angle [main] picks for a tag (lines 195-205). *)
Definition rotation_angle (orientation : option exif_val) : Z :=
  match orientation with
  | Some o =>
      if truthy o then
        if py_eq_int o 3 then 180
        else if py_eq_int o 6 then 270
        else if py_eq_int o 8 then 90
        else 0
      else 0
  | None => 0
  end.

(** [rotate_image] (lines 99-113): the pixels turned, the EXIF block
    carried over through [piexif.load]/[piexif.dump]. *)
Definition rotate_image_data (im : image) (angle : Z) : image :=
  mkImage (im_exif im) (pil_rotate angle (im_pose im)).

(** Lines 211-216: the Orientation tag of the 0th IFD set to 1. *)
Definition set_orientation_normal (im : image) : image :=
  mkImage (Some (dict_set 274 (EInt 1) (default [] (im_exif im)))) (im_pose im).

(** A photo as it ends up in the [files] folder (lines 193-216). *)
Definition corrected_photo (im : image) : image :=
  set_orientation_normal (rotate_image_data im (rotation_angle (image_orientation im))).

(** The tags whose transform mirrors the picture: 2, 4, 5 and 7. *)
Definition mirrored_tag (o : option exif_val) : bool :=
  match o with
  | Some v => existsb (py_eq_int v) [2; 4; 5; 7]%Z
  | None => false
  end.

(** ** Lemmas on poses and tags *)

Definition normal (p : pose) : Prop := (0 <= quarters p < 4)%Z.

Lemma mod4_cancel x y c :
  (0 <= x < 4)%Z -> (0 <= y < 4)%Z -> ((x + c) mod 4 = (y + c) mod 4)%Z -> x = y.
Proof.
  intros. pose proof (Z.div_mod (x + c) 4). pose proof (Z.div_mod (y + c) 4). lia.
Qed.

Lemma compose_normal q p : normal (compose q p).
Proof. unfold normal, compose. simpl. apply Z.mod_pos_bound. lia. Qed.

Lemma compose_cancel_r a b p :
  normal a -> normal b -> compose a p = compose b p -> a = b.
Proof.
  destruct a as [ma qa], b as [mb qb], p as [mp qp]; unfold normal, compose; simpl.
  intros Ha Hb [= Hm Hq].
  assert (ma = mb) as <- by (destruct ma, mb, mp; done).
  f_equal. destruct ma; eapply mod4_cancel; eauto.
Qed.

Lemma compose_id_l q p : compose pose_id (compose q p) = compose q p.
Proof.
  unfold compose; simpl. f_equal; [apply xorb_false_r | apply Zmod_mod].
Qed.

(** The integer an EXIF value equals, if any. *)
Definition tag_value (v : exif_val) : option Z :=
  match v with
  | EInt z => Some z
  | ERat n d => if negb (Z.eqb d 0) && Z.eqb (n mod d)%Z 0 then Some (n / d)%Z else None
  | _ => None
  end.

Lemma py_eq_int_tag v k : py_eq_int v k = bool_decide (tag_value v = Some k).
Proof.
  destruct v as [z|n d| | |]; simpl; try done.
  - destruct (Z.eqb_spec z k); case_bool_decide; congruence.
  - destruct (Z.eqb_spec d 0) as [Hd|Hd]; simpl; [done|].
    destruct (Z.eqb_spec (n mod d)%Z 0) as [Hm|Hm]; simpl.
    + pose proof (proj2 (Z.div_exact n d Hd) Hm) as Hx.
      destruct (Z.eqb_spec n (k * d)) as [->|Hn]; case_bool_decide as Hk; try done.
      * exfalso. apply Hk. by rewrite Z.div_mul.
      * exfalso. injection Hk as <-. lia.
    + apply Z.eqb_neq. intros ->.
      by rewrite Z.mod_mul in Hm.
Qed.

Lemma truthy_tag v z : tag_value v = Some z -> z <> 0%Z -> truthy v = true.
Proof.
  destruct v as [z'|n d| | |]; simpl; try done.
  - intros [= ->] Hz. by apply negb_true_iff, Z.eqb_neq.
  - destruct (Z.eqb_spec d 0); simpl; [done|].
    destruct (Z.eqb_spec (n mod d)%Z 0); simpl; [|done].
    intros [= <-] Hz. apply negb_true_iff, Z.eqb_neq.
    intros ->. by rewrite Z.div_0_l in Hz.
Qed.

Lemma dict_get_set k v d : dict_get k (dict_set k v d) = Some v.
Proof.
  induction d as [|[k' v'] d IH]; cbn [dict_set dict_get]; [by rewrite Z.eqb_refl|].
  destruct (Z.eqb_spec k k'); cbn [dict_get]; [by rewrite Z.eqb_refl|].
  by apply Z.eqb_neq in n as ->.
Qed.

Lemma dict_set_ne_nil k v d : dict_set k v d <> [].
Proof. destruct d as [|[k' v'] d]; cbn; [done|]. by destruct (Z.eqb k k'). Qed.

Lemma image_orientation_normal im :
  image_orientation (set_orientation_normal im) = Some (EInt 1).
Proof.
  unfold image_orientation, set_orientation_normal. cbn [im_exif].
  rewrite bool_decide_true by apply dict_set_ne_nil. apply dict_get_set.
Qed.

Lemma display_corrected_photo im :
  display (corrected_photo im) =
  compose (mkPose false ((rotation_angle (image_orientation im) / 90) mod 4)%Z) (im_pose im).
Proof.
  unfold display, corrected_photo. rewrite image_orientation_normal.
  cbn [im_pose set_orientation_normal rotate_image_data]. apply compose_id_l.
Qed.

(** The rotation [main] picks is the viewer's transform exactly when the
    tag does not ask for a mirror. *)
Lemma rotation_angle_transform o :
  mkPose false ((rotation_angle o / 90) mod 4)%Z = orientation_transform o <->
  mirrored_tag o = false.
Proof.
  destruct o as [v|]; [|done]. unfold rotation_angle, orientation_transform, mirrored_tag.
  simpl. rewrite !py_eq_int_tag.
  destruct (tag_value v) as [z|] eqn:Ez; [|by destruct (truthy v)].
  destruct (truthy v) eqn:Et.
  - repeat case_bool_decide; simplify_eq; done.
  - assert (z = 0%Z \/ z <> 0%Z) as [->|Hz] by lia; [by repeat case_bool_decide; simplify_eq|].
    by rewrite (truthy_tag v z) in Et.
Qed.

(** ** The photo the rotation script writes *)

(** C23: a photo the rotation script packs looks, in any viewer that honours
    the EXIF Orientation tag, exactly as the original did, unless the tag
    is one of the mirrored orientations 2, 4, 5 or 7: for those the
    script only resets the tag, so the picture comes out mirrored. *)
Theorem corrected_photo_display im :
  display (corrected_photo im) = display im <-> mirrored_tag (image_orientation im) = false.
Proof.
  rewrite display_corrected_photo, <- rotation_angle_transform. unfold display.
  split; [|by intros <-].
  intros Heq. apply compose_cancel_r in Heq; [done| |].
  - unfold normal. simpl. apply Z.mod_pos_bound. lia.
  - unfold normal, orientation_transform.
    destruct (image_orientation im) as [v|]; [|simpl; lia].
    repeat case_match; simpl; lia.
Qed.

(** ** Examples *)

(** A photo taken at 51 deg 30' N, 0 deg 7' 39.6'' W, 35 m up, held
    sideways (Orientation 6), in [/p] next to a note, with a file the user
    keeps in [/p/files]. *)
Definition ex_gps : exif_val :=
  EDict [(1%Z, EStr (lit "N")); (2%Z, ETuple [ERat 51 1; ERat 30 1; ERat 0 1]);
         (3%Z, EStr (lit "W")); (4%Z, ETuple [ERat 0 1; ERat 7 1; ERat 396 10]);
         (6%Z, ERat 35 1)].

Definition ex_photo (tag : Z) : image :=
  mkImage (Some [(274%Z, EInt tag); (34853%Z, ex_gps)]) (mkPose false 1).

(** The sideways photo is stood up; a mirrored one (tag 5) is not. *)
Example ex_upright : display (corrected_photo (ex_photo 6)) = display (ex_photo 6).
Proof. reflexivity. Qed.

Example ex_mirrored : display (corrected_photo (ex_photo 5)) <> display (ex_photo 5).
Proof. vm_compute. congruence. Qed.

End Exif.
