(* ===== verification/GpxVideo.v ===== *)
(** * src/GenerateManualGpxForVideo.py: a GPX track for a video

    The script reads [input.txt]: a start time, then lines
    [hh:mm:ss, lat, lon] of key points picked on a map, and writes a GPX
    track with one point per second of the video, interpolating linearly
    between consecutive key points.

    This file models:
    - [parse_input_file] (lines 26-49): [readlines()] with universal
      newlines, [strptime] of the first line (Datetime.v), and for each
      other non-empty line [split(', ')], [int()] of the time's parts,
      [float()] of the coordinates and [timedelta(hours, minutes,
      seconds)], with the exceptions that escape the [except ValueError];
    - [interpolate_coords] (lines 14-24) in IEEE doubles;
    - [generate_gpx] (lines 51-111): the bounds ([min]/[max]), the points
      of each segment, their times [start + timedelta(seconds=...)], the
      final key point and the variable [elevation], which is bound only
      inside the inner loop;
    - [main] (lines 113-118) on the file store of Fs.v.

    CPython's [float()] of a string and its float formatting ([repr] and
    [{:.9f}]) are the [PyFloatText] class: library code the theorems
    never inspect.  The theorems: a track whose key points are in time
    order has one point per second, at the start time plus 0, 1, 2, ...
    seconds (whatever the first key point's time); a file whose key
    points never move forward in time, for instance one with a single key
    point, makes [generate_gpx] raise [UnboundLocalError] at line 102;
    key points out of order make the track go back in time. *)

From Stdlib Require Import Floats.
From S2P Require Import Prelude PyStr Fs Datetime Exif.

Module Gpx.
Import PyStr Datetime.

(** ** Library: floats as text *)

Class PyFloatText := {
  (** [float(s)], [None] for [ValueError] *)
  py_float : pystr -> option float;
  (** [f'{x}'] *)
  float_repr : float -> pystr;
  (** ['{:.9f}'.format(x)] *)
  format_9f : float -> pystr
}.

(** ** Library: text files and strings *)

(** Text mode reads CR LF and a lone CR as LF. *)
Fixpoint universal_newlines (s : pystr) : pystr :=
  match s with
  | "013"%char :: "010"%char :: r => "010"%char :: universal_newlines r
  | "013"%char :: r => "010"%char :: universal_newlines r
  | c :: r => c :: universal_newlines r
  | [] => []
  end.

(** [file.readlines()] on text with LF line ends: each line keeps its LF,
    a last line without one is kept too. *)
Fixpoint readlines (s : pystr) : list pystr :=
  match s with
  | [] => []
  | c :: r =>
      if decide (c = "010"%char) then [c] :: readlines r
      else match readlines r with
           | l :: ls => (c :: l) :: ls
           | [] => [[c]]
           end
  end.

(** [s.split(sep)] for a non-empty [sep]: cut at each occurrence, left to
    right; [fuel] bounds the steps, and [length s] steps consume [s]. *)
Fixpoint split_str_fuel (fuel : nat) (sep s : pystr) : list pystr :=
  match fuel with
  | O => [s]
  | S f =>
      match s with
      | [] => [[]]
      | c :: r =>
          if bool_decide (sep `prefix_of` s) then [] :: split_str_fuel f sep (drop (length sep) s)
          else match split_str_fuel f sep r with
               | p :: ps => (c :: p) :: ps
               | [] => [[c]]
               end
      end
  end.

Definition split_str (sep s : pystr) : list pystr := split_str_fuel (S (length s)) sep s.

(** [min(xs)] and [max(xs)] on floats: the first element, replaced by
    every later one that compares [<] (for [min]) or [>] (for [max]);
    an empty list raises [ValueError]. *)
Definition py_min (xs : list float) : pyres float :=
  match xs with
  | x :: r => POk (fold_left (fun best y => if PrimFloat.ltb y best then y else best) r x)
  | [] => PRaise ValueError
  end.

Definition py_max (xs : list float) : pyres float :=
  match xs with
  | x :: r => POk (fold_left (fun best y => if PrimFloat.ltb best y then y else best) r x)
  | [] => PRaise ValueError
  end.

(** [timedelta(hours=h, minutes=m, seconds=s)] as whole seconds: the
    constructor raises [OverflowError] beyond 999999999 days. *)
Definition timedelta_hms (h m s : Z) : pyres Z :=
  let total := (h * 3600 + m * 60 + s)%Z in
  if Z.leb (-999999999) (total / 86400) && Z.leb (total / 86400) 999999999
  then POk total else PRaise OverflowError.

(** ** The script *)

Definition coords : Type := (float * float)%type.

(** A key point: its time from the start, in seconds, and its position. *)
Abbreviation key_point := (Z * coords)%type.

Section Script.
Context `{PyFloatText}.

(** [interpolate_coords] (lines 14-24). *)
Definition interpolate_coords (start_coords end_coords : coords) (fraction : float) : coords :=
  (PrimFloat.add start_coords.1 (PrimFloat.mul (PrimFloat.sub end_coords.1 start_coords.1) fraction),
   PrimFloat.add start_coords.2 (PrimFloat.mul (PrimFloat.sub end_coords.2 start_coords.2) fraction)).

(** Lines 39-43, on a stripped non-empty line; a [ValueError] inside the
    [try] is raised again as [ValueError], an [IndexError] or an
    [OverflowError] leaves it as it is. *)
Definition parse_line (line : pystr) : pyres key_point :=
  match split_str (lit ", ") line with
  | [time_str; lat_str; lon_str] =>
      time_parts <-? pmapM (fun p => of_option ValueError (py_int p)) (py_split ":" time_str);
      lat <-? of_option ValueError (py_float lat_str);
      lon <-? of_option ValueError (py_float lon_str);
      h <-? of_option IndexError (time_parts !! 0);
      m <-? of_option IndexError (time_parts !! 1);
      s <-? of_option IndexError (time_parts !! 2);
      key_time <-? timedelta_hms h m s;
      POk (key_time, (lat, lon))
  | _ => PRaise ValueError
  end.

(** [parse_input_file] (lines 26-49). *)
Definition parse_input_file {Page} (filename : pystr) (st : Fs.fs Page)
    : pyres (datetime * list key_point) :=
  text <-? Fs.read_text filename st;
  let lines := readlines (universal_newlines text) in
  first <-? of_option IndexError (head lines);
  start_datetime <-? strptime_gpx (py_strip first);
  key_points <-? pmapM parse_line (filter (fun l => l <> []) (map py_strip (tail lines)));
  POk (start_datetime, key_points).

(** A point of the track. *)
Record trkpt := mkTrkpt { pt_coords : coords; pt_time : datetime }.

(** One pass of the inner loop (lines 84-89): the point [second] seconds
    into a segment of [segment_seconds], whose first point is
    [total_seconds] after the start. *)
Definition segment_point (start_datetime : datetime) (total_seconds : Z)
    (start_coords end_coords : coords) (segment_seconds second : Z) : pyres trkpt :=
  let fraction := PrimFloat.div (Exif.float_of_Z second) (Exif.float_of_Z segment_seconds) in
  let interpolated_coords := interpolate_coords start_coords end_coords fraction in
  point_time <-? add_seconds start_datetime (total_seconds + second);
  POk (mkTrkpt interpolated_coords point_time).

(** The loop of lines 77-96 over consecutive key points: the seconds
    counted so far, whether [elevation] has been bound (the inner loop ran
    at least once), and the points. *)
Fixpoint track_segments (start_datetime : datetime) (total_seconds : Z)
    (key_points : list key_point) : pyres (Z * bool * list trkpt) :=
  match key_points with
  | (start_time, start_coords) :: ((end_time, end_coords) :: _) as rest =>
      let segment_seconds := (end_time - start_time)%Z in
      pts <-? pmapM (segment_point start_datetime total_seconds start_coords end_coords segment_seconds)
                    (zrange 0 (segment_seconds - 1));
      r <-? track_segments start_datetime (total_seconds + segment_seconds) rest;
      let '(total, bound, pts') := r in
      POk (total, Z.ltb 0 segment_seconds || bound, pts ++ pts')
  | _ => POk (total_seconds, false, [])
  end.

(** The points of the track with the final key point (lines 77-101), and
    whether [elevation] is bound at line 102. *)
Definition gpx_points (start_datetime : datetime) (key_points : list key_point)
    : pyres (bool * list trkpt) :=
  r <-? track_segments start_datetime 0 key_points;
  let '(total_seconds, bound, pts) := r in
  final <-? of_option IndexError (last key_points);
  point_time <-? add_seconds start_datetime total_seconds;
  POk (bound, pts ++ [mkTrkpt final.2 point_time]).

(** Lines 91-94 (and 101-104): [elevation] is always [1.0] where bound. *)
Definition render_trkpt (p : trkpt) : list pystr :=
  [q "<trkpt lon=`" ++ format_9f (pt_coords p).2 ++ q "` lat=`" ++ format_9f (pt_coords p).1 ++ q "`>";
   lit "<ele>" ++ float_repr 1%float ++ lit "</ele>";
   lit "<time>" ++ isoformat (pt_time p) ++ lit "Z</time>";
   lit "</trkpt>"].

Definition gpx_header (start_datetime : datetime) (min_lat max_lat min_lon max_lon : float)
    : list pystr :=
  [q "<?xml version=`1.0` encoding=`UTF-8`?>";
   q "<gpx version=`1.1` creator=`CompanyName` xmlns=`http://www.topografix.com/GPX/1/1`>";
   lit "<metadata>";
   q "<link href=`https://www.company.com`>";
   lit "<text>Description</text>";
   lit "</link>";
   lit "<time>" ++ isoformat start_datetime ++ lit "Z</time>";
   q "<bounds minlat=`" ++ float_repr min_lat ++ q "` maxlat=`" ++ float_repr max_lat ++
     q "` minlon=`" ++ float_repr min_lon ++ q "` maxlon=`" ++ float_repr max_lon ++ q "`/>";
   lit "</metadata>";
   lit "<trk>";
   lit "<name>360 Video GPS Data</name>";
   lit "<trkseg>"].

Definition gpx_footer : list pystr := [lit "</trkseg>"; lit "</trk>"; lit "</gpx>"].

(** ['\n'.join(lines)] *)
Fixpoint join_lines (ls : list pystr) : pystr :=
  match ls with
  | [] => []
  | [l] => l
  | l :: ls' => l ++ "010"%char :: join_lines ls'
  end.

(** [generate_gpx] (lines 51-111): the bounds (lines 64-67), the points,
    then line 102, which raises [UnboundLocalError] (a [NameError]) when
    [elevation] was never bound. *)
Definition generate_gpx (start_datetime : datetime) (key_points : list key_point) : pyres pystr :=
  min_lat <-? py_min (map (fun kp => kp.2.1) key_points);
  max_lat <-? py_max (map (fun kp => kp.2.1) key_points);
  min_lon <-? py_min (map (fun kp => kp.2.2) key_points);
  max_lon <-? py_max (map (fun kp => kp.2.2) key_points);
  r <-? gpx_points start_datetime key_points;
  let '(bound, pts) := r in
  _ <-? (if bound then POk tt else PRaise NameError);
  POk (join_lines (gpx_header start_datetime min_lat max_lat min_lon max_lon ++
                   concat (map render_trkpt pts) ++ gpx_footer)).

(** [main] (lines 113-118): the output is opened only once the text is
    ready. *)
Definition gpx_main {Page} (input_filename output_filename : pystr) (st : Fs.fs Page)
    : pyres (Fs.fs Page) :=
  r <-? parse_input_file input_filename st;
  let '(start_datetime, key_points) := r in
  gpx_content <-? generate_gpx start_datetime key_points;
  Fs.write_file output_filename (Fs.TextFile gpx_content) st.

End Script.

(** The durations of the segments between consecutive key points, and
    their sum. *)
Fixpoint durations (key_points : list key_point) : list Z :=
  match key_points with
  | (t0, _) :: ((t1, _) :: _) as rest => (t1 - t0)%Z :: durations rest
  | _ => []
  end.

Definition sum_z (l : list Z) : Z := fold_right Z.add 0%Z l.

(** ** Lemmas *)

Lemma zrange_length lo hi : length (zrange lo hi) = Z.to_nat (hi - lo + 1).
Proof. unfold zrange. by rewrite length_map, length_seq. Qed.

Lemma zrange_lookup lo hi k :
  k < Z.to_nat (hi - lo + 1) -> zrange lo hi !! k = Some (lo + Z.of_nat k)%Z.
Proof. intros Hk. unfold zrange. rewrite list_lookup_fmap, lookup_seq_lt by done. done. Qed.

Lemma zrange_elem lo hi x : x ∈ zrange lo hi -> (lo <= x <= hi)%Z.
Proof.
  intros (k & -> & Hk)%list_elem_of_fmap. apply elem_of_seq in Hk. lia.
Qed.

Lemma zrange_empty lo hi : (hi < lo)%Z -> zrange lo hi = [].
Proof. intros. unfold zrange. by replace (Z.to_nat (hi - lo + 1)) with 0 by lia. Qed.

(** [datetime + timedelta] is defined on an interval of seconds. *)
Lemma add_seconds_between dt a b k :
  (exists t, add_seconds dt a = POk t) -> (exists t, add_seconds dt b = POk t) ->
  (a <= k <= b)%Z -> exists t, add_seconds dt k = POk t.
Proof.
  unfold add_seconds. set (base := (_ * 86400 + _ + _ + second dt)%Z).
  intros [ta Ha] [tb Hb] Hk.
  destruct (Z.ltb_spec 0 ((base + a) / 86400)), (Z.leb_spec ((base + a) / 86400) MAXORDINAL);
    simpl in Ha; try discriminate.
  destruct (Z.ltb_spec 0 ((base + b) / 86400)), (Z.leb_spec ((base + b) / 86400) MAXORDINAL);
    simpl in Hb; try discriminate.
  assert ((base + a) / 86400 <= (base + k) / 86400)%Z by (apply Z.div_le_mono; lia).
  assert ((base + k) / 86400 <= (base + b) / 86400)%Z by (apply Z.div_le_mono; lia).
  rewrite (proj2 (Z.ltb_lt _ _)), (proj2 (Z.leb_le _ _)) by lia. simpl.
  destruct (ord2ymd ((base + k) / 86400)) as [[y m] d]. simpl. eauto.
Qed.

(** The fuel of [split_str]: for a non-empty separator, any fuel above
    the length of the line gives the same pieces, since every step drops
    at least one character. *)
Lemma split_str_fuel_enough sep s n m :
  sep <> [] -> length s < n -> length s < m ->
  split_str_fuel n sep s = split_str_fuel m sep s.
Proof.
  intros Hsep. revert n m. induction s as [s IH] using (induction_ltof1 _ (@length _)).
  intros [|n] [|m] Hn Hm; try lia. destruct s as [|c r]; [reflexivity|]. cbn [split_str_fuel].
  case_bool_decide as Hp.
  - assert (length sep <> 0) by (destruct sep; simpl; congruence).
    rewrite (IH (drop (length sep) (c :: r)) ltac:(unfold ltof; rewrite length_drop; simpl in *; lia) n m)
      by (rewrite length_drop; simpl in *; lia).
    reflexivity.
  - rewrite (IH r ltac:(unfold ltof; simpl; lia) n m) by (simpl in *; lia). reflexivity.
Qed.

Lemma split_str_more_fuel sep s n :
  sep <> [] -> length s < n -> split_str_fuel n sep s = split_str sep s.
Proof. intros. unfold split_str. apply split_str_fuel_enough; auto; lia. Qed.

Section Lemmas.
Context `{PyFloatText}.

Lemma segment_point_time start total c0 c1 seg sec p :
  segment_point start total c0 c1 seg sec = POk p -> add_seconds start (total + sec) = POk (pt_time p).
Proof.
  unfold segment_point. destruct (add_seconds _ _); simpl; [|done]. by intros [= <-].
Qed.

Lemma track_segments_step start total t0 c0 t1 c1 rest :
  track_segments start total ((t0, c0) :: (t1, c1) :: rest) =
  (pts <-? pmapM (segment_point start total c0 c1 (t1 - t0)) (zrange 0 (t1 - t0 - 1));
   r <-? track_segments start (total + (t1 - t0)) ((t1, c1) :: rest);
   let '(tot, bound, pts') := r in POk (tot, Z.ltb 0 (t1 - t0) || bound, pts ++ pts')).
Proof. reflexivity. Qed.

Lemma durations_step t0 c0 t1 c1 rest :
  durations ((t0, c0) :: (t1, c1) :: rest) = (t1 - t0)%Z :: durations ((t1, c1) :: rest).
Proof. reflexivity. Qed.

Lemma sum_z_cons x l : sum_z (x :: l) = (x + sum_z l)%Z.
Proof. reflexivity. Qed.

Lemma sum_z_nonneg l : Forall (fun d => 0 <= d)%Z l -> (0 <= sum_z l)%Z.
Proof. induction 1 as [|x l Hx _ IH]; [simpl; lia|rewrite sum_z_cons; lia]. Qed.

(** Segments that never move forward produce no point and leave
    [elevation] unbound. *)
Lemma track_segments_nonpos start total kps :
  Forall (fun d => d <= 0)%Z (durations kps) ->
  track_segments start total kps = POk ((total + sum_z (durations kps))%Z, false, []).
Proof.
  revert total. induction kps as [|[t0 c0] [|[t1 c1] kps] IH]; intros total Hd;
    [simpl..|simpl durations in *].
  - f_equal. f_equal. f_equal. unfold sum_z. simpl. lia.
  - f_equal. f_equal. f_equal. unfold sum_z. simpl. lia.
  - apply Forall_cons in Hd as [Hd0 Hd]. rewrite track_segments_step, zrange_empty by lia.
    simpl pmapM. rewrite pbind_POk, IH by done. simpl.
    rewrite orb_false_r, (proj2 (Z.ltb_ge _ _)) by lia. do 3 f_equal. lia.
Qed.

(** Segments that never go back produce one point per second, the
    [k]-th at the start plus [total + k] seconds. *)
Lemma track_segments_times start total kps :
  Forall (fun d => 0 <= d)%Z (durations kps) ->
  (forall k, (total <= k <= total + sum_z (durations kps))%Z -> exists t, add_seconds start k = POk t) ->
  exists pts,
    track_segments start total kps =
      POk ((total + sum_z (durations kps))%Z, existsb (fun d => Z.ltb 0 d) (durations kps), pts) /\
    length pts = Z.to_nat (sum_z (durations kps)) /\
    forall k p, pts !! k = Some p -> add_seconds start (total + Z.of_nat k) = POk (pt_time p).
Proof.
  revert total. induction kps as [|[t0 c0] [|[t1 c1] kps] IH]; intros total Hd Hok.
  1,2: exists []; split_and!; [simpl; do 3 f_equal; unfold sum_z; simpl; lia|done|done].
  rewrite durations_step, sum_z_cons in *. apply Forall_cons in Hd as [Hd0 Hd].
  pose proof (sum_z_nonneg _ Hd).
  destruct (pmapM_ok (segment_point start total c0 c1 (t1 - t0)) (zrange 0 (t1 - t0 - 1)))
    as (pts & Hpts & Hf2).
  { intros x Hx%zrange_elem. destruct (Hok (total + x)%Z) as [t Ht]; [lia|].
    unfold segment_point. rewrite Ht. simpl. eauto. }
  destruct (IH (total + (t1 - t0))%Z) as (pts' & Hr & Hlen & Htimes); [done| |].
  { intros k Hk. apply Hok. lia. }
  exists (pts ++ pts'). split_and!.
  - rewrite track_segments_step, Hpts, pbind_POk, Hr. simpl. do 3 f_equal. lia.
  - apply Forall2_length in Hf2. rewrite zrange_length in Hf2.
    rewrite length_app, <- Hf2, Hlen. lia.
  - intros k p Hk. pose proof (Forall2_length _ _ _ Hf2) as Hl.
    rewrite zrange_length in Hl. apply lookup_app_Some in Hk as [Hk|[Hge Hk]].
    + destruct (Forall2_lookup_r _ _ _ _ _ Hf2 Hk) as (x & Hx & Hfx).
      rewrite zrange_lookup in Hx by (apply lookup_lt_Some in Hk; lia). injection Hx as <-.
      apply segment_point_time in Hfx. by rewrite Z.add_0_l in Hfx.
    + apply Htimes in Hk. rewrite <- Hk. f_equal. lia.
Qed.
Lemma gpx_bounds_ok (kps : list key_point) :
  kps <> [] ->
  exists a b c d, py_min (map (fun kp => kp.2.1) kps) = POk a /\ py_max (map (fun kp => kp.2.1) kps) = POk b /\
                  py_min (map (fun kp => kp.2.2) kps) = POk c /\ py_max (map (fun kp => kp.2.2) kps) = POk d.
Proof. destruct kps; [done|]. intros _. simpl. eauto 10. Qed.

(** C28: a key-point file whose key points never move forward in time
    (in particular a file with a single key point) makes [generate_gpx]
    raise [UnboundLocalError] at line 102: [elevation] is bound only
    inside the inner loop, which never runs. *)
Theorem generate_gpx_unbound_elevation start kps :
  kps <> [] -> Forall (fun d => d <= 0)%Z (durations kps) ->
  (exists t, add_seconds start (sum_z (durations kps)) = POk t) ->
  generate_gpx start kps = PRaise NameError.
Proof.
  intros Hne Hd [t Ht]. destruct (gpx_bounds_ok kps Hne) as (a & b & c & d & Ha & Hb & Hc & Hd').
  destruct kps as [|kp kps']; [done|]. destruct (last_cons_Some kp kps') as [fin Hfin].
  unfold generate_gpx, gpx_points. rewrite Ha, Hb, Hc, Hd', !pbind_POk.
  rewrite track_segments_nonpos by done. cbn [pbind].
  rewrite Hfin. cbn [pbind of_option]. rewrite Z.add_0_l, Ht. reflexivity.
Qed.

(** C29: when the key points are in time order and the track's last
    second is a representable date, [gpx_points] returns one point per
    second of the video plus the final key point: the [k]-th point is at
    the start time plus [k] seconds, whatever the first key point's own
    time; [elevation] is bound exactly when the key points span a
    positive time. *)
Theorem gpx_points_per_second start kps :
  kps <> [] -> Forall (fun d => 0 <= d)%Z (durations kps) ->
  (exists t, add_seconds start 0 = POk t) ->
  (exists t, add_seconds start (sum_z (durations kps)) = POk t) ->
  exists pts, gpx_points start kps = POk (existsb (fun d => Z.ltb 0 d) (durations kps), pts) /\
    length pts = S (Z.to_nat (sum_z (durations kps))) /\
    forall k p, pts !! k = Some p -> add_seconds start (Z.of_nat k) = POk (pt_time p).
Proof.
  intros Hne Hd H0 [t Ht]. pose proof (sum_z_nonneg _ Hd).
  destruct (track_segments_times start 0 kps Hd) as (pts & Hr & Hlen & Htimes).
  { intros k Hk. apply (add_seconds_between start 0 (sum_z (durations kps))); [exact H0|eauto|lia]. }
  destruct kps as [|kp kps']; [done|]. destruct (last_cons_Some kp kps') as [fin Hfin].
  exists (pts ++ [mkTrkpt fin.2 t]). split_and!.
  - unfold gpx_points. rewrite Hr. cbn [pbind].
    rewrite Hfin. cbn [pbind of_option]. rewrite Z.add_0_l, Ht. reflexivity.
  - rewrite length_app, Hlen. simpl. lia.
  - intros k p Hk. apply lookup_app_Some in Hk as [Hk|[Hge Hk]].
    + apply Htimes in Hk. by rewrite Z.add_0_l in Hk.
    + rewrite Hlen in Hge, Hk. apply list_lookup_singleton_Some in Hk as [Hk <-].
      simpl. rewrite <- Ht. f_equal. lia.
Qed.
(** C30: the times the script writes read back through its own parser:
    the [<time>] line of the metadata holds the start time and the
    [<time>] line of a track point holds the point's time, each as
    [isoformat()] followed by [Z], which [strptime] with the script's
    format turns back into the same date and time. *)
Theorem gpx_times_read_back start a b c d p :
  valid start = true -> valid (pt_time p) = true ->
  (exists T, gpx_header start a b c d !! 6 = Some (lit "<time>" ++ T ++ lit "</time>") /\
             strptime_gpx T = POk start) /\
  (exists T, render_trkpt p !! 2 = Some (lit "<time>" ++ T ++ lit "</time>") /\
             strptime_gpx T = POk (pt_time p)).
Proof.
  intros Hs Hp. split; eexists; split; [|apply strptime_isoformat, Hs| |apply strptime_isoformat, Hp];
    simpl; by rewrite <- app_assoc.
Qed.
End Lemmas.

(** ** Examples *)

(** The examples read integers only and print every number as [0]; no
    theorem depends on it. *)
#[local] Instance example_float_text : PyFloatText :=
  {| py_float s := Exif.float_of_Z <$> py_int s; float_repr _ := lit "0"; format_9f _ := lit "0" |}.

Definition ex_c : coords := (31%float, (-84)%float).

Lemma gpx_times_read_back_witness :
  (exists T, gpx_header ex_start 0 0 0 0 !! 6 = Some (lit "<time>" ++ T ++ lit "</time>") /\
             strptime_gpx T = POk ex_start) /\
  (exists T, render_trkpt (mkTrkpt ex_c ex_start) !! 2 = Some (lit "<time>" ++ T ++ lit "</time>") /\
             strptime_gpx T = POk (pt_time (mkTrkpt ex_c ex_start))).
Proof. apply gpx_times_read_back; reflexivity. Defined.

Lemma generate_gpx_unbound_elevation_witness :
  generate_gpx ex_start [(0%Z, ex_c)] = PRaise NameError.
Proof.
  apply generate_gpx_unbound_elevation; [done|constructor|eexists; vm_compute; reflexivity].
Defined.

(** The whole script on an input file with one key point. *)
Example gpx_main_one_key_point :
  gpx_main (lit "input.txt") (lit "output.gpx")
    (Fs.mkFs (Page := unit) {[lit "input.txt" := Fs.TextFile (lit "2024-06-11T13:48:07Z
00:00:00, 31, -84
")]} ∅ ∅ []) = PRaise NameError.
Proof. vm_compute. reflexivity. Qed.

Definition ex_key_points : list key_point := [(0%Z, ex_c); (3%Z, ex_c); (5%Z, ex_c)].

Lemma gpx_points_per_second_witness :
  exists pts, gpx_points ex_start ex_key_points =
    POk (existsb (fun d => Z.ltb 0 d) (durations ex_key_points), pts) /\
    length pts = S (Z.to_nat (sum_z (durations ex_key_points))) /\
    forall k p, pts !! k = Some p -> add_seconds ex_start (Z.of_nat k) = POk (pt_time p).
Proof.
  apply gpx_points_per_second;
    [done|repeat constructor; vm_compute; discriminate|eexists; vm_compute; reflexivity..].
Defined.

(** Key points out of time order (10 s, then back to 5 s) make the
    track go back in time: its eleventh point is four seconds before its
    tenth, and the 20-second video gets 26 points. *)
Example gpx_points_out_of_order :
  exists pts,
    gpx_points ex_start [(0%Z, ex_c); (10%Z, ex_c); (5%Z, ex_c); (20%Z, ex_c)] = POk (true, pts) /\
    length pts = 26 /\
    pt_time <$> pts !! 9 = Some (mkDatetime 2024 6 11 13 48 16) /\
    pt_time <$> pts !! 10 = Some (mkDatetime 2024 6 11 13 48 12).
Proof. eexists. split; [vm_compute; reflexivity|]. vm_compute. auto. Qed.

End Gpx.
