(* ===== verification/PyDocx.v ===== *)
(** * The python-docx calls of the album and photo-log scripts

    src/PhotoAlbumGenerator.py and the second half of
    src/WriteToJpgExifAndGenPhotoLog.py build a Word document with
    python-docx.  This file models the part of the library they call, from
    its sources ([docx/document.py], [docx/table.py],
    [docx/oxml/table.py], [docx/text/*.py], [docx/shared.py]):
    - lengths in EMU: [Inches(x)] is [int(x * 914400)], [Pt(x)] is
      [int(x * 12700)];
    - the document: its sections (page size and margins), its body as a
      list of paragraphs and tables, and the fonts of its styles;
    - paragraphs and runs: text, page breaks, inline pictures, font sizes,
      alignment;
    - tables: a grid of [rows * cols] positions covered by cells, each
      cell a rectangle of the grid named by its top-left position, as
      python-docx's [_Cell] wraps the [w:tc] element at the top-left of a
      merged region; [table.cell(r, c)], [a.merge(b)] with its checks and
      the moving of the merged cells' contents, [cell.text = ...], column
      widths;
    - [table_wf]: the cells cover the grid exactly once, and every table
      operation keeps it so.
    A Python variable that refers to a table or a section of the document
    ([table = doc.add_table(...)], [section = doc.sections[0]]) is its
    index in the document: changes through the variable change the
    document. *)

From Stdlib Require Import Floats.
From S2P Require Import Prelude PyStr Exif.

Module PyDocx.
Import PyStr Exif.

(** ** Lengths *)

(** [Inches(x)] for a float [x], and for an int. *)
Definition Inches (x : float) : pyres Z :=
  py_int_of_float (PrimFloat.mul x (float_of_Z 914400)).
Definition Inches_int (n : Z) : Z := (n * 914400)%Z.

(** [Pt(n)] for an int. *)
Definition Pt_int (n : Z) : Z := (n * 12700)%Z.

(** ** Paragraphs and runs *)

(** What a run holds: text (python-docx writes a newline as a line
    break), a page break, an inline picture of the given width. *)
Inductive run_item := IText (s : pystr) | IPageBreak | IPicture (im : image) (width : Z).

Record run := mkRun { r_items : list run_item; r_size : option Z }.

Inductive align := AlignCenter.

Record paragraph := mkPara { p_runs : list run; p_align : option align }.

Definition empty_para : paragraph := mkPara [] None.

(** [paragraph.add_run(text)]: a new run, with the text if it is not
    empty. *)
Definition add_run (text : pystr) (p : paragraph) : paragraph :=
  mkPara (p_runs p ++ [mkRun (if bool_decide (text = []) then [] else [IText text]) None]) (p_align p).

(** [paragraph.add_run().add_picture(image, width=w)] *)
Definition add_picture_run (im : image) (w : Z) (p : paragraph) : paragraph :=
  mkPara (p_runs p ++ [mkRun [IPicture im w] None]) (p_align p).

(** ** Tables *)

(** A cell: the rectangle [top <= r < bottom], [left <= c < right] of
    the grid, and its paragraphs. *)
Record cell := mkCell { c_top : nat; c_left : nat; c_bottom : nat; c_right : nat;
                        c_paras : list paragraph }.

(** The cells are kept in the order of their [w:tc] elements in the
    document, row by row, which is the order [merge] moves contents in. *)
Record table := mkTable {
  t_rows : nat; t_cols : nat; t_style : pystr;
  t_widths : list Z;   (** the [w:gridCol] widths *)
  t_cells : list cell
}.

Definition cell_id (c : cell) : nat * nat := (c_top c, c_left c).

Definition covers (c : cell) (r k : nat) : bool :=
  (c_top c <=? r) && (r <? c_bottom c) && (c_left c <=? k) && (k <? c_right c).

(** [CT_Tbl.new_tbl(rows, cols, width)]: every cell one position wide
    with one empty paragraph, every column [width // cols] wide. *)
Definition new_table (rows cols : nat) (width : Z) (style : pystr) : table :=
  mkTable rows cols style
    (repeat (if Nat.eqb cols 0 then 0 else width / Z.of_nat cols)%Z cols)
    (flat_map (fun r => map (fun k => mkCell r k (S r) (S k) [empty_para]) (seq 0 cols)) (seq 0 rows)).

(** [table.cell(r, c)]: the cell covering the position, by its top-left
    position; [_cells[c + r * cols]] raises [IndexError] past the grid. *)
Definition table_cell (t : table) (r k : nat) : pyres (nat * nat) :=
  if (r <? t_rows t) && (k <? t_cols t) then
    of_option IndexError (cell_id <$> List.find (fun c => covers c r k) (t_cells t))
  else PRaise IndexError.

Definition find_cell (t : table) (id : nat * nat) : option cell :=
  List.find (fun c => bool_decide (cell_id c = id)) (t_cells t).

Definition with_paras (c : cell) (ps : list paragraph) : cell :=
  mkCell (c_top c) (c_left c) (c_bottom c) (c_right c) ps.

(** Change the content of the cell [id] by [f] (a change through the
    [_Cell] object). *)
Definition update_cell (t : table) (id : nat * nat) (f : list paragraph -> pyres (list paragraph)) : pyres table :=
  c <-? of_option IndexError (find_cell t id);
  ps <-? f (c_paras c);
  POk (mkTable (t_rows t) (t_cols t) (t_style t) (t_widths t)
         (map (fun d => if bool_decide (cell_id d = id) then with_paras d ps else d) (t_cells t))).

(** [CT_Tc._span_dimensions]: [raise_on_inverted_L] and
    [raise_on_tee_shaped]. *)
Definition span_ok (a b : cell) : bool :=
  let inverted_L :=
    (Nat.eqb (c_top a) (c_top b) && negb (Nat.eqb (c_bottom a) (c_bottom b))) ||
    (Nat.eqb (c_left a) (c_left b) && negb (Nat.eqb (c_right a) (c_right b))) in
  let '(tm, o) := if c_top a <? c_top b then (a, b) else (b, a) in
  let '(lm, o') := if c_left a <? c_left b then (a, b) else (b, a) in
  let tee := ((c_top tm <? c_top o) && (c_bottom o <? c_bottom tm)) ||
             ((c_left lm <? c_left o') && (c_right o' <? c_right lm)) in
  negb inverted_L && negb tee.

(** A cell inside the rectangle, and one that crosses its edge. *)
Definition inside (top left bottom right : nat) (c : cell) : bool :=
  (top <=? c_top c) && (c_bottom c <=? bottom) && (left <=? c_left c) && (c_right c <=? right).

Definition overlaps (top left bottom right : nat) (c : cell) : bool :=
  (c_top c <? bottom) && (top <? c_bottom c) && (c_left c <? right) && (left <? c_right c).

(** [_Cell._is_empty]: a single paragraph with no runs. *)
Definition cell_empty (ps : list paragraph) : bool :=
  match ps with [p] => bool_decide (p_runs p = []) | _ => false end.

(** [CT_Tc._move_content_to(top)]: an empty cell moves nothing; otherwise
    an empty last paragraph of [top] is dropped and the cell's paragraphs
    follow. *)
Definition move_content (top src : list paragraph) : list paragraph :=
  if cell_empty src then top
  else
    let top' := match last top with
                | Some p => if bool_decide (p_runs p = []) then removelast top else top
                | None => top
                end in
    top' ++ src.

(** [a.merge(b)]: the smallest rectangle holding both cells becomes one
    cell, named by its top-left position, holding the contents of the
    cells it swallows row by row; a cell crossing the rectangle's edge
    makes the span invalid. *)
Definition merge (t : table) (ida idb : nat * nat) : pyres (table * (nat * nat)) :=
  a <-? of_option IndexError (find_cell t ida);
  b <-? of_option IndexError (find_cell t idb);
  if negb (span_ok a b) then PRaise InvalidSpanError else
  let top := Nat.min (c_top a) (c_top b) in let left := Nat.min (c_left a) (c_left b) in
  let bottom := Nat.max (c_bottom a) (c_bottom b) in let right := Nat.max (c_right a) (c_right b) in
  let ins := filter (fun c => inside top left bottom right c = true) (t_cells t) in
  if existsb (fun c => overlaps top left bottom right c && negb (inside top left bottom right c)) (t_cells t)
  then PRaise InvalidSpanError else
  let others := filter (fun c => negb (bool_decide (cell_id c = (top, left))) = true) ins in
  tl <-? of_option InvalidSpanError (find_cell t (top, left));
  let paras := fold_left move_content (map c_paras others) (c_paras tl) in
  let merged := mkCell top left bottom right paras in
  POk (mkTable (t_rows t) (t_cols t) (t_style t) (t_widths t)
         (map (fun c => if bool_decide (cell_id c = (top, left)) then merged else c)
              (filter (fun c => (negb (inside top left bottom right c) ||
                                 bool_decide (cell_id c = (top, left))) = true) (t_cells t))), (top, left)).

(** [cell.text = s]: the cell's content becomes one paragraph with one
    run holding [s]. *)
Definition set_text (s : pystr) (_ : list paragraph) : pyres (list paragraph) :=
  POk [mkPara [mkRun (if bool_decide (s = []) then [] else [IText s]) None] None].

(** [cell.paragraphs[0]] changed by [f]; [IndexError] without one. *)
Definition with_para0 (f : paragraph -> pyres paragraph) (ps : list paragraph) : pyres (list paragraph) :=
  match ps with
  | p :: ps' => p' <-? f p; POk (p' :: ps')
  | [] => PRaise IndexError
  end.

(** [paragraph.runs[0].font.size = size] *)
Definition set_run0_size (size : Z) (p : paragraph) : pyres paragraph :=
  match p_runs p with
  | r :: rs => POk (mkPara (mkRun (r_items r) (Some size) :: rs) (p_align p))
  | [] => PRaise IndexError
  end.

(** [paragraph.alignment = a] *)
Definition set_align (a : align) (p : paragraph) : paragraph := mkPara (p_runs p) (Some a).

(** [table.columns[i].width = w]: [IndexError] past the last column. *)
Definition set_col_width (i : nat) (w : Z) (t : table) : pyres table :=
  if i <? length (t_widths t) then
    POk (mkTable (t_rows t) (t_cols t) (t_style t) (<[i := w]> (t_widths t)) (t_cells t))
  else PRaise IndexError.

(** ** The document *)

(** A section's page size and margins; a template may leave them unset. *)
Record section := mkSection {
  page_width : option Z; page_height : option Z;
  left_margin : option Z; right_margin : option Z;
  top_margin : option Z; bottom_margin : option Z
}.

Record font := mkFont { font_name : option pystr; font_bold : option bool }.

(** A style: its name, whether it is a table style, its font. *)
Record style := mkStyle { s_name : pystr; s_table : bool; s_font : font }.

Inductive block := BPara (p : paragraph) | BTable (t : table).

Record document := mkDoc {
  d_sections : list section; d_body : list block; d_styles : list style
}.

Definition with_body (d : document) (b : list block) : document :=
  mkDoc (d_sections d) b (d_styles d).

(** [doc.add_paragraph(text)]: a run only for a non-empty text. *)
Definition doc_add_paragraph (text : pystr) (d : document) : document :=
  with_body d (d_body d ++ [BPara (if bool_decide (text = []) then empty_para else add_run text empty_para)]).

(** [doc.add_page_break()] *)
Definition doc_add_page_break (d : document) : document :=
  with_body d (d_body d ++ [BPara (mkPara [mkRun [IPageBreak] None] None)]).

(** [doc.add_picture(path, width=w)] of the image read from [path]. *)
Definition doc_add_picture (im : image) (w : Z) (d : document) : document :=
  with_body d (d_body d ++ [BPara (add_picture_run im w empty_para)]).

(** [Document._block_width]: the last section's page width less its
    side margins; an unset length is [None], and [None - x] raises
    [TypeError]. *)
Definition block_width (d : document) : pyres Z :=
  s <-? of_option IndexError (last (d_sections d));
  match page_width s, left_margin s, right_margin s with
  | Some w, Some l, Some r => POk (w - l - r)%Z
  | _, _, _ => PRaise TypeError
  end.

(** [styles[name]] *)
Definition find_style (d : document) (name : pystr) : option style :=
  List.find (fun s => bool_decide (s_name s = name)) (d_styles d).

(** [doc.add_table(rows, cols, style=name)]: the table is appended to
    the body; the result is its index, through which the script's
    variable [table] refers to it.  A missing style raises [KeyError], a
    style that is not a table style [ValueError]. *)
Definition doc_add_table (rows cols : nat) (name : pystr) (d : document) : pyres (document * nat) :=
  w <-? block_width d;
  s <-? of_option KeyError (find_style d name);
  if s_table s then
    POk (with_body d (d_body d ++ [BTable (new_table rows cols w name)]), length (d_body d))
  else PRaise ValueError.

(** A change made through a variable that refers to the table at index
    [i] of the body. *)
Definition doc_update_table (i : nat) (f : table -> pyres table) (d : document) : pyres document :=
  match d_body d !! i with
  | Some (BTable t) => t' <-? f t; POk (with_body d (<[i := BTable t']> (d_body d)))
  | _ => PRaise IndexError
  end.

(** A change made through [section = doc.sections[i]]. *)
Definition doc_update_section (i : nat) (f : section -> section) (d : document) : pyres document :=
  s <-? of_option IndexError (d_sections d !! i);
  POk (mkDoc (<[i := f s]> (d_sections d)) (d_body d) (d_styles d)).

(** [doc.styles[name].font] changed by [f]. *)
Definition doc_update_font (name : pystr) (f : font -> font) (d : document) : pyres document :=
  _ <-? of_option KeyError (find_style d name);
  POk (mkDoc (d_sections d) (d_body d)
             (map (fun s => if bool_decide (s_name s = name) then mkStyle (s_name s) (s_table s) (f (s_font s)) else s)
                  (d_styles d))).

(** ** Well-formed tables *)

(** The cells lie in the grid, and every position of the grid is covered
    by exactly one cell; one width per column. *)
Definition cell_in_grid (t : table) (c : cell) : bool :=
  (c_top c <? c_bottom c) && (c_bottom c <=? t_rows t) && (c_left c <? c_right c) && (c_right c <=? t_cols t).

Definition cover_count (t : table) (r k : nat) : nat := length (filter (fun c => covers c r k = true) (t_cells t)).

Definition table_wf (t : table) : bool :=
  forallb (cell_in_grid t) (t_cells t) &&
  forallb (fun r => forallb (fun k => Nat.eqb (cover_count t r k) 1) (seq 0 (t_cols t))) (seq 0 (t_rows t)) &&
  Nat.eqb (length (t_widths t)) (t_cols t).

(** ** Code that works on a table through a variable

    A computation on a table that may raise and returns a value: the
    statements between [table = doc.add_table(...)] and the last use of
    [table] (or of a cell of it).  [doc_with_table] runs it on the table
    of the body it refers to. *)
Definition tbl (A : Type) : Type := table -> pyres (table * A).

Definition tret {A} (a : A) : tbl A := fun t => POk (t, a).

Definition tbind {A B} (m : tbl A) (k : A -> tbl B) : tbl B :=
  fun t => r <-? m t; k r.2 r.1.

Declare Scope tbl_scope.
Delimit Scope tbl_scope with tbl.
Notation "x <-t m ; k" := (tbind m (fun x => k))
  (at level 100, m at next level, right associativity) : tbl_scope.
Notation "m ;;t k" := (tbind m (fun _ => k)) (at level 100, right associativity) : tbl_scope.

(** A computation that does not touch the table (reading a file). *)
Definition tlift {A} (x : pyres A) : tbl A := fun t => a <-? x; POk (t, a).

(** Reading the table. *)
Definition tread {A} (f : table -> pyres A) : tbl A := fun t => a <-? f t; POk (t, a).

(** Changing the table. *)
Definition tmodify (f : table -> pyres table) : tbl unit := fun t => t' <-? f t; POk (t', tt).

(** [table.cell(r, c)] *)
Definition t_cell (r k : nat) : tbl (nat * nat) := tread (fun t => table_cell t r k).

(** [a.merge(b)]: the merged cell. *)
Definition t_merge (a b : nat * nat) : tbl (nat * nat) := fun t => merge t a b.

(** [cell.text = s] *)
Definition t_set_text (c : nat * nat) (s : pystr) : tbl unit := tmodify (fun t => update_cell t c (set_text s)).

(** [cell.paragraphs[0]] changed by [f] *)
Definition t_para0 (c : nat * nat) (f : paragraph -> pyres paragraph) : tbl unit :=
  tmodify (fun t => update_cell t c (with_para0 f)).

(** [table.columns[i].width = w] *)
Definition t_col_width (i : nat) (w : Z) : tbl unit := tmodify (set_col_width i w).

(** Running [m] on the table at index [i] of the body. *)
Definition doc_with_table {A} (i : nat) (m : tbl A) (d : document) : pyres (document * A) :=
  match d_body d !! i with
  | Some (BTable t) => r <-? m t; POk (with_body d (<[i := BTable r.1]> (d_body d)), r.2)
  | _ => PRaise IndexError
  end.

(** ** The tables stay well formed *)

Definition extent (c : cell) : nat * nat * nat * nat := (c_top c, c_left c, c_bottom c, c_right c).

Lemma length_filter_ext {A} (P Q : A -> bool) (l : list A) :
  (forall x, x ∈ l -> P x = Q x) ->
  length (filter (fun x => P x = true) l) = length (filter (fun x => Q x = true) l).
Proof.
  induction l as [|x l IH]; intros H; [done|]. rewrite !filter_cons.
  rewrite (H x) by by left. specialize (IH (fun y Hy => H y (list_elem_of_further _ _ _ Hy))).
  destruct (decide (Q x = true)); simpl; by rewrite IH.
Qed.

Lemma length_filter_le {A} (P Q : A -> bool) (l : list A) :
  (forall x, x ∈ l -> P x = true -> Q x = true) ->
  length (filter (fun x => P x = true) l) <= length (filter (fun x => Q x = true) l).
Proof.
  induction l as [|x l IH]; intros H; [done|]. rewrite !filter_cons.
  specialize (IH (fun y Hy => H y (list_elem_of_further _ _ _ Hy))).
  destruct (P x) eqn:Hp; [rewrite decide_True by done|rewrite decide_False by done].
  - rewrite decide_True by (apply H; [by left|done]). simpl. lia.
  - destruct (decide (Q x = true)); simpl; lia.
Qed.

Lemma length_filter_map {A B} (P : B -> bool) (g : A -> B) (l : list A) :
  length (filter (fun y => P y = true) (map g l)) = length (filter (fun x => P (g x) = true) l).
Proof. induction l as [|x l IH]; [done|]. simpl. rewrite !filter_cons. by destruct (decide _); simpl; rewrite IH. Qed.

Lemma length_filter_filter {A} (P Q : A -> bool) (l : list A) :
  length (filter (fun x => P x = true) (filter (fun x => Q x = true) l)) =
  length (filter (fun x => (P x && Q x) = true) l).
Proof.
  induction l as [|x l IH]; [done|]. rewrite !filter_cons.
  destruct (Q x) eqn:Hq; [rewrite decide_True by done|rewrite decide_False by done];
    rewrite ?filter_cons, ?andb_true_r, ?andb_false_r; [|by rewrite decide_False].
  by destruct (decide (P x = true)); simpl; rewrite IH.
Qed.

Lemma table_wf_iff t :
  table_wf t = true <->
  (forall c, c ∈ t_cells t -> cell_in_grid t c = true) /\
  (forall r k, r < t_rows t -> k < t_cols t -> cover_count t r k = 1) /\
  length (t_widths t) = t_cols t.
Proof.
  unfold table_wf. rewrite !andb_true_iff, Nat.eqb_eq, !forallb_forall.
  setoid_rewrite forallb_forall. setoid_rewrite in_seq. setoid_rewrite Nat.eqb_eq.
  setoid_rewrite <- list_elem_of_In. split.
  - intros [[H1 H2] H3]. split_and!; [done| |done]. intros r k ??. apply H2; lia.
  - intros (H1 & H2 & H3). split_and!; [done| |done]. intros r ? k ?. apply H2; lia.
Qed.

(** Only the cells' rectangles matter. *)
Lemma table_wf_shape t t' :
  t_rows t' = t_rows t -> t_cols t' = t_cols t -> length (t_widths t') = length (t_widths t) ->
  map extent (t_cells t') = map extent (t_cells t) -> table_wf t' = table_wf t.
Proof.
  intros Hr Hc Hw Hm. unfold table_wf, cover_count. rewrite Hr, Hc, Hw. f_equal. f_equal.
  - assert (E : forall l l', map extent l' = map extent l ->
              forallb (cell_in_grid t') l' = forallb (cell_in_grid t) l).
    { induction l as [|c l IH]; intros [|c' l'] E; try done. simpl in E. injection E as E1 E2 E3 E4 E5.
      simpl. rewrite (IH l' E5). f_equal. unfold cell_in_grid. by rewrite Hr, Hc, E1, E2, E3, E4. }
    by apply E.
  - apply forallb_ext_pw. intros r. apply forallb_ext_pw. intros k.
    f_equal.
    set (Pe := fun e : nat * nat * nat * nat => let '(a, b, c, d) := e in
                 (a <=? r) && (r <? c) && (b <=? k) && (k <? d)).
    rewrite !(length_filter_ext (fun c => covers c r k) (fun c => Pe (extent c))) by (intros [] _; reflexivity).
    rewrite <- !(length_filter_map Pe extent).
    by rewrite Hm.
Qed.

Lemma update_cell_wf t id f t' : update_cell t id f = POk t' -> table_wf t' = table_wf t.
Proof.
  unfold update_cell. destruct (find_cell t id); [|done]. cbn [of_option pbind].
  destruct (f _); [|done]. intros [= <-]. apply table_wf_shape; try done.
  cbn [t_cells]. rewrite map_map. apply map_ext. intros d. by case_bool_decide.
Qed.

Lemma set_col_width_wf i w t t' : set_col_width i w t = POk t' -> table_wf t' = table_wf t.
Proof.
  unfold set_col_width. destruct (_ <? _); [|done]. intros [= <-].
  apply table_wf_shape; try done. apply length_insert.
Qed.

Lemma length_filter_flat_map {A B} (P : B -> bool) (F : A -> list B) (l : list A) :
  length (filter (fun y => P y = true) (flat_map F l)) =
  list_sum (map (fun x => length (filter (fun y => P y = true) (F x))) l).
Proof. induction l as [|x l IH]; [done|]. simpl. by rewrite filter_app, length_app, IH. Qed.

Lemma length_filter_seq_eq a n k :
  length (filter (fun j => Nat.eqb j k = true) (seq a n)) = if (a <=? k) && (k <? a + n) then 1 else 0.
Proof.
  revert a. induction n as [|n IH]; intros a; simpl.
  - destruct (a <=? k) eqn:?, (k <? a + 0) eqn:?; simpl; try done. apply Nat.leb_le in Heqb. apply Nat.ltb_lt in Heqb0. lia.
  - rewrite filter_cons. destruct (Nat.eqb_spec a k) as [->|Ne].
    + rewrite decide_True by done. simpl. rewrite IH.
      destruct (S k <=? k) eqn:E; [apply Nat.leb_le in E; lia|]. rewrite Nat.leb_refl.
      by replace (k <? k + S n) with true by (symmetry; apply Nat.ltb_lt; lia).
    + rewrite decide_False by done. rewrite IH.
      destruct (S a <=? k) eqn:E1, (a <=? k) eqn:E2, (k <? S a + n) eqn:E3, (k <? a + S n) eqn:E4;
        rewrite ?Nat.leb_le, ?Nat.leb_gt, ?Nat.ltb_lt, ?Nat.ltb_ge in *; simpl; lia.
Qed.

Lemma sum_indicator (l : list nat) r :
  list_sum (map (fun j => if Nat.eqb j r then 1 else 0) l) = length (filter (fun j => Nat.eqb j r = true) l).
Proof.
  induction l as [|j l IH]; [done|]. simpl. rewrite filter_cons, IH.
  by destruct (Nat.eqb j r); [rewrite decide_True|rewrite decide_False].
Qed.

Lemma length_filter_false {A} (l : list A) : length (filter (fun _ => false = true) l) = 0.
Proof. induction l; [done|]. by rewrite filter_cons, decide_False. Qed.

Lemma covers_unit r' k' ps r k :
  covers (mkCell r' k' (S r') (S k') ps) r k = Nat.eqb r' r && Nat.eqb k' k.
Proof.
  unfold covers. cbn [c_top c_left c_bottom c_right].
  destruct (Nat.eqb_spec r' r), (Nat.eqb_spec k' k), (r' <=? r) eqn:E1, (r <? S r') eqn:E2,
    (k' <=? k) eqn:E3, (k <? S k') eqn:E4;
    rewrite ?Nat.leb_le, ?Nat.leb_gt, ?Nat.ltb_lt, ?Nat.ltb_ge in *; simpl; try done; lia.
Qed.

Lemma in_seq_0 k n : k < n -> (0 <=? k) && (k <? 0 + n) = true.
Proof. intros. apply andb_true_iff. rewrite Nat.leb_le, Nat.ltb_lt. lia. Qed.

Lemma new_table_cover rows cols w s r k :
  r < rows -> k < cols -> cover_count (new_table rows cols w s) r k = 1.
Proof.
  intros Hr Hk. unfold cover_count, new_table. cbn [t_cells]. rewrite length_filter_flat_map.
  rewrite (map_ext _ (fun r' => if Nat.eqb r' r then 1 else 0)).
  { by rewrite sum_indicator, length_filter_seq_eq, in_seq_0. }
  intros r'. rewrite length_filter_map.
  rewrite (length_filter_ext _ (fun k' => Nat.eqb r' r && Nat.eqb k' k)) by (intros; apply covers_unit).
  destruct (Nat.eqb r' r).
  - rewrite (length_filter_ext _ (fun j => Nat.eqb j k)) by done. by rewrite length_filter_seq_eq, in_seq_0.
  - rewrite (length_filter_ext _ (fun _ => false)) by done. apply length_filter_false.
Qed.

Lemma new_table_wf rows cols w s : table_wf (new_table rows cols w s) = true.
Proof.
  apply table_wf_iff. split_and!.
  - intros c Hc%list_elem_of_In. apply in_flat_map in Hc as (r & Hr%in_seq & Hc).
    apply in_map_iff in Hc as (k & <- & Hk%in_seq). unfold cell_in_grid. cbn [t_rows t_cols c_top c_left c_bottom c_right].
    rewrite !andb_true_iff, !Nat.leb_le, !Nat.ltb_lt. cbn [new_table t_rows t_cols]. lia.
  - intros r k. apply new_table_cover.
  - cbn. apply repeat_length.
Qed.

Lemma covers_spec c r k :
  covers c r k = true <-> c_top c <= r < c_bottom c /\ c_left c <= k < c_right c.
Proof. unfold covers. rewrite !andb_true_iff, !Nat.leb_le, !Nat.ltb_lt. tauto. Qed.

Lemma inside_spec top left bottom right c :
  inside top left bottom right c = true <->
  top <= c_top c /\ c_bottom c <= bottom /\ left <= c_left c /\ c_right c <= right.
Proof. unfold inside. rewrite !andb_true_iff, !Nat.leb_le. tauto. Qed.

Lemma overlaps_spec top left bottom right c :
  overlaps top left bottom right c = true <->
  c_top c < bottom /\ top < c_bottom c /\ c_left c < right /\ left < c_right c.
Proof. unfold overlaps. rewrite !andb_true_iff, !Nat.ltb_lt. tauto. Qed.

Lemma cell_in_grid_spec t c :
  cell_in_grid t c = true <->
  c_top c < c_bottom c <= t_rows t /\ c_left c < c_right c <= t_cols t.
Proof. unfold cell_in_grid. rewrite !andb_true_iff, !Nat.leb_le, !Nat.ltb_lt. tauto. Qed.

Lemma find_cell_Some t id c : find_cell t id = Some c -> c ∈ t_cells t /\ cell_id c = id.
Proof.
  unfold find_cell. intros (Hin & Hid)%List.find_some. apply bool_decide_eq_true in Hid.
  split; [by apply list_elem_of_In|done].
Qed.

(** What [merge] checked, and the table it builds. *)
Section Merge.
Context (t : table) (a b tl : cell) (ps : list paragraph).
Context (top left bottom right : nat).
Hypothesis Hwf : table_wf t = true.
Hypothesis Ha : a ∈ t_cells t.
Hypothesis Hb : b ∈ t_cells t.
Hypothesis Htop : top = Nat.min (c_top a) (c_top b).
Hypothesis Hleft : left = Nat.min (c_left a) (c_left b).
Hypothesis Hbottom : bottom = Nat.max (c_bottom a) (c_bottom b).
Hypothesis Hright : right = Nat.max (c_right a) (c_right b).
Hypothesis Hcross : forall c, c ∈ t_cells t -> overlaps top left bottom right c = true ->
                              inside top left bottom right c = true.
Hypothesis Htl : tl ∈ t_cells t.
Hypothesis Htl_id : cell_id tl = (top, left).

Definition keep (c : cell) : bool :=
  negb (inside top left bottom right c) || bool_decide (cell_id c = (top, left)).
Definition repl (c : cell) : cell :=
  if bool_decide (cell_id c = (top, left)) then mkCell top left bottom right ps else c.

Lemma merge_grid : top < bottom <= t_rows t /\ left < right <= t_cols t.
Proof.
  apply table_wf_iff in Hwf as (Hg & _).
  apply Hg, cell_in_grid_spec in Ha, Hb. lia.
Qed.

Lemma merge_inside_covers c r k :
  c ∈ t_cells t -> covers c r k = true -> inside top left bottom right c = true ->
  top <= r < bottom /\ left <= k < right.
Proof. intros _ Hc%covers_spec Hi%inside_spec. lia. Qed.

Lemma merge_outside_covers c r k :
  c ∈ t_cells t -> covers c r k = true -> inside top left bottom right c = false ->
  ~ (top <= r < bottom /\ left <= k < right).
Proof.
  intros Hc Hcov Hi HR. apply covers_spec in Hcov.
  assert (Ho : overlaps top left bottom right c = true) by (apply overlaps_spec; lia).
  rewrite (Hcross c Hc Ho) in Hi. discriminate.
Qed.

Lemma merge_top_left_unique :
  length (filter (fun c => bool_decide (cell_id c = (top, left)) = true) (t_cells t)) = 1.
Proof.
  pose proof merge_grid. pose proof Hwf as (Hg & Hcov & _)%table_wf_iff.
  apply Nat.le_antisymm.
  - rewrite <- (Hcov top left) by lia. unfold cover_count. apply length_filter_le.
    intros c Hc Hid%bool_decide_eq_true. apply Hg, cell_in_grid_spec in Hc.
    apply covers_spec. unfold cell_id in Hid. injection Hid as <- <-. lia.
  - assert (Hin : tl ∈ filter (fun c => bool_decide (cell_id c = (top, left)) = true) (t_cells t))
      by (apply list_elem_of_filter; split; [by apply bool_decide_eq_true|done]).
    destruct (filter _ (t_cells t)); [by apply elem_of_nil in Hin|simpl; lia].
Qed.

Lemma merge_cover r k :
  r < t_rows t -> k < t_cols t ->
  length (filter (fun c => covers c r k = true) (map repl (filter (fun c => keep c = true) (t_cells t)))) = 1.
Proof.
  intros Hr Hk. pose proof Hwf as (_ & Hcov & _)%table_wf_iff.
  rewrite length_filter_map, length_filter_filter.
  destruct (decide (top <= r < bottom /\ left <= k < right)) as [HR|HR].
  - rewrite <- merge_top_left_unique. apply length_filter_ext. intros c Hc.
    unfold repl, keep. case_bool_decide as Hid.
    + rewrite orb_true_r, andb_true_r. apply covers_spec. cbn [c_top c_left c_bottom c_right]. lia.
    + rewrite orb_false_r. destruct (inside _ _ _ _ c) eqn:Hi; simpl; [apply andb_false_r|].
      destruct (covers c r k) eqn:Hcv; [|done]. by destruct (merge_outside_covers c r k Hc Hcv Hi).
  - rewrite <- (Hcov r k Hr Hk). apply length_filter_ext. intros c Hc.
    unfold repl, keep. case_bool_decide as Hid.
    + rewrite orb_true_r, andb_true_r.
      destruct (covers c r k) eqn:Hcv.
      * exfalso. apply HR. apply (merge_inside_covers c r k Hc Hcv), Hcross; [done|].
        pose proof merge_grid as Hgr. pose proof Hwf as (Hg & _)%table_wf_iff.
        apply Hg, cell_in_grid_spec in Hc. apply overlaps_spec. unfold cell_id in Hid.
        injection Hid as <- <-. lia.
      * apply not_true_iff_false. intros Hm%covers_spec. cbn [c_top c_left c_bottom c_right] in Hm. lia.
    + rewrite orb_false_r. destruct (inside _ _ _ _ c) eqn:Hi; simpl.
      * destruct (covers c r k) eqn:Hcv; [|done]. exfalso. by apply HR, (merge_inside_covers c r k Hc Hcv).
      * by rewrite andb_true_r.
Qed.

End Merge.

(** [a.merge(b)] keeps a table well formed. *)
Lemma merge_wf t ida idb t' id :
  table_wf t = true -> merge t ida idb = POk (t', id) -> table_wf t' = true.
Proof.
  intros Hwf. unfold merge.
  destruct (find_cell t ida) as [a|] eqn:Ea; [|done]. cbn [of_option pbind].
  destruct (find_cell t idb) as [b|] eqn:Eb; [|done]. cbn [of_option pbind].
  destruct (negb (span_ok a b)); [done|].
  destruct (existsb _ _) eqn:Ex; [done|].
  destruct (find_cell t (_, _)) as [tl|] eqn:Etl; [|done]. cbn [of_option pbind].
  intros [= <- _].
  apply find_cell_Some in Ea as [Ha _], Eb as [Hb _], Etl as [Htl Htlid].
  set (top := Nat.min (c_top a) (c_top b)) in *. set (left := Nat.min (c_left a) (c_left b)) in *.
  set (bottom := Nat.max (c_bottom a) (c_bottom b)) in *. set (right := Nat.max (c_right a) (c_right b)) in *.
  assert (Hcross : forall c, c ∈ t_cells t -> overlaps top left bottom right c = true ->
                             inside top left bottom right c = true).
  { intros c Hc Ho. apply not_false_iff_true. intros Hi.
    assert (existsb (fun c => overlaps top left bottom right c && negb (inside top left bottom right c))
              (t_cells t) = true) as Hex; [|by rewrite Hex in Ex].
    apply existsb_exists. exists c. split; [by apply list_elem_of_In|]. by rewrite Ho, Hi. }
  apply table_wf_iff. cbn [t_rows t_cols t_widths t_cells]. pose proof Hwf as (Hg & _ & Hw)%table_wf_iff.
  split_and!; [|intros r k Hr Hk; unfold cover_count; cbn [t_cells]; by eapply (merge_cover t a b tl)|done].
  intros c (d & -> & [_ Hd]%list_elem_of_filter)%list_elem_of_fmap.
  cbv beta. case_bool_decide.
  - apply cell_in_grid_spec. cbn [c_top c_left c_bottom c_right t_rows t_cols].
    by apply (merge_grid t a b).
  - apply Hg in Hd. apply cell_in_grid_spec in Hd. by apply cell_in_grid_spec.
Qed.

(** ** Table code keeps tables well formed *)

Definition tbl_wf {A} (m : tbl A) : Prop :=
  forall t t' a, table_wf t = true -> m t = POk (t', a) -> table_wf t' = true.

Create HintDb docx discriminated.

Lemma tret_wf {A} (a : A) : tbl_wf (tret a).
Proof. intros t t' a' Ht [= <- _]. done. Qed.

Lemma tbind_wf {A B} (m : tbl A) (k : A -> tbl B) :
  tbl_wf m -> (forall a, tbl_wf (k a)) -> tbl_wf (tbind m k).
Proof.
  intros Hm Hk t t' b Ht. unfold tbind. destruct (m t) as [[t1 a]|] eqn:E; [|done].
  cbn [pbind fst snd]. apply Hk. by apply (Hm t t1 a).
Qed.

Lemma tread_wf {A} (f : table -> pyres A) : tbl_wf (tread f).
Proof. intros t t' a Ht. unfold tread. destruct (f t); [|done]. by intros [= <- _]. Qed.

Lemma tlift_wf {A} (x : pyres A) : tbl_wf (tlift x).
Proof. intros t t' a Ht. unfold tlift. destruct x; [|done]. by intros [= <- _]. Qed.

Lemma tmodify_wf (f : table -> pyres table) :
  (forall t t', f t = POk t' -> table_wf t' = table_wf t) -> tbl_wf (tmodify f).
Proof.
  intros Hf t t' a Ht. unfold tmodify. destruct (f t) as [t1|] eqn:E; [|done].
  intros [= <- _]. by rewrite (Hf _ _ E).
Qed.

Lemma t_cell_wf r k : tbl_wf (t_cell r k).
Proof. apply tread_wf. Qed.

Lemma t_merge_wf a b : tbl_wf (t_merge a b).
Proof. intros t t' x Ht. apply merge_wf, Ht. Qed.

Lemma t_set_text_wf c s : tbl_wf (t_set_text c s).
Proof. apply tmodify_wf. intros t t'. apply update_cell_wf. Qed.

Lemma t_para0_wf c f : tbl_wf (t_para0 c f).
Proof. apply tmodify_wf. intros t t'. apply update_cell_wf. Qed.

Lemma t_col_width_wf i w : tbl_wf (t_col_width i w).
Proof. apply tmodify_wf. intros t t'. apply set_col_width_wf. Qed.

#[export] Hint Resolve tret_wf tread_wf tlift_wf t_cell_wf t_merge_wf t_set_text_wf
  t_para0_wf t_col_width_wf : docx.

(** A table program built from these operations keeps tables well
    formed. *)
Ltac tbl_wf_auto :=
  repeat (apply tbind_wf; [|intros ?]); eauto with docx.

End PyDocx.
