(* ===== verification/Kmz.v ===== *)
(** * The photo-to-KMZ exporters: src/GenKMZwithRotationFinal.py and
      src/GenerateKmz.py

    Both scripts look through a folder for photos whose EXIF block has a
    GPS position, copy them into a temporary [files] folder, write a KML
    document with one placemark per photo, zip the KML and the folder into
    [photo_data.kmz], and delete the temporary files.  The rotation
    script also turns each photo upright according to its EXIF Orientation
    tag before packing it (Exif.v), and then sets the tag to 1.

    This file holds:
    - the photo store ([pfs]) the scripts read and write, with the
      library calls [Image.open], [save], [shutil.copy], [os.walk],
      [zipfile], [os.remove] and [shutil.rmtree];
    - [extract_gps_data], [get_image_orientation], [rotate_image],
      [create_kml] (with the KML text as the script writes it) and
      [create_kmz];
    - [kmz_main], the body both [main]s share around their loops, with the
      two loop bodies [rotation_step] and [copy_step]; [main_rotation]
      (lines 177-225 of the rotation script) and [main_copy] (lines 80-103
      of GenerateKmz.py); the modules' start-up, which raises [NameError]
      in both scripts;
    - [KmzStep]: what a loop body promises [kmz_main]; the theorems about
      [kmz_main] are proved once against it and both bodies discharge it;
    - the theorems: [main] returns, the archive holds the KML and every
      photo with a position, a file the user kept in [files] is packed
      and deleted, nothing else changes, and the two scripts agree but
      for the photos. *)

From Stdlib Require Import Floats.
From S2P Require Import Prelude PyStr PyPath Exif PyDocx.

Module Kmz.
Import PyStr PyPath Exif.

(** ** The photo folder and the library calls on it *)

(** A file: a photo PIL can open, any other bytes (the KML text, a note),
    a zip archive as the list of its entries, or a Word document as
    python-docx reads and writes it. *)
Inductive pcontent : Type :=
  | Photo (im : image)
  | Data (b : pystr)
  | Zip (entries : list (pystr * pcontent))
  | Doc (d : PyDocx.document).

(** The files by path, the directories, and the files that cannot be
    written or removed (open in another program on Windows, read-only). *)
Record pfs := mkPfs {
  pfiles : gmap pystr pcontent;
  pdirs : gset pystr;
  plocked : gset pystr
}.

(** [os.path.exists] *)
Definition path_exists (st : pfs) (p : pystr) : bool :=
  bool_decide (p ∈ pdirs st) || bool_decide (is_Some (pfiles st !! p)).

(** [os.makedirs] *)
Definition makedirs (p : pystr) (st : pfs) : pfs :=
  mkPfs (pfiles st) ({[p]} ∪ pdirs st) (plocked st).

(** [Image.open(p)]: a file PIL cannot identify raises
    [UnidentifiedImageError], a directory [IsADirectoryError] (both
    [OSError]s). *)
Definition image_open (st : pfs) (p : pystr) : pyres image :=
  match pfiles st !! p with
  | Some (Photo im) => POk im
  | Some _ => PRaise OSError
  | None => if bool_decide (p ∈ pdirs st) then PRaise OSError else PRaise FileNotFound
  end.

(** Reading the bytes of a file. *)
Definition read_file (st : pfs) (p : pystr) : pyres pcontent :=
  match pfiles st !! p with
  | Some c => POk c
  | None => if bool_decide (p ∈ pdirs st) then PRaise OSError else PRaise FileNotFound
  end.

(** [open(p, 'wb')]: the folder must exist, [p] must not be a directory
    or a locked file. *)
Definition check_writable (p : pystr) (st : pfs) : pyres unit :=
  if bool_decide (dirname p ∉ pdirs st) then PRaise FileNotFound
  else if bool_decide (p ∈ pdirs st) then PRaise OSError
  else if bool_decide (p ∈ plocked st) then PRaise PermissionError
  else POk tt.

Definition put (p : pystr) (c : pcontent) (st : pfs) : pfs :=
  mkPfs (<[p := c]> (pfiles st)) (pdirs st) (plocked st).

Definition write_file (p : pystr) (c : pcontent) (st : pfs) : pyres pfs :=
  _ <-? check_writable p st;
  POk (put p c st).

(** [shutil.copy(src, dst)]: into [dst] itself, or into the folder [dst]. *)
Definition copy (src dst : pystr) (st : pfs) : pyres pfs :=
  let dst' := if bool_decide (dst ∈ pdirs st) then join dst (basename src) else dst in
  c <-? read_file st src;
  write_file dst' c st.

(** [os.remove(p)] *)
Definition remove (p : pystr) (st : pfs) : pyres pfs :=
  match pfiles st !! p with
  | Some _ =>
      if bool_decide (p ∈ plocked st) then PRaise PermissionError
      else POk (mkPfs (delete p (pfiles st)) (pdirs st) (plocked st))
  | None => if bool_decide (p ∈ pdirs st) then PRaise OSError else PRaise FileNotFound
  end.

(** A path strictly inside [folder]. *)
Definition under (folder p : pystr) : bool := bool_decide (folder ++ [sep] `prefix_of` p).

(** [shutil.rmtree(folder)]: the folder, everything inside it, and the
    folders inside it.  A locked file inside makes it raise (the files
    removed before that one are not tracked). *)
Definition rmtree (folder : pystr) (st : pfs) : pyres pfs :=
  if bool_decide (folder ∉ pdirs st) then
    PRaise (if bool_decide (is_Some (pfiles st !! folder)) then OSError else FileNotFound)
  else if existsb (under folder) (elements (plocked st)) then PRaise PermissionError
  else POk (mkPfs (filter (fun kv => under folder kv.1 = false) (pfiles st))
                  (filter (fun d => d <> folder /\ under folder d = false) (pdirs st))
                  (plocked st)).

(** The files [os.walk(folder)] visits, with their contents.  The walk's
    order is the order of directory listings, which the OS chooses; the
    map's key order stands for it, and no theorem depends on it. *)
Definition walk_files (folder : pystr) (st : pfs) : list (pystr * pcontent) :=
  filter (fun kv => under folder kv.1 = true) (map_to_list (pfiles st)).

(** ** The two scripts *)

(** A photo's position: latitude, longitude, and the raw altitude. *)
Definition gps : Type := (float * float * option exif_val)%type.

(** Lines 57-63: the GPS IFD read and converted; any exception is caught
    by the caller. *)
Definition gps_of_exif (exif_data : exif_dict) : pyres gps :=
  gps_data <-? of_option KeyError (dict_get 34853 exif_data);
  c2 <-? exif_getitem gps_data 2;
  r1 <-? exif_getitem gps_data 1;
  latitude <-? convert_to_decimal_degrees c2 r1;
  c4 <-? exif_getitem gps_data 4;
  r3 <-? exif_getitem gps_data 3;
  longitude <-? convert_to_decimal_degrees c4 r3;
  has_alt <-? exif_contains 6 gps_data;
  altitude <-? (if has_alt then a <-? exif_getitem gps_data 6; POk (Some a) else POk None);
  POk (latitude, longitude, altitude).

(** [extract_gps_data] (lines 43-66; 24-38 of GenerateKmz.py): [None]
    stands for [(None, None, None)], returned when the file is no image,
    has no EXIF or no GPSInfo, or reading it raises. *)
Definition extract_gps_data (st : pfs) (image_path : pystr) : option gps :=
  match image_open st image_path with
  | POk img =>
      match im_exif img with
      | Some exif_data =>
          if bool_decide (exif_data <> []) && bool_decide (is_Some (dict_get 34853 exif_data))
          then match gps_of_exif exif_data with POk r => Some r | PRaise _ => None end
          else None
      | None => None
      end
  | PRaise _ => None
  end.

(** [get_image_orientation] (lines 69-87). *)
Definition get_image_orientation (st : pfs) (image_path : pystr) : option exif_val :=
  match image_open st image_path with
  | POk img => image_orientation img
  | PRaise _ => None
  end.

(** [rotate_image] (lines 90-113). *)
Definition rotate_image (input_image_path output_image_path : pystr) (angle : Z)
    (st : pfs) : pyres pfs :=
  image <-? image_open st input_image_path;
  write_file output_image_path (Photo (rotate_image_data image angle)) st.

(** Lines 211-216: the saved photo reopened and its tag set to 1. *)
Definition reset_orientation (p : pystr) (st : pfs) : pyres pfs :=
  img <-? image_open st p;
  write_file p (Photo (set_orientation_normal img)) st.

(** [filename.lower().endswith((".jpg", ".jpeg", ".png", ".gif", ".bmp"))] *)
Definition image_exts : list pystr := map lit [".jpg"; ".jpeg"; ".png"; ".gif"; ".bmp"].

Definition is_image_name (filename : pystr) : bool :=
  existsb (fun e => py_endswith e (py_lower filename)) image_exts.

(** [image_data[filename] = v] on a dict that keeps insertion order. *)
Fixpoint dict_assign {V} (k : pystr) (v : V) (d : list (pystr * V)) : list (pystr * V) :=
  match d with
  | [] => [(k, v)]
  | (k', v') :: d' => if decide (k = k') then (k, v) :: d' else (k', v') :: dict_assign k v d'
  end.


(** The text of the KML document (lines 124-147), the double quotes
    written as backquotes. *)

Definition kml_header : pystr := q "<?xml version=`1.0` encoding=`UTF-8`?>
<kml xmlns=`http://www.opengis.net/kml/2.2` xmlns:gx=`http://www.google.com/kml/ext/2.2` xmlns:kml=`http://www.opengis.net/kml/2.2` xmlns:atom=`http://www.w3.org/2005/Atom`>
<Document>
    <name>photo_data.kmz</name>
    <Folder>
        <name>Photo Points</name>
    ".

Definition placemark_0 : pystr := q "
        <Placemark>
            <name>".

Definition placemark_1 : pystr := q "</name>
            <description><![CDATA[<img style=`max-width:1500px;` src=`files/".

Definition placemark_2 : pystr := q "`>]]></description>
            <Point>
                <coordinates>".

Definition placemark_3 : pystr := q "</coordinates>
            </Point>
        </Placemark>
        ".

Definition kml_footer : pystr := q "
    </Folder>
</Document>
</kml>
".

(** How f-strings print a float and an EXIF value ([repr] of a float,
    [str] of an [IFDRational] or an int): CPython's formatting, which the
    KML text uses but no theorem inspects. *)
Class PyFormat := {
  float_str : float -> pystr;
  exif_str : exif_val -> pystr
}.

Section Kml.
Context `{PyFormat}.

(** [{alt or 0}] *)
Definition alt_or_0 (alt : option exif_val) : pystr :=
  match alt with
  | Some v => if truthy v then exif_str v else lit "0"
  | None => lit "0"
  end.

(** One placemark (lines 133-141). *)
Definition placemark (img_name : pystr) (g : gps) : pystr :=
  let '(lat, lon, alt) := g in
  placemark_0 ++ img_name ++ placemark_1 ++ img_name ++ placemark_2 ++
  float_str lon ++ lit "," ++ float_str lat ++ lit "," ++ alt_or_0 alt ++ placemark_3.

Definition kml_content (image_data : list (pystr * gps)) : pystr :=
  kml_header ++ concat (map (fun '(n, g) => placemark n g) image_data) ++ kml_footer.

(** [create_kml] (lines 116-149; 40-66 of GenerateKmz.py). *)
Definition create_kml (kml_file_path : pystr) (image_data : list (pystr * gps))
    (st : pfs) : pyres pfs :=
  write_file kml_file_path (Data (kml_content image_data)) st.

(** [create_kmz] (lines 152-165; 68-73): the zip is opened for writing
    first, then the KML and every file of the folder tree are added, the
    latter under [files/] with their base names. *)
Definition create_kmz (output_path kml_file files_folder : pystr) (st : pfs) : pyres pfs :=
  _ <-? check_writable output_path st;
  kml <-? read_file st kml_file;
  let entries := map (fun kv => (join (lit "files") (basename kv.1), kv.2))
                     (walk_files files_folder st) in
  write_file output_path (Zip ((lit "doc.kml", kml) :: entries)) st.

(** One pass of the loop of lines 188-218. *)
Definition rotation_step (folder_path files_folder : pystr)
    (acc : pfs * list (pystr * gps)) (filename : pystr) : pyres (pfs * list (pystr * gps)) :=
  let '(st, image_data) := acc in
  if is_image_name filename then
    let image_path := join folder_path filename in
    match extract_gps_data st image_path with
    | Some (latitude, longitude, altitude) =>
        let angle := rotation_angle (get_image_orientation st image_path) in
        let rotated_image_path := join files_folder filename in
        st1 <-? rotate_image image_path rotated_image_path angle st;
        st2 <-? reset_orientation rotated_image_path st1;
        POk (st2, dict_assign filename (latitude, longitude, altitude) image_data)
    | None => POk acc
    end
  else POk acc.

(** One pass of the loop of lines 90-96 of GenerateKmz.py. *)
Definition copy_step (folder_path files_folder : pystr)
    (acc : pfs * list (pystr * gps)) (filename : pystr) : pyres (pfs * list (pystr * gps)) :=
  let '(st, image_data) := acc in
  if is_image_name filename then
    let image_path := join folder_path filename in
    match extract_gps_data st image_path with
    | Some (latitude, longitude, altitude) =>
        let image_data' := dict_assign filename (latitude, longitude, altitude) image_data in
        st1 <-? copy image_path (join files_folder filename) st;
        POk (st1, image_data')
    | None => POk acc
    end
  else POk acc.

(** The body both [main]s share around their loops: the [files] folder
    made if missing, the loop over [os.listdir(folder_path)] (given as
    [listing], in the order the OS returns it), the KML and the KMZ
    written, the KML and the folder deleted. *)
Definition kmz_main (step : pystr -> pystr -> pfs * list (pystr * gps) -> pystr ->
                            pyres (pfs * list (pystr * gps)))
    (folder_path : pystr) (listing : list pystr) (st : pfs) : pyres pfs :=
  let files_folder := join folder_path (lit "files") in
  let kml_file := join folder_path (lit "doc.kml") in
  let kmz_file := join folder_path (lit "photo_data.kmz") in
  let st0 := if path_exists st files_folder then st else makedirs files_folder st in
  acc <-? pfoldM (step folder_path files_folder) (st0, []) listing;
  let '(st1, image_data) := acc in
  st2 <-? create_kml kml_file image_data st1;
  st3 <-? create_kmz kmz_file kml_file files_folder st2;
  st4 <-? remove kml_file st3;
  rmtree files_folder st4.

(** [main] of the rotation script (lines 177-225), [folder_path] being
    the script's own folder. *)
Definition main_rotation := kmz_main rotation_step.

(** Lines 80-103 of GenerateKmz.py. *)
Definition main_copy := kmz_main copy_step.

(** Line 16 of the rotation script: [ImageFile] is never imported, so
    running the module raises before [main] is reached. *)
Definition rotation_script (folder_path : pystr) (listing : list pystr) (st : pfs) : pyres pfs :=
  _ <-? (PRaise NameError : pyres unit);
  main_rotation folder_path listing st.

(** Line 79 of GenerateKmz.py: [sys] is never imported. *)
Definition generate_kmz_script (listing : pystr -> list pystr) (st : pfs) : pyres pfs :=
  folder_path <-? (PRaise NameError : pyres pystr);
  main_copy folder_path (listing folder_path) st.

End Kml.

(** GenerateKmz.py defines the same four functions as the rotation
    script, character for character (its lines 12-73); its module binds
    them to the same definitions. *)
Module GenerateKmz.
Definition convert_to_decimal_degrees := Exif.convert_to_decimal_degrees.
Definition extract_gps_data := Kmz.extract_gps_data.
Definition create_kml `{PyFormat} := Kmz.create_kml.
Definition create_kmz := Kmz.create_kmz.
End GenerateKmz.

(** ** What one pass of a loop promises *)

(** The photo a pass of either loop picks up, with its position: a file
    whose name has an image extension, that PIL opens, with GPS data. *)
Definition gps_photo (st : pfs) (folder_path filename : pystr) : option (image * gps) :=
  if is_image_name filename then
    match image_open st (join folder_path filename), extract_gps_data st (join folder_path filename) with
    | POk im, Some g => Some (im, g)
    | _, _ => None
    end
  else None.

(** The files a loop writes, and the dict it builds. *)
Definition put_all (ws : list (pystr * pcontent)) (st : pfs) : pfs :=
  foldl (fun st' w => put w.1 w.2 st') st ws.

Definition photo_writes (out : image -> image) (st : pfs) (folder_path files_folder : pystr)
    (listing : list pystr) : list (pystr * pcontent) :=
  omap (fun n => (fun '(im, _) => (join files_folder n, Photo (out im))) <$> gps_photo st folder_path n)
       listing.

Definition photo_data (st : pfs) (folder_path : pystr) (listing : list pystr) : list (pystr * gps) :=
  omap (fun n => (fun '(_, g) => (n, g)) <$> gps_photo st folder_path n) listing.

(** The interface between [kmz_main] and its loop body: a pass over a
    name either does nothing, or writes one photo, [out] of the one it
    read, into the [files] folder under the same name and records the
    position, provided the target can be written. *)
Class KmzStep (step : pystr -> pystr -> pfs * list (pystr * gps) -> pystr ->
                      pyres (pfs * list (pystr * gps))) := {
  step_out : image -> image;
  step_spec folder_path files_folder st data n :
    last files_folder <> None -> last files_folder <> Some sep -> n <> [] -> sep ∉ n ->
    files_folder ∈ pdirs st -> join files_folder n ∉ pdirs st ->
    join files_folder n ∉ plocked st ->
    step folder_path files_folder (st, data) n =
    POk (match gps_photo st folder_path n with
         | Some (im, g) => (put (join files_folder n) (Photo (step_out im)) st, dict_assign n g data)
         | None => (st, data)
         end)
}.

(** What the theorems about [main] assume of the folder it runs in: an
    absolute path without trailing slash, the distinct file names
    [os.listdir] returns, [files] not a regular file and without
    sub-folders, the outputs not folders, and nothing [main] writes or
    deletes locked. *)
Definition main_ready (folder : pystr) (listing : list pystr) (st : pfs) : Prop :=
  let ff := join folder (lit "files") in
  let kml := join folder (lit "doc.kml") in
  let kmz := join folder (lit "photo_data.kmz") in
  last folder <> None /\ last folder <> Some sep /\
  Forall (fun n => n <> [] /\ sep ∉ n) listing /\ NoDup listing /\
  folder ∈ pdirs st /\ pfiles st !! ff = None /\
  set_Forall (fun d => under ff d = false) (pdirs st) /\
  kml ∉ pdirs st /\ kmz ∉ pdirs st /\
  set_Forall (fun p => p <> kml /\ p <> kmz /\ under ff p = false) (plocked st).

(** ** Lemmas on the photo folder *)

Lemma write_file_put p c st :
  dirname p ∈ pdirs st -> p ∉ pdirs st -> p ∉ plocked st -> write_file p c st = POk (put p c st).
Proof.
  intros Hd Hp Hl. unfold write_file, check_writable.
  rewrite bool_decide_false by tauto. by rewrite !bool_decide_false.
Qed.

Lemma check_writable_ok p st :
  dirname p ∈ pdirs st -> p ∉ pdirs st -> p ∉ plocked st -> check_writable p st = POk tt.
Proof.
  intros Hd Hp Hl. unfold check_writable.
  rewrite bool_decide_false by tauto. by rewrite !bool_decide_false.
Qed.

Lemma image_open_put_eq p im st : image_open (put p (Photo im) st) p = POk im.
Proof. unfold image_open, put. simpl. by rewrite lookup_insert_eq. Qed.

Lemma image_open_put_ne p q c st : p <> q -> image_open (put p c st) q = image_open st q.
Proof. intros Hne. unfold image_open, put. simpl. by rewrite lookup_insert_ne. Qed.

Lemma extract_gps_data_put_ne p q c st :
  p <> q -> extract_gps_data (put p c st) q = extract_gps_data st q.
Proof. intros Hne. unfold extract_gps_data. by rewrite image_open_put_ne. Qed.

Lemma gps_photo_put_ne p c st folder n :
  p <> join folder n -> gps_photo (put p c st) folder n = gps_photo st folder n.
Proof.
  intros Hne. unfold gps_photo.
  by rewrite image_open_put_ne, extract_gps_data_put_ne.
Qed.

Lemma extract_gps_data_open st p g :
  extract_gps_data st p = Some g -> exists im, image_open st p = POk im.
Proof. unfold extract_gps_data. destruct (image_open st p); [eauto|done]. Qed.

Lemma gps_photo_Some st folder n im g :
  gps_photo st folder n = Some (im, g) ->
  is_image_name n = true /\ image_open st (join folder n) = POk im /\
  extract_gps_data st (join folder n) = Some g.
Proof.
  unfold gps_photo. destruct (is_image_name n); [|done].
  destruct (image_open _ _), (extract_gps_data _ _); by intros; simplify_eq.
Qed.

(** Adding a directory changes no photo a loop reads: a missing path
    raises either way. *)
Lemma gps_photo_makedirs d st folder n :
  gps_photo (makedirs d st) folder n = gps_photo st folder n.
Proof.
  unfold gps_photo, extract_gps_data, image_open, makedirs. simpl.
  destruct (is_image_name n); [|done].
  destruct (pfiles st !! join folder n) as [[]|]; [done..|].
  by repeat case_bool_decide.
Qed.

Lemma put_put p c1 c2 st : put p c2 (put p c1 st) = put p c2 st.
Proof. unfold put. simpl. by rewrite insert_insert_eq. Qed.

Lemma put_all_dirs ws st : pdirs (put_all ws st) = pdirs st.
Proof. revert st. induction ws; simpl; [done|]. intros st. by rewrite IHws. Qed.

Lemma put_all_locked ws st : plocked (put_all ws st) = plocked st.
Proof. revert st. induction ws; simpl; [done|]. intros st. by rewrite IHws. Qed.

Lemma put_all_lookup_ne ws st q :
  q ∉ ws.*1 -> pfiles (put_all ws st) !! q = pfiles st !! q.
Proof.
  revert st. induction ws as [|[p c] ws IH]; intros st Hq; simpl; [done|].
  rewrite IH by (intros ?; apply Hq; by right). simpl.
  apply lookup_insert_ne. intros ->. apply Hq. by left.
Qed.

Lemma put_all_lookup ws st q c :
  NoDup ws.*1 -> (q, c) ∈ ws -> pfiles (put_all ws st) !! q = Some c.
Proof.
  revert st. induction ws as [|[p c'] ws IH]; intros st Hnd Hin; [by apply elem_of_nil in Hin|].
  simpl in *. apply NoDup_cons in Hnd as [Hp Hnd].
  apply elem_of_cons in Hin as [[= -> ->]|Hin].
  - rewrite put_all_lookup_ne by done. simpl. apply lookup_insert_eq.
  - by apply IH.
Qed.

Lemma dict_assign_fresh {V} k (v : V) d : k ∉ d.*1 -> dict_assign k v d = d ++ [(k, v)].
Proof.
  induction d as [|[k' v'] d IH]; simpl; [done|]. intros Hk.
  rewrite decide_False by (intros ->; apply Hk; by left).
  rewrite IH; [done|]. intros ?; apply Hk; by right.
Qed.

Lemma under_join_name folder n :
  last folder <> None -> last folder <> Some sep -> n <> [] -> sep ∉ n ->
  under folder (join folder n) = true.
Proof.
  intros. unfold under. rewrite join_name by done. apply bool_decide_true.
  exists n. by rewrite <- app_assoc.
Qed.

Lemma walk_files_elem folder st k c :
  (k, c) ∈ walk_files folder st <-> pfiles st !! k = Some c /\ under folder k = true.
Proof. unfold walk_files. rewrite list_elem_of_filter, elem_of_map_to_list. simpl. tauto. Qed.

(** ** The two loop bodies keep the interface *)

Lemma rotation_step_ok folder ff st data n :
  last ff <> None -> last ff <> Some sep -> n <> [] -> sep ∉ n ->
  ff ∈ pdirs st -> join ff n ∉ pdirs st ->
  join ff n ∉ plocked st ->
  rotation_step folder ff (st, data) n =
  POk (match gps_photo st folder n with
       | Some (im, g) => (put (join ff n) (Photo (corrected_photo im)) st, dict_assign n g data)
       | None => (st, data)
       end).
Proof.
  intros Hl1 Hl2 Hn Hs Hff Hd Hlk. unfold rotation_step, gps_photo.
  destruct (is_image_name n); [|done].
  destruct (extract_gps_data st (join folder n)) as [[[lat lon] alt]|] eqn:E;
    [|by destruct (image_open _ _)].
  destruct (extract_gps_data_open _ _ _ E) as [im Him]. rewrite Him.
  assert (Hdn : dirname (join ff n) = ff) by by apply dirname_join.
  unfold rotate_image, reset_orientation, get_image_orientation. rewrite Him. simpl.
  rewrite write_file_put by (rewrite ?Hdn; done). simpl.
  rewrite image_open_put_eq. simpl.
  rewrite write_file_put by (unfold put; simpl; rewrite ?Hdn; done). simpl.
  by rewrite put_put.
Qed.

Lemma copy_step_ok folder ff st data n :
  last ff <> None -> last ff <> Some sep -> n <> [] -> sep ∉ n ->
  ff ∈ pdirs st -> join ff n ∉ pdirs st ->
  join ff n ∉ plocked st ->
  copy_step folder ff (st, data) n =
  POk (match gps_photo st folder n with
       | Some (im, g) => (put (join ff n) (Photo ((fun im => im) im)) st, dict_assign n g data)
       | None => (st, data)
       end).
Proof.
  intros Hl1 Hl2 Hn Hs Hff Hd Hlk. unfold copy_step, gps_photo.
  destruct (is_image_name n); [|done].
  destruct (extract_gps_data st (join folder n)) as [[[lat lon] alt]|] eqn:E;
    [|by destruct (image_open _ _)].
  destruct (extract_gps_data_open _ _ _ E) as [im Him]. rewrite Him.
  assert (Hdn : dirname (join ff n) = ff) by by apply dirname_join.
  unfold copy, read_file. rewrite (bool_decide_false (join ff n ∈ pdirs st)) by done.
  unfold image_open in Him. destruct (pfiles st !! join folder n) as [[]|]; simplify_eq.
  - simpl. by rewrite write_file_put by (rewrite ?Hdn; done).
  - by case_bool_decide.
Qed.

#[export] Instance rotation_step_spec : KmzStep rotation_step :=
  {| step_out := corrected_photo; step_spec := rotation_step_ok |}.

#[export] Instance copy_step_spec : KmzStep copy_step :=
  {| step_out := fun im => im; step_spec := copy_step_ok |}.

(** ** The loop *)

Lemma photo_writes_put_ne out p c st folder ff listing :
  Forall (fun m => p <> join folder m) listing ->
  photo_writes out (put p c st) folder ff listing = photo_writes out st folder ff listing.
Proof.
  intros Hl. apply list_omap_ext, Forall_Forall2_diag. eapply Forall_impl; [exact Hl|].
  intros m Hm. by rewrite gps_photo_put_ne.
Qed.

Lemma photo_data_put_ne p c st folder listing :
  Forall (fun m => p <> join folder m) listing ->
  photo_data (put p c st) folder listing = photo_data st folder listing.
Proof.
  intros Hl. apply list_omap_ext, Forall_Forall2_diag. eapply Forall_impl; [exact Hl|].
  intros m Hm. by rewrite gps_photo_put_ne.
Qed.

Lemma photo_writes_makedirs out d st folder ff listing :
  photo_writes out (makedirs d st) folder ff listing = photo_writes out st folder ff listing.
Proof.
  apply list_omap_ext, Forall_Forall2_diag, Forall_forall. intros m _.
  by rewrite gps_photo_makedirs.
Qed.

Lemma photo_data_makedirs d st folder listing :
  photo_data (makedirs d st) folder listing = photo_data st folder listing.
Proof.
  apply list_omap_ext, Forall_Forall2_diag, Forall_forall. intros m _.
  by rewrite gps_photo_makedirs.
Qed.

Lemma photo_data_sublist st folder listing : (photo_data st folder listing).*1 `sublist_of` listing.
Proof.
  unfold photo_data. induction listing as [|n l IH]; simpl; [constructor|].
  destruct (gps_photo st folder n) as [[im g]|]; simpl; by constructor.
Qed.

Lemma photo_writes_fst out st folder ff listing :
  (photo_writes out st folder ff listing).*1 = join ff <$> (photo_data st folder listing).*1.
Proof.
  unfold photo_writes, photo_data. induction listing as [|n l IH]; csimpl; [done|].
  destruct (gps_photo st folder n) as [[im g]|]; csimpl; [f_equal|]; exact IH.
Qed.

Lemma photo_data_fst st folder listing : (photo_data st folder listing).*1 ⊆ listing.
Proof.
  unfold photo_data. induction listing as [|n l IH]; simpl; [done|].
  destruct (gps_photo st folder n) as [[im g]|]; simpl; set_solver.
Qed.

Section Loop.
Context `{KmzStep step} (folder ff : pystr).
Hypothesis Hff_none : last ff <> None.
Hypothesis Hff_sep : last ff <> Some sep.
Hypothesis Hdist : forall n m, n <> [] -> sep ∉ n -> sep ∉ m -> join ff n <> join folder m.

(** A loop over distinct names, each a file name, whose targets can be
    written, writes the photos it picks up and records them in order. *)
Lemma kmz_loop listing st data :
  ff ∈ pdirs st ->
  Forall (fun n => n <> [] /\ sep ∉ n /\ join ff n ∉ pdirs st /\ join ff n ∉ plocked st) listing ->
  NoDup listing -> Forall (fun n => n ∉ data.*1) listing ->
  pfoldM (step folder ff) (st, data) listing =
  POk (put_all (photo_writes step_out st folder ff listing) st, data ++ photo_data st folder listing).
Proof.
  revert st data. induction listing as [|n l IH]; intros st data Hdir Hok Hnd Hfresh.
  { simpl. by rewrite app_nil_r. }
  apply Forall_cons in Hok as [(Hn & Hs & Hd & Hlk) Hok].
  apply NoDup_cons in Hnd as [Hnl Hnd]. apply Forall_cons in Hfresh as [Hfr Hfresh].
  simpl. rewrite step_spec by done. simpl. unfold photo_writes, photo_data. simpl.
  destruct (gps_photo st folder n) as [[im g]|] eqn:Eg; simpl.
  - assert (Hfar : Forall (fun m => join ff n <> join folder m) l).
    { apply Forall_forall. intros m Hm. apply Hdist; [done|done|].
      by apply (proj1 (proj2 (proj1 (Forall_forall _ _) Hok m Hm))). }
    rewrite dict_assign_fresh by done. rewrite IH; cycle 1.
    + done.
    + eapply Forall_impl; [exact Hok|]. simpl. tauto.
    + done.
    + apply Forall_forall. intros m Hm. rewrite fmap_app. simpl.
      rewrite not_elem_of_app, not_elem_of_cons.
      split; [by apply (proj1 (Forall_forall _ _) Hfresh)|]. split; [|apply not_elem_of_nil].
      by intros ->.
    + fold (photo_writes step_out (put (join ff n) (Photo (step_out im)) st) folder ff l).
      fold (photo_data (put (join ff n) (Photo (step_out im)) st) folder l).
      rewrite photo_writes_put_ne, photo_data_put_ne by done.
      by rewrite <- app_assoc.
  - apply IH; done.
Qed.
End Loop.

Lemma filter_under_lookup_true (ff p : pystr) (m : gmap pystr pcontent) :
  under ff p = true -> filter (fun kv => under ff kv.1 = false) m !! p = None.
Proof. intros Hq. apply map_lookup_filter_None. right. intros c _. simpl. congruence. Qed.

Lemma filter_under_lookup_false (ff p : pystr) (m : gmap pystr pcontent) :
  under ff p = false -> filter (fun kv => under ff kv.1 = false) m !! p = m !! p.
Proof.
  intros Hq. rewrite map_lookup_filter. destruct (m !! p); simpl; [|done].
  by rewrite option_guard_True.
Qed.

(** ** The paths of [main] *)

Section Paths.
Variable folder : pystr.
Hypothesis Hfolder : last folder <> None.
Hypothesis Hfolder_sep : last folder <> Some sep.

Lemma join_folder_lit (s : String.string) :
  lit s <> [] -> sep ∉ lit s -> join folder (lit s) = folder ++ sep :: lit s.
Proof. intros. by apply join_name. Qed.

Lemma files_folder_last :
  last (join folder (lit "files")) <> None /\ last (join folder (lit "files")) <> Some sep.
Proof.
  rewrite join_folder_lit by decide_eval. rewrite last_app. simpl. split; [done|].
  intros [=].
Qed.

Lemma files_folder_join n :
  n <> [] -> sep ∉ n ->
  join (join folder (lit "files")) n = folder ++ sep :: lit "files" ++ sep :: n.
Proof.
  intros. destruct files_folder_last. rewrite join_name by done.
  rewrite join_folder_lit by decide_eval. by rewrite <- app_assoc.
Qed.

Lemma files_folder_dist n m :
  n <> [] -> sep ∉ n -> sep ∉ m -> join (join folder (lit "files")) n <> join folder m.
Proof.
  intros Hn Hs Hm. rewrite files_folder_join by done.
  destruct m as [|c m].
  - unfold join. destruct (last folder) as [l|] eqn:El; [|done].
    rewrite decide_False by congruence. intros Heq%app_inv_head. discriminate.
  - rewrite join_name by done. intros Heq%app_inv_head. injection Heq as <- Heq.
    apply Hm. rewrite <- Heq. do 5 right. by left.
Qed.

Lemma not_under_files (s : String.string) :
  lit s <> [] -> sep ∉ lit s -> ~ (lit "files" ++ [sep]) `prefix_of` lit s ->
  under (join folder (lit "files")) (join folder (lit s)) = false.
Proof.
  intros Hne Hs Hp. unfold under. rewrite !join_folder_lit by (done || decide_eval).
  apply bool_decide_eq_false. rewrite <- !app_assoc. simpl.
  intros Hpre%prefix_app_inv%prefix_cons_inv_2. by apply Hp.
Qed.

Lemma not_under_files_name n :
  n <> [] -> sep ∉ n -> under (join folder (lit "files")) (join folder n) = false.
Proof.
  intros Hn Hs. unfold under. rewrite (join_name folder n), join_folder_lit by (done || decide_eval).
  apply bool_decide_eq_false. rewrite <- !app_assoc. simpl.
  intros [k Hk]%prefix_app_inv%prefix_cons_inv_2. apply Hs. rewrite Hk.
  apply elem_of_app. left. decide_eval.
Qed.

Lemma under_files_folder_self : under (join folder (lit "files")) (join folder (lit "files")) = false.
Proof.
  unfold under. apply bool_decide_eq_false. intros Hp%prefix_length.
  rewrite length_app in Hp. simpl in Hp. lia.
Qed.
End Paths.

(** ** [main] from start to end *)

Section KmzMain.
Context `{PyFormat} `{KmzStep step} (folder : pystr) (listing : list pystr) (st : pfs).
Local Notation ff := (join folder (lit "files")).
Local Notation kml := (join folder (lit "doc.kml")).
Local Notation kmz := (join folder (lit "photo_data.kmz")).
(** The script's folder is an absolute path without a trailing slash. *)
Hypothesis Hfolder : last folder <> None.
Hypothesis Hfolder_sep : last folder <> Some sep.
(** [os.listdir] returns distinct names of entries of the folder. *)
Hypothesis Hnames : Forall (fun n => n <> [] /\ sep ∉ n) listing.
Hypothesis Hnodup : NoDup listing.
Hypothesis Hdir : folder ∈ pdirs st.
(** [files] is not a regular file and holds no folder; the outputs are
    not folders; no output and no file under [files] is locked. *)
Hypothesis Hff : pfiles st !! ff = None.
Hypothesis Hsub : set_Forall (fun d => under ff d = false) (pdirs st).
Hypothesis Hkml : kml ∉ pdirs st.
Hypothesis Hkmz : kmz ∉ pdirs st.
Hypothesis Hlocked : set_Forall (fun p => p <> kml /\ p <> kmz /\ under ff p = false) (plocked st).

Local Notation st0 := (if path_exists st ff then st else makedirs ff st).

Lemma main_st0_files : pfiles st0 = pfiles st.
Proof. by destruct (path_exists st ff). Qed.

Lemma main_st0_locked : plocked st0 = plocked st.
Proof. by destruct (path_exists st ff). Qed.

Lemma main_st0_dirs x : x ∈ pdirs st0 <-> x ∈ pdirs st \/ x = ff.
Proof.
  unfold path_exists. rewrite Hff. simpl. rewrite orb_false_r.
  case_bool_decide as Hin; simpl; [|set_solver]. naive_solver.
Qed.

Lemma main_paths :
  dirname kml = folder /\ dirname kmz = folder /\ kml <> kmz /\ kml <> ff /\ kmz <> ff /\
  under ff kml = false /\ under ff kmz = false.
Proof.
  pose proof (not_under_files folder Hfolder Hfolder_sep "doc.kml"
                ltac:(decide_eval) ltac:(decide_eval) ltac:(decide_eval)) as Hu1.
  pose proof (not_under_files folder Hfolder Hfolder_sep "photo_data.kmz"
                ltac:(decide_eval) ltac:(decide_eval) ltac:(decide_eval)) as Hu2.
  pose proof (dirname_join folder (lit "doc.kml") Hfolder Hfolder_sep
                ltac:(decide_eval) ltac:(decide_eval)) as Hd1.
  pose proof (dirname_join folder (lit "photo_data.kmz") Hfolder Hfolder_sep
                ltac:(decide_eval) ltac:(decide_eval)) as Hd2.
  split_and!; try done;
    rewrite !(join_folder_lit folder Hfolder Hfolder_sep) by decide_eval;
    intros Heq%app_inv_head; discriminate.
Qed.

Lemma main_targets n :
  n ∈ listing -> join ff n ∉ pdirs st0 /\ join ff n ∉ plocked st0 /\ under ff (join ff n) = true.
Proof.
  intros Hn. destruct (proj1 (Forall_forall _ _) Hnames n Hn) as [Hne Hs].
  destruct (files_folder_last folder Hfolder Hfolder_sep) as [Hl1 Hl2].
  assert (Hu : under ff (join ff n) = true) by by apply under_join_name.
  rewrite main_st0_dirs, main_st0_locked. split_and!; [|intros Hl; apply Hlocked in Hl as (_ & _ & Hl); congruence|done].
  intros [Hd|Heq].
  - apply Hsub in Hd. congruence.
  - rewrite Heq, under_files_folder_self in Hu by done. done.
Qed.

Lemma main_loop :
  pfoldM (step folder ff) (st0, []) listing =
  POk (put_all (photo_writes step_out st folder ff listing) st0, photo_data st folder listing).
Proof.
  destruct (files_folder_last folder Hfolder Hfolder_sep) as [Hl1 Hl2].
  rewrite kmz_loop; try done.
  - by destruct (path_exists st ff); rewrite ?photo_writes_makedirs, ?photo_data_makedirs.
  - intros n m Hn Hs Hm. by apply files_folder_dist.
  - apply main_st0_dirs. by right.
  - apply Forall_forall. intros n Hn. destruct (proj1 (Forall_forall _ _) Hnames n Hn).
    destruct (main_targets n Hn) as (? & ? & _). done.
  - apply Forall_forall. intros n _. apply not_elem_of_nil.
Qed.
Local Notation W := (photo_writes step_out st folder ff listing).
Local Notation D := (photo_data st folder listing).
Local Notation st1 := (put_all W st0).
Local Notation st2 := (put kml (Data (kml_content D)) st1).
Local Notation entries :=
  (map (fun kv => (join (lit "files") (basename kv.1), kv.2)) (walk_files ff st2)).
Local Notation st3 := (put kmz (Zip ((lit "doc.kml", Data (kml_content D)) :: entries)) st2).

Lemma existsb_elements_false (f : pystr -> bool) (X : gset pystr) :
  set_Forall (fun x => f x = false) X -> existsb f (elements X) = false.
Proof.
  intros HX. apply not_true_iff_false. rewrite existsb_exists.
  intros (x & Hx%list_elem_of_In%elem_of_elements & Hfx). apply HX in Hx. congruence.
Qed.

Lemma kmz_main_eq :
  kmz_main step folder listing st =
  POk (mkPfs (filter (fun kv => under ff kv.1 = false) (delete kml (pfiles st3)))
             (filter (fun d => d <> ff /\ under ff d = false) (pdirs st0)) (plocked st)).
Proof.
  destruct main_paths as (Hd1 & Hd2 & Hne1 & Hne2 & Hne3 & Hu1 & Hu2).
  assert (HD : forall x, x ∈ pdirs st1 <-> x ∈ pdirs st \/ x = ff)
    by (intros; rewrite put_all_dirs; apply main_st0_dirs).
  assert (HL : plocked st1 = plocked st) by (rewrite put_all_locked; apply main_st0_locked).
  assert (Hfo : folder ∈ pdirs st1) by (apply HD; by left).
  assert (Hff1 : ff ∈ pdirs st1) by (apply HD; by right).
  assert (Hkml1 : kml ∉ pdirs st1) by (rewrite HD; intros [?|?]; done).
  assert (Hkmz1 : kmz ∉ pdirs st1) by (rewrite HD; intros [?|?]; done).
  assert (Hlk1 : kml ∉ plocked st1) by (rewrite HL; intros Hl; apply Hlocked in Hl; tauto).
  assert (Hlk2 : kmz ∉ plocked st1) by (rewrite HL; intros Hl; apply Hlocked in Hl; tauto).
  unfold kmz_main. cbv beta zeta. rewrite main_loop, pbind_POk. cbv beta iota.
  unfold create_kml. rewrite write_file_put by (rewrite ?Hd1; done). rewrite pbind_POk.
  unfold create_kmz. rewrite check_writable_ok by (cbn [pdirs plocked put]; rewrite ?Hd2; done).
  rewrite pbind_POk. unfold read_file at 1. cbn [pfiles put]. rewrite lookup_insert_eq, pbind_POk.
  rewrite write_file_put by (cbn [pdirs plocked put]; rewrite ?Hd2; done). rewrite pbind_POk.
  unfold remove. cbn [pfiles pdirs plocked put].
  rewrite lookup_insert_ne, lookup_insert_eq by done.
  rewrite bool_decide_false by done. rewrite pbind_POk.
  unfold rmtree. cbn [pfiles pdirs plocked put]. rewrite bool_decide_false by (intros Hn; by apply Hn).
  rewrite HL, existsb_elements_false.
  - by rewrite put_all_dirs.
  - intros p Hp. by apply Hlocked in Hp as (_ & _ & ?).
Qed.
Lemma main_W_elem n im g :
  n ∈ listing -> gps_photo st folder n = Some (im, g) -> (join ff n, Photo (step_out im)) ∈ W.
Proof.
  intros Hn Hg. unfold photo_writes. apply list_elem_of_omap. exists n. by rewrite Hg.
Qed.

Lemma main_W_under p : p ∈ W.*1 -> under ff p = true.
Proof.
  intros ([p' c] & -> & Hw)%list_elem_of_fmap. unfold photo_writes in Hw.
  apply list_elem_of_omap in Hw as (n & Hn & Hw).
  destruct (gps_photo st folder n) as [[im g]|]; simplify_eq/=.
  by destruct (main_targets n Hn) as (_ & _ & ?).
Qed.

Lemma main_W_nodup : NoDup W.*1.
Proof.
  rewrite photo_writes_fst. apply NoDup_fmap_2_strong.
  - intros x y Hx%(elem_of_sublist _ listing) Hy%(elem_of_sublist _ listing) Heq;
      try apply photo_data_sublist.
    destruct (proj1 (Forall_forall _ _) Hnames x Hx) as [Hxe Hxs].
    destruct (proj1 (Forall_forall _ _) Hnames y Hy) as [Hye Hys].
    apply join_inj in Heq; [done| | |done|done].
    + destruct x; simpl; [done|]. intros [= ->]. apply Hxs. by left.
    + destruct y; simpl; [done|]. intros [= ->]. apply Hys. by left.
  - apply (sublist_NoDup _ listing); [done|apply photo_data_sublist].
Qed.

Lemma main_st2_lookup q : under ff q = true -> pfiles st2 !! q = pfiles st1 !! q.
Proof.
  intros Hq. destruct main_paths as (_ & _ & _ & _ & _ & Hu1 & _).
  cbn [pfiles put]. apply lookup_insert_ne. intros Heq. rewrite <- Heq in Hq. congruence.
Qed.

(** The archive holds the KML, every photo the loop wrote, and every
    file that was in the [files] folder before and was not overwritten. *)
Lemma kmz_main_kmz :
  exists st', kmz_main step folder listing st = POk st' /\
    pfiles st' !! kmz = Some (Zip ((lit "doc.kml", Data (kml_content D)) :: entries)).
Proof.
  destruct main_paths as (_ & _ & Hne1 & _ & _ & _ & Hu2).
  eexists. split; [apply kmz_main_eq|]. cbn [pfiles].
  rewrite filter_under_lookup_false, lookup_delete_ne by done. cbn [pfiles put].
  apply lookup_insert_eq.
Qed.

Lemma main_entries_photo n im g :
  n ∈ listing -> gps_photo st folder n = Some (im, g) ->
  (join (lit "files") n, Photo (step_out im)) ∈ entries.
Proof.
  intros Hn Hg. destruct (proj1 (Forall_forall _ _) Hnames n Hn) as [Hne Hs].
  assert (Hb : basename (join ff n) = n).
  { rewrite files_folder_join by done. rewrite app_comm_cons, app_assoc.
    by apply basename_join_name. }
  apply list_elem_of_fmap. exists (join ff n, Photo (step_out im)). split.
  - cbn [fst snd]. by rewrite Hb.
  - apply walk_files_elem. destruct (main_targets n Hn) as (_ & _ & Hu).
    split; [|done]. rewrite main_st2_lookup by done.
    apply put_all_lookup; [apply main_W_nodup|]. by eapply main_W_elem.
Qed.

Lemma main_entries_old q c :
  under ff q = true -> pfiles st !! q = Some c -> q ∉ W.*1 ->
  (join (lit "files") (basename q), c) ∈ entries.
Proof.
  intros Hq Hc HW. apply list_elem_of_fmap. exists (q, c). split; [done|].
  apply walk_files_elem. split; [|done].
  rewrite main_st2_lookup, put_all_lookup_ne by done. by rewrite main_st0_files.
Qed.

(** Afterwards nothing is left under [files], the folder is gone, and so
    is [doc.kml]. *)
Lemma kmz_main_gone st' :
  kmz_main step folder listing st = POk st' ->
  (forall q, under ff q = true -> pfiles st' !! q = None) /\
  pfiles st' !! kml = None /\ ff ∉ pdirs st'.
Proof.
  destruct main_paths as (_ & _ & _ & _ & _ & Hu1 & _).
  rewrite kmz_main_eq. intros [= <-]. cbn [pfiles pdirs]. split_and!.
  - intros q Hq. by apply filter_under_lookup_true.
  - by rewrite filter_under_lookup_false, lookup_delete_eq.
  - rewrite elem_of_filter. tauto.
Qed.

(** Every other file is as it was. *)
Lemma kmz_main_frame st' q :
  kmz_main step folder listing st = POk st' ->
  q <> kml -> q <> kmz -> under ff q = false -> pfiles st' !! q = pfiles st !! q.
Proof.
  rewrite kmz_main_eq. intros [= <-] H1 H2 H3. cbn [pfiles].
  rewrite filter_under_lookup_false, lookup_delete_ne by done. cbn [pfiles put].
  rewrite !lookup_insert_ne by done.
  rewrite put_all_lookup_ne by (intros Hw; apply main_W_under in Hw; congruence).
  by destruct (path_exists _ _).
Qed.
End KmzMain.

(** ** Properties of the two scripts *)


Section Claims.
Context `{PyFormat}.

(** C24: run in a ready folder, the rotation script's [main] returns, and
    [photo_data.kmz] then holds [doc.kml], whose text has one placemark per
    photo with GPS data in listing order, and, under [files/], every such
    photo turned upright with its tag set to 1. *)
Theorem main_rotation_kmz folder listing st :
  main_ready folder listing st ->
  exists st' es, main_rotation folder listing st = POk st' /\
    pfiles st' !! join folder (lit "photo_data.kmz") =
      Some (Zip ((lit "doc.kml", Data (kml_content (photo_data st folder listing))) :: es)) /\
    forall n im g, n ∈ listing -> gps_photo st folder n = Some (im, g) ->
      (join (lit "files") n, Photo (corrected_photo im)) ∈ es.
Proof.
  intros (? & ? & ? & ? & ? & ? & ? & ? & ? & ?).
  destruct (kmz_main_kmz (step := rotation_step) folder listing st) as (st' & Hm & Hk); try done.
  exists st'. eexists. split_and!; [exact Hm|exact Hk|].
  intros n im g Hn Hg.
  eapply (main_entries_photo (step := rotation_step)) in Hg; [exact Hg|done..].
Qed.

(** C25: a file that was in the [files] folder before the run, and that no
    photo overwrote, is packed into the archive under [files/] and deleted
    from the disk: the script treats a folder it did not create as its
    own scratch space. *)
Theorem main_rotation_files_folder_lost folder listing st st' q c :
  main_ready folder listing st ->
  main_rotation folder listing st = POk st' ->
  under (join folder (lit "files")) q = true -> pfiles st !! q = Some c ->
  q ∉ join (join folder (lit "files")) <$> (photo_data st folder listing).*1 ->
  pfiles st' !! q = None /\
  exists es, pfiles st' !! join folder (lit "photo_data.kmz") = Some (Zip es) /\
    (join (lit "files") (basename q), c) ∈ es.
Proof.
  intros (? & ? & ? & ? & ? & ? & ? & ? & ? & ?) Hm Hq Hc Hw.
  rewrite <- (photo_writes_fst corrected_photo) in Hw.
  split; [by eapply (kmz_main_gone (step := rotation_step))|].
  destruct (kmz_main_kmz (step := rotation_step) folder listing st) as (st'' & Hm' & Hk); try done.
  change (main_rotation folder listing st) with (kmz_main rotation_step folder listing st) in Hm.
  rewrite Hm in Hm'. injection Hm' as <-.
  eexists. split; [exact Hk|]. right. by apply (main_entries_old (step := rotation_step)).
Qed.

(** C26: besides writing [photo_data.kmz], the run changes no file outside
    the [files] folder, and leaves neither [doc.kml] nor the folder. *)
Theorem main_rotation_frame folder listing st st' :
  main_ready folder listing st ->
  main_rotation folder listing st = POk st' ->
  (forall q, q <> join folder (lit "doc.kml") -> q <> join folder (lit "photo_data.kmz") ->
     under (join folder (lit "files")) q = false -> pfiles st' !! q = pfiles st !! q) /\
  pfiles st' !! join folder (lit "doc.kml") = None /\ join folder (lit "files") ∉ pdirs st'.
Proof.
  intros (? & ? & ? & ? & ? & ? & ? & ? & ? & ?) Hm.
  destruct (kmz_main_gone (step := rotation_step) folder listing st) with st' as (_ & ? & ?);
    try done.
  split_and!; try done. intros q. by eapply (kmz_main_frame (step := rotation_step)).
Qed.

End Claims.

(** Both scripts stop before [main] does anything. *)
Lemma rotation_script_raises `{PyFormat} folder listing st :
  rotation_script folder listing st = PRaise NameError.
Proof. reflexivity. Qed.

Lemma generate_kmz_script_raises `{PyFormat} listing st :
  generate_kmz_script listing st = PRaise NameError.
Proof. reflexivity. Qed.

(** ** A worked example *)

(** The examples print every number as [0]; no theorem depends on it. *)
#[local] Instance example_format : PyFormat := {| float_str _ := lit "0"; exif_str _ := lit "0" |}.

Definition ex_st : pfs :=
  mkPfs (<[lit "/p/a.JPG" := Photo (ex_photo 6)]>
         (<[lit "/p/files/old.txt" := Data (lit "keep")]>
          (<[lit "/p/n.txt" := Data (lit "x")]> ∅)))
        {[lit "/p"; lit "/p/files"]} ∅.

Definition ex_listing : list pystr := [lit "n.txt"; lit "a.JPG"; lit "files"].

Definition ex_final : pfs :=
  match main_rotation (lit "/p") ex_listing ex_st with POk s => s | PRaise _ => ex_st end.

Lemma ex_ready : main_ready (lit "/p") ex_listing ex_st.
Proof. unfold main_ready. split_and!; decide_eval. Qed.

Lemma ex_run : main_rotation (lit "/p") ex_listing ex_st = POk ex_final.
Proof. vm_compute. reflexivity. Qed.

Example ex_position :
  extract_gps_data ex_st (lit "/p/a.JPG") =
  Some (51.5%float, PrimFloat.opp (PrimFloat.add (PrimFloat.add 0%float (PrimFloat.div 7%float 60%float))
                                                 (PrimFloat.div 39.6%float 3600%float)),
        Some (ERat 35 1)).
Proof. vm_compute. reflexivity. Qed.


Lemma main_rotation_kmz_witness :
  main_ready (lit "/p") ex_listing ex_st /\
  exists st' es, main_rotation (lit "/p") ex_listing ex_st = POk st' /\
    pfiles st' !! join (lit "/p") (lit "photo_data.kmz") =
      Some (Zip ((lit "doc.kml", Data (kml_content (photo_data ex_st (lit "/p") ex_listing))) :: es)) /\
    forall n im g, n ∈ ex_listing -> gps_photo ex_st (lit "/p") n = Some (im, g) ->
      (join (lit "files") n, Photo (corrected_photo im)) ∈ es.
Proof. split; [apply ex_ready|]. apply (main_rotation_kmz _ _ _ ex_ready). Defined.

Lemma main_rotation_files_folder_lost_witness :
  pfiles ex_final !! lit "/p/files/old.txt" = None /\
  exists es, pfiles ex_final !! join (lit "/p") (lit "photo_data.kmz") = Some (Zip es) /\
    (join (lit "files") (basename (lit "/p/files/old.txt")), Data (lit "keep")) ∈ es.
Proof.
  apply (main_rotation_files_folder_lost (lit "/p") ex_listing ex_st ex_final
           (lit "/p/files/old.txt") (Data (lit "keep")) ex_ready ex_run).
  - vm_compute. reflexivity.
  - vm_compute. reflexivity.
  - decide_eval.
Defined.

Lemma main_rotation_frame_witness :
  pfiles ex_final !! lit "/p/n.txt" = pfiles ex_st !! lit "/p/n.txt" /\
  pfiles ex_final !! join (lit "/p") (lit "doc.kml") = None /\
  join (lit "/p") (lit "files") ∉ pdirs ex_final.
Proof.
  destruct (main_rotation_frame (lit "/p") ex_listing ex_st ex_final ex_ready ex_run)
    as (Hf & Hk & Hd).
  split_and!; [apply Hf; [decide_eval|decide_eval|vm_compute; reflexivity]|exact Hk|exact Hd].
Defined.


End Kmz.
