(* ===== verification/ExifWrite.v ===== *)
(** * Writing EXIF tags from text files: lines 38-141 of
      src/WriteToJpgExifAndGenPhotoLog.py and lines 10-79 of
      src/ReadImageAndModifyExif.py

    Both scripts take each [.jpg] of a [capture] folder, read the text
    file of the same name in [Txt_log] (the position, and in the first
    script also the altitude, time, direction and description that a
    survey app wrote), convert the decimal degrees to degrees, minutes
    and seconds, set the EXIF tags with the [exif] package and save the
    photo under the same name in [new_photo].

    This file holds:
    - [listdir] and the text-mode read of a file on the photo store of
      Kmz.v (shared with PhotoLog.v);
    - [decimal_to_dms] in IEEE doubles, with Python's [int()] of a float
      (Exif.v);
    - the two versions of [read_and_convert_coordinates]: the file's
      lines, [float()] of the first ones (the [PyFloatText] class of
      GpxVideo.v), the hemisphere letters, the direction cut from the
      fifth line;
    - the [exif] package's [Image] as the photo and the attributes set on
      it, with the bytes [get_file()] returns given by the class
      [ExifWriter] (the package's TIFF encoding is not modelled);
    - the loops of both scripts and the first script's conversion of the
      time stamp to the EXIF date format. *)

From Stdlib Require Import Floats.
From S2P Require Import Prelude PyStr PyPath Datetime Exif GpxVideo PyDocx Kmz.

Module ExifWrite.
Import PyStr PyPath Datetime Exif Gpx Kmz.

(** ** The folders *)

(** [os.listdir(folder)]: the names of the files and folders directly in
    it; the order is the OS's, the map's key order stands for it. *)
Definition listdir (st : pfs) (folder : pystr) : pyres (list pystr) :=
  if bool_decide (folder ∈ pdirs st) then
    POk (map basename (filter (fun p => dirname p = folder) (map fst (map_to_list (pfiles st)))) ++
         map basename (filter (fun d => dirname d = folder /\ d <> folder) (elements (pdirs st))))
  else if bool_decide (is_Some (pfiles st !! folder)) then PRaise OSError
  else PRaise FileNotFound.

(** [open(path, 'r').read()]: text mode reads a file's bytes with its
    line ends turned into LF; a file that is not text does not decode. *)
Definition read_text_file (st : pfs) (path : pystr) : pyres pystr :=
  c <-? read_file st path;
  match c with
  | Data b => POk (universal_newlines b)
  | _ => PRaise ValueError
  end.

(** [file.readline()], the [k]-th time: the [k]-th line with its end, or
    the empty string past the end of the file. *)
Definition nth_readline (text : pystr) (k : nat) : pystr :=
  match readlines text !! k with Some l => l | None => [] end.

(** ** Degrees, minutes and seconds *)

(** Lines 38-43 (10-15 of ReadImageAndModifyExif.py), in doubles. *)
Definition decimal_to_dms (decimal_degree : float) : pyres (Z * Z * float) :=
  degrees <-? py_int_of_float decimal_degree;
  let minutes_decimal := PrimFloat.mul (PrimFloat.sub decimal_degree (float_of_Z degrees)) (float_of_Z 60) in
  minutes <-? py_int_of_float minutes_decimal;
  let seconds := PrimFloat.mul (PrimFloat.sub minutes_decimal (float_of_Z minutes)) (float_of_Z 60) in
  POk (degrees, minutes, seconds).

(** ['N' if decimal_latitude >= 0 else 'S']: [nan >= 0] is false. *)
Definition hemisphere (pos neg : pystr) (x : float) : pystr :=
  if PrimFloat.leb (float_of_Z 0) x then pos else neg.

(** What [read_and_convert_coordinates] returns. *)
Record coordinates := mkCoordinates {
  dms_lat : Z * Z * float; lat_ref : pystr;
  dms_long : Z * Z * float; long_ref : pystr;
  altitude_in_meter : float; timestamp : pystr; direction : pystr; description : pystr
}.

Section Read.
Context `{PyFloatText} (st : pfs).

(** Lines 45-69: seven lines, [float()] of the first three, the
    characters 30 to 32 of the fifth line kept if they are digits. *)
Definition read_and_convert_coordinates (file_path : pystr) : pyres coordinates :=
  text <-? read_text_file st file_path;
  let line k := py_strip (nth_readline text k) in
  decimal_latitude <-? of_option ValueError (py_float (line 0));
  decimal_longitude <-? of_option ValueError (py_float (line 1));
  altitude_in_meter <-? of_option ValueError (py_float (line 2));
  let timestamp := line 3 in
  let direction := line 4 in
  let description := line 6 in
  let direction := py_slice direction 30 33 in
  let direction := filter (fun c => is_digit c = true) direction in
  dms_lat <-? decimal_to_dms (PrimFloat.abs decimal_latitude);
  let lat_ref := hemisphere (lit "N") (lit "S") decimal_latitude in
  dms_long <-? decimal_to_dms (PrimFloat.abs decimal_longitude);
  let long_ref := hemisphere (lit "E") (lit "W") decimal_longitude in
  POk (mkCoordinates dms_lat lat_ref dms_long long_ref altitude_in_meter timestamp direction description).

(** Lines 17-31 of ReadImageAndModifyExif.py: the first two lines
    only. *)
Definition read_and_convert_latlong (file_path : pystr) : pyres ((Z * Z * float) * pystr * (Z * Z * float) * pystr) :=
  text <-? read_text_file st file_path;
  let line k := py_strip (nth_readline text k) in
  decimal_latitude <-? of_option ValueError (py_float (line 0));
  decimal_longitude <-? of_option ValueError (py_float (line 1));
  dms_lat <-? decimal_to_dms (PrimFloat.abs decimal_latitude);
  let lat_ref := hemisphere (lit "N") (lit "S") decimal_latitude in
  dms_long <-? decimal_to_dms (PrimFloat.abs decimal_longitude);
  let long_ref := hemisphere (lit "E") (lit "W") decimal_longitude in
  POk (dms_lat, lat_ref, dms_long, long_ref).

End Read.

(** ** The [exif] package *)

(** A value assigned to an attribute of [exif.Image]. *)
Inductive attr_val := AStr (s : pystr) | AInt (z : Z) | AFloat (f : float) | ADms (d m : Z) (s : float).

(** [exif.Image(file)]: the photo and the attributes assigned so far. *)
Record exif_image := mkExifImage { xi_photo : image; xi_attrs : list (pystr * attr_val) }.

(** [my_image.<name> = v]: a later assignment replaces an earlier one. *)
Fixpoint attr_set (name : pystr) (v : attr_val) (attrs : list (pystr * attr_val)) : list (pystr * attr_val) :=
  match attrs with
  | [] => [(name, v)]
  | (n, w) :: r => if bool_decide (n = name) then (name, v) :: r else (n, w) :: attr_set name v r
  end.

Definition exif_set (name : pystr) (v : attr_val) (xi : exif_image) : exif_image :=
  mkExifImage (xi_photo xi) (attr_set name v (xi_attrs xi)).

(** [Image(open(path, 'rb'))]: a file that is not a photo makes the
    package raise. *)
Definition exif_open (st : pfs) (path : pystr) : pyres exif_image :=
  c <-? read_file st path;
  match c with
  | Photo im => POk (mkExifImage im [])
  | _ => PRaise ValueError
  end.

(** [get_file()]: the photo with the tags written, as PIL reads it back. *)
Class ExifWriter := { exif_file : image -> list (pystr * attr_val) -> image }.

(** [file.endswith('.jpg') and not file.lower().endswith('jpg.meta')]
    (line 108, 55 of ReadImageAndModifyExif.py). *)
Definition jpg_filter (file : pystr) : bool :=
  py_endswith (lit ".jpg") file && negb (py_endswith (lit "jpg.meta") (py_lower file)).

(** [timestamp[0:4] + ":" + timestamp[5:7] + ":" + timestamp[8:10] + " " +
    timestamp[11:13] + ":" + timestamp[14:16] + ":" + timestamp[17:19]]
    (line 130). *)
Definition exif_datetime (ts : pystr) : pystr :=
  py_slice ts 0 4 ++ lit ":" ++ py_slice ts 5 7 ++ lit ":" ++ py_slice ts 8 10 ++ lit " " ++
  py_slice ts 11 13 ++ lit ":" ++ py_slice ts 14 16 ++ lit ":" ++ py_slice ts 17 19.

(** Lines 120-135: the tags set from the text file. *)
Definition photo_tags (c : coordinates) : list (pystr * attr_val) :=
  let '(la_d, la_m, la_s) := dms_lat c in
  let '(lo_d, lo_m, lo_s) := dms_long c in
  let gps_timestamp := exif_datetime (timestamp c) in
  [(lit "make", AStr (lit "Your Camera Make")); (lit "model", AStr (lit "Your Camera Model"));
   (lit "gps_latitude_ref", AStr (lat_ref c)); (lit "gps_longitude_ref", AStr (long_ref c));
   (lit "gps_latitude", ADms la_d la_m la_s); (lit "gps_longitude", ADms lo_d lo_m lo_s);
   (lit "gps_altitude", AFloat (altitude_in_meter c)); (lit "gps_altitude_ref", AInt 0);
   (lit "gps_datestamp", AStr (py_slice (timestamp c) 0 10));
   (lit "datetime", AStr gps_timestamp); (lit "datetime_original", AStr gps_timestamp);
   (lit "gps_img_direction", AStr (direction c)); (lit "gps_img_direction_ref", AStr (lit "T"));
   (lit "user_comment", AStr (description c))].

Section Write.
Context `{PyFloatText} `{ExifWriter} (photos_folder text_folder new_photo_folder : pystr).

Definition set_tags (tags : list (pystr * attr_val)) (xi : exif_image) : exif_image :=
  fold_left (fun xi '(n, v) => exif_set n v xi) tags xi.

(** Lines 110-141, for one photo: the text file read and converted, the
    photo opened, the tags set, the photo written to [new_photo] under
    the same name. *)
Definition write_step (st : pfs) (jpg_file : pystr) : pyres pfs :=
  let jpg_path := join photos_folder jpg_file in
  let text_filename := fst (splitext jpg_file) ++ lit ".txt" in
  let text_path := join text_folder text_filename in
  c <-? read_and_convert_coordinates st text_path;
  my_image <-? exif_open st jpg_path;
  let my_image := set_tags (photo_tags c) my_image in
  let new_photo_name := fst (splitext jpg_file) ++ lit ".jpg" in
  let new_photo_path := join new_photo_folder new_photo_name in
  write_file new_photo_path (Photo (exif_file (xi_photo my_image) (xi_attrs my_image))) st.

(** Lines 58-79 of ReadImageAndModifyExif.py, for one photo: the
    position, and the altitude 50 m for every photo. *)
Definition modify_step (st : pfs) (jpg_file : pystr) : pyres pfs :=
  let jpg_path := join photos_folder jpg_file in
  let text_filename := fst (splitext jpg_file) ++ lit ".txt" in
  let text_path := join text_folder text_filename in
  r <-? read_and_convert_latlong st text_path;
  let '(dms_lat, lat_ref, dms_long, long_ref) := r in
  my_image <-? exif_open st jpg_path;
  let '(la_d, la_m, la_s) := dms_lat in
  let '(lo_d, lo_m, lo_s) := dms_long in
  let my_image := set_tags
    [(lit "make", AStr (lit "Your Camera Make")); (lit "model", AStr (lit "Your Camera Model"));
     (lit "gps_latitude_ref", AStr lat_ref); (lit "gps_longitude_ref", AStr long_ref);
     (lit "gps_latitude", ADms la_d la_m la_s); (lit "gps_longitude", ADms lo_d lo_m lo_s);
     (lit "gps_altitude", AFloat 50%float); (lit "gps_altitude_ref", AInt 0)] my_image in
  let new_photo_name := fst (splitext jpg_file) ++ lit ".jpg" in
  let new_photo_path := join new_photo_folder new_photo_name in
  write_file new_photo_path (Photo (exif_file (xi_photo my_image) (xi_attrs my_image))) st.

(** Lines 102-141 (49-79 of ReadImageAndModifyExif.py): the photos of
    [capture] ending in [.jpg], in listing order. *)
Definition write_loop (step : pfs -> pystr -> pyres pfs) (st : pfs) : pyres pfs :=
  photo_files <-? listdir st photos_folder;
  _ <-? listdir st text_folder;
  let jpg_files := filter (fun f => jpg_filter f = true) photo_files in
  pfoldM step st jpg_files.

End Write.

(** ReadImageAndModifyExif.py: lines 35-79, the folders under the
    script's folder [absolute_path]. *)
Definition modify_main `{PyFloatText} `{ExifWriter} (absolute_path : pystr) (st : pfs) : pyres pfs :=
  let photos_folder := join absolute_path (lit "capture") in
  let text_folder := join absolute_path (lit "Txt_log") in
  let new_photo_folder := join absolute_path (lit "new_photo") in
  write_loop photos_folder text_folder (modify_step photos_folder text_folder new_photo_folder) st.

End ExifWrite.
