(* ===== verification/PhotoLog.v ===== *)
(** * The photo album and the photo log: src/PhotoAlbumGenerator.py and
      lines 147-291 of src/WriteToJpgExifAndGenPhotoLog.py

    Both scripts list a folder, keep the photos whose name is a date and
    time ([2023-11-16_16-28-01.png]), sort them by that date, and write a
    Word document with two photos per page.  The album puts each photo
    and its name in the body; the photo log puts each photo in a 3x3
    table with merged cells, filled from the photo's text file.

    This file holds:
    - the name filter and the
      regular expression of the names ([photo_name_match]), and
      [collect_photos], the loop that parses the dates with
      [datetime.strptime] (Datetime.v) and builds [photo_info];
    - [page_loop], the loop over pages both scripts share;
    - the album: [album_photo], [album_loop] and
      [album_main] (the whole script);
    - the photo log: [log_table], the table of one photo, [log_photo],
      [log_page], [log_loop], [log_main];
    - the theorems: the album's body is the photos in date order, two per
      page, each followed by its name; a name with an impossible date
      stops the script with [ValueError]; the tables of the photo log are
      well formed, with the five cells of the template, and wider than the
      page. *)

From Stdlib Require Import Floats.
From S2P Require Import Prelude PyStr PyPath Datetime PySort Exif GpxVideo PyDocx Kmz ExifWrite.

Module PhotoLog.
Import PyStr PyPath Datetime PySort Exif PyDocx Kmz ExifWrite.

(** ** The photo names *)

(** [filename.lower().endswith('.png') and not
    filename.lower().endswith('png.meta')] (line 18 of the album, 155 of
    the photo log with [jpg]). *)
Definition name_filter (ext : pystr) (filename : pystr) : bool :=
  py_endswith (lit "." ++ ext) (py_lower filename) &&
  negb (py_endswith (ext ++ lit ".meta") (py_lower filename)).

(** A character of the pattern: [\d] or a literal, compared exactly (the
    pattern is compiled without [re.IGNORECASE]). *)
Inductive pchar := PDigit | PChar (c : ascii).

Definition pchar_match (p : pchar) (c : ascii) : bool :=
  match p with PDigit => is_digit c | PChar d => bool_decide (c = d) end.

(** [(\d{4}-\d{2}-\d{2}_\d{2}-\d{2}-\d{2})\.<ext>] *)
Definition name_pattern (ext : pystr) : list pchar :=
  [PDigit; PDigit; PDigit; PDigit; PChar "-"; PDigit; PDigit; PChar "-"; PDigit; PDigit;
   PChar "_"; PDigit; PDigit; PChar "-"; PDigit; PDigit; PChar "-"; PDigit; PDigit;
   PChar "."] ++ map PChar ext.

Fixpoint pattern_prefix (ps : list pchar) (s : pystr) : bool :=
  match ps, s with
  | [], _ => true
  | p :: ps', c :: s' => pchar_match p c && pattern_prefix ps' s'
  | _ :: _, [] => false
  end.

(** [re.match(pattern, filename)] and [match.group(1)]: the pattern has
    a fixed length, so it matches at the start of the name or not at
    all; what follows the match is ignored. *)
Definition photo_name_match (ext filename : pystr) : option pystr :=
  if pattern_prefix (name_pattern ext) filename then Some (take 19 filename) else None.

(** One pass of the loop of lines 17-23 (album) or 154-160 (photo log):
    [datetime.strptime(date_str, '%Y-%m-%d_%H-%M-%S')] raises
    [ValueError] on an impossible date, which stops the script. *)
Definition collect_step (ext : pystr) (photo_info : list (pystr * datetime)) (filename : pystr)
    : pyres (list (pystr * datetime)) :=
  if name_filter ext filename then
    match photo_name_match ext filename with
    | Some date_str =>
        date_obj <-? strptime_fmt photo_format date_str;
        POk (photo_info ++ [(filename, date_obj)])
    | None => POk photo_info
    end
  else POk photo_info.

Definition collect_photos (ext : pystr) (photo_files : list pystr) : pyres (list (pystr * datetime)) :=
  pfoldM (collect_step ext) [] photo_files.

(** [photo_info.sort(key=lambda x: x[1])] *)
Definition sort_photos (photo_info : list (pystr * datetime)) : list (pystr * datetime) :=
  sort_by snd photo_info.

(** [range(0, n, step)] *)
Definition range_step (n step : nat) : list nat :=
  map (fun j => j * step) (seq 0 (Nat.div (n + step - 1) step)).

Definition photos_per_page : nat := 2.

(** The loop over pages (lines 44-55 of the album, 193-271 of the photo
    log): for [i] in [range(0, n, 2)], a page break before every page
    but the first, then [photo] at [i] and [i + 1], which does nothing
    past the last photo ([if idx < len(photo_info)]). *)
Definition page_loop (n : nat) (photo : document -> nat -> pyres document) (doc : document)
    : pyres document :=
  pfoldM (fun doc i =>
            let doc := if 0 <? i then doc_add_page_break doc else doc in
            pfoldM (fun d j => photo d (i + j)) doc (seq 0 photos_per_page))
         doc (range_step n photos_per_page).

(** ** The album (src/PhotoAlbumGenerator.py) *)

Section Album.
Context (photos_folder : pystr) (st : pfs) (photo_info : list (pystr * datetime)).

(** Lines 48-55, for the photo at [idx]: [Image.open] (the thumbnail it
    makes is never saved), the picture six inches wide, the name below. *)
Definition album_photo (doc : document) (idx : nat) : pyres document :=
  match photo_info !! idx with
  | Some (photo_filename, _) =>
      let photo_path := join photos_folder photo_filename in
      img <-? image_open st photo_path;
      POk (doc_add_paragraph photo_filename (doc_add_picture img (Inches_int 6) doc))
  | None => POk doc
  end.

Definition album_loop (doc : document) : pyres document :=
  page_loop (length photo_info) album_photo doc.

End Album.

(** The whole album script, with [Document()]'s template [template] and
    the photo folder [photos_folder] (a constant of the script). *)
Definition album_main (template : document) (photos_folder : pystr) (st : pfs) : pyres pfs :=
  photo_files <-? listdir st photos_folder;
  photo_info <-? collect_photos (lit "png") photo_files;
  let photo_info := sort_photos photo_info in
  page_width <-? Inches 8.5;
  doc <-? doc_update_section 0
            (fun s => mkSection (Some page_width) (Some (Inches_int 11)) (Some (Inches_int 1))
                                (Some (Inches_int 1)) (Some (Inches_int 1)) (Some (Inches_int 1)))
            template;
  doc <-? album_loop photos_folder st photo_info doc;
  write_file (join photos_folder (lit "photo_album.docx")) (Doc doc) st.

(** ** The photo log (lines 147-291 of WriteToJpgExifAndGenPhotoLog.py) *)

Definition newline : ascii := "010"%char.

(** [timestamp_text[5:7]+"/"+timestamp_text[8:10]+"/"+timestamp_text[0:4]]
    (line 245): [YYYY-MM-DD...] as [MM/DD/YYYY]. *)
Definition log_date (timestamp_text : pystr) : pystr :=
  py_slice timestamp_text 5 7 ++ lit "/" ++ py_slice timestamp_text 8 10 ++ lit "/" ++
  py_slice timestamp_text 0 4.

Local Open Scope tbl_scope.

(** Lines 212-228: the column widths and the merges of [(1,0)-(1,1)]
    and [(2,0)-(2,1)]; the merged cells [A] and [B]. *)
Definition log_merges : tbl ((nat * nat) * (nat * nat)) :=
  w <-t tlift (Inches 0.84); t_col_width 0 w ;;t
  w <-t tlift (Inches 0.84); t_col_width 1 w ;;t
  w <-t tlift (Inches 5.83); t_col_width 1 w ;;t
  a <-t t_cell 1 0; b <-t t_cell 1 1; A <-t t_merge a b;
  c <-t t_cell 2 0; d <-t t_cell 2 1; B <-t t_merge c d;
  tret (A, B).

(** Lines 238-265, with the first seven lines of the text file: the
    texts of [A], [B] and the first row, their font sizes, the merge of
    the last column, the picture in it. *)
Definition log_cells (idx : nat) (img : image) (text_lines : list pystr) (A B : nat * nat) : tbl unit :=
  l4 <-t tlift (of_option IndexError (text_lines !! 4)); t_set_text A l4 ;;t
  l5 <-t tlift (of_option IndexError (text_lines !! 5));
  l6 <-t tlift (of_option IndexError (text_lines !! 6)); t_set_text B (l5 ++ lit " " ++ l6) ;;t
  timestamp_text <-t tlift (of_option IndexError (text_lines !! 3));
  let date := log_date timestamp_text in
  c00 <-t t_cell 0 0; t_set_text c00 (lit "Date" ++ [newline] ++ date) ;;t
  c00 <-t t_cell 0 0; t_para0 c00 (set_run0_size (Pt_int 8)) ;;t
  c01 <-t t_cell 0 1; t_set_text c01 (lit "Photo" ++ [newline] ++ lit "No." ++ py_str (Z.of_nat (idx + 1))) ;;t
  c01 <-t t_cell 0 1; t_para0 c01 (set_run0_size (Pt_int 8)) ;;t
  e <-t t_cell 0 2; f <-t t_cell 2 2; C <-t t_merge e f;
  c12 <-t t_cell 1 2;
  t_para0 c12 (fun p => POk (add_run [newline] p)) ;;t
  t_para0 c12 (fun p => POk (add_picture_run img (Inches_int 6) p)) ;;t
  t_para0 c12 (fun p => POk (add_run [newline] p)) ;;t
  t_para0 c12 (fun p => POk (set_align AlignCenter p)).

(** Lines 212-265: the statements on [table] for the photo at [idx],
    with the photo's text file read (lines 231-234) between the merges
    and the texts. *)
Definition log_table (text_folder : pystr) (st : pfs) (idx : nat) (photo_filename : pystr)
    (img : image) : tbl unit :=
  r <-t log_merges;
  let text_filename := fst (splitext photo_filename) ++ lit ".txt" in
  let text_path := join text_folder text_filename in
  content <-t tlift (read_text_file st text_path);
  let text_lines := take 7 (splitlines content) in
  log_cells idx img text_lines r.1 r.2.

Local Close Scope tbl_scope.

Section Log.
Context (photos_folder text_folder : pystr) (st : pfs) (photo_info : list (pystr * datetime)).

(** Lines 198-271, for the photo at [idx]: the photo opened from the
    folder of the original photos, the table with its style, the
    statements on the table, an empty paragraph after it. *)
Definition log_photo (doc : document) (idx : nat) : pyres document :=
  match photo_info !! idx with
  | Some (photo_filename, _) =>
      let photo_path := join photos_folder photo_filename in
      img <-? image_open st photo_path;
      r <-? doc_add_table 3 3 (lit "Table Grid") doc;
      let '(doc, table) := r in
      r <-? doc_with_table table (log_table text_folder st idx photo_filename img) doc;
      POk (doc_add_paragraph (lit "    ") r.1)
  | None => POk doc
  end.

Definition log_loop (doc : document) : pyres document :=
  page_loop (length photo_info) log_photo doc.

End Log.

(** Lines 147-163 and 176-281: the photos of [new_photo_folder], the
    page set-up, the tables, the font of the style [Normal], the document
    saved as [PhotoLogAll.docx] in [new_photo_folder]. *)
Definition log_main (template : document) (photos_folder text_folder new_photo_folder : pystr)
    (st : pfs) : pyres pfs :=
  new_photo_files <-? listdir st new_photo_folder;
  _ <-? listdir st text_folder;
  photo_info <-? collect_photos (lit "jpg") new_photo_files;
  let photo_info := sort_photos photo_info in
  page_width <-? Inches 8.5;
  left_margin <-? Inches 0.5; right_margin <-? Inches 0.5;
  top_margin <-? Inches 0.4; bottom_margin <-? Inches 0.4;
  doc <-? doc_update_section 0
            (fun _ => mkSection (Some page_width) (Some (Inches_int 11)) (Some left_margin)
                                (Some right_margin) (Some top_margin) (Some bottom_margin))
            template;
  doc <-? log_loop photos_folder text_folder st photo_info doc;
  doc <-? doc_update_font (lit "Normal")
            (fun f => mkFont (Some (lit "Univers LT 45 Light")) (Some true)) doc;
  write_file (join new_photo_folder (lit "PhotoLogAll.docx")) (Doc doc) st.

(** The whole of WriteToJpgExifAndGenPhotoLog.py, in the script's folder
    [absolute_path]: the report template opened (line 97), the photos of
    [capture] written with their tags to [new_photo] (lines 102-141), and
    the photo log of [new_photo] (lines 147-281).  The template must be a
    Word document: python-docx raises [PackageNotFoundError] otherwise. *)
Definition photo_log_script `{Gpx.PyFloatText} `{ExifWriter} (absolute_path : pystr) (st : pfs) : pyres pfs :=
  let photos_folder := join absolute_path (lit "capture") in
  let text_folder := join absolute_path (lit "Txt_log") in
  let new_photo_folder := join absolute_path (lit "new_photo") in
  doc <-? match pfiles st !! join absolute_path (lit "E1527-21.docx") with
          | Some (Doc d) => POk d
          | _ => PRaise PackageNotFoundError
          end;
  st <-? write_loop photos_folder text_folder (write_step photos_folder text_folder new_photo_folder) st;
  log_main doc photos_folder text_folder new_photo_folder st.

(** ** What the album holds *)

Definition picture_block (im : image) : block := BPara (add_picture_run im (Inches_int 6) empty_para).
Definition text_block (s : pystr) : block :=
  BPara (if bool_decide (s = []) then empty_para else add_run s empty_para).
Definition page_break_block : block := BPara (mkPara [mkRun [IPageBreak] None] None).

(** A photo of the album: its picture, then its name. *)
Definition album_entry (e : image * pystr) : list block := [picture_block e.1; text_block e.2].

(** What the page loop appends, given what each photo appends: the
    photos two by two, a page break before each pair but the first. *)
Fixpoint paged_body (first : bool) (es : list (list block)) : list block :=
  match es with
  | [] => []
  | x :: r =>
      (if first then [] else [page_break_block]) ++ x ++
      match r with [] => [] | y :: r' => y ++ paged_body false r' end
  end.

Lemma with_body_body d : with_body d (d_body d) = d.
Proof. by destruct d. Qed.

Lemma with_body_twice d b1 b2 : with_body (with_body d b1) b2 = with_body d b2.
Proof. done. Qed.

Lemma d_body_with_body d b : d_body (with_body d b) = b.
Proof. done. Qed.

(** The page break before a page, as the body it leaves. *)
Lemma page_break_body a doc :
  (if 0 <? a * photos_per_page then doc_add_page_break doc else doc) =
  with_body doc (d_body doc ++ if Nat.eqb a 0 then [] else [page_break_block]).
Proof.
  unfold photos_per_page. destruct (Nat.eqb_spec a 0) as [->|Ha].
  - cbn. by rewrite app_nil_r, with_body_body.
  - by replace (0 <? a * 2) with true by (symmetry; apply Nat.ltb_lt; lia).
Qed.

Lemma map_seq_lookup {A B} (f : A -> B) (dflt : B) (l : list A) :
  map (fun i => match l !! i with Some x => f x | None => dflt end) (seq 0 (length l)) = map f l.
Proof.
  induction l as [|x l IH]; [done|]. cbn [length seq map]. rewrite <- seq_shift, map_map.
  cbn [lookup list_lookup]. f_equal. rewrite <- IH. apply map_ext. done.
Qed.

Section PageSpec.
Context (n : nat) (photo : document -> nat -> pyres document) (entry : nat -> list block).
Hypothesis Hin : forall d idx, idx < n -> photo d idx = POk (with_body d (d_body d ++ entry idx)).
Hypothesis Hout : forall d idx, n <= idx -> photo d idx = POk d.

Lemma pages a m doc :
  (2 * (a + m) = n \/ 2 * (a + m) = S n) -> 2 * a <= n ->
  pfoldM (fun doc i =>
            let doc := if 0 <? i then doc_add_page_break doc else doc in
            pfoldM (fun d j => photo d (i + j)) doc (seq 0 photos_per_page))
         doc (map (fun j => j * photos_per_page) (seq a m)) =
  POk (with_body doc (d_body doc ++ paged_body (Nat.eqb a 0) (map entry (seq (2 * a) (n - 2 * a))))).
Proof.
  revert a doc. induction m as [|m IH]; intros a doc Hn Ha.
  { replace (n - 2 * a) with 0 by lia. cbn. by rewrite app_nil_r, with_body_body. }
  cbn [seq map pfoldM]. cbv zeta. rewrite page_break_body. cbn [seq pfoldM photos_per_page].
  unfold photos_per_page. rewrite Nat.add_0_r, Hin by lia. cbn [pbind].
  replace (n - 2 * a) with (S (n - S (2 * a))) by lia. cbn [seq map].
  destruct (decide (a * 2 + 1 < n)) as [Hy|Hy].
  - rewrite Hin by done. cbn [pbind]. rewrite IH by lia. f_equal.
    replace (n - S (2 * a)) with (S (n - 2 * S a)) by lia. cbn [seq map].
    replace (S (S (2 * a))) with (2 * S a) by lia.
    replace (a * 2) with (2 * a) by lia. replace (2 * a + 1) with (S (2 * a)) by lia.
    rewrite !d_body_with_body, !with_body_twice. f_equal. cbn [paged_body Nat.eqb].
    destruct (Nat.eqb a 0); cbn; by rewrite <- !app_assoc.
  - rewrite Hout by lia. cbn [pbind]. assert (m = 0) as -> by lia. cbn [seq map pfoldM]. f_equal.
    replace (n - S (2 * a)) with 0 by lia. replace (a * 2) with (2 * a) by lia.
    rewrite !d_body_with_body, !with_body_twice. f_equal. cbn [paged_body seq map].
    destruct (Nat.eqb a 0); cbn; by rewrite <- !app_assoc, ?app_nil_r.
Qed.

(** The page loop appends the photos' entries, two per page. *)
Lemma page_loop_body doc :
  page_loop n photo doc = POk (with_body doc (d_body doc ++ paged_body true (map entry (seq 0 n)))).
Proof.
  unfold page_loop, range_step. rewrite pages; [by rewrite Nat.sub_0_r| |lia].
  unfold photos_per_page. rewrite Nat.add_0_l.
  pose proof (Nat.div_mod (n + 2 - 1) 2 ltac:(lia)).
  pose proof (Nat.mod_upper_bound (n + 2 - 1) 2 ltac:(lia)). lia.
Qed.

End PageSpec.

Section AlbumSpec.
Context (folder : pystr) (st : pfs) (photo_info : list (pystr * datetime)) (img : pystr -> image).
Hypothesis Himg : forall n d, (n, d) ∈ photo_info -> image_open st (join folder n) = POk (img n).

Definition album_images : list (image * pystr) := map (fun '(n, _) => (img n, n)) photo_info.

(** The loop of lines 44-55 appends the photos two by two. *)
Lemma album_loop_body doc :
  album_loop folder st photo_info doc =
  POk (with_body doc (d_body doc ++ paged_body true (map album_entry album_images))).
Proof.
  unfold album_loop. rewrite (page_loop_body _ _
    (fun idx => match photo_info !! idx with Some (n, _) => album_entry (img n, n) | None => [] end)).
  - f_equal. f_equal. f_equal. f_equal. unfold album_images. rewrite map_map.
    rewrite <- (map_seq_lookup _ [] photo_info). apply map_ext.
    intros i. by destruct (photo_info !! i) as [[]|].
  - intros d idx Hi. destruct (lookup_lt_is_Some_2 _ _ Hi) as [[n dt] Hx].
    unfold album_photo. rewrite Hx. cbn zeta. rewrite (Himg n dt) by (by eapply list_elem_of_lookup_2).
    cbn [pbind]. unfold doc_add_paragraph, doc_add_picture. cbn. by rewrite <- app_assoc.
  - intros d idx Hi. unfold album_photo. by rewrite lookup_ge_None_2.
Qed.

End AlbumSpec.

(** ** The whole album *)

Lemma strptime_fmt_result fmt s :
  (exists d, strptime_fmt fmt s = POk d) \/ strptime_fmt fmt s = PRaise ValueError.
Proof.
  unfold strptime_fmt, new_datetime.
  destruct (head (matches fmt s)) as [[l r]|]; [|by right].
  destruct l as [|y [|m [|d [|hh [|mm [|ss [|]]]]]]]; try by right. destruct r; [|by right].
  repeat (destruct (py_int _); cbn [of_option pbind]; [|by right]).
  destruct (valid _); [left; eauto|by right].
Qed.

(** A pass of the name loop either goes on or raises [ValueError]. *)
Lemma collect_step_result ext acc n :
  (exists acc', collect_step ext acc n = POk acc') \/ collect_step ext acc n = PRaise ValueError.
Proof.
  unfold collect_step. destruct (name_filter ext n); [|eauto].
  destruct (photo_name_match ext n) as [ds|]; [|eauto].
  destruct (strptime_fmt_result photo_format ds) as [[d ->] | ->]; cbn [pbind]; eauto.
Qed.

Lemma collect_photos_bad_date ext photo_files n ds :
  n ∈ photo_files -> name_filter ext n = true -> photo_name_match ext n = Some ds ->
  strptime_fmt photo_format ds = PRaise ValueError ->
  collect_photos ext photo_files = PRaise ValueError.
Proof.
  intros Hn Hf Hm Hs. apply (pfoldM_raise _ _ _ _ n); [intros ?? _; apply collect_step_result| |done].
  intros acc. unfold collect_step. by rewrite Hf, Hm, Hs.
Qed.

Lemma Inches_8_5 : Inches 8.5 = POk 7772400%Z.
Proof. vm_compute. reflexivity. Qed.

Lemma sort_photos_elem photo_info x : x ∈ sort_photos photo_info -> x ∈ photo_info.
Proof. unfold sort_photos. by rewrite sort_by_perm. Qed.

Lemma doc_update_section_ok i f d :
  i < length (d_sections d) ->
  exists d', doc_update_section i f d = POk d' /\ d_body d' = d_body d.
Proof.
  intros Hi. unfold doc_update_section. destruct (lookup_lt_is_Some_2 _ _ Hi) as [s ->].
  cbn [of_option pbind]. by eexists.
Qed.

Lemma write_file_writable p c st : check_writable p st = POk tt -> write_file p c st = POk (put p c st).
Proof. intros H. unfold write_file. by rewrite H. Qed.

(** C31: the album script writes [photo_album.docx] into the photo
    folder, and the document's body is the template's body followed by
    the photos sorted by the date in their names (photos of the same date
    in listing order), two per page, each picture followed by the
    photo's name, a page break between pages; nothing else of the folder
    changes. *)
Theorem album_main_body template folder st photo_files photo_info (img : pystr -> image) :
  listdir st folder = POk photo_files ->
  collect_photos (lit "png") photo_files = POk photo_info ->
  Forall (fun '(n, _) => image_open st (join folder n) = POk (img n)) photo_info ->
  d_sections template <> [] ->
  check_writable (join folder (lit "photo_album.docx")) st = POk tt ->
  exists doc,
    album_main template folder st = POk (put (join folder (lit "photo_album.docx")) (Doc doc) st) /\
    d_body doc = d_body template ++
                 paged_body true (map album_entry (map (fun '(n, _) => (img n, n)) (sort_photos photo_info))).
Proof.
  intros Hls Hcol Himg Hsec Hw. unfold album_main. rewrite Hls. cbn [pbind]. rewrite Hcol. cbn [pbind].
  rewrite Inches_8_5. cbn [pbind].
  edestruct (doc_update_section_ok 0) as (d' & -> & Hb).
  { destruct (d_sections template); [done|simpl; lia]. }
  cbn [pbind]. rewrite Forall_forall in Himg.
  rewrite (album_loop_body folder st (sort_photos photo_info) img).
  - cbn [pbind]. rewrite write_file_writable by done. eexists; split; [reflexivity|]. cbn. by rewrite Hb.
  - intros n d Hin. apply (Himg (n, d)). by apply sort_photos_elem.
Qed.

(** C32: a photo whose name passes the filter and matches the pattern but
    whose date is impossible (month 13, February 30, hour 24) makes
    [datetime.strptime] raise [ValueError]: the album script stops and
    writes no album, whatever the other photos are. *)
Theorem album_main_bad_date template folder st photo_files n ds :
  listdir st folder = POk photo_files -> n ∈ photo_files ->
  name_filter (lit "png") n = true -> photo_name_match (lit "png") n = Some ds ->
  strptime_fmt photo_format ds = PRaise ValueError ->
  album_main template folder st = PRaise ValueError.
Proof.
  intros Hls Hn Hf Hm Hs. unfold album_main. rewrite Hls. cbn [pbind].
  by rewrite (collect_photos_bad_date _ _ n ds).
Qed.

(** ** The tables of the photo log *)

(** The table after the widths and the first two merges. *)
Definition merged_table (w : Z) (s : pystr) : table :=
  mkTable 3 3 s [768096; 5330952; w / Z.of_nat 3]%Z
    [mkCell 0 0 1 1 [empty_para]; mkCell 0 1 1 2 [empty_para]; mkCell 0 2 1 3 [empty_para];
     mkCell 1 0 2 2 [empty_para]; mkCell 1 2 2 3 [empty_para];
     mkCell 2 0 3 2 [empty_para]; mkCell 2 2 3 3 [empty_para]].

Lemma log_merges_new w s : log_merges (new_table 3 3 w s) = POk (merged_table w s, ((1, 0), (2, 0))).
Proof. vm_compute. reflexivity. Qed.

(** Every statement on the table keeps it well formed. *)
Lemma log_table_wf text_folder st idx name img : tbl_wf (log_table text_folder st idx name img).
Proof. unfold log_table, log_merges, log_cells. tbl_wf_auto. Qed.

(** C33: the table the photo log builds for a photo whose text file has at
    least seven lines is well formed (its cells cover the 3x3 grid once
    each) and has the five cells of the report's template: the date
    [(0,0)], the photo number [(0,1)], the photo cell spanning the last
    column, the direction [(1,0)-(1,1)] and the description
    [(2,0)-(2,1)].  Its columns are 0.84 in, 5.83 in and a third of the
    text width [w]: line 214 sets the width of column 1 a second time,
    so column 2 keeps its initial width, and with the script's margins
    ([w] = 7.5 in) the table is 9.17 in wide. *)
Theorem log_table_layout text_folder st idx name img w content :
  read_text_file st (join text_folder (fst (splitext name) ++ lit ".txt")) = POk content ->
  7 <= length (splitlines content) ->
  exists t', log_table text_folder st idx name img (new_table 3 3 w (lit "Table Grid")) = POk (t', tt) /\
    table_wf t' = true /\
    map extent (t_cells t') = [(0,0,1,1); (0,1,1,2); (0,2,3,3); (1,0,2,2); (2,0,3,2)] /\
    t_widths t' = [768096; 5330952; w / Z.of_nat 3]%Z.
Proof.
  intros Hread Hlen.
  enough (exists t', log_table text_folder st idx name img (new_table 3 3 w (lit "Table Grid")) = POk (t', tt) /\
    map extent (t_cells t') = [(0,0,1,1); (0,1,1,2); (0,2,3,3); (1,0,2,2); (2,0,3,2)] /\
    t_widths t' = [768096; 5330952; w / Z.of_nat 3]%Z) as (t' & E & H1 & H2).
  { exists t'. split_and!; [done| |done..]. exact (log_table_wf _ _ _ _ _ _ t' tt (new_table_wf _ _ _ _) E). }
  unfold log_table, tbind at 1. rewrite log_merges_new. cbn [pbind fst snd].
  unfold tbind at 1, tlift at 1. rewrite Hread. cbn [pbind fst snd].
  destruct (splitlines content) as [|l0 [|l1 [|l2 [|l3 [|l4 [|l5 [|l6 rest]]]]]]]; simpl in Hlen; try lia.
  vm_compute. eexists. split; [reflexivity|]. split; reflexivity.
Qed.

(** ** The time stamps *)

Lemma pad2_length_range : forallb (fun v => Nat.eqb (length (pad 2 v)) 2) (zrange 0 99) = true.
Proof. vm_compute. reflexivity. Qed.

Lemma pad4_length_range : forallb (fun v => Nat.eqb (length (pad 4 v)) 4) (zrange 0 9999) = true.
Proof. vm_compute. reflexivity. Qed.

Lemma pad2_length v : (0 <= v <= 99)%Z -> length (pad 2 v) = 2.
Proof. intros Hv. apply Nat.eqb_eq. exact (forallb_zrange _ _ _ pad2_length_range v Hv). Qed.

Lemma pad4_length v : (0 <= v <= 9999)%Z -> length (pad 4 v) = 4.
Proof. intros Hv. apply Nat.eqb_eq. exact (forallb_zrange _ _ _ pad4_length_range v Hv). Qed.

(** C34: for a time stamp as the survey app writes it
    ([2023-11-16T16:28:01Z]: [isoformat()] of a valid date and time and
    [Z]), the slices of the two scripts pick the right fields: the EXIF
    [DateTime] is [YYYY:MM:DD HH:MM:SS] (line 130), the GPS date stamp
    [YYYY-MM-DD] (line 129) and the date of the photo log [MM/DD/YYYY]
    (line 245). *)
Theorem timestamp_formats dt :
  valid dt = true ->
  exif_datetime (isoformat dt ++ lit "Z") =
    pad 4 (year dt) ++ lit ":" ++ pad 2 (month dt) ++ lit ":" ++ pad 2 (day dt) ++ lit " " ++
    pad 2 (hour dt) ++ lit ":" ++ pad 2 (minute dt) ++ lit ":" ++ pad 2 (second dt) /\
  py_slice (isoformat dt ++ lit "Z") 0 10 = pad 4 (year dt) ++ lit "-" ++ pad 2 (month dt) ++ lit "-" ++ pad 2 (day dt) /\
  log_date (isoformat dt ++ lit "Z") = pad 2 (month dt) ++ lit "/" ++ pad 2 (day dt) ++ lit "/" ++ pad 4 (year dt).
Proof.
  intros Hv. destruct dt as [y m d hh mm ss]. unfold valid in Hv. cbn [year month day hour minute second] in *.
  rewrite !andb_true_iff, !Z.leb_le in Hv.
  destruct Hv as (((((((((((H1 & H2) & H3) & H4) & H5) & H6) & H7) & H8) & H9) & H10) & H11) & H12).
  pose proof (days_in_month_le y m).
  pose proof (pad4_length y ltac:(lia)) as Ly. pose proof (pad2_length m ltac:(lia)) as Lm.
  pose proof (pad2_length d ltac:(lia)) as Ld. pose proof (pad2_length hh ltac:(lia)) as Lh.
  pose proof (pad2_length mm ltac:(lia)) as Lmi. pose proof (pad2_length ss ltac:(lia)) as Ls.
  unfold exif_datetime, log_date, isoformat. cbn [year month day hour minute second].
  destruct (pad 4 y) as [|y1 [|y2 [|y3 [|y4 [|]]]]]; try discriminate.
  destruct (pad 2 m) as [|m1 [|m2 [|]]]; try discriminate.
  destruct (pad 2 d) as [|d1 [|d2 [|]]]; try discriminate.
  destruct (pad 2 hh) as [|h1 [|h2 [|]]]; try discriminate.
  destruct (pad 2 mm) as [|i1 [|i2 [|]]]; try discriminate.
  destruct (pad 2 ss) as [|s1 [|s2 [|]]]; try discriminate.
  split_and!; reflexivity.
Qed.

(** ** Examples *)

Definition ex_template : document :=
  mkDoc [mkSection None None None None None None] []
        [mkStyle (lit "Normal") false (mkFont None None); mkStyle (lit "Table Grid") true (mkFont None None)].

Definition ex_folder : pystr := lit "/cap".

(** Two photos listed out of date order, and a note. *)
Definition ex_album_st : pfs :=
  mkPfs (<[lit "/cap/2023-11-16_16-28-01.png" := Photo (ex_photo 1)]>
         (<[lit "/cap/2023-11-15_09-00-00.png" := Photo (ex_photo 3)]>
          (<[lit "/cap/notes.txt" := Data (lit "x")]> ∅)))
        {[lit "/cap"; lit "/"]} ∅.

Definition ex_img (n : pystr) : image :=
  match image_open ex_album_st (join ex_folder n) with POk im => im | PRaise _ => ex_photo 1 end.

Lemma album_main_body_witness :
  exists doc,
    album_main ex_template ex_folder ex_album_st =
      POk (put (join ex_folder (lit "photo_album.docx")) (Doc doc) ex_album_st) /\
    d_body doc = d_body ex_template ++
      paged_body true (map album_entry (map (fun '(n, _) => (ex_img n, n))
        (sort_photos [(lit "2023-11-16_16-28-01.png", mkDatetime 2023 11 16 16 28 1);
                      (lit "2023-11-15_09-00-00.png", mkDatetime 2023 11 15 9 0 0)]))).
Proof.
  apply (album_main_body ex_template ex_folder ex_album_st
           [lit "notes.txt"; lit "2023-11-16_16-28-01.png"; lit "2023-11-15_09-00-00.png"]).
  - vm_compute. reflexivity.
  - vm_compute. reflexivity.
  - repeat constructor.
  - done.
  - vm_compute. reflexivity.
Defined.

(** The album puts the older photo first. *)
Example album_sorted_example :
  sort_photos [(lit "2023-11-16_16-28-01.png", mkDatetime 2023 11 16 16 28 1);
               (lit "2023-11-15_09-00-00.png", mkDatetime 2023 11 15 9 0 0)] =
  [(lit "2023-11-15_09-00-00.png", mkDatetime 2023 11 15 9 0 0);
   (lit "2023-11-16_16-28-01.png", mkDatetime 2023 11 16 16 28 1)].
Proof. vm_compute. reflexivity. Qed.

(** A name with month 13. *)
Definition ex_bad_st : pfs :=
  mkPfs (<[lit "/cap/2023-11-16_16-28-01.png" := Photo (ex_photo 1)]>
         (<[lit "/cap/2023-13-01_10-00-00.png" := Photo (ex_photo 1)]> ∅))
        {[lit "/cap"; lit "/"]} ∅.

Lemma album_main_bad_date_witness :
  album_main ex_template ex_folder ex_bad_st = PRaise ValueError.
Proof.
  apply (album_main_bad_date ex_template ex_folder ex_bad_st
           [lit "2023-11-16_16-28-01.png"; lit "2023-13-01_10-00-00.png"]
           (lit "2023-13-01_10-00-00.png") (lit "2023-13-01_10-00-00")).
  - vm_compute. reflexivity.
  - right. left.
  - vm_compute. reflexivity.
  - vm_compute. reflexivity.
  - vm_compute. reflexivity.
Defined.

(** A photo whose extension is in capitals passes the lower-cased filter
    but not the pattern, which is case-sensitive: it is left out of the
    album without a word. *)
Example album_skips_upper_case :
  name_filter (lit "png") (lit "2023-11-16_16-28-01.PNG") = true /\
  photo_name_match (lit "png") (lit "2023-11-16_16-28-01.PNG") = None.
Proof. split; vm_compute; reflexivity. Qed.

(** A photo of the photo log with its text file: latitude, longitude,
    altitude, time, direction, an unused line, the description. *)
Definition ex_log_text : pystr :=
  lit "41.8" ++ [newline] ++ lit "-75.2" ++ [newline] ++ lit "300.5" ++ [newline] ++
  lit "2023-11-16T16:28:01Z" ++ [newline] ++ lit "Direction: 123 deg" ++ [newline] ++
  lit "n/a" ++ [newline] ++ lit "Test pit 3" ++ [newline].

Definition ex_log_st : pfs :=
  mkPfs (<[lit "/app/new_photo/2023-11-16_16-28-01.jpg" := Photo (ex_photo 1)]>
         (<[lit "/app/capture/2023-11-16_16-28-01.jpg" := Photo (ex_photo 1)]>
          (<[lit "/app/Txt_log/2023-11-16_16-28-01.txt" := Data ex_log_text]> ∅)))
        {[lit "/app"; lit "/app/new_photo"; lit "/app/capture"; lit "/app/Txt_log"; lit "/"]} ∅.

Lemma timestamp_formats_witness :
  valid ex_start = true /\
  exif_datetime (isoformat ex_start ++ lit "Z") = lit "2024:06:11 13:48:07" /\
  py_slice (isoformat ex_start ++ lit "Z") 0 10 = lit "2024-06-11" /\
  log_date (isoformat ex_start ++ lit "Z") = lit "06/11/2024".
Proof.
  split; [reflexivity|]. exact (timestamp_formats ex_start eq_refl).
Defined.

Lemma log_table_layout_witness :
  exists t', log_table (lit "/app/Txt_log") ex_log_st 0 (lit "2023-11-16_16-28-01.jpg") (ex_photo 1)
               (new_table 3 3 6858000 (lit "Table Grid")) = POk (t', tt) /\
    table_wf t' = true /\
    map extent (t_cells t') = [(0,0,1,1); (0,1,1,2); (0,2,3,3); (1,0,2,2); (2,0,3,2)] /\
    t_widths t' = [768096; 5330952; 6858000 / Z.of_nat 3]%Z.
Proof.
  apply (log_table_layout _ _ _ _ _ _ ex_log_text).
  - vm_compute. reflexivity.
  - apply Nat.leb_le. vm_compute. reflexivity.
Defined.

(** The whole photo log on that folder: one table, whose columns add up
    to 8385048 EMU (9.17 in), on a page whose text area is 6858000 EMU
    (7.5 in) wide. *)
Example log_main_table_too_wide :
  match log_main ex_template (lit "/app/capture") (lit "/app/Txt_log") (lit "/app/new_photo") ex_log_st with
  | POk st =>
      match pfiles st !! lit "/app/new_photo/PhotoLogAll.docx" with
      | Some (Doc d) =>
          block_width d = POk 6858000%Z /\
          map (fun b => match b with BTable t => Some (foldr Z.add 0%Z (t_widths t)) | _ => None end) (d_body d)
          = [Some 8385048%Z; None]
      | _ => False
      end
  | PRaise _ => False
  end.
Proof. vm_compute. split; reflexivity. Qed.

End PhotoLog.
