(* ===== verification/PhotoCsv.v ===== *)
(** * Photo positions to CSV: src/ReadLatLongAltAndWriteCSV.py

    The script reads the GPS position of every photo of its folder with
    PIL, as the KMZ exporters do (Kmz.v), and writes a CSV file of image
    links and positions for Google Earth.  This file models:
    - [convert_to_decimal_degrees] and [extract_gps_data] (lines 15-36),
      which ignore the hemisphere references and negate every longitude;
    - the CSV loop (lines 46-61) with [csv.writer] (Csv.v), and the
      script's module-level code, whose line 39 reads [sys.executable]
      without importing [sys];
    - the theorem relating its positions to those of the KMZ exporters:
      they agree exactly for photos taken north and west of Greenwich. *)

From Stdlib Require Import Floats.
From S2P Require Import Prelude PyStr PyPath Csv Exif GpxVideo Kmz ExifWrite.

Module PhotoCsv.
Import PyStr PyPath Csv Exif Gpx Kmz ExifWrite.

(** Lines 15-20: degrees, minutes and seconds as a float, no sign. *)
Definition convert_to_decimal_degrees (coord : exif_val) : pyres float :=
  degrees <-? exif_getitem coord 0;
  minutes <-? exif_getitem coord 1;
  seconds <-? exif_getitem coord 2;
  d <-? as_float degrees;
  m <-? as_float minutes;
  s <-? as_float seconds;
  POk (PrimFloat.add (PrimFloat.add d (PrimFloat.div m 60%float)) (PrimFloat.div s 3600%float)).

(** Lines 28-33: the GPS IFD read; the longitude is negated. *)
Definition gps_of_exif (exif_data : exif_dict) : pyres gps :=
  gps_data <-? of_option KeyError (dict_get 34853 exif_data);
  c2 <-? exif_getitem gps_data 2;
  latitude <-? convert_to_decimal_degrees c2;
  c4 <-? exif_getitem gps_data 4;
  longitude <-? convert_to_decimal_degrees c4;
  has_alt <-? exif_contains 6 gps_data;
  altitude <-? (if has_alt then a <-? exif_getitem gps_data 6; POk (Some a) else POk None);
  POk (latitude, PrimFloat.opp longitude, altitude).

(** Lines 23-36: [None] stands for [(None, None, None)], returned when
    the file is no image, has no EXIF or no GPSInfo, or reading it
    raises ([except Exception]). *)
Definition extract_gps_data (st : pfs) (image_path : pystr) : option gps :=
  match image_open st image_path with
  | POk img =>
      match im_exif img with
      | Some exif_data =>
          if bool_decide (exif_data <> []) && bool_decide (is_Some (dict_get 34853 exif_data))
          then match gps_of_exif exif_data with POk r => Some r | PRaise _ => None end
          else None
      | None => None
      end
  | PRaise _ => None
  end.

(** [str()] of the values the CSV row holds: a float's [repr], and for
    the altitude PIL's value ([IFDRational] prints as its float). *)
Class PyStrExif := { exif_str : exif_val -> pystr }.

(** [filename.endswith((".jpg", ".jpeg", ".png", ".gif", ".bmp", ".JPG"))] *)
Definition image_name (filename : pystr) : bool :=
  existsb (fun e => py_endswith (lit e) filename) [".jpg"; ".jpeg"; ".png"; ".gif"; ".bmp"; ".JPG"]%string.

Definition image_link_string_front : pystr := q "<img style=`max-width:1500px;` src=`".
Definition image_link_string_rear : pystr := q "`>".

Section Loop.
Context `{PyFloatText} `{PyStrExif} (st : pfs) (folder_path : pystr).

(** Lines 55-61, for one name of the folder: the row of a photo with a
    position; [None] prints as the empty field. *)
Definition csv_row_of (filename : pystr) : option (list pystr) :=
  if image_name filename then
    let image_path := join folder_path filename in
    let image_link := image_link_string_front ++ image_path ++ image_link_string_rear in
    match extract_gps_data st image_path with
    | Some (latitude, longitude, altitude) =>
        Some [image_link; float_repr latitude; float_repr longitude;
              match altitude with Some a => exif_str a | None => [] end]
    | None => None
    end
  else None.

(** Lines 46-61: the CSV text of the header and the rows, in listing
    order, written to [photo_data.csv] in the working folder [cwd]. *)
Definition photo_csv (cwd : pystr) : pyres pfs :=
  _ <-? check_writable (join cwd (lit "photo_data.csv")) st;
  names <-? listdir st folder_path;
  let rows := omap csv_row_of names in
  POk (put (join cwd (lit "photo_data.csv"))
           (Data (write_rows ([lit "Photo Path"; lit "Latitude"; lit "Longitude"; lit "Altitude"] :: rows))) st).

End Loop.

(** The names bound at module level when line 39 runs: the imports and
    the two functions. *)
Definition module_globals : list pystr :=
  [lit "os"; lit "Image"; lit "TAGS"; lit "GPSTAGS"; lit "csv";
   lit "convert_to_decimal_degrees"; lit "extract_gps_data"].

Definition global (name : pystr) : pyres unit :=
  if bool_decide (name ∈ module_globals) then POk tt else PRaise NameError.

(** The script: line 39 [folder_path = os.path.dirname(sys.executable)],
    then the CSV in the working folder [cwd]. *)
Definition photo_csv_main `{PyFloatText} `{PyStrExif} (executable cwd : pystr) (st : pfs) : pyres pfs :=
  _ <-? global (lit "sys");
  let folder_path := dirname executable in
  photo_csv st folder_path cwd.

(** ** Lemmas *)

Lemma opp_opp (x : float) : PrimFloat.opp (PrimFloat.opp x) = x.
Proof.
  apply FloatAxioms.Prim2SF_inj. rewrite !FloatAxioms.opp_spec.
  by destruct (FloatOps.Prim2SF x) as [[]|[]| |[] ? ?].
Qed.

(** Without its reference, a coordinate converts as the exporters'
    [convert_to_decimal_degrees] does before the sign. *)
Lemma convert_ref coord ref x :
  Exif.convert_to_decimal_degrees coord ref = POk x ->
  convert_to_decimal_degrees coord = POk (if south_or_west ref then PrimFloat.opp x else x).
Proof.
  unfold Exif.convert_to_decimal_degrees, convert_to_decimal_degrees.
  destruct (exif_getitem coord 0); [|done]. destruct (exif_getitem coord 1); [|done].
  destruct (exif_getitem coord 2); [|done]. cbn [pbind].
  destruct (as_float a); [|done]. destruct (as_float a0); [|done]. destruct (as_float a1); [|done].
  cbn [pbind]. intros [= <-]. by destruct (south_or_west ref); rewrite ?opp_opp.
Qed.

(** C35: the CSV script and the KMZ exporters read the same GPS tags, but
    the CSV script drops the hemisphere letters and negates every
    longitude: for any photo the exporters place at [(lat, lon)], it
    writes the latitude without the sign of an [S] reference and the
    longitude negated unless the reference is [W].  The two agree
    exactly on photos whose references are north and west. *)
Theorem csv_position_vs_kmz st path lat lon alt img ed gd r1 r3 :
  Kmz.extract_gps_data st path = Some (lat, lon, alt) ->
  image_open st path = POk img -> im_exif img = Some ed -> dict_get 34853 ed = Some gd ->
  exif_getitem gd 1 = POk r1 -> exif_getitem gd 3 = POk r3 ->
  extract_gps_data st path =
    Some ((if south_or_west r1 then PrimFloat.opp lat else lat),
          (if south_or_west r3 then lon else PrimFloat.opp lon), alt).
Proof.
  intros Hk Hi He Hg H1 H3. unfold Kmz.extract_gps_data in Hk. unfold extract_gps_data.
  rewrite Hi, He in *. destruct (_ && _); [|done].
  destruct (Kmz.gps_of_exif ed) as [[[la lo] al]|] eqn:Eg; [|done]. injection Hk as -> -> ->.
  unfold Kmz.gps_of_exif in Eg. unfold gps_of_exif. rewrite Hg in *. cbn [of_option pbind] in *.
  destruct (exif_getitem gd 2) as [c2|]; [|done]. cbn [pbind] in *. rewrite H1 in Eg. cbn [pbind] in Eg.
  destruct (Exif.convert_to_decimal_degrees c2 r1) as [la'|] eqn:Ec2; [|done].
  rewrite (convert_ref _ _ _ Ec2). cbn [pbind] in *.
  destruct (exif_getitem gd 4) as [c4|]; [|done]. cbn [pbind] in *. rewrite H3 in Eg. cbn [pbind] in Eg.
  destruct (Exif.convert_to_decimal_degrees c4 r3) as [lo'|] eqn:Ec4; [|done].
  rewrite (convert_ref _ _ _ Ec4). cbn [pbind] in *.
  destruct (exif_contains 6 gd) as [[]|]; cbn [pbind] in *; try destruct (exif_getitem gd 6);
    cbn [pbind] in *; try done; injection Eg as <- <- <-;
    by destruct (south_or_west r3); rewrite ?opp_opp.
Qed.

(** ** Examples *)

(** A photo taken in Paris: 48 deg 51 min 24 s N, 2 deg 21 min 3 s E. *)
Definition ex_paris : image :=
  mkImage (Some [(34853%Z, EDict [(1%Z, EStr (lit "N")); (2%Z, ETuple [ERat 48 1; ERat 51 1; ERat 24 1]);
                                  (3%Z, EStr (lit "E")); (4%Z, ETuple [ERat 2 1; ERat 21 1; ERat 3 1])])])
          pose_id.

Definition ex_paris_st : pfs := mkPfs {[lit "/p/paris.jpg" := Photo ex_paris]} {[lit "/p"]} ∅.

Lemma csv_position_vs_kmz_witness :
  exists lat lon,
    Kmz.extract_gps_data ex_paris_st (lit "/p/paris.jpg") = Some (lat, lon, None) /\
    extract_gps_data ex_paris_st (lit "/p/paris.jpg") = Some (lat, PrimFloat.opp lon, None).
Proof.
  eexists _, _. split; [vm_compute; reflexivity|].
  apply (csv_position_vs_kmz _ _ _ _ _ ex_paris
           [(34853%Z, EDict [(1%Z, EStr (lit "N")); (2%Z, ETuple [ERat 48 1; ERat 51 1; ERat 24 1]);
                             (3%Z, EStr (lit "E")); (4%Z, ETuple [ERat 2 1; ERat 21 1; ERat 3 1])])]
           (EDict [(1%Z, EStr (lit "N")); (2%Z, ETuple [ERat 48 1; ERat 51 1; ERat 24 1]);
                   (3%Z, EStr (lit "E")); (4%Z, ETuple [ERat 2 1; ERat 21 1; ERat 3 1])])
           (EStr (lit "N")) (EStr (lit "E"))); vm_compute; reflexivity.
Defined.

(** The CSV script never gets to its photos: line 39 reads
    [sys.executable], but [sys] is not imported, so the script raises
    [NameError] whatever the folder holds. *)
Example photo_csv_main_raises `{PyFloatText} `{PyStrExif} executable cwd st :
  photo_csv_main executable cwd st = PRaise NameError.
Proof. reflexivity. Qed.

End PhotoCsv.
