(* ===== verification/GpxCsv.v ===== *)
(** * GPX tracks to CSV: src/GPXtoCSV.py and src/CalculateGpxPathOnMap.py

    Both scripts parse GPX files with [gpxpy] and write the track points
    to a CSV file.  GPXtoCSV.py numbers the points of one file from 1 and
    writes position, elevation and [isoformat()] of the time;
    CalculateGpxPathOnMap.py reads the map's bounding box from
    [latlong.txt], projects every point of every [.gpx] file of the
    folder to Web Mercator with [pyproj], and writes their offsets from
    the map's corner with [csv.DictWriter].

    This file holds:
    - [gpxpy]'s objects (tracks, segments, points; a point's time with
      its microseconds and UTC offset) and the parser as the class
      [GpxParser]; [isoformat] and [strftime] of such a time;
    - Python values as CSV cells ([pyval], [csv_str]) and
      [csv.DictWriter]'s row conversion;
    - [extract_gpx_data] (GPXtoCSV.py lines 5-31), whose rows stay in
      the file when a point without a time stops it;
    - [read_latlong_file], [get_min_max], [calculate_distance],
      [process_gpx_file] and [main] (CalculateGpxPathOnMap.py lines
      25-145), with [pyproj]'s transformer and C's [pow] as the classes
      [Transformer] and [PyPow]. *)

From Stdlib Require Import Floats.
From S2P Require Import Prelude PyStr PyPath Csv Datetime Exif GpxVideo Kmz ExifWrite.

Module GpxCsv.
Import PyStr PyPath Csv Datetime Kmz ExifWrite.

(** ** [gpxpy]'s objects *)

(** A time as [gpxpy] parses it: the date and time, the microseconds
    and the UTC offset in minutes ([None] for a naive time). *)
Record gpx_time := mkGpxTime { gt_dt : datetime; gt_micro : Z; gt_offset : option Z }.

Record gpx_point := mkGpxPoint {
  latitude : float; longitude : float; elevation : option float; point_time : option gpx_time
}.
Record gpx_segment := mkGpxSegment { points : list gpx_point }.
Record gpx_track := mkGpxTrack { segments : list gpx_segment }.
Record gpx_doc := mkGpx { tracks : list gpx_track }.

(** [gpxpy.parse(file)] on the file's text. *)
Class GpxParser := { gpx_parse : pystr -> pyres gpx_doc }.

(** The points of a document, track by track and segment by segment. *)
Definition all_points (gpx : gpx_doc) : list gpx_point :=
  flat_map (fun track => flat_map points (segments track)) (tracks gpx).

(** [datetime.isoformat()]: [.ffffff] when there are microseconds, then
    the offset as [+HH:MM]. *)
Definition offset_str (m : Z) : pystr :=
  (if (m <? 0)%Z then "-"%char else "+"%char) ::
  pad 2 (Z.abs m / 60) ++ lit ":" ++ pad 2 (Z.abs m mod 60).

Definition time_isoformat (t : gpx_time) : pystr :=
  isoformat (gt_dt t) ++
  (if (gt_micro t =? 0)%Z then [] else lit "." ++ pad 6 (gt_micro t)) ++
  match gt_offset t with Some m => offset_str m | None => [] end.

(** [t.strftime('%Y-%m-%dT%H:%M:%SZ')]: glibc's [%Y] does not pad the
    year; the offset is ignored and [Z] is a literal. *)
Definition strftime_utc (t : gpx_time) : pystr :=
  let dt := gt_dt t in
  py_str (year dt) ++ lit "-" ++ pad 2 (month dt) ++ lit "-" ++ pad 2 (day dt) ++ lit "T" ++
  pad 2 (hour dt) ++ lit ":" ++ pad 2 (minute dt) ++ lit ":" ++ pad 2 (second dt) ++ lit "Z".

(** ** CSV cells *)

(** The Python values the rows hold. *)
Inductive pyval := VInt (z : Z) | VFloat (f : float) | VStr (s : pystr) | VNone.

(** [csv.writer] writes [None] as the empty string and other values as
    [str()]. *)
Definition csv_str `{Gpx.PyFloatText} (v : pyval) : pystr :=
  match v with
  | VInt z => py_str z
  | VFloat f => Gpx.float_repr f
  | VStr s => s
  | VNone => []
  end.

Definition opt_float (o : option float) : pyval :=
  match o with Some x => VFloat x | None => VNone end.

(** ** GPXtoCSV.py *)

Definition gpx_header : list pystr :=
  [lit "sequence"; lit "latitude"; lit "longitude"; lit "elevation"; lit "timestamp"].

(** Lines 20-26 for one point: [point.time.isoformat()] raises
    [AttributeError] on a point without a time. *)
Definition point_row (sequence : Z) (point : gpx_point) : pyres (list pyval) :=
  let latitude := latitude point in
  let longitude := longitude point in
  let elevation := elevation point in
  time <-? of_option AttributeError (point_time point);
  POk [VInt sequence; VFloat latitude; VFloat longitude; opt_float elevation; VStr (time_isoformat time)].

(** Lines 19-29: the body of the innermost loop, on the sequence number
    and the rows written so far. *)
Definition point_step (acc : Z * list (list pyval)) (point : gpx_point) : (Z * list (list pyval)) * option exc :=
  let '(sequence, rows) := acc in
  match point_row sequence point with
  | POk row => ((sequence + 1, rows ++ [row])%Z, None)
  | PRaise e => (acc, Some e)
  end.

(** Lines 17-29: the three nested loops. *)
Definition track_loop (acc : Z * list (list pyval)) (gpx : gpx_doc) : (Z * list (list pyval)) * option exc :=
  floop (fun acc track => floop (fun acc segment => floop point_step acc (points segment)) acc (segments track))
        acc (tracks gpx).

Section Extract.
Context `{Gpx.PyFloatText} `{GpxParser}.

(** [gpxpy.parse(file)] on an open text file: its bytes decode, with
    universal newlines, or reading raises. *)
Definition parse_content (c : pcontent) : pyres gpx_doc :=
  match c with Data b => gpx_parse (Gpx.universal_newlines b) | _ => PRaise ValueError end.

(** Lines 5-31: the input opened, then the output (which truncates it),
    then the text parsed; the rows written before an exception stay in
    the file, which the [with] statement closes. *)
Definition extract_gpx_data (input_file output_file : pystr) (st : pfs) : pfs * option exc :=
  match read_file st input_file with
  | PRaise e => (st, Some e)
  | POk c =>
      match check_writable output_file st with
      | PRaise e => (st, Some e)
      | POk _ =>
          let written rows := put output_file (Data (write_rows (gpx_header :: map (map csv_str) rows))) st in
          match parse_content c with
          | PRaise e => (put output_file (Data []) st, Some e)
          | POk gpx =>
              let '((_, rows), e) := track_loop (1%Z, []) gpx in
              (written rows, e)
          end
      end
  end.

(** Lines 34-38: the two file names, relative to the working folder. *)
Definition gpx_to_csv_main (cwd : pystr) (st : pfs) : pfs * option exc :=
  extract_gpx_data (join cwd (lit "VID_20230731_165855_00_005.gpx")) (join cwd (lit "output2.csv")) st.

End Extract.

(** ** CalculateGpxPathOnMap.py *)

(** [os.path.isfile] *)
Definition isfile (st : pfs) (p : pystr) : bool := bool_decide (is_Some (pfiles st !! p)).

Section Calculate.
Context `{Gpx.PyFloatText} `{GpxParser}.

(** Lines 25-45: exactly four lines, stripped, two latitudes then two
    longitudes. *)
Definition read_latlong_file (st : pfs) (filename : pystr) : pyres (list float * list float) :=
  if negb (isfile st filename) then PRaise FileNotFound else
  text <-? read_text_file st filename;
  let lines := map py_strip (Gpx.readlines text) in
  if negb (length lines =? 4) then PRaise ValueError else
  let float_of l := of_option ValueError (Gpx.py_float l) in
  latitudes <-? pmapM float_of [nth 0 lines []; nth 1 lines []];
  longitudes <-? pmapM float_of [nth 2 lines []; nth 3 lines []];
  POk (latitudes, longitudes).

(** Lines 47-55. *)
Definition get_min_max (latitudes longitudes : list float) : pyres (float * float * float * float) :=
  min_lat <-? Gpx.py_min latitudes;
  max_lat <-? Gpx.py_max latitudes;
  min_lon <-? Gpx.py_min longitudes;
  max_lon <-? Gpx.py_max longitudes;
  POk (min_lat, max_lat, min_lon, max_lon).

End Calculate.

(** [Transformer.from_crs(CRS('epsg:4326'), CRS('epsg:3857'),
    always_xy=False).transform(lat, lon)]: Web Mercator's [(x, y)]. *)
Class Transformer := { transform : float -> float -> pyres (float * float) }.

(** [x ** y] on floats: C's [pow], [OverflowError] when it overflows. *)
Class PyPow := { float_pow : float -> float -> pyres float }.

(** The names [gpxpy.gpx] defines that the script could name in an
    [except] clause: its exception classes. *)
Definition gpxpy_gpx_exceptions : list pystr := [lit "GPXException"; lit "GPXXMLSyntaxException"].

(** Evaluating [gpxpy.gpx.<name>]. *)
Definition gpxpy_gpx_attr (name : pystr) : pyres unit :=
  if bool_decide (name ∈ gpxpy_gpx_exceptions) then POk tt else PRaise AttributeError.

(** A point as the dict of lines 89-104, in the order of its keys. *)
Definition point_dict := list (pystr * pyval).

Definition fieldnames : list pystr :=
  [lit "count"; lit "latitude"; lit "longitude"; lit "elevationM"; lit "timestamp";
   lit "northing"; lit "easting"; lit "elevationFt"; lit "positionX"; lit "positionY";
   lit "positionZ"; lit "xdimM"; lit "ydimM"; lit "filename"].

Section Process.
Context `{Gpx.PyFloatText} `{GpxParser} `{Transformer} `{PyPow}.

(** Lines 57-64. *)
Definition calculate_distance (lat1 lon1 lat2 lon2 : float) : pyres (float * float * float) :=
  p1 <-? transform lat1 lon1;
  let '(x1, y1) := p1 in
  p2 <-? transform lat2 lon2;
  let '(x2, y2) := p2 in
  dx2 <-? float_pow (PrimFloat.sub x2 x1) 2;
  dy2 <-? float_pow (PrimFloat.sub y2 y1) 2;
  let distance := PrimFloat.sqrt (PrimFloat.add dx2 dy2) in
  POk (distance, x1, y1).

(** The module-level names [main] binds with [global] (line 122) and
    [process_gpx_file] reads. *)
Record map_globals := mkMapGlobals { map_width : float; map_height : float; min_x : float; min_y : float }.

(** Lines 85-104 for the point at index [i] of its segment. *)
Definition point_entry (g : map_globals) (gpx_file : pystr) (i : nat) (point : gpx_point)
    : pyres point_dict :=
  pos <-? transform (latitude point) (longitude point);
  let '(pos_x, pos_y) := pos in
  let rel_x := PrimFloat.sub pos_x (min_x g) in
  let rel_y := PrimFloat.sub pos_y (min_y g) in
  time <-? of_option AttributeError (point_time point);
  POk [(lit "count", VInt (Z.of_nat i)); (lit "latitude", VFloat (latitude point));
       (lit "longitude", VFloat (longitude point)); (lit "elevationM", opt_float (elevation point));
       (lit "timestamp", VStr (strftime_utc time));
       (lit "northing", VInt 0); (lit "easting", VInt 0); (lit "elevationFt", VInt 0);
       (lit "positionX", VFloat rel_x); (lit "positionY", VFloat rel_y);
       (lit "positionZ", opt_float (elevation point));
       (lit "xdimM", VFloat (map_width g)); (lit "ydimM", VFloat (map_height g));
       (lit "filename", VStr (fst (splitext (basename gpx_file))))].

(** Lines 83-106 for one segment: [enumerate] restarts at 0, and a
    point that raises is skipped ([except Exception]). *)
Definition segment_entries (g : map_globals) (gpx_file : pystr) (segment : gpx_segment) : list point_dict :=
  omap (fun '(i, point) => match point_entry g gpx_file i point with POk d => Some d | PRaise _ => None end)
       (zip (seq 0 (length (points segment))) (points segment)).

(** Lines 66-108, for the file [gpx_file] of the folder [cwd]: an
    exception while opening or parsing it makes Python evaluate the
    [except] clause's [gpxpy.gpx.GPXParseError], which does not exist. *)
Definition process_gpx_file (st : pfs) (cwd : pystr) (g : map_globals) (gpx_file : pystr)
    : pyres (list point_dict) :=
  let path := join cwd gpx_file in
  if negb (isfile st path) then PRaise FileNotFound else
  gpx <-? match (c <-? read_file st path; parse_content c) with
          | POk gpx => POk gpx
          | PRaise _ => _ <-? gpxpy_gpx_attr (lit "GPXParseError"); POk (mkGpx [])
          end;
  POk (flat_map (fun track => flat_map (segment_entries g gpx_file) (segments track)) (tracks gpx)).

(** [rowdict.get(key, restval)] on a dict of string keys. *)
Fixpoint rowdict_get (key : pystr) (rowdict : point_dict) : option pyval :=
  match rowdict with
  | [] => None
  | (k, v) :: r => if bool_decide (k = key) then Some v else rowdict_get key r
  end.

(** [csv.DictWriter._dict_to_list]: keys outside [fieldnames] raise
    [ValueError]; a missing key gives [restval], the empty string. *)
Definition dict_to_list (rowdict : point_dict) : pyres (list pyval) :=
  if existsb (fun kv => negb (bool_decide (kv.1 ∈ fieldnames))) rowdict then PRaise ValueError
  else POk (map (fun key => match rowdict_get key rowdict with Some v => v | None => VStr [] end) fieldnames).

(** Lines 111-124: the bounding box, the map's size and its corner in
    Web Mercator. *)
Definition map_frame (cwd : pystr) (st : pfs) : pyres map_globals :=
  ll <-? read_latlong_file st (join cwd (lit "latlong.txt"));
  let '(latitudes, longitudes) := ll in
  mm <-? get_min_max latitudes longitudes;
  let '(min_lat, max_lat, min_lon, max_lon) := mm in
  w <-? calculate_distance min_lat min_lon min_lat max_lon;
  let '(map_width, min_x, min_y) := w in
  h <-? calculate_distance min_lat min_lon max_lat min_lon;
  let '(map_height, _, _) := h in
  POk (mkMapGlobals map_width map_height min_x min_y).

(** Lines 130-133, one name of the listing. *)
Definition gather_step (st : pfs) (cwd : pystr) (g : map_globals) (all_points : list point_dict)
    (filename : pystr) : pyres (list point_dict) :=
  if py_endswith (lit ".gpx") (py_lower filename) then
    points <-? process_gpx_file st cwd g filename;
    POk (all_points ++ points)
  else POk all_points.

(** Lines 111-133: the map's frame, then the points of the [.gpx] files
    of the working folder [cwd], in listing order. *)
Definition collect_points (cwd : pystr) (st : pfs) : pyres (list point_dict) :=
  g <-? map_frame cwd st;
  names <-? listdir st cwd;
  pfoldM (gather_step st cwd g) [] names.

(** Lines 110-148: [gpx_data.csv] with the header and the rows
    [writerows] converted before an exception. *)
Definition calc_main (cwd : pystr) (st : pfs) : pfs * option exc :=
  let output_file := join cwd (lit "gpx_data.csv") in
  match collect_points cwd st with
  | PRaise e => (st, Some e)
  | POk all_points =>
      match check_writable output_file st with
      | PRaise e => (st, Some e)
      | POk _ =>
          let '(rows, e) :=
            floop (fun rows d => match dict_to_list d with
                                 | POk r => (rows ++ [r], None)
                                 | PRaise e => (rows, Some e)
                                 end) [] all_points in
          (put output_file (Data (write_rows (fieldnames :: map (map csv_str) rows))) st, e)
      end
  end.

End Process.

(** ** What GPXtoCSV.py writes *)

(** The times [gpxpy] makes: a valid date and time, microseconds below a
    second, an offset below a day. *)
Definition gpx_time_ok (t : gpx_time) : bool :=
  valid (gt_dt t) && (0 <=? gt_micro t)%Z && (gt_micro t <? 1000000)%Z &&
  match gt_offset t with Some m => (Z.abs m <? 1440)%Z | None => true end.

Definition timed (p : gpx_point) : Prop := is_Some (point_time p).

Section ExtractSpec.
Context `{Gpx.PyFloatText} `{GpxParser}.

(** The cells of the row of a point, as the file shows them. *)
Definition gpx_csv_row (sequence : Z) (p : gpx_point) : list pystr :=
  [py_str sequence; Gpx.float_repr (latitude p); Gpx.float_repr (longitude p);
   csv_str (opt_float (elevation p));
   match point_time p with Some t => time_isoformat t | None => [] end].

Lemma track_loop_all_points acc gpx : track_loop acc gpx = floop point_step acc (all_points gpx).
Proof.
  unfold track_loop, all_points. rewrite <- floop_nested.
  apply floop_ext. intros a t. apply floop_nested.
Qed.

Lemma point_step_timed k rows p :
  timed p -> exists r, point_step (k, rows) p = (((k + 1)%Z, rows ++ [r]), None) /\ map csv_str r = gpx_csv_row k p.
Proof.
  intros [t Ht]. unfold point_step, point_row, gpx_csv_row. rewrite Ht. by eexists.
Qed.

(** The loop over points with a time numbers them from [k] on. *)
Lemma floop_point_step k rows pts :
  Forall timed pts ->
  exists rs, floop point_step (k, rows) pts = (((k + Z.of_nat (length pts))%Z, rows ++ rs), None) /\
             map (map csv_str) rs = imap (fun i p => gpx_csv_row (k + Z.of_nat i) p) pts.
Proof.
  revert k rows. induction pts as [|p pts IH]; intros k rows Hf.
  - exists []. split; [by rewrite Z.add_0_r, app_nil_r|done].
  - apply Forall_cons in Hf as [Hp Hf]. destruct (point_step_timed k rows p Hp) as [r [Hr Hcells]].
    destruct (IH (k + 1)%Z (rows ++ [r]) Hf) as [rs [Hl Hrs]].
    exists (r :: rs). cbn [floop]. rewrite Hr, Hl. split.
    + f_equal. f_equal; [cbn [length]; lia|by rewrite <- app_assoc].
    + cbn [map imap]. rewrite Hcells, Hrs, Z.add_0_r. f_equal.
      apply imap_ext. intros i q _. unfold compose. f_equal. lia.
Qed.

(** A point without a time stops the loop after the rows before it. *)
Lemma floop_point_step_untimed k rows pre p post :
  Forall timed pre -> point_time p = None ->
  exists rs, floop point_step (k, rows) (pre ++ p :: post) =
               (((k + Z.of_nat (length pre))%Z, rows ++ rs), Some AttributeError) /\
             map (map csv_str) rs = imap (fun i p => gpx_csv_row (k + Z.of_nat i) p) pre.
Proof.
  intros Hpre Hp. destruct (floop_point_step k rows pre Hpre) as [rs [Hl Hrs]].
  exists rs. rewrite floop_app, Hl. cbn [floop]. unfold point_step at 1, point_row. rewrite Hp. done.
Qed.

Lemma pad_length_le w n : length (pad w n) <= w + length (py_str n).
Proof. unfold pad. rewrite length_app, repeat_length. lia. Qed.

Lemma pad_small w n : (0 <= n <= 9999999)%Z -> length (pad w n) <= w + 64.
Proof.
  intros Hn. pose proof (pad_length_le w n).
  assert (Hp : (2 ^ Z.of_nat 64 = 18446744073709551616)%Z) by reflexivity.
  pose proof (py_str_length n 64 ltac:(lia) ltac:(lia)). lia.
Qed.

Lemma time_isoformat_length t : gpx_time_ok t = true -> length (time_isoformat t) <= 1000.
Proof.
  unfold gpx_time_ok, valid. intros Ht. rewrite !andb_true_iff, !Z.leb_le, !Z.ltb_lt in Ht.
  destruct Ht as [[[Hv Hm0] Hm1] Ho]. destruct_and! Hv.
  pose proof (days_in_month_le (year (gt_dt t)) (month (gt_dt t))).
  unfold time_isoformat, isoformat. rewrite !length_app. cbn [length lit String.list_ascii_of_string].
  pose proof (pad_small 4 (year (gt_dt t)) ltac:(lia)). pose proof (pad_small 2 (month (gt_dt t)) ltac:(lia)).
  pose proof (pad_small 2 (day (gt_dt t)) ltac:(lia)). pose proof (pad_small 2 (hour (gt_dt t)) ltac:(lia)).
  pose proof (pad_small 2 (minute (gt_dt t)) ltac:(lia)). pose proof (pad_small 2 (second (gt_dt t)) ltac:(lia)).
  destruct (gt_micro t =? 0)%Z;
    [cbn [length]|rewrite length_app; pose proof (pad_small 6 (gt_micro t) ltac:(lia));
                  cbn [length lit String.list_ascii_of_string]];
  (destruct (gt_offset t) as [m|];
    [apply Z.ltb_lt in Ho; unfold offset_str; cbn [length]; rewrite !length_app;
     pose proof (Z.div_pos (Z.abs m) 60 ltac:(lia) ltac:(lia));
     pose proof (Z.div_le_upper_bound (Z.abs m) 60 (Z.abs m) ltac:(lia) ltac:(lia));
     pose proof (Z.mod_pos_bound (Z.abs m) 60 ltac:(lia));
     pose proof (pad_small 2 (Z.abs m / 60) ltac:(lia)); pose proof (pad_small 2 (Z.abs m mod 60) ltac:(lia));
     cbn [length lit String.list_ascii_of_string]
    |cbn [length]]); lia.
Qed.

Lemma fits_small n : n <= 1000 -> (Z.of_nat n <= field_limit)%Z.
Proof. unfold field_limit. lia. Qed.

Lemma py_str_fits z : (0 <= z < 2 ^ field_limit)%Z -> (Z.of_nat (length (py_str z)) <= field_limit)%Z.
Proof.
  intros Hz. assert (Hf : Z.of_nat (Z.to_nat field_limit) = field_limit) by (apply Z2Nat.id; unfold field_limit; lia).
  pose proof (py_str_length z (Z.to_nat field_limit) ltac:(rewrite Hf; lia)
                ltac:(apply Nat2Z.inj_le; rewrite Hf; unfold field_limit; lia)). lia.
Qed.

(** Every cell of the rows numbered from [k] fits [csv.reader]'s field
    limit. *)
Lemma gpx_rows_fit k pts :
  (forall x, length (Gpx.float_repr x) <= 24) ->
  Forall (fun p => exists t, point_time p = Some t /\ gpx_time_ok t = true) pts ->
  (0 <= k)%Z -> (k + Z.of_nat (length pts) <= 2 ^ field_limit)%Z ->
  Forall (Forall (fun f => (Z.of_nat (length f) <= field_limit)%Z))
         (imap (fun i p => gpx_csv_row (k + Z.of_nat i) p) pts).
Proof.
  intros Hrepr Hts Hk Hn. apply Forall_lookup. intros i row. rewrite list_lookup_imap.
  destruct (pts !! i) as [p|] eqn:Hi; [|done]. intros [= <-].
  pose proof (lookup_lt_Some _ _ _ Hi). rewrite Forall_lookup in Hts.
  destruct (Hts i p Hi) as [t [Ht Hok]]. unfold gpx_csv_row. rewrite Ht.
  repeat constructor; [apply py_str_fits; lia|apply fits_small..].
  - specialize (Hrepr (latitude p)). lia.
  - specialize (Hrepr (longitude p)). lia.
  - destruct (elevation p); cbn; [specialize (Hrepr f)|]; lia.
  - by apply time_isoformat_length.
Qed.

(** C36: the CSV that GPXtoCSV.py writes reads back through [csv.reader]
    as its header followed by one row per track point, in the order of
    tracks, segments and points: the sequence number from 1, latitude,
    longitude, elevation (empty when the point has none) and
    [isoformat()] of the time.  This holds when every point has a time,
    as [gpxpy] builds them, and the file has fewer points than
    [csv.reader]'s field limit allows digits for. *)
Theorem extract_gpx_data_roundtrip input output b g st :
  (forall x, length (Gpx.float_repr x) <= 24) ->
  pfiles st !! input = Some (Data b) ->
  check_writable output st = POk tt ->
  gpx_parse (Gpx.universal_newlines b) = POk g ->
  Forall (fun p => exists t, point_time p = Some t /\ gpx_time_ok t = true) (all_points g) ->
  (Z.of_nat (length (all_points g)) < 2 ^ field_limit)%Z ->
  exists content,
    extract_gpx_data input output st = (put output (Data content) st, None) /\
    read_rows content = (gpx_header :: imap (fun i p => gpx_csv_row (Z.of_nat (S i)) p) (all_points g), None).
Proof.
  intros Hrepr Hin Hw Hg Hts Hn.
  destruct (floop_point_step 1 [] (all_points g)) as [rs [Hl Hrs]].
  { eapply Forall_impl; [exact Hts|]. intros p [t [Ht _]]. by exists t. }
  eexists. split.
  - unfold extract_gpx_data, read_file. rewrite Hin, Hw. unfold parse_content.
    rewrite Hg, track_loop_all_points, Hl. reflexivity.
  - cbn [map]. rewrite app_nil_l, Hrs, read_rows_write_rows.
    + f_equal. f_equal. apply imap_ext. intros i p _. f_equal. lia.
    + constructor; [repeat constructor; apply fits_small; cbn; lia|].
      apply gpx_rows_fit; auto; lia.
Qed.

(** C39: a track point without a time stops GPXtoCSV.py with
    [AttributeError] ([None.isoformat()]), and the CSV it leaves holds
    the header and the numbered rows of the points before it. *)
Theorem extract_gpx_data_untimed input output b g st pre p post :
  pfiles st !! input = Some (Data b) ->
  check_writable output st = POk tt ->
  gpx_parse (Gpx.universal_newlines b) = POk g ->
  all_points g = pre ++ p :: post -> Forall timed pre -> point_time p = None ->
  extract_gpx_data input output st =
    (put output (Data (write_rows (gpx_header :: imap (fun i q => gpx_csv_row (Z.of_nat (S i)) q) pre))) st,
     Some AttributeError).
Proof.
  intros Hin Hw Hg Hpts Hpre Hp.
  destruct (floop_point_step_untimed 1 [] pre p post Hpre Hp) as [rs [Hl Hrs]].
  unfold extract_gpx_data, read_file. rewrite Hin, Hw. unfold parse_content.
  rewrite Hg, track_loop_all_points, Hpts, Hl. cbn [map]. rewrite app_nil_l, Hrs. do 5 f_equal.
  apply imap_ext. intros i q _. f_equal. lia.
Qed.

End ExtractSpec.

(** ** What CalculateGpxPathOnMap.py writes *)

Section CalcSpec.
Context `{Gpx.PyFloatText} `{GpxParser} `{Transformer} `{PyPow}.

Definition has_fieldnames (d : point_dict) : Prop := map fst d = fieldnames.

Lemma point_entry_keys g gpx_file i p d :
  point_entry g gpx_file i p = POk d -> has_fieldnames d.
Proof.
  unfold point_entry. destruct (transform _ _) as [[x y]|]; [|done]. cbn [pbind].
  destruct (point_time p); [|done]. by intros [= <-].
Qed.

Lemma segment_entries_keys g gpx_file seg : Forall has_fieldnames (segment_entries g gpx_file seg).
Proof.
  apply Forall_forall. intros d Hd. apply list_elem_of_omap in Hd as [[i p] [_ Hd]].
  destruct (point_entry g gpx_file i p) eqn:He; [|done]. injection Hd as <-. by eapply point_entry_keys.
Qed.

Lemma process_gpx_file_keys st cwd g gpx_file ds :
  process_gpx_file st cwd g gpx_file = POk ds -> Forall has_fieldnames ds.
Proof.
  unfold process_gpx_file. destruct (isfile _ _); [|done]. cbn [negb].
  destruct (c <-? read_file st (join cwd gpx_file); parse_content c) as [gpx|e]; cbn [pbind].
  - intros [= <-]. apply Forall_forall. intros d Hd.
    apply list_elem_of_In, in_flat_map in Hd as [track [_ Hd]].
    apply in_flat_map in Hd as [seg [_ Hd]]. apply list_elem_of_In in Hd.
    by eapply Forall_forall; [apply segment_entries_keys|].
  - unfold gpxpy_gpx_attr. case_bool_decide; [|done]. by intros [= <-].
Qed.

Lemma collect_points_keys cwd st ds : collect_points cwd st = POk ds -> Forall has_fieldnames ds.
Proof.
  unfold collect_points. destruct (map_frame cwd st) as [g|]; [|done]. cbn [pbind].
  destruct (listdir st cwd) as [names|]; [|done]. cbn [pbind].
  apply pfoldM_inv; [done|]. intros a name a' _ Ha. unfold gather_step.
  destruct (py_endswith _ _); [|by intros [= <-]].
  destruct (process_gpx_file st cwd g name) as [ds'|] eqn:Hp; [|done]. intros [= <-].
  apply Forall_app. split; [done|]. by eapply process_gpx_file_keys.
Qed.

Lemma rowdict_get_values (d : point_dict) :
  NoDup (map fst d) ->
  map (fun key => match rowdict_get key d with Some v => v | None => VStr [] end) (map fst d) = map snd d.
Proof.
  induction d as [|[k v] d IH]; intros Hnd; [done|]. cbn [map fst snd]. apply NoDup_cons in Hnd as [Hk Hnd].
  cbn [rowdict_get]. rewrite bool_decide_true by done. f_equal. rewrite <- IH by done.
  apply map_ext_in. intros key Hkey. apply list_elem_of_In in Hkey. cbn [rowdict_get].
  rewrite bool_decide_false; [done|]. intros ->. contradiction.
Qed.

Lemma NoDup_fieldnames : NoDup fieldnames.
Proof. decide_eval. Qed.

(** [DictWriter] converts a point's dict to its values in key order. *)
Lemma dict_to_list_keys d : has_fieldnames d -> dict_to_list d = POk (map snd d).
Proof.
  unfold has_fieldnames, dict_to_list. intros Hd.
  assert (Hx : existsb (fun kv => negb (bool_decide (kv.1 ∈ fieldnames))) d = false).
  { apply not_true_iff_false. rewrite existsb_exists. intros [kv [Hkv Hneg]].
    apply negb_true_iff, bool_decide_eq_false in Hneg. apply Hneg. rewrite <- Hd.
    apply list_elem_of_In, in_map, Hkv. }
  rewrite Hx. cbv iota. f_equal. rewrite <- Hd. apply rowdict_get_values. rewrite Hd. apply NoDup_fieldnames.
Qed.

Lemma floop_dict_rows rows ds :
  Forall has_fieldnames ds ->
  floop (fun rows d => match dict_to_list d with POk r => (rows ++ [r], None) | PRaise e => (rows, Some e) end)
        rows ds = (rows ++ map (map snd) ds, None).
Proof.
  revert rows. induction ds as [|d ds IH]; intros rows Hds; cbn [floop map]; [by rewrite app_nil_r|].
  apply Forall_cons in Hds as [Hd Hds]. rewrite dict_to_list_keys by done. rewrite IH by done.
  by rewrite <- app_assoc.
Qed.

(** C38: once the map's frame is computed and the folder's points are
    gathered, CalculateGpxPathOnMap.py ends without an exception and
    [gpx_data.csv] holds the fourteen field names and then one row per
    point: every dict the script builds has exactly [fieldnames] as keys,
    in that order, so [DictWriter] never raises and writes each value
    under its own heading. *)
Theorem calc_main_rows cwd st all_points :
  collect_points cwd st = POk all_points ->
  check_writable (join cwd (lit "gpx_data.csv")) st = POk tt ->
  calc_main cwd st =
    (put (join cwd (lit "gpx_data.csv"))
         (Data (write_rows (fieldnames :: map (map (fun kv => csv_str kv.2)) all_points))) st, None).
Proof.
  intros Hc Hw. unfold calc_main. rewrite Hc, Hw.
  rewrite floop_dict_rows by (by eapply collect_points_keys). cbn [app].
  by rewrite map_map, (map_ext (fun r => map csv_str (map snd r)) (map (fun kv => csv_str kv.2)))
    by (intros r; by rewrite map_map).
Qed.

Lemma gpxpy_no_parse_error : gpxpy_gpx_attr (lit "GPXParseError") = PRaise AttributeError.
Proof. reflexivity. Qed.

(** C37: a [.gpx] file of the folder that cannot be read or parsed stops
    CalculateGpxPathOnMap.py with [AttributeError], and no CSV is
    written: the handler [except gpxpy.gpx.GPXParseError] names a class
    that [gpxpy.gpx] does not define, so evaluating it raises instead of
    skipping the file as the code intends. *)
Theorem calc_main_unparsable cwd st g names f :
  map_frame cwd st = POk g -> listdir st cwd = POk names ->
  (forall n, n ∈ names -> py_endswith (lit ".gpx") (py_lower n) = true -> isfile st (join cwd n) = true) ->
  f ∈ names -> py_endswith (lit ".gpx") (py_lower f) = true ->
  (exists e, (c <-? read_file st (join cwd f); parse_content c) = PRaise e) ->
  calc_main cwd st = (st, Some AttributeError).
Proof.
  intros Hg Hl Hfiles Hf Hext [e He]. unfold calc_main, collect_points. rewrite Hg, Hl. cbn [pbind].
  rewrite (pfoldM_raise _ AttributeError _ _ f); [done| |intros a; unfold gather_step, process_gpx_file;
    rewrite Hext, (Hfiles f Hf Hext); cbn [negb]; by rewrite He|done].
  intros a name Hname. unfold gather_step.
  destruct (py_endswith (lit ".gpx") (py_lower name)) eqn:Hn; [|by left; eexists].
  unfold process_gpx_file. rewrite (Hfiles name Hname Hn). cbn [negb].
  destruct (c <-? read_file st (join cwd name); parse_content c); [by left; eexists|by right].
Qed.

End CalcSpec.

(** ** Examples

    The examples read integers only and print every float as [0.0]; the
    parser knows one document, the projection swaps its arguments and
    [x ** 2] is [x * x].  No theorem depends on these choices. *)

#[local] Instance ex_float_text : Gpx.PyFloatText :=
  {| Gpx.py_float s := Exif.float_of_Z <$> py_int s; Gpx.float_repr _ := lit "0.0"; Gpx.format_9f _ := lit "0" |}.

Definition ex_time (s : Z) (off : option Z) : gpx_time := mkGpxTime (mkDatetime 2023 7 31 16 58 s) 0 off.

Definition ex_p1 : gpx_point := mkGpxPoint 41%float (-75)%float (Some 380%float) (Some (ex_time 55 (Some 0%Z))).
Definition ex_p2 : gpx_point := mkGpxPoint 42%float (-74)%float None (Some (ex_time 56 (Some 0%Z))).
Definition ex_p3 : gpx_point := mkGpxPoint 43%float (-73)%float None None.

Definition ex_doc : gpx_doc := mkGpx [mkGpxTrack [mkGpxSegment [ex_p1]; mkGpxSegment [ex_p2]]].
Definition ex_untimed_doc : gpx_doc := mkGpx [mkGpxTrack [mkGpxSegment [ex_p1; ex_p3; ex_p2]]].

#[local] Instance ex_parser : GpxParser :=
  {| gpx_parse text := if bool_decide (text = lit "doc") then POk ex_doc
                       else if bool_decide (text = lit "untimed") then POk ex_untimed_doc
                       else PRaise ValueError |}.

#[local] Instance ex_transformer : Transformer := {| transform lat lon := POk (lon, lat) |}.
#[local] Instance ex_pow : PyPow := {| float_pow x _ := POk (PrimFloat.mul x x) |}.

Definition nl : pystr := ["010"%char].

Definition ex_st : pfs :=
  mkPfs (<[lit "/w/in.gpx" := Data (lit "doc")]> (<[lit "/w/untimed.gpx" := Data (lit "untimed")]>
         (<[lit "/w/latlong.txt" := Data (lit "41" ++ nl ++ lit "42" ++ nl ++ lit "-75" ++ nl ++ lit "-74" ++ nl)]>
          ∅)))
        {[lit "/w"]} ∅.

Lemma extract_gpx_data_roundtrip_witness :
  exists content,
    extract_gpx_data (lit "/w/in.gpx") (lit "/w/out.csv") ex_st = (put (lit "/w/out.csv") (Data content) ex_st, None) /\
    read_rows content = (gpx_header :: imap (fun i p => gpx_csv_row (Z.of_nat (S i)) p) [ex_p1; ex_p2], None).
Proof.
  apply (extract_gpx_data_roundtrip _ _ (lit "doc") ex_doc).
  - intros x. cbn. lia.
  - reflexivity.
  - vm_compute. reflexivity.
  - reflexivity.
  - repeat constructor; eexists; split; reflexivity.
  - vm_compute. reflexivity.
Defined.

Lemma extract_gpx_data_untimed_witness :
  extract_gpx_data (lit "/w/untimed.gpx") (lit "/w/out.csv") ex_st =
    (put (lit "/w/out.csv") (Data (write_rows (gpx_header :: imap (fun i q => gpx_csv_row (Z.of_nat (S i)) q) [ex_p1]))) ex_st,
     Some AttributeError).
Proof.
  apply (extract_gpx_data_untimed _ _ (lit "untimed") ex_untimed_doc _ [ex_p1] ex_p3 [ex_p2]);
    [reflexivity|vm_compute; reflexivity|reflexivity|reflexivity|repeat constructor; by eexists|reflexivity].
Defined.

Definition ex_latlong_text : pystr := lit "41" ++ nl ++ lit "42" ++ nl ++ lit "-75" ++ nl ++ lit "-74" ++ nl.

(** A folder with the bounding box, a GPX file of two one-point
    segments and a text file; and the same folder with a file that is
    not GPX. *)
Definition ex_calc_st : pfs :=
  mkPfs (<[lit "/c/latlong.txt" := Data ex_latlong_text]> (<[lit "/c/a.gpx" := Data (lit "doc")]>
         (<[lit "/c/notes.txt" := Data (lit "x")]> ∅)))
        {[lit "/c"]} ∅.

Definition ex_bad_st : pfs := put (lit "/c/bad.GPX") (Data (lit "junk")) ex_calc_st.

Definition ex_calc_points : list point_dict :=
  Eval vm_compute in match collect_points (lit "/c") ex_calc_st with POk l => l | PRaise _ => [] end.

Lemma calc_main_rows_witness :
  collect_points (lit "/c") ex_calc_st = POk ex_calc_points /\
  calc_main (lit "/c") ex_calc_st =
    (put (lit "/c/gpx_data.csv")
         (Data (write_rows (fieldnames :: map (map (fun kv => csv_str kv.2)) ex_calc_points))) ex_calc_st, None).
Proof. split; [vm_compute; reflexivity|]. apply calc_main_rows; vm_compute; reflexivity. Defined.

(** Both points have [count] 0: [enumerate] restarts in every segment. *)
Example calc_counts_restart :
  map (rowdict_get (lit "count")) ex_calc_points = [Some (VInt 0); Some (VInt 0)].
Proof. vm_compute. reflexivity. Qed.

Definition ex_frame : map_globals :=
  Eval vm_compute in match map_frame (lit "/c") ex_bad_st with POk g => g | PRaise _ => mkMapGlobals 0 0 0 0 end.

Definition ex_bad_names : list pystr :=
  Eval vm_compute in match listdir ex_bad_st (lit "/c") with POk l => l | PRaise _ => [] end.

Lemma calc_main_unparsable_witness : calc_main (lit "/c") ex_bad_st = (ex_bad_st, Some AttributeError).
Proof.
  apply (calc_main_unparsable _ _ ex_frame ex_bad_names (lit "bad.GPX"));
    [vm_compute; reflexivity|vm_compute; reflexivity| |decide_eval|reflexivity|eexists; vm_compute; reflexivity].
  intros n Hn _. apply list_elem_of_In in Hn. vm_compute in Hn. destruct_or! Hn; subst; try done; vm_compute; reflexivity.
Defined.

(** A blank line after the four numbers is a fifth line. *)
Example read_latlong_blank_line :
  read_latlong_file (put (lit "/c/latlong.txt") (Data (ex_latlong_text ++ nl)) ex_calc_st) (lit "/c/latlong.txt") =
    PRaise ValueError.
Proof. vm_compute. reflexivity. Qed.

(** A time two hours ahead of UTC is written as if it were UTC. *)
Example strftime_ignores_offset :
  strftime_utc (ex_time 55 (Some 120%Z)) = lit "2023-07-31T16:58:55Z" /\
  time_isoformat (ex_time 55 (Some 120%Z)) = lit "2023-07-31T16:58:55+02:00".
Proof. split; reflexivity. Qed.

End GpxCsv.
