(* ===== verification/AudioExtract.v ===== *)
(** * Audio from a video: src/ExtractAudioFromVideo.py

    The script opens a video with [moviepy], takes its audio track and
    writes it as an MP3, printing whether it succeeded.  Its two paths
    are written as ordinary (not raw) string literals, so Python decodes
    their backslash escapes: [\S] stays as it is, but [\t] is a TAB.

    This file holds CPython's decoding of the escapes of a [str] literal
    ([py_unescape], for the characters below 256 that [pystr] holds),
    [moviepy]'s video and audio as the class [MoviePy], and
    [extract_audio] and the script's main block on the file store of
    Kmz.v, with the lines it prints. *)

From S2P Require Import Prelude PyStr Kmz.

Module AudioExtract.
Import PyStr Kmz.

(** ** String literals *)

Definition backslash : ascii := "\"%char.

Definition is_octal (c : ascii) : bool := (48 <=? nat_of_ascii c) && (nat_of_ascii c <=? 55).

Definition hex_value (c : ascii) : option nat :=
  let n := nat_of_ascii c in
  if (48 <=? n) && (n <=? 57) then Some (n - 48)
  else if (97 <=? n) && (n <=? 102) then Some (n - 87)
  else if (65 <=? n) && (n <=? 70) then Some (n - 55)
  else None.

Definition octal_char (ds : list ascii) : option ascii :=
  let v := fold_left (fun acc d => 8 * acc + (nat_of_ascii d - 48)) ds 0 in
  if v <? 256 then Some (ascii_of_nat v) else None.

Definition octal_then (ds : list ascii) (rest : option pystr) : option pystr :=
  match octal_char ds, rest with Some o, Some r => Some (o :: r) | _, _ => None end.

(** The escapes of a [str] literal, as CPython's tokenizer decodes them
    ([_PyUnicode_DecodeUnicodeEscapeInternal]): [\\ \' \a \b \f \n
    \r \t \v], the escaped double quote, a backslash before a line end, one to three octal digits
    and [\x] with two hex digits; any other character after a backslash
    keeps the backslash (with a [SyntaxWarning]).  [None] stands for a
    literal Python rejects ([\x] without two hex digits) or whose value
    is a code point above 255 ([\u], [\U], [\N], large octal). *)
Fixpoint py_unescape (s : pystr) : option pystr :=
  match s with
  | [] => Some []
  | c :: r =>
      if bool_decide (c <> backslash) then cons c <$> py_unescape r else
      match r with
      | [] => None
      | e :: r' =>
          let simple (d : ascii) := cons d <$> py_unescape r' in
          if bool_decide (e = backslash) then simple backslash
          else if bool_decide (e = "'"%char) then simple "'"%char
          else if bool_decide (e = "034"%char) then simple "034"%char
          else if bool_decide (e = "a"%char) then simple "007"%char
          else if bool_decide (e = "b"%char) then simple "008"%char
          else if bool_decide (e = "f"%char) then simple "012"%char
          else if bool_decide (e = "n"%char) then simple "010"%char
          else if bool_decide (e = "r"%char) then simple "013"%char
          else if bool_decide (e = "t"%char) then simple "009"%char
          else if bool_decide (e = "v"%char) then simple "011"%char
          else if bool_decide (e = "010"%char) then py_unescape r'
          else if bool_decide (e = "x"%char) then
            match r' with
            | h1 :: h2 :: r'' =>
                match hex_value h1, hex_value h2 with
                | Some a, Some b => cons (ascii_of_nat (16 * a + b)) <$> py_unescape r''
                | _, _ => None
                end
            | _ => None
            end
          else if is_octal e then
            match r' with
            | d2 :: (d3 :: r'' as t2) as t1 =>
                if is_octal d2 && is_octal d3 then octal_then [e; d2; d3] (py_unescape r'')
                else if is_octal d2 then octal_then [e; d2] (py_unescape t2)
                else octal_then [e] (py_unescape t1)
            | [d2] as t1 =>
                if is_octal d2 then octal_then [e; d2] (Some []) else octal_then [e] (py_unescape t1)
            | [] => octal_then [e] (Some [])
            end
          else if bool_decide (e ∈ lit "uUN") then None
          else cons backslash <$> (cons e <$> py_unescape r')
      end
  end.

(** ** [moviepy] *)

(** [VideoFileClip(path).audio] on the file's contents: the MP3 bytes
    [write_audiofile] writes, [None] for a video without sound, or the
    exception [moviepy] raises on a file it cannot read. *)
Class MoviePy := { video_audio : pcontent -> pyres (option pystr) }.

(** What the script prints. *)
Inductive printed := Succeeded | Failed (e : exc).

Section Extract.
Context `{MoviePy}.

(** Lines 6-20: a missing file makes [moviepy] raise [OSError]; a video
    without audio gives [None], whose [write_audiofile] raises
    [AttributeError]; any exception is printed. *)
Definition extract_audio (input_file output_file : pystr) (st : pfs) : pfs * list printed :=
  let run :=
    c <-? (match pfiles st !! input_file with Some c => POk c | None => PRaise OSError end);
    audio_clip <-? video_audio c;
    audio <-? of_option AttributeError audio_clip;
    write_file output_file (Data audio) st in
  match run with
  | POk st' => (st', [Succeeded])
  | PRaise e => (st, [Failed e])
  end.

(** The two literals of lines 23-24 as the source spells them. *)
Definition input_literal : pystr := lit "C:\SoundExtract\test.mp4".
Definition output_literal : pystr := lit "C:\SoundExtract\test.mp3".

(** Lines 22-26. *)
Definition audio_main (st : pfs) : pfs * list printed :=
  match py_unescape input_literal, py_unescape output_literal with
  | Some input_file, Some output_file => extract_audio input_file output_file st
  | _, _ => (st, [])
  end.

End Extract.

(** ** The paths the script uses *)

Definition tab : ascii := "009"%char.

(** A literal without backslashes is its own value. *)
Lemma py_unescape_plain s : backslash ∉ s -> py_unescape s = Some s.
Proof.
  induction s as [|c s IH]; intros Hs; [done|]. apply not_elem_of_cons in Hs as [Hc Hs].
  cbn [py_unescape]. rewrite bool_decide_true by done. by rewrite IH.
Qed.

Lemma input_file_decoded : py_unescape input_literal = Some (lit "C:\SoundExtract" ++ [tab] ++ lit "est.mp4").
Proof. reflexivity. Qed.

Lemma output_file_decoded : py_unescape output_literal = Some (lit "C:\SoundExtract" ++ [tab] ++ lit "est.mp3").
Proof. reflexivity. Qed.

(** C40: the script never reads [C:\SoundExtract\test.mp4]: Python
    decodes the [\t] of its non-raw literal as a TAB, so it opens
    [C:\SoundExtract<TAB>est.mp4].  Whatever else the disk holds, when
    no file has that name the script prints the failure, with the
    [OSError] of [moviepy], and writes nothing. *)
Theorem audio_main_tab_path `{MoviePy} st :
  pfiles st !! (lit "C:\SoundExtract" ++ [tab] ++ lit "est.mp4") = None ->
  audio_main st = (st, [Failed OSError]).
Proof.
  intros Hst. unfold audio_main. rewrite input_file_decoded, output_file_decoded.
  unfold extract_audio. by rewrite Hst.
Qed.

(** ** Examples *)

#[local] Instance ex_moviepy : MoviePy :=
  {| video_audio c := match c with Data b => POk (Some b) | _ => PRaise OSError end |}.

(** The video is where the comment says; the script runs in the folder
    named by the empty path, where Windows paths are plain names. *)
Definition ex_st : pfs :=
  mkPfs {[lit "C:\SoundExtract\test.mp4" := Data (lit "mp4")]} {[ [] ]} ∅.

Lemma audio_main_tab_path_witness : audio_main ex_st = (ex_st, [Failed OSError]).
Proof. apply audio_main_tab_path. reflexivity. Defined.

(** With the path the comment means, the audio would be written. *)
Example extract_audio_intended :
  extract_audio (lit "C:\SoundExtract\test.mp4") (lit "C:\SoundExtract\test.mp3") ex_st =
    (put (lit "C:\SoundExtract\test.mp3") (Data (lit "mp4")) ex_st, [Succeeded]).
Proof. vm_compute. reflexivity. Qed.

End AudioExtract.
