(* ===== verification/Registry.v ===== *)
(** * Reading a registry value: src/WinRegistryReadandCompare.py

    The script reads the value [SystemDefaultEUDCFont] of a registry key
    with [winreg], prints it and compares it with a preset string.  The
    key path is copied from regedit's address bar
    ([Computer\HKEY_CURRENT_USER\EUDC\932\SystemDefaultEUDCFont]) and
    opened under [HKEY_LOCAL_MACHINE]: the hive name becomes part of the
    path, the value name part of the key, and the hive that holds the
    setting is never consulted.

    This file holds the registry as hives of keys (case-insensitive
    paths) holding named values, [winreg]'s [OpenKey] and
    [QueryValueEx], [read_registry_value] and the main block with the
    lines they print. *)

From S2P Require Import Prelude PyStr.

Module Registry.
Import PyStr.

(** ** The registry *)

Inductive hive := HKEY_LOCAL_MACHINE | HKEY_CURRENT_USER.

#[export] Instance hive_eq_dec : EqDecision hive.
Proof. solve_decision. Defined.

Inductive reg_value := REG_SZ (s : pystr) | REG_DWORD (n : Z).

#[export] Instance reg_value_eq_dec : EqDecision reg_value.
Proof. solve_decision. Defined.

(** The keys of the registry with their values, by hive and path. *)
Definition registry := list (hive * pystr * list (pystr * reg_value)).

(** Key and value names compare without regard to case. *)
Definition name_eq (a b : pystr) : bool := bool_decide (py_lower a = py_lower b).

(** [winreg.OpenKey(h, path, 0, access)]: [FileNotFoundError] when the
    hive has no key of that path. *)
Definition OpenKey (reg : registry) (h : hive) (key_path : pystr) : pyres (list (pystr * reg_value)) :=
  match List.find (fun e => bool_decide (e.1.1 = h) && name_eq e.1.2 key_path) reg with
  | Some e => POk e.2
  | None => PRaise FileNotFound
  end.

(** [winreg.QueryValueEx(key, name)[0]]: [FileNotFoundError] when the
    key has no such value. *)
Definition QueryValueEx (key : list (pystr * reg_value)) (value_name : pystr) : pyres reg_value :=
  match List.find (fun nv => name_eq nv.1 value_name) key with
  | Some nv => POk nv.2
  | None => PRaise FileNotFound
  end.

(** ** The script *)

(** A line the script prints. *)
Definition key_not_found (key_path : pystr) : pystr :=
  lit "Registry key '" ++ key_path ++ lit "' not found.".

(** Lines 5-16: both calls may raise [FileNotFoundError], which prints
    the message and gives [None]; the model's registry raises nothing
    else (the [except Exception] branch of lines 14-16 is not reached). *)
Definition read_registry_value (reg : registry) (key_path value_name : pystr)
    : option reg_value * list pystr :=
  match (key <-? OpenKey reg HKEY_LOCAL_MACHINE key_path; QueryValueEx key value_name) with
  | POk value => (Some value, [])
  | PRaise FileNotFound => (None, [key_not_found key_path])
  | PRaise _ => (None, [lit "Error reading registry value"])
  end.

(** [print(registry_value)] *)
Definition print_value (v : option reg_value) : pystr :=
  match v with Some (REG_SZ s) => s | Some (REG_DWORD n) => py_str n | None => lit "None" end.

Definition registry_key_path : pystr := lit "Computer\HKEY_CURRENT_USER\EUDC\932\SystemDefaultEUDCFont".
Definition value_name : pystr := lit "SystemDefaultEUDCFont".

(** Lines 18-33: the lines printed. *)
Definition registry_main (reg : registry) : list pystr :=
  let '(registry_value, out) := read_registry_value reg registry_key_path value_name in
  out ++ [print_value registry_value] ++
  match registry_value with
  | Some v =>
      if bool_decide (v = REG_SZ (lit "YourPresetValue")) then [lit "Registry value matches preset value."]
      else [lit "Registry value does not match preset value."]
  | None => [lit "Registry value not found."]
  end.

(** ** What the script reads *)

(** Only keys of [HKEY_LOCAL_MACHINE] matter: two registries that agree
    there make the script print the same lines. *)
Lemma registry_main_local_machine reg1 reg2 :
  (forall p, OpenKey reg1 HKEY_LOCAL_MACHINE p = OpenKey reg2 HKEY_LOCAL_MACHINE p) ->
  registry_main reg1 = registry_main reg2.
Proof. intros Heq. unfold registry_main, read_registry_value. by rewrite Heq. Qed.

(** The EUDC font setting where Windows keeps it, [HKEY_CURRENT_USER\EUDC\932],
    set to the preset value, next to the usual keys of the machine. *)
Definition ex_registry : registry :=
  [(HKEY_CURRENT_USER, lit "EUDC\932", [(lit "SystemDefaultEUDCFont", REG_SZ (lit "YourPresetValue"))]);
   (HKEY_LOCAL_MACHINE, lit "SOFTWARE\Microsoft\Windows NT\CurrentVersion", [(lit "ProductName", REG_SZ (lit "Windows"))])].

(** The script reports the value missing although it is set. *)
Example registry_main_misses_value :
  registry_main ex_registry =
    [key_not_found registry_key_path; lit "None"; lit "Registry value not found."].
Proof. vm_compute. reflexivity. Qed.

(** Under the right hive and path the comparison would succeed. *)
Example read_registry_value_intended :
  (key <-? OpenKey ex_registry HKEY_CURRENT_USER (lit "EUDC\932"); QueryValueEx key value_name) =
    POk (REG_SZ (lit "YourPresetValue")).
Proof. vm_compute. reflexivity. Qed.

End Registry.
