(* ===== verification/DocGen.v ===== *)
(** * A document from a text and a picture: src/document_generator.py

    The script takes three command-line arguments, a text file, an image
    file and an output folder, and writes [output.docx] into the folder:
    one paragraph with the whole text, then the picture four inches
    wide.

    This file holds [generate_document] and the main block with its
    check of [sys.argv], on the file store of Kmz.v and the documents of
    PyDocx.v. *)

From S2P Require Import Prelude PyStr PyPath Exif PyDocx Kmz ExifWrite.

Module DocGen.
Import PyStr PyPath PyDocx Kmz ExifWrite.

(** [doc.add_picture(path, ...)]: python-docx reads the file itself and
    raises [UnrecognizedImageError] on one that is not an image. *)
Definition docx_picture (st : pfs) (path : pystr) : pyres Exif.image :=
  c <-? read_file st path;
  match c with Photo im => POk im | _ => PRaise UnrecognizedImageError end.

(** Lines 9-23, with [Document()]'s default template [template]. *)
Definition generate_document (template : document) (text_file image_file output_path : pystr) (st : pfs)
    : pyres pfs :=
  text <-? read_text_file st text_file;
  let doc := doc_add_paragraph text template in
  img <-? docx_picture st image_file;
  let doc := doc_add_picture img (Inches_int 4) doc in
  let output_filename := join output_path (lit "output.docx") in
  write_file output_filename (Doc doc) st.

(** Lines 25-34: [sys.argv] with the script's name first; a wrong count
    prints the usage and exits with status 1. *)
Definition docgen_main (template : document) (argv : list pystr) (st : pfs) : pyres pfs :=
  match argv with
  | [_; text_file_path; image_file_path; output_path] =>
      generate_document template text_file_path image_file_path output_path st
  | _ => PRaise (SystemExit 1)
  end.

(** ** What the document holds *)

(** The document written is the template followed by the text's
    paragraph and the picture. *)
Lemma generate_document_body template text_file image_file output_path st st' :
  generate_document template text_file image_file output_path st = POk st' ->
  exists text img doc,
    read_text_file st text_file = POk text /\ docx_picture st image_file = POk img /\
    st' = put (join output_path (lit "output.docx")) (Doc doc) st /\
    d_body doc = d_body template ++
      [BPara (if bool_decide (text = []) then empty_para else add_run text empty_para);
       BPara (add_picture_run img (Inches_int 4) empty_para)].
Proof.
  unfold generate_document. destruct (read_text_file st text_file) as [text|]; [|done]. cbn [pbind].
  destruct (docx_picture st image_file) as [img|]; [|done]. cbn [pbind]. unfold write_file.
  destruct (check_writable _ _) as [[]|]; [|done]. cbn [pbind]. intros [= <-].
  do 3 eexists. split_and!; try reflexivity. cbn. by rewrite <- app_assoc.
Qed.

(** ** Examples *)

Definition ex_template : document := mkDoc [] [] [].

Definition ex_st : pfs :=
  mkPfs {[lit "/d/note.txt" := Data (lit "Site visit"); lit "/d/map.png" := Data (lit "png")]} {[lit "/d"]} ∅.

(** The script run with two arguments exits with status 1. *)
Example docgen_main_usage :
  docgen_main ex_template [lit "document_generator.py"; lit "/d/note.txt"] ex_st = PRaise (SystemExit 1).
Proof. reflexivity. Qed.

(** A picture file that python-docx cannot read as an image. *)
Example docgen_main_not_image :
  docgen_main ex_template [lit "document_generator.py"; lit "/d/note.txt"; lit "/d/map.png"; lit "/d"] ex_st =
    PRaise UnrecognizedImageError.
Proof. vm_compute. reflexivity. Qed.

End DocGen.
