(* ===== verification/CiteMap.v ===== *)
(** * Attribution on a map image: src/CiteMap.py

    The script opens [map_image.png], measures the attribution text with
    Pillow and draws it in white near the lower right corner, then saves
    [map_image_with_attribution.png].  Arial is used when Pillow finds
    it, Pillow's default font otherwise.

    This file holds Pillow's calls as the class [Pillow] (the size of an
    image, [ImageFont.truetype], [textbbox], and the image saved with the
    texts drawn on it), [add_attribution] and the module-level call on
    the file store of Kmz.v, and the position of the text. *)

From S2P Require Import Prelude PyStr PyPath Kmz.

Module CiteMap.
Import PyStr PyPath Kmz.

(** A font: a TrueType file at a size, or [ImageFont.load_default()]. *)
Inductive font := TrueType (file : pystr) (size : Z) | DefaultFont.

(** [draw.text((x, y), text, font=font, fill=fill)] *)
Record text_op := mkTextOp { op_x : Z; op_y : Z; op_text : pystr; op_font : font; op_fill : Z * Z * Z }.

Class Pillow := {
  (** [Image.open(p).size] on the file's contents, or the exception *)
  image_size : pcontent -> pyres (Z * Z);
  (** [ImageFont.truetype(file, size)]: [OSError] when the font cannot
      be found or read *)
  truetype : pystr -> Z -> pyres font;
  (** [draw.textbbox((0, 0), text, font=font)]: left, top, right, bottom *)
  textbbox : font -> pystr -> Z * Z * Z * Z;
  (** the image file [img.save] writes after the drawing *)
  render : pcontent -> list text_op -> pcontent
}.

(** Lines 22-27: the text's size from its box, and its position 10
    pixels from the right and bottom edges. *)
Definition attribution_xy (size : Z * Z) (text_bbox : Z * Z * Z * Z) : Z * Z :=
  let '(l, t, r, b) := text_bbox in
  let text_width := (r - l)%Z in
  let text_height := (b - t)%Z in
  let '(width, height) := size in
  ((width - text_width - 10)%Z, (height - text_height - 10)%Z).

Section Attribution.
Context `{Pillow}.

(** Lines 9-33: [IOError] is [OSError], which sends the font to the
    default one; other errors propagate. *)
Definition add_attribution (image_path output_path attribution_text : pystr) (st : pfs) : pyres pfs :=
  c <-? read_file st image_path;
  size <-? image_size c;
  font <-? match truetype (lit "arial.ttf") 20 with
           | POk f => POk f
           | PRaise OSError => POk DefaultFont
           | PRaise e => PRaise e
           end;
  let text_bbox := textbbox font attribution_text in
  let '(x, y) := attribution_xy size text_bbox in
  write_file output_path (render c [mkTextOp x y attribution_text font (255, 255, 255)%Z]) st.

(** Line 38: the literal as Python reads the UTF-8 source, which holds
    the two characters [U+00C2 U+00A9] (the bytes of a copyright sign
    decoded once too often) before the words. *)
Definition attribution_text : pystr := ["194"%char; "169"%char] ++ lit " OpenStreetMap contributors".

(** Lines 35-40, in the working folder [cwd]. *)
Definition cite_main (cwd : pystr) (st : pfs) : pyres pfs :=
  let image_path := join cwd (lit "map_image.png") in
  let output_path := join cwd (lit "map_image_with_attribution.png") in
  add_attribution image_path output_path attribution_text st.

End Attribution.

(** ** Where the text lands *)

(** The box of the text drawn at [(x, y)] is the measured box moved by
    [(x, y)]: it ends [10 - l] pixels from the right edge and [10 - t]
    from the bottom, the margins of 10 only when the measured box starts
    at the origin. *)
Lemma attribution_margins w h l t r b :
  let '(x, y) := attribution_xy (w, h) (l, t, r, b) in
  (w - (x + r) = 10 - l /\ h - (y + b) = 10 - t)%Z.
Proof. cbn. lia. Qed.

(** A text wider than the image less 10 pixels starts left of it. *)
Lemma attribution_off_image w h l t r b :
  (w - 10 < r - l)%Z -> ((attribution_xy (w, h) (l, t, r, b)).1 < 0)%Z.
Proof. cbn. lia. Qed.

(** The first character drawn is [Â], not the copyright sign. *)
Example attribution_text_mojibake : attribution_text !! 0 = Some "194"%char /\ attribution_text !! 1 = Some "169"%char.
Proof. split; reflexivity. Qed.

End CiteMap.
