(* ===== verification/FolderPath.v ===== *)
(** * The script's folder in a message box: src/CurrentFolderPathFinder.py

    A Tk window with one button; each click shows a message box with the
    folder of the script, [os.path.dirname(os.path.realpath(__file__))].

    This file holds the two functions, with [os.path.realpath] as the
    class [PyRealpath] (it resolves symbolic links on the file system),
    and the window as the list of message boxes its clicks show. *)

From S2P Require Import Prelude PyStr PyPath.

Module FolderPath.
Import PyStr PyPath.

(** [os.path.realpath] *)
Class PyRealpath := { realpath : pystr -> pystr }.

Section Window.
Context `{PyRealpath} (file : pystr).

(** Lines 5-8. *)
Definition get_script_folder_path : pystr :=
  let script_path := realpath file in
  let folder_path := dirname script_path in
  folder_path.

(** Lines 10-12: [messagebox.showinfo(title, message)]. *)
Definition display_folder_path : pystr * pystr :=
  let folder_path := get_script_folder_path in
  (lit "Folder Path", lit "The current folder path is:" ++ ["010"%char; "010"%char] ++ folder_path).

(** Lines 14-20: the window titled [Folder Path Finder] whose button
    [Find Current Folder Path] runs [display_folder_path]; [n] clicks
    before the window is closed show [n] message boxes. *)
Definition window_title : pystr := lit "Folder Path Finder".
Definition button_text : pystr := lit "Find Current Folder Path".

Definition folder_main (clicks : nat) : list (pystr * pystr) := repeat display_folder_path clicks.

End Window.

End FolderPath.
